(* ===== verification/_CoqProject ===== *)
-Q . S2P
Prelude.v
StableSort.v
LocalSort.v
JsValue.v
Loader.v
Traces.v
Annotations.v
Raw.v
App.v
Async.v
Render.v
Deploy.v
Datafile.v
Readme.v
Contracts.v
