(* ===== verification/Prelude.v ===== *)
(** * Topic-evolution chart: a verification development

    The program is a single-page visualisation, [src/app.js]: it fetches
    a JSON dataset (years, one count series per category, optional marker
    symbols), validates it, derives one chart trace per category and a
    few fixed annotations, and hands them to a charting library.  The
    page keeps one global record, [AppState], and one DOM region,
    [#evolution-chart], that shows a loading panel, an error panel or the
    chart.  The repository also holds the script that publishes the page,
    [src/deploy.sh], and three markdown documents, [src/unnamed/part_000]
    to [part_002]: two versions of the README and the deployment notes.

    ** Files, in dependency order

    - [Prelude] (this file): JavaScript errors and completions (a value
      or a thrown error) as a monad with [try_catch]; the tactics and the
      hint databases of the development; [reduce] (Array.prototype.reduce)
      and the list lemmas the components share.
    - [StableSort]: Array.prototype.sort with a comparator.  The
      engine's algorithm is unspecified, so what a client may rely on is
      the interface [Sorter] (the result is ordered by the comparator and
      equivalent elements keep their relative order).  [insertion_sort]
      and [insertion_sort_left] are two instances; [sorter_unique] shows
      any two instances compute the same list for a consistent
      comparator, so the choice is immaterial.
    - [LocalSort]: the same contract for a comparator that is consistent
      on the elements being sorted only, which is all the specification
      of the language asks: [LocalSorter] adds to [Sorter] that the
      result is a permutation whatever the comparator is, ordered and
      stable when it is [ConsistentOn] the list.  Insertion sort is an
      instance; a sorter commutes with a map that preserves the
      comparisons ([local_sorter_fmap]), which carries a sort of typed
      records to the sort of the values they stand for.
    - [JsValue]: the values [response.json()] can produce and the few
      builtins [app.js] calls on them: ToBoolean ([truthy]),
      [Array.isArray], property read ([get], own properties then the
      prototype chain of the host, [Host]), [Object.entries] with the
      engine's key order (array-index keys ascending, then the others in
      creation order), [indexOf] of a number, and the method call
      [toString], which reads the member like any other and throws when
      what it finds is not a function, or when the value is an array
      that holds an object whose own [toString] cannot be called.
    - [Loader]: [AppState], the chart region, the console;
      [showLoadingState], [showErrorState], [logError] and
      [loadTopicData] (lines 103-147), whose [try] block is
      [loadTopicData_try] and whose [catch] is the handler of
      [try_catch].  Theorems: the validation accepts exactly the
      datasets that satisfy [Validated] (a declarative statement of what
      lines 116-126 check), names the first offending category, leaves
      [AppState] in the loaded or in the failed state and never in
      between; and the datasets it accepts although the data model of
      the documentation excludes them.
    - [Traces]: the typed view [Dataset] of a validated dataset whose
      counts are numbers, [decode], and [createChartTraces] (lines
      156-203): totals by [reduce], descending stable sort, palette
      colour by position modulo the palette size, marker symbol by
      lookup with default.  Theorems: one trace per category, ordered by
      descending total, stable, a permutation of the categories,
      independent of the engine's sort, colours cycling with period 20.
    - [Annotations]: [getCategoryValue], [createDynamicAnnotations]
      (lines 210-299) and the axis ticks of [createChartLayout] (lines
      306-374).  Theorems: the three unrolled blocks of the source are
      the table-driven filter of the documentation; an annotation is
      emitted exactly when the category exists, the year is on the axis
      and the count is positive; tick labels of distinct years differ;
      the layout fails exactly when [toString] cannot be called on a
      year, which the validation does not exclude.
    - [Raw]: the three builders on every dataset the validation accepts,
      [RawDataset]: years and series are arrays of arbitrary values.
      The operators [+], [-] and [>] of lines 164, 165 and 222 are the
      engine's, the interface [Arith], whose laws fix them on numbers,
      on texts and on [undefined]; the sort is a [LocalSorter].
      [createChartTraces_raw], [createDynamicAnnotations_raw] and
      [createChartLayout_raw] are the functions of the source written
      with them.  Theorems: a validated dataset has this shape
      ([shape_validated]); on the datasets with a typed view these
      builders compute what those of [Traces] and [Annotations] compute
      ([chart_arguments_raw_typed]); on every validated dataset
      [createChartTraces] throws the first error of a sum or returns one
      trace per category ([createChartTraces_raw_spec]); the arguments
      of the chart exist exactly when no sum, no [toString] of a year
      and no comparison throws ([chart_arguments_raw_fails_iff]); a
      count that is a text turns the total into a text
      ([total_raw_text]).
    - [App]: the page.  Its state [Page] is the world of the loader,
      the [timeout] variable of every closure [debounce] returned and
      that listens to [resize], the pending timers with the time they
      are due, a clock, and the calls made to the charting library.
      [renderChart] (lines 380-406), [debounce] (lines 416-426, as
      [executedFunction], [later], [clearTimeout], [setTimeout]),
      [initializeApp] (lines 433-452) and the listeners of lines 459-477
      are functions on it; [step] is the relation "one event of the
      browser is delivered" and [deliver] its executable version.
      Theorems: the invariant [Inv] of the reachable pages (timers and
      closures agree; [Plotly.newPlot] is called at most once, after the
      dataset is stored, with what the builders return; the panel is
      determined by the state); after a [resize] event the chart is not
      redrawn before the delay has elapsed, is redrawn at most once
      until the next [resize] event, and is redrawn when the timer
      fires; the three outcomes of [initializeApp]; nothing changes what
      the page shows once the document is loaded; the initialisation
      has a result whatever the server answers and whatever the dataset
      holds.
    - [Async]: [initializeApp] await by await.  A configuration is a
      [phase] (where the initialisation is suspended: at [fetch],
      line 107, at [response.json()], line 113, or at [Plotly.newPlot],
      line 386) and a [Page]; [astep] delivers either the settlement of
      the awaited promise ([after_fetch], [after_json], [after_plot],
      the pieces of [loadTopicData], [initializeApp] and [renderChart]
      between two suspensions) or an event of [App.step]; [adeliver]
      and [asettle] are the executable versions.  Theorems: a run of
      [astep] that ends the initialisation is simulated by [App.step]
      on the same answers of the environment, the events that arrived
      in between delivered first, up to the order of the lines of the
      console; the invariant [App.Inv] therefore holds when the
      initialisation has returned, however it was interleaved; and the
      atomic step of [App] is the run of [astep] in which nothing
      arrives in between; the resumptions of a run come in the order of
      the source, four at most, and which of them occur depends on the
      answer of [fetch] alone; wherever the initialisation is
      suspended, the resumptions that remain end it.
    - [Render]: what the page is given, in full.  [innerHTML] is the
      markup [showLoadingState] and [showErrorState] assign (the
      template literals of lines 66-74 and 85-93, character by
      character); [trace_object], [annotation_object] and
      [layout_object] are the object literals of the three builders with
      every member, [config] is [CHART_CONFIG.layout], and [plot_call]
      the arguments of [Plotly.newPlot] (lines 386-391).  Theorems: the
      records of [Raw] determine the objects and are determined by
      them, and no literal has two members of the same
      name; a category name of the dataset reaches [innerHTML]
      unescaped; on every page [App] can reach, the markup shown once
      the initialisation has returned is the chart's or one of two fixed
      error texts, and [Plotly.newPlot] was called with the objects of
      the stored dataset.
    - [Deploy]: [deploy.sh].  A script is a tree of the actions of the
      shell, [sh] (print a line, run a command and continue with its
      exit status, read a reply, exit), with [set -e] as [simple], the
      condition of an [if] as [status_of] and [||] as [or_else]; the
      sections of the script are [banner], [check_git], ..., [report],
      [cancelled], and [deploy] is the script.  [runs] relates a script
      to the traces the shell can produce and to how it ends, [exec] is
      the run on recorded answers, [wp] the weakest precondition, by
      which a property of every run of [deploy] is computed.  Theorems:
      the script ends with status 0 exactly when [git push] succeeded;
      nothing touches the remote before the reply [y] or [Y]; an early
      exit has a non-zero status and the last action explains it; the
      commands of a successful run; the script does what the deployment
      notes say it will, in their order, and prints the steps they
      list; a failed commit is reported as "no changes" and pushed
      over; a cancelled run has already staged and committed.
    - [Datafile]: data.json.  [to_value] writes a [Dataset] as the
      value [response.json()] gives for the file, [served] is the
      answer of the server that carries it; [edit] and [update] are the
      edits of the file the deployment notes invite ("add new years or
      modify categories", lines 97-99 of [part_002]).  Theorems: the
      loader accepts the value of a dataset and [decode] reads it back
      ([to_value_round_trip]); the page on the file draws what the
      builders give for the dataset ([initializeApp_served]); after an
      edit that keeps the shape of the dataset the page loads the file
      and draws it ([update_data]); a year added without its counts is
      refused with the error that names the first category
      ([append_year_rejected]); a renamed category has no count under
      its old name ([count_at_renamed]).
    - [Readme]: what the two versions of the README and the deployment
      notes say of the data, as data: the number of topics and the
      years ([data_source], [summary]), the classification
      ([classification]), the ten categories ([category_definitions]),
      the figures of the overview and of the key findings ([figure],
      [overview], [key_findings]), the files and the addresses.
      [holds] is the meaning of a figure on a [Dataset] and [Conforms]
      says a dataset is one a version describes.  Theorems: each
      version describes a dataset and no dataset is described by both;
      the figures fix the topics of 2019 ([census_year]) and bound the
      number of topics ([topics_of_shares]); on every dataset a version
      describes the page draws ten traces in ten colours, Machine
      Learning & AI before Finance & Economics, and a single callout
      ([documented_annotations], [conforms_traces],
      [documented_page]), and the callout is gone when the category is
      renamed in the file ([renamed_loses_callout]); the numbers the
      code states against those of
      the README ([printed_figures]), and the totals of the commit
      message of deploy.sh, which hold of such a dataset
      ([commit_highlights]).
    - [Contracts]: the documentation comments of app.js.  [jsdoc] is a
      comment (its sentence, [@param] and [@returns] with their types,
      [jstype]), [documentation] the comments of the ten functions,
      [has_type] and [plot_type] the meaning of a type on a value;
      [feature] and [features] are the list of the header of the file,
      which the READMEs and the deployment notes repeat.  [asteps] is
      the closure of [Async.astep], [adeliver_all] its executable
      version.  Theorems: [loadTopicData] is fulfilled with a plain
      object or with [null] ([loadTopicData_returns]); on every
      reachable page the builders and [renderChart] are given a plain
      object and [Plotly.newPlot] an array of traces that can be drawn
      ([newPlot_typed]); the loading placeholder is shown from the
      first [await] to the return of the initialisation and never
      afterwards ([loading_shown]); every error of the console has its
      context and no error panel is shown without one
      ([errors_logged]), also when the initialisation was interleaved
      with other events ([errors_logged_settled], by
      [Async.settles_related] and the invariance of [logged] under
      [Async.similar]); the callouts are not placed at the peaks of
      the data ([callout_below_peak]).

    ** How the parts interact

    [App.initializeApp] calls [Loader.loadTopicData]; the dataset it
    returns is read through [Raw.shape] by [App.renderChart], which
    calls [Raw.createChartTraces_raw] and [Raw.createChartLayout_raw]
    and records the call of [Plotly.newPlot] with their results.
    [Traces] and [Annotations] are the same builders on numeric counts,
    where what they compute can be stated with sums and orders of
    integers; they are proved against the interfaces
    [StableSort.Sorter] and [JsValue.Host], and [Raw] against
    [LocalSort.LocalSorter], [JsValue.Host] and [Raw.Arith].  The
    examples instantiate the interfaces with [insertion_sort],
    [object_prototype_host] and [integer_arith].  The value the loader
    stored is related to the typed dataset in two steps: the shape of
    the validated value ([Raw.shape]), of which the typed dataset is
    the case of numeric counts ([Raw.untyped], [Traces.decode]).
    [Async] takes the handlers of [App]
    apart at the suspension points and is proved against [App.step].
    [Render] maps the panel of [Loader] and the calls [App] records to
    the markup and the objects the browser and the library receive.
    [Deploy] shares nothing with the page but the repository: it is
    related to the deployment notes ([Deploy.documented_tasks] and
    [Deploy.documented_setup], lines 14-26 of [part_002]).
    [Datafile] closes the path from the file to the chart: the server
    answers with [Datafile.to_value] of a dataset, [Loader] accepts it,
    [Raw.shape] and [Traces.decode] read it back, and the theorems of
    [Traces] and [Annotations] on the dataset become theorems on what
    [App.initializeApp] draws.  [Readme] uses that path for the
    datasets the README describes, and reads the texts of [Render] and
    the lines [Deploy] prints against the figures of the README.
    [Contracts] states what the comments of app.js promise of the
    functions of [Loader], [Raw], [App] and [Async], and proves it of
    the pages [App.reachable] and the runs of [Async.astep] give; for
    the comment on the peaks it uses the datasets of [Readme].

    ** Modelling choices and bounds

    - Numbers are [Z].  JSON numbers are IEEE doubles; integer
      arithmetic on doubles is exact below 2^53 in magnitude, and
      [Traces.total_bound] shows the totals stay below that bound when
      the counts do.  Fractions, NaN and infinities are not modelled.
      The text of a number is its decimal notation, which is what the
      language prints for an integer below 10^21 in magnitude.
    - A JSON object is the list of its members in text order;
      [JsValue.own_properties] performs the property creation of
      JSON.parse (a repeated key keeps its first position and its last
      value).
    - Counts are typed ([list Z]) in [Traces] and [Annotations].
      The validation is modelled on untyped values, which is where the
      findings on unchecked shapes come from, and [Raw], [App], [Async]
      and [Render] model the builders and the page on them: there the
      sum, the comparator and the test [> 0] coerce, by the operators
      of [Raw.Arith].  The interface
      states what the operators do on numbers, on texts and on
      [undefined], the cases the theorems need; the conversion of a text
      or an object to a number would need the doubles, and is left to
      the instance.  [Raw.chart_arguments_raw_typed] shows that on
      numeric counts the typed builders are the untyped ones, for every
      engine, so that the typed model loses nothing there.
    - The prototype chain is a parameter ([JsValue.Host]): which names
      an object inherits depends on the engine.  The assumptions are
      that the six names the program itself looks up are not inherited
      and that [toString] is.
    - The environment is an input.  The completions of [fetch] and of
      [response.json()] come with the response, the completion of
      [Plotly.newPlot] with the event that loads the document, the
      completion of [Plotly.Plots.resize] with the timer that calls it.
    - Time is a clock in milliseconds that the event [Elapse] advances;
      a timer may fire from the time it is due, never before, and
      nothing forces it to fire.  Timer ids are the successive natural
      numbers, never reused.
    - Initialisation is one step of [App.step]: there the three
      [await]s of lines 107, 113 and 386 are not interleaved with other
      events.  [Async] interleaves them and justifies the choice
      ([Async.async_refines]): before initialisation ends no listener
      for [resize] and no timer exists, so an event delivered in between
      only advances the clock or adds a line to the console, and the
      final page differs from the atomic one in the order of the lines
      of the console at most.  The simulation starts from a page on
      which nothing listens and no timer is pending ([Async.fresh]),
      which the initial page is.
    - [App.initializeApp] and [Async.after_json] return an option
      because [Raw.shape] is defined on the values that have the shape
      the validation checks, and [renderChart] is only ever called with
      the dataset the loader stored.  [App.initializeApp_total] and
      [Async.settles_progress] show that the result always exists.
    - No recursion needs fuel: every loop of the source iterates over a
      finite list and is a structural [Fixpoint] or a fold; the script
      has no loop.
    - Numbers of the literals that are not integers (0.5, 1.02) are kept
      as a mantissa and a decimal exponent ([Render.PDecimal]); nothing
      is computed with them.
    - A statement of the README about the data is a [Readme.figure].
      A total and a count are read as written; "emergence" of a subject
      in a year is read as at least one topic of the category in that
      year, "N topics addressing ..." as at least N, a "peak" or
      "spike" as a year in which the category has no fewer topics than
      in any other; a percentage is the quotient rounded to the nearest
      whole number ([Readme.percent]).  "100% classification", "no
      other category" and "single-category assignment" together are
      read as: the counts of the dataset add up to the number of
      topics.  The order of the categories in the file is left open.
    - The types of the comments are read strictly ([Contracts.has_type]):
      [{Object}] is a plain object, neither an array nor [null], and
      [{Array}] an array; a [{Promise<T>}] is typed by the value it is
      fulfilled with ([Contracts.awaited]).  A trace "can be drawn"
      ([Contracts.scatter]) when its [x] and [y] are arrays of one
      length and its colours one string of the palette; whether the
      elements are numbers is a matter of the counts of the file
      ([Raw.createChartTraces_raw_spec]).
    - In [Datafile] a dataset without markers is written without the
      member; category names that are array indices are excluded
      ([Datafile.plain]), because an object lists such keys first and
      the file would not be read back in the order it was written.
    - In [Deploy] a command is its words and its redirections; what it
      does to the file system and to the network is not modelled.  The
      environment answers each command with an exit status and [read]
      with a status and a reply; the theorems quantify over all answers.
      [echo] is taken to succeed.  [read -n 1] returns one character at
      most; the model allows any reply, which includes those.

    ** Not modelled

    The charting library (Plotly) and the pixels it draws from the
    objects it is given; the network; the conversion of texts and
    objects to numbers, which [+], [-] and [>] perform on counts that
    are not numbers and which [Raw.Arith] leaves to the engine; [git]
    and the file tests of the script beyond their exit status; the
    style sheet, [index.html] and data.json itself, which are not in
    the repository's sources here (the theorems hold of every file the
    README describes).

    The classifier of the README (maximum-overlap keyword matching) is
    not in the repository and the README gives neither its keyword sets
    nor its weights: only what it promises of its result is modelled
    ([Readme.classification]).  The subjects listed under each
    category are transcribed ([Readme.category_definitions]) and
    nothing is proved from them, since the README does not say they are
    the keywords.  Of the features the documents list, those of
    app.js are modelled ([Contracts.feature]); nothing in app.js
    concerns the accessibility of the callouts, and the features of the
    style sheet and of [index.html] (semantic markup, keyboard
    navigation, contrast, reduced motion) are of files that are not in
    the sources.  The section banners of app.js and the comments that
    only name what follows them ("Global application state") state
    nothing.  The remaining text of the three documents (quality
    claims, the process by which the keywords were developed,
    limitations, licence, author, how to start a local server) states
    nothing that can be compared with the code or with the data. *)

From Stdlib Require Import ZArith List Lia Sorted.
From stdpp Require Import base tactics option list strings numbers.

#[local] Open Scope Z_scope.

(** ** Errors and completions *)

(** The constructor of a thrown error object; [message] is what the
    program displays ([error.message]). *)
Inductive error_class := ErrorC | TypeErrorC | SyntaxErrorC.

Record js_error := mkError { err_class : error_class; message : string }.

#[export] Instance error_class_eq_dec : EqDecision error_class.
Proof. solve_decision. Defined.

#[export] Instance js_error_eq_dec : EqDecision js_error.
Proof. solve_decision. Defined.

(** [new Error(msg)]. *)
Definition Error (msg : string) : js_error := mkError ErrorC msg.

(** The completion of an expression: a value, or a thrown error. *)
Inductive completion (A : Type) : Type :=
| Normal (a : A)
| Throw (e : js_error).
Arguments Normal {A} a.
Arguments Throw {A} e.

#[export] Instance completion_ret : MRet completion := @Normal.

#[export] Instance completion_bind : MBind completion := λ A B f c,
  match c with
  | Normal a => f a
  | Throw e => Throw e
  end.

#[export] Instance completion_fmap : FMap completion := λ A B f c,
  match c with
  | Normal a => Normal (f a)
  | Throw e => Throw e
  end.

(** [try { body } catch (error) { handler }] where both produce an [A]. *)
Definition try_catch {A} (body : completion A) (handler : js_error → A) : A :=
  match body with
  | Normal a => a
  | Throw e => handler e
  end.

(** [if (c) throw e;] followed by the rest of the block. *)
Definition throw_if {A} (c : bool) (e : js_error) (rest : completion A)
  : completion A :=
  if c then Throw e else rest.

Definition is_normal {A} (c : completion A) : bool :=
  match c with Normal _ => true | Throw _ => false end.

(** ** Array.prototype.reduce with an initial value *)

Definition reduce {A B} (f : B → A → B) (init : B) (l : list A) : B :=
  fold_left f l init.

(** ** Tactics *)

(** Case analysis on the scrutinee of the first [if] or [match] of the goal. *)
Ltac js_case :=
  match goal with
  | |- context [if ?b then _ else _] => destruct b eqn:?
  | |- context [match ?c with _ => _ end] => destruct c eqn:?
  end.

(** The same in a hypothesis. *)
Ltac js_case_in H :=
  match type of H with
  | context [if ?b then _ else _] => destruct b eqn:?
  | context [match ?c with _ => _ end] => destruct c eqn:?
  end.

(** An equation between closed terms, and a decidable proposition, by
    evaluation. *)
Ltac by_computation := vm_compute; reflexivity.
Ltac by_decision := apply (bool_decide_unpack _); vm_compute; exact I.

Create HintDb js discriminated.
Create Rewrite HintDb js_simpl.

(** ** Laws of completions *)

Section completion.
Context {A B C : Type}.
Implicit Types (c : completion A) (f : A → completion B) (g : B → completion C).

Lemma bind_normal f (a : A) : Normal a ≫= f = f a.
Proof. reflexivity. Qed.

Lemma bind_throw f e : (Throw e : completion A) ≫= f = Throw e.
Proof. reflexivity. Qed.

Lemma bind_ret c : c ≫= Normal = c.
Proof. by destruct c. Qed.

Lemma bind_assoc c f g : (c ≫= f) ≫= g = c ≫= (λ a, f a ≫= g).
Proof. by destruct c. Qed.

Lemma bind_normal_inv c f b :
  c ≫= f = Normal b → ∃ a, c = Normal a ∧ f a = Normal b.
Proof. destruct c; naive_solver. Qed.

Lemma bind_throw_inv c f e :
  c ≫= f = Throw e → c = Throw e ∨ ∃ a, c = Normal a ∧ f a = Throw e.
Proof. destruct c; naive_solver. Qed.

Lemma throw_if_normal_inv (b : bool) e c a :
  throw_if b e c = Normal a → b = false ∧ c = Normal a.
Proof. by destruct b. Qed.

Lemma throw_if_throw_inv (b : bool) e c e' :
  throw_if b e c = Throw e' → (b = true ∧ e' = e) ∨ (b = false ∧ c = Throw e').
Proof. destruct b; naive_solver. Qed.

Lemma throw_if_false e c : throw_if false e c = c.
Proof. reflexivity. Qed.

Lemma throw_if_true e c : throw_if true e c = Throw e.
Proof. reflexivity. Qed.

Lemma try_catch_normal (a : A) h : try_catch (Normal a) h = a.
Proof. reflexivity. Qed.

Lemma try_catch_throw e (h : js_error → A) : try_catch (Throw e) h = h e.
Proof. reflexivity. Qed.

End completion.

#[export] Hint Rewrite @bind_normal @bind_throw @throw_if_false @throw_if_true
  @try_catch_normal @try_catch_throw : js_simpl.

(** ** Array.prototype.map with a callback that may throw

    [mapM] calls the function on the elements from left to right and
    stops at the first that throws. *)

Section traverse.
Context {A B : Type} (f : A → completion B).
Implicit Types (l : list A) (k : list B) (e : js_error).

Lemma mapM_cons_completion x l :
  mapM f (x :: l) = y ← f x; k ← mapM f l; Normal (y :: k).
Proof. reflexivity. Qed.

Lemma mapM_normal (g : A → B) l :
  Forall (λ x, f x = Normal (g x)) l → mapM f l = Normal (g <$> l).
Proof.
  induction 1 as [|x l Hx _ IH]; [done|].
  by rewrite mapM_cons_completion, Hx, bind_normal, IH.
Qed.

Lemma mapM_normal_inv l k :
  mapM f l = Normal k → Forall2 (λ x y, f x = Normal y) l k.
Proof.
  revert k. induction l as [|x l IH]; intros k.
  { intros [= <-]. constructor. }
  rewrite mapM_cons_completion.
  intros (y & Hy & (k' & Hk & [= <-])%bind_normal_inv)%bind_normal_inv.
  constructor; [done|by apply IH].
Qed.

Lemma is_normal_mapM l :
  is_normal (mapM f l) = forallb (λ x, is_normal (f x)) l.
Proof.
  induction l as [|x l IH]; [done|]. rewrite mapM_cons_completion. simpl.
  destruct (f x) as [y|]; [|done]. rewrite bind_normal, <- IH.
  by destruct (mapM f l).
Qed.

(** The error is the one of the first element on which the function
    throws. *)
Lemma mapM_throw_inv l e :
  mapM f l = Throw e →
  ∃ l1 x l2, l = l1 ++ x :: l2 ∧
    Forall (λ y, is_normal (f y) = true) l1 ∧ f x = Throw e.
Proof.
  induction l as [|x l IH]; [done|]. rewrite mapM_cons_completion.
  destruct (f x) as [y|e'] eqn:Hx.
  - rewrite bind_normal. destruct (mapM f l) as [k|e'']; [done|].
    intros [= <-]. destruct (IH eq_refl) as (l1 & x' & l2 & -> & Hl1 & Hx').
    exists (x :: l1), x', l2. split_and!; [done| |done].
    constructor; [by rewrite Hx|done].
  - intros [= <-]. by exists [], x, l.
Qed.

End traverse.

Lemma forallb_Forall {A} (f : A → bool) (l : list A) :
  forallb f l = true ↔ Forall (λ x, f x = true) l.
Proof.
  induction l as [|x l IH]; simpl; [by split; [constructor|]|].
  rewrite Forall_cons_iff, <- IH. apply andb_true_iff.
Qed.

Lemma is_normal_true {A} (c : completion A) :
  is_normal c = true ↔ ∃ x, c = Normal x.
Proof. destruct c; split; try done; [by eexists|by intros [? ?]]. Qed.

Lemma is_normal_false {A} (c : completion A) :
  is_normal c = false ↔ ∃ e, c = Throw e.
Proof. destruct c; split; try done; [by intros [? ?]|by eexists]. Qed.

(** ** Texts *)

Lemma string_app_assoc (s1 s2 s3 : string) : (s1 +:+ s2) +:+ s3 = s1 +:+ s2 +:+ s3.
Proof.
  induction s1 as [|c s1 IH]; [done|].
  change (String c ((s1 +:+ s2) +:+ s3) = String c (s1 +:+ s2 +:+ s3)).
  by rewrite IH.
Qed.

Lemma string_app_empty_r (s : string) : s +:+ "" = s.
Proof.
  induction s as [|c s IH]; [done|].
  change (String c (s +:+ "") = String c s). by rewrite IH.
Qed.

(** ** Filters *)

Section filter.
Context {A : Type} (P : A → Prop) `{!∀ x, Decision (P x)}.
Implicit Types (l : list A).

Lemma filter_all l : Forall P l → filter P l = l.
Proof.
  induction 1 as [|x l Hx _ IH]; [done|].
  by rewrite filter_cons_True, IH.
Qed.

Lemma filter_none l : Forall (λ x, ¬ P x) l → filter P l = [].
Proof.
  induction 1 as [|x l Hx _ IH]; [done|].
  by rewrite filter_cons_False.
Qed.

(** Two predicates that agree on the elements select the same. *)
Lemma filter_agree (Q : A → Prop) `{!∀ x, Decision (Q x)} l :
  Forall (λ x, P x ↔ Q x) l → filter P l = filter Q l.
Proof.
  induction 1 as [|x l Hx _ IH]; [done|].
  by rewrite !filter_cons, IH, (decide_ext _ _ _ _ Hx).
Qed.

End filter.

(** What holds of every element holds of those a filter keeps. *)
Lemma Forall_filter_keep {A} (P Q : A → Prop) `{!∀ x, Decision (Q x)} (l : list A) :
  Forall P l → Forall P (filter Q l).
Proof.
  induction 1 as [|x l Hx _ IH]; [constructor|].
  rewrite filter_cons. case_decide; [by constructor|done].
Qed.

(** In a sorted list an earlier element is related to every later one. *)
Lemma StronglySorted_lookup {A} (R : relation A) (l : list A) i j a b :
  StronglySorted R l → l !! i = Some a → l !! j = Some b → (i < j)%nat → R a b.
Proof.
  intros Hl. revert i j. induction Hl as [|c l _ IH Hc]; intros i j; [done|].
  destruct j as [|j]; [lia|]. destruct i as [|i]; simpl.
  - intros [= ->] Hb _. by apply (Forall_lookup_1 _ _ _ _ Hc Hb).
  - intros ?? Hij. apply (IH i j); (done || lia).
Qed.

Section fmap.
Context {A B : Type} (f : A → B).
Implicit Types (l : list A).

Lemma filter_fmap (P : B → Prop) `{!∀ b, Decision (P b)} l :
  filter P (f <$> l) = f <$> filter (λ a, P (f a)) l.
Proof.
  induction l as [|a l IH]; [done|]. csimpl.
  rewrite !filter_cons, IH. by case_decide.
Qed.

Lemma StronglySorted_fmap_iff (R : relation B) l :
  StronglySorted R (f <$> l) ↔ StronglySorted (λ a b, R (f a) (f b)) l.
Proof.
  induction l as [|a l IH]; csimpl.
  { split; constructor. }
  split; intros [Hl Ha]%StronglySorted_inv; constructor;
    try (by apply IH); by apply Forall_fmap.
Qed.

(** Two lists with the same image under [f] are equal when the elements
    at the same position are equal as soon as their images are. *)
Lemma fmap_eq_pointwise l k :
  f <$> l = f <$> k →
  (∀ i a b, l !! i = Some a → k !! i = Some b → f a = f b → a = b) →
  l = k.
Proof.
  revert k. induction l as [|a l IH]; intros [|b k]; csimpl; try done.
  intros [= Hab Hlk] Hpt. f_equal.
  - by apply (Hpt 0%nat).
  - apply IH; [done|]. intros i. apply (Hpt (S i)).
Qed.

End fmap.

(** ** Sums of integers by [reduce] *)

Section reduce.
Implicit Types (l : list Z) (z : Z).

Lemma reduce_add_init z l : reduce Z.add z l = z + reduce Z.add 0 l.
Proof.
  unfold reduce. revert z.
  induction l as [|x l IH]; intros z; cbn [fold_left]; [lia|].
  rewrite (IH (z + x)), (IH (0 + x)). lia.
Qed.

Lemma reduce_add_cons z x l : reduce Z.add z (x :: l) = x + reduce Z.add z l.
Proof.
  change (reduce Z.add z (x :: l)) with (reduce Z.add (z + x) l).
  rewrite (reduce_add_init (z + x)), (reduce_add_init z). lia.
Qed.

Lemma reduce_add_app z l1 l2 :
  reduce Z.add z (l1 ++ l2) = reduce Z.add z l1 + reduce Z.add 0 l2.
Proof.
  unfold reduce. rewrite fold_left_app.
  apply (reduce_add_init (fold_left Z.add l1 z) l2).
Qed.

Lemma reduce_add_bounds (lo hi : Z) l :
  Forall (λ x, lo ≤ x ≤ hi) l →
  lo * Z.of_nat (length l) ≤ reduce Z.add 0 l ≤ hi * Z.of_nat (length l).
Proof.
  induction 1 as [|x l Hx _ IH]; [unfold reduce; simpl; lia|].
  rewrite reduce_add_cons. simpl length. lia.
Qed.

End reduce.
