(* ===== verification/StableSort.v ===== *)
(** * Array.prototype.sort with a comparator

    [app.js] sorts the categories with
    [.sort((a, b) => b.total - a.total)].  The language fixes what the
    result is, not how it is computed: for a consistent comparator the
    result is ordered by it, and elements that compare equal keep their
    relative order (the sort is stable).  This file states that contract
    as the class [Sorter], gives the executable instance
    [insertion_sort], and proves that the contract determines the result
    ([sorter_unique]): the clients can be proved against the interface
    and evaluated with the instance. *)

From Stdlib Require Import ZArith List Lia Sorted.
From stdpp Require Import base tactics option list numbers sorting.
From S2P Require Import Prelude.

#[local] Open Scope Z_scope.

(** ** Comparators *)

Section comparator.
Context {A : Type} (cmp : A → A → Z).
Implicit Types (a b x y : A) (l : list A).

(** [a] may stay before [b]: the comparator is not positive. *)
Definition precedes a b : Prop := cmp a b ≤ 0.

(** [a] and [b] compare equal. *)
Definition equiv a b : Prop := cmp a b = 0.

#[export] Instance precedes_dec a b : Decision (precedes a b).
Proof. unfold precedes. apply _. Defined.

#[export] Instance equiv_dec a b : Decision (equiv a b).
Proof. unfold equiv. apply _. Defined.

(** A consistent comparator: swapping the arguments flips the sign, and
    "not after" is transitive. *)
Class Consistent : Prop := {
  cmp_sgn_sym : ∀ a b, Z.sgn (cmp b a) = - Z.sgn (cmp a b);
  cmp_trans : ∀ a b c, precedes a b → precedes b c → precedes a c
}.

(** The list is ordered by the comparator. *)
Definition ordered l : Prop := StronglySorted precedes l.

(** [l'] keeps, for every element [a], the elements that compare equal
    to [a] in the order they have in [l]. *)
Definition stable l l' : Prop :=
  ∀ a, filter (equiv a) l' = filter (equiv a) l.

(** ** Insertion sort *)

(** [x] goes before the first element it does not come after. *)
Fixpoint insert x l : list A :=
  match l with
  | [] => [x]
  | y :: l' => if decide (precedes x y) then x :: y :: l' else y :: insert x l'
  end.

Definition insertion_sort l : list A := foldr insert [] l.

End comparator.

Arguments cmp_sgn_sym {A cmp _} a b.
Arguments cmp_trans {A cmp _} a b c _ _.

(** ** The contract of the engine's sort *)

Class Sorter (sort : ∀ A, (A → A → Z) → list A → list A) : Prop := {
  sorter_ordered : ∀ A (cmp : A → A → Z) `{!Consistent cmp} l,
    ordered cmp (sort A cmp l);
  sorter_stable : ∀ A (cmp : A → A → Z) `{!Consistent cmp} l,
    stable cmp l (sort A cmp l)
}.

(** ** Consequences of consistency *)

Section consistent.
Context {A : Type} (cmp : A → A → Z) `{!Consistent cmp}.
Implicit Types (a b x y : A) (l : list A).

Lemma cmp_refl a : cmp a a = 0.
Proof. pose proof (cmp_sgn_sym a a). lia. Qed.

Lemma equiv_refl a : equiv cmp a a.
Proof. apply cmp_refl. Qed.

Lemma precedes_total a b : precedes cmp a b ∨ precedes cmp b a.
Proof. unfold precedes. pose proof (cmp_sgn_sym a b). lia. Qed.

Lemma not_precedes a b : ¬ precedes cmp a b → precedes cmp b a.
Proof. destruct (precedes_total a b); tauto. Qed.

Lemma equiv_precedes a b :
  equiv cmp a b ↔ precedes cmp a b ∧ precedes cmp b a.
Proof. unfold equiv, precedes. pose proof (cmp_sgn_sym a b). lia. Qed.

Lemma equiv_sym a b : equiv cmp a b → equiv cmp b a.
Proof. rewrite !equiv_precedes. tauto. Qed.

Lemma equiv_trans a b c : equiv cmp a b → equiv cmp b c → equiv cmp a c.
Proof.
  rewrite !equiv_precedes. intros [? ?] [? ?].
  split; eapply cmp_trans; eauto.
Qed.

#[export] Instance precedes_transitive : Transitive (precedes cmp).
Proof. intros a b c. apply cmp_trans. Qed.

#[export] Instance precedes_totalrel : Total (precedes cmp).
Proof. intros a b. apply precedes_total. Qed.

(** Two elements that are swapped by an insertion are never both
    equivalent to a third one. *)
Lemma filter_equiv_swap a x y l :
  ¬ precedes cmp x y →
  filter (equiv cmp a) (y :: x :: l) = filter (equiv cmp a) (x :: y :: l).
Proof.
  intros Hxy. rewrite !filter_cons.
  destruct (decide (equiv cmp a y)) as [Hy|]; [|done].
  destruct (decide (equiv cmp a x)) as [Hx|]; [|done].
  destruct Hxy. apply (proj1 (equiv_precedes x y)).
  apply (equiv_trans x a y); [by apply equiv_sym|done].
Qed.

(** *** Insertion *)

Lemma insert_perm x l : insert cmp x l ≡ₚ x :: l.
Proof.
  induction l as [|y l IH]; simpl; [done|].
  case_decide; [done|]. by rewrite IH, Permutation_swap.
Qed.

Lemma insert_stable a x l :
  filter (equiv cmp a) (insert cmp x l) = filter (equiv cmp a) (x :: l).
Proof.
  induction l as [|y l IH]; simpl; [done|].
  case_decide as Hxy; [done|].
  rewrite <- (filter_equiv_swap a x y l Hxy).
  rewrite (filter_cons _ y (insert cmp x l)), (filter_cons _ y (x :: l)), IH.
  done.
Qed.

Lemma insert_ordered x l : ordered cmp l → ordered cmp (insert cmp x l).
Proof.
  unfold ordered. induction 1 as [|y l Hl IH Hy]; simpl.
  { repeat constructor. }
  case_decide as Hxy.
  - constructor; [by constructor|].
    constructor; [done|].
    eapply Forall_impl; [exact Hy|]. intros z Hz. by etrans.
  - constructor; [done|].
    rewrite (insert_perm x l). constructor; [by apply not_precedes|done].
Qed.

(** *** Insertion sort meets the contract *)

Lemma insertion_sort_perm l : insertion_sort cmp l ≡ₚ l.
Proof.
  induction l as [|x l IH]; simpl; [done|].
  by rewrite insert_perm, IH.
Qed.

Lemma insertion_sort_ordered l : ordered cmp (insertion_sort cmp l).
Proof.
  induction l as [|x l IH]; simpl; [constructor|].
  by apply insert_ordered.
Qed.

Lemma insertion_sort_stable l : stable cmp l (insertion_sort cmp l).
Proof.
  intros a. induction l as [|x l IH]; simpl; [done|].
  by rewrite insert_stable, !filter_cons, IH.
Qed.

(** *** The contract determines the result *)

Lemma stable_elem_of l l' x : stable cmp l l' → x ∈ l → x ∈ l'.
Proof.
  intros Hst Hx.
  assert (x ∈ filter (equiv cmp x) l') as Hin.
  { rewrite (Hst x). apply list_elem_of_filter. split; [apply equiv_refl|done]. }
  by apply list_elem_of_filter in Hin as [_ ?].
Qed.

Lemma stable_sym l l' : stable cmp l l' → stable cmp l' l.
Proof. intros H a. by rewrite H. Qed.

Lemma stable_nil_inv l : stable cmp [] l → l = [].
Proof.
  destruct l as [|y l]; [done|]. intros Hst.
  assert (y ∈ []) as H%elem_of_nil; [|done].
  eapply (stable_elem_of (y :: l) []); [by apply stable_sym|left].
Qed.

Lemma ordered_head_precedes x l y : ordered cmp (x :: l) → y ∈ x :: l → precedes cmp x y.
Proof.
  intros Hord Hy. apply StronglySorted_inv in Hord as [_ Hall].
  apply elem_of_cons in Hy as [->|Hy].
  - unfold precedes. rewrite cmp_refl. lia.
  - by eapply Forall_forall in Hall.
Qed.

Lemma ordered_stable_heads x y l1 l2 :
  ordered cmp (x :: l1) → ordered cmp (y :: l2) →
  stable cmp (x :: l1) (y :: l2) → equiv cmp x y.
Proof.
  intros H1 H2 Hst. apply equiv_precedes. split.
  - eapply ordered_head_precedes; [exact H1|].
    eapply stable_elem_of; [apply stable_sym, Hst|left].
  - eapply ordered_head_precedes; [exact H2|].
    eapply stable_elem_of; [exact Hst|left].
Qed.

Lemma stable_cons_inv x l1 l2 : stable cmp (x :: l1) (x :: l2) → stable cmp l1 l2.
Proof.
  intros Hst a. specialize (Hst a). rewrite !filter_cons in Hst.
  case_decide; [by injection Hst|done].
Qed.

Lemma ordered_stable_unique l1 l2 :
  ordered cmp l1 → ordered cmp l2 → stable cmp l1 l2 → l1 = l2.
Proof.
  revert l2. induction l1 as [|x l1 IH]; intros l2 H1 H2 Hst.
  { symmetry. by apply stable_nil_inv. }
  destruct l2 as [|y l2].
  { by apply stable_sym, stable_nil_inv in Hst. }
  pose proof (ordered_stable_heads x y l1 l2 H1 H2 Hst) as Hxy.
  assert (x = y) as <-.
  { specialize (Hst x). rewrite !filter_cons in Hst.
    rewrite (decide_True _ _ Hxy), (decide_True _ _ (equiv_refl x)) in Hst.
    by injection Hst. }
  f_equal. apply IH.
  - by apply StronglySorted_inv in H1 as [? _].
  - by apply StronglySorted_inv in H2 as [? _].
  - by eapply stable_cons_inv.
Qed.

End consistent.

(** ** A second implementation

    Insertion from the left, as an in-place insertion sort proceeds:
    each element of the input is placed in the sorted prefix after the
    elements it does not precede strictly. *)

Section left.
Context {A : Type} (cmp : A → A → Z).
Implicit Types (a x y : A) (l m acc : list A).

Fixpoint insert_last x l : list A :=
  match l with
  | [] => [x]
  | y :: l' =>
      if decide (precedes cmp y x) then y :: insert_last x l' else x :: y :: l'
  end.

Definition insertion_sort_left l : list A :=
  foldl (λ acc x, insert_last x acc) [] l.

Context `{!Consistent cmp}.

Lemma insert_last_perm x l : insert_last x l ≡ₚ x :: l.
Proof.
  induction l as [|y l IH]; simpl; [done|].
  case_decide; [|done]. by rewrite IH, Permutation_swap.
Qed.

Lemma insert_last_ordered x l : ordered cmp l → ordered cmp (insert_last x l).
Proof.
  unfold ordered. induction 1 as [|y l Hl IH Hy]; simpl.
  { repeat constructor. }
  case_decide as Hyx.
  - constructor; [done|]. rewrite insert_last_perm. by constructor.
  - apply (not_precedes cmp) in Hyx. constructor; [by constructor|].
    constructor; [done|].
    eapply Forall_impl; [exact Hy|]. intros z Hz. by etrans.
Qed.

(** An element equivalent to none of a list can move across it. *)
Lemma filter_equiv_move a x m :
  Forall (λ z, ¬ equiv cmp x z) m →
  filter (equiv cmp a) (x :: m) = filter (equiv cmp a) (m ++ [x]).
Proof.
  intros Hm. rewrite filter_app, filter_cons.
  destruct (decide (equiv cmp a x)) as [Hax|Hax].
  - rewrite (filter_none (equiv cmp a) m).
    { by rewrite filter_cons_True. }
    eapply Forall_impl; [exact Hm|]. intros z Hz Haz. apply Hz.
    apply (equiv_trans cmp x a z); [by apply equiv_sym|done].
  - by rewrite filter_cons_False, filter_nil, app_nil_r.
Qed.

Lemma insert_last_stable a x l :
  ordered cmp l →
  filter (equiv cmp a) (insert_last x l) = filter (equiv cmp a) (l ++ [x]).
Proof.
  intros Hord. induction Hord as [|y l Hl IH Hy]; simpl; [done|].
  case_decide as Hyx.
  - by rewrite !filter_cons, IH.
  - apply (filter_equiv_move a x (y :: l)).
    assert (∀ z, precedes cmp y z → ¬ equiv cmp x z) as Hno.
    { intros z Hyz Hxz. apply Hyx. etrans; [exact Hyz|].
      by apply (equiv_precedes cmp x z) in Hxz as [_ ?]. }
    constructor.
    + apply Hno. unfold precedes. by rewrite cmp_refl.
    + eapply Forall_impl; [exact Hy|]. exact Hno.
Qed.

Lemma foldl_insert_last_ordered acc l :
  ordered cmp acc → ordered cmp (foldl (λ acc x, insert_last x acc) acc l).
Proof.
  revert acc. induction l as [|x l IH]; intros acc Hacc; simpl; [done|].
  by apply IH, insert_last_ordered.
Qed.

Lemma foldl_insert_last_stable a acc l :
  ordered cmp acc →
  filter (equiv cmp a) (foldl (λ acc x, insert_last x acc) acc l)
  = filter (equiv cmp a) (acc ++ l).
Proof.
  revert acc. induction l as [|x l IH]; intros acc Hacc; simpl.
  { by rewrite app_nil_r. }
  rewrite IH by by apply insert_last_ordered.
  rewrite filter_app, insert_last_stable by done.
  by rewrite <- filter_app, <- app_assoc.
Qed.

End left.

#[export] Instance insertion_sorter_left : Sorter (@insertion_sort_left).
Proof.
  split; intros A cmp Hc l.
  - apply foldl_insert_last_ordered; [done|constructor].
  - intros a. apply (foldl_insert_last_stable cmp a []). constructor.
Qed.

(** ** Descending order of an integer key

    The comparator [(a, b) => key(b) - key(a)]. *)

Section descending.
Context {A : Type} (key : A → Z).
Implicit Types (a b : A) (l m : list A).

Definition descending a b : Z := key b - key a.

#[export] Instance descending_consistent : Consistent descending.
Proof. split; unfold precedes, descending; intros; lia. Qed.

Lemma precedes_descending a b : precedes descending a b ↔ key b ≤ key a.
Proof. unfold precedes, descending. lia. Qed.

Lemma equiv_descending a b : equiv descending a b ↔ key a = key b.
Proof. unfold equiv, descending. lia. Qed.

Lemma ordered_descending l :
  ordered descending l ↔ StronglySorted (λ a b, key b ≤ key a) l.
Proof.
  unfold ordered. split; induction 1 as [|a l Hl IH Ha]; constructor; try done;
    (eapply Forall_impl; [exact Ha|]); intros b; apply precedes_descending.
Qed.

Lemma stable_descending l l' :
  stable descending l l' ↔
  ∀ k, filter (λ a, key a = k) l' = filter (λ a, key a = k) l.
Proof.
  assert (∀ a m, filter (equiv descending a) m = filter (λ b, key b = key a) m)
    as Hfilter.
  { intros a m. apply list_filter_iff. intros b.
    rewrite equiv_descending. naive_solver. }
  split.
  - intros Hst k. destruct (decide (Exists (λ a, key a = k) (l ++ l')))
      as [(a & _ & <-)%Exists_exists|Hnone].
    + rewrite <- !Hfilter. apply Hst.
    + apply not_Exists_Forall in Hnone; [|intros ?; apply _].
      apply Forall_app in Hnone as [Hl Hl'].
      by rewrite !filter_none.
  - intros Hk a. rewrite !Hfilter. apply Hk.
Qed.

End descending.

(** ** The instance and its uniqueness *)

#[export] Instance insertion_sorter : Sorter (@insertion_sort).
Proof.
  split; intros A cmp Hc l.
  - by apply insertion_sort_ordered.
  - by apply insertion_sort_stable.
Qed.

Section sorter.
Context (sort : ∀ A, (A → A → Z) → list A → list A) `{!Sorter sort}.
Context {A : Type} (cmp : A → A → Z) `{!Consistent cmp}.

(** A sort that meets the contract computes what insertion sort
    computes. *)
Lemma sorter_insertion_sort l : sort A cmp l = insertion_sort cmp l.
Proof.
  apply (ordered_stable_unique cmp).
  - by apply sorter_ordered.
  - by apply insertion_sort_ordered.
  - intros a. rewrite (insertion_sort_stable cmp l a).
    symmetry. by apply sorter_stable.
Qed.

Lemma sorter_perm l : sort A cmp l ≡ₚ l.
Proof. rewrite sorter_insertion_sort. by apply insertion_sort_perm. Qed.

Lemma sorter_length l : length (sort A cmp l) = length l.
Proof. by rewrite sorter_perm. Qed.

End sorter.

(** The contract of Array.prototype.sort determines its result:
    with a consistent comparator, any two sorts that order by it and
    keep equivalent elements in their order return the same list. *)
Theorem sorter_unique (sort1 sort2 : ∀ A, (A → A → Z) → list A → list A)
    `{!Sorter sort1, !Sorter sort2} {A} (cmp : A → A → Z) `{!Consistent cmp}
    (l : list A) :
  sort1 A cmp l = sort2 A cmp l.
Proof.
  apply (ordered_stable_unique cmp); [by apply sorter_ordered..|].
  intros a. transitivity (filter (equiv cmp a) l).
  - by apply sorter_stable.
  - symmetry. by apply sorter_stable.
Qed.

Lemma sorter_unique_witness :
  insertion_sort_left (descending id) [10; 30; 20; 30]
  = insertion_sort (descending id) [10; 30; 20; 30].
Proof.
  apply (sorter_unique (@insertion_sort_left) (@insertion_sort)
           (descending id) [10; 30; 20; 30]).
Defined.
