(* ===== verification/LocalSort.v ===== *)
(** * The sort, for a comparator that need not be consistent everywhere

    [StableSort.Sorter] says what [Array.prototype.sort] returns for a
    comparator that is consistent on all values.  The comparator of
    [app.js], [(a, b) => b.total - a.total], is consistent on numbers;
    on the totals of a dataset whose counts are not numbers it need not
    be.  The language asks for consistency on the elements of the array
    only: this file states that contract ([LocalSorter]), shows that
    insertion sort meets it, that it determines the result
    ([local_sorter_insertion_sort]), and that a sort which meets it
    commutes with a change of representation that preserves the
    comparator ([local_sorter_fmap]).

    The proofs reduce to [StableSort]: a comparator that is consistent
    on the elements of [l] is extended to one that is consistent
    everywhere ([restrict]), which needs equality on the elements to be
    decidable. *)

From Stdlib Require Import ZArith List Lia Sorted.
From stdpp Require Import base tactics option sets numbers sorting list.
From S2P Require Import Prelude StableSort.

#[local] Open Scope Z_scope.

(** ** Consistency on the elements of a list *)

Section local.
Context {A : Type} (cmp : A → A → Z).
Implicit Types (a b x y : A) (l s : list A).

Record ConsistentOn l : Prop := {
  on_sgn_sym : ∀ a b, a ∈ l → b ∈ l → Z.sgn (cmp b a) = - Z.sgn (cmp a b);
  on_trans : ∀ a b c, a ∈ l → b ∈ l → c ∈ l →
    precedes cmp a b → precedes cmp b c → precedes cmp a c
}.

(** [l'] keeps, for every element [a] of [l], the elements that compare
    equal to [a] in the order they have in [l]. *)
Definition stable_on l l' : Prop :=
  ∀ a, a ∈ l → filter (equiv cmp a) l' = filter (equiv cmp a) l.

End local.

(** The contract: the result is a permutation; when the comparator is
    consistent on the elements, it is ordered and stable.  The language
    leaves the result open when the comparator is not consistent; that
    it is a permutation even then is what the engines do. *)
Class LocalSorter (sort : ∀ A, (A → A → Z) → list A → list A) : Prop := {
  local_sorter :: Sorter sort;
  local_perm : ∀ A (cmp : A → A → Z) l, sort A cmp l ≡ₚ l;
  local_ordered : ∀ A `{EqDecision A} (cmp : A → A → Z) l,
    ConsistentOn cmp l → ordered cmp (sort A cmp l);
  local_stable : ∀ A `{EqDecision A} (cmp : A → A → Z) l,
    ConsistentOn cmp l → stable_on cmp l (sort A cmp l)
}.

(** ** Comparators that agree on the elements *)

Section agree.
Context {A : Type} (cmp1 cmp2 : A → A → Z).
Implicit Types (a b x y : A) (l s : list A).

(** The two comparators agree on the elements of the list. *)
Definition agree l : Prop := ∀ a b, a ∈ l → b ∈ l → cmp1 a b = cmp2 a b.

Lemma agree_subseteq l s : s ⊆ l → agree l → agree s.
Proof. intros Hs Hl a b ? ?. apply Hl; by apply Hs. Qed.

Lemma precedes_agree l a b :
  agree l → a ∈ l → b ∈ l → precedes cmp1 a b ↔ precedes cmp2 a b.
Proof. intros Hag Ha Hb. unfold precedes. by rewrite (Hag a b). Qed.

Lemma insert_agree x s : agree (x :: s) → insert cmp1 x s = insert cmp2 x s.
Proof.
  induction s as [|y s IH]; intros Hag; simpl; [done|].
  rewrite (decide_ext (precedes cmp1 x y) (precedes cmp2 x y))
    by (apply (precedes_agree _ _ _ Hag); set_solver).
  case_decide; [done|]. f_equal. apply IH.
  eapply agree_subseteq; [|done]. by apply list_subseteq_skip, list_subseteq_cons.
Qed.

Lemma insertion_sort_agree l :
  agree l → insertion_sort cmp1 l = insertion_sort cmp2 l.
Proof.
  induction l as [|x l IH]; intros Hag; simpl; [done|].
  rewrite IH by (eapply agree_subseteq; [|done]; set_solver).
  apply insert_agree. eapply agree_subseteq; [|done].
  rewrite (insertion_sort_perm cmp2 l). set_solver.
Qed.

Lemma ordered_agree l : agree l → ordered cmp1 l → ordered cmp2 l.
Proof.
  unfold ordered. intros Hag. induction 1 as [|x l Hl IH Hx]; constructor.
  - apply IH. eapply agree_subseteq; [|done]. set_solver.
  - apply Forall_forall. intros y Hy.
    pose proof (proj1 (Forall_forall _ _) Hx y Hy) as Hxy.
    unfold precedes in *. rewrite <- (Hag x y) by set_solver. done.
Qed.

Lemma filter_equiv_agree a l s :
  a ∈ l → s ⊆ l → agree l → filter (equiv cmp1 a) s = filter (equiv cmp2 a) s.
Proof.
  intros Ha Hs Hag. apply filter_agree, Forall_forall. intros x Hx.
  unfold equiv. by rewrite (Hag a x Ha (Hs x Hx)).
Qed.

End agree.

(** ** From the elements to all values *)

Section restrict.
Context {A : Type} `{EqDecision A} (cmp : A → A → Z).
Implicit Types (a b x y : A) (l s : list A).

(** The comparator that is [cmp] on the elements of [l] and puts every
    other value after them, all equal. *)
Definition restrict l (a b : A) : Z :=
  match decide (a ∈ l), decide (b ∈ l) with
  | left _, left _ => cmp a b
  | left _, right _ => -1
  | right _, left _ => 1
  | right _, right _ => 0
  end.

Lemma restrict_agree l : agree (restrict l) cmp l.
Proof. intros a b Ha Hb. unfold restrict. by rewrite !decide_True. Qed.

Lemma agree_restrict l : agree cmp (restrict l) l.
Proof. intros a b Ha Hb. by rewrite restrict_agree. Qed.

Lemma restrict_consistent l : ConsistentOn cmp l → Consistent (restrict l).
Proof.
  intros [Hsym Htrans]. split.
  - intros a b. unfold restrict. repeat case_decide; auto.
  - intros a b c. unfold precedes, restrict.
    repeat case_decide; try lia. by apply Htrans.
Qed.

(** Nothing outside [l] compares equal to an element of [l]. *)
Lemma filter_restrict_outside a l s :
  a ∉ l → s ⊆ l → filter (equiv (restrict l) a) s = [].
Proof.
  intros Ha Hs. apply filter_none, Forall_forall. intros x Hx.
  unfold equiv, restrict. rewrite decide_False, decide_True by auto. done.
Qed.

(** Order and stability for [cmp] on the elements are order and
    stability for [restrict]. *)
Lemma stable_restrict l l1 l2 :
  l1 ⊆ l → l2 ⊆ l → (∀ a, a ∈ l → filter (equiv cmp a) l2 = filter (equiv cmp a) l1) →
  stable (restrict l) l1 l2.
Proof.
  intros H1 H2 Hst a. destruct (decide (a ∈ l)) as [Ha|Ha].
  - rewrite !(filter_equiv_agree (restrict l) cmp a l) by auto using restrict_agree.
    by apply Hst.
  - by rewrite !filter_restrict_outside.
Qed.

(** Insertion sort meets the contract. *)
Lemma insertion_sort_ordered_on l :
  ConsistentOn cmp l → ordered cmp (insertion_sort cmp l).
Proof.
  intros Hc%restrict_consistent.
  rewrite (insertion_sort_agree cmp (restrict l) l) by apply agree_restrict.
  eapply (ordered_agree (restrict l) cmp); [|by apply insertion_sort_ordered].
  eapply agree_subseteq; [|apply restrict_agree].
  by rewrite insertion_sort_perm.
Qed.

Lemma insertion_sort_stable_on l :
  ConsistentOn cmp l → stable_on cmp l (insertion_sort cmp l).
Proof.
  intros Hc%restrict_consistent a Ha.
  rewrite (insertion_sort_agree cmp (restrict l) l) by apply agree_restrict.
  rewrite <- !(filter_equiv_agree (restrict l) cmp a l)
    by (auto using restrict_agree; by rewrite insertion_sort_perm).
  by apply insertion_sort_stable.
Qed.

(** The contract determines the result. *)
Lemma ordered_stable_on_unique l l1 l2 :
  ConsistentOn cmp l → l1 ≡ₚ l → l2 ≡ₚ l →
  ordered cmp l1 → ordered cmp l2 →
  stable_on cmp l l1 → stable_on cmp l l2 → l1 = l2.
Proof.
  intros Hc%restrict_consistent Hp1 Hp2 Ho1 Ho2 Hs1 Hs2.
  assert (l1 ⊆ l) as Hl1 by (by rewrite Hp1).
  assert (l2 ⊆ l) as Hl2 by (by rewrite Hp2).
  apply (ordered_stable_unique (restrict l)).
  - apply (ordered_agree cmp); [|done]. by eapply agree_subseteq, agree_restrict.
  - apply (ordered_agree cmp); [|done]. by eapply agree_subseteq, agree_restrict.
  - apply stable_restrict; [done..|]. intros a Ha. by rewrite Hs1, Hs2.
Qed.

End restrict.

#[export] Instance insertion_local_sorter : LocalSorter (@insertion_sort).
Proof.
  split; [apply _|intros A cmp l|intros A ? cmp l Hc..].
  - apply insertion_sort_perm.
  - by apply insertion_sort_ordered_on.
  - by apply insertion_sort_stable_on.
Qed.

(** ** What a client gets *)

Section client.
Context (sort : ∀ A, (A → A → Z) → list A → list A) `{!LocalSorter sort}.

(** A sort that meets the contract computes what insertion sort
    computes, when the comparator is consistent on the elements. *)
Lemma local_sorter_insertion_sort {A} `{EqDecision A} (cmp : A → A → Z) l :
  ConsistentOn cmp l → sort A cmp l = insertion_sort cmp l.
Proof.
  intros Hc. apply (ordered_stable_on_unique cmp l); try done.
  - apply local_perm.
  - apply insertion_sort_perm.
  - by apply local_ordered.
  - by apply insertion_sort_ordered_on.
  - by apply local_stable.
  - by apply insertion_sort_stable_on.
Qed.

End client.

(** ** A change of representation *)

Section fmap.
Context {A B : Type} (f : A → B) (cmpA : A → A → Z) (cmpB : B → B → Z).
Implicit Types (a b : A) (l : list A).

(** [f] preserves the comparator on the elements of [l]. *)
Definition preserves l : Prop :=
  ∀ a b, a ∈ l → b ∈ l → cmpB (f a) (f b) = cmpA a b.

Lemma preserves_subseteq l s : s ⊆ l → preserves l → preserves s.
Proof. intros Hs Hl a b ? ?. apply Hl; by apply Hs. Qed.

Lemma precedes_preserves l a b :
  preserves l → a ∈ l → b ∈ l → precedes cmpB (f a) (f b) ↔ precedes cmpA a b.
Proof. intros Hp Ha Hb. unfold precedes. by rewrite (Hp a b). Qed.

Lemma insert_fmap x l :
  preserves (x :: l) → insert cmpB (f x) (f <$> l) = f <$> insert cmpA x l.
Proof.
  induction l as [|y l IH]; intros Hp; csimpl; [done|].
  rewrite (decide_ext (precedes cmpB (f x) (f y)) (precedes cmpA x y))
    by (apply (precedes_preserves _ _ _ Hp); set_solver).
  case_decide; [done|]. csimpl. f_equal. apply IH.
  eapply preserves_subseteq; [|done]. by apply list_subseteq_skip, list_subseteq_cons.
Qed.

Lemma insertion_sort_fmap l :
  preserves l → insertion_sort cmpB (f <$> l) = f <$> insertion_sort cmpA l.
Proof.
  induction l as [|x l IH]; intros Hp; csimpl; [done|].
  rewrite IH by (eapply preserves_subseteq; [|done]; set_solver).
  apply insert_fmap. eapply preserves_subseteq; [|done].
  rewrite (insertion_sort_perm cmpA l). set_solver.
Qed.

Lemma preserves_consistent l `{!Consistent cmpA} :
  preserves l → ConsistentOn cmpB (f <$> l).
Proof.
  intros Hp. split.
  - intros ? ? (a & -> & Ha)%list_elem_of_fmap (b & -> & Hb)%list_elem_of_fmap.
    rewrite !Hp by done. apply cmp_sgn_sym.
  - intros ? ? ? (a & -> & Ha)%list_elem_of_fmap (b & -> & Hb)%list_elem_of_fmap
      (c & -> & Hc)%list_elem_of_fmap.
    unfold precedes. rewrite !Hp by done. apply cmp_trans.
Qed.

End fmap.

(** Sorting the images by a comparator that [f] preserves is sorting
    the originals. *)
Lemma local_sorter_fmap (sort : ∀ A, (A → A → Z) → list A → list A)
    `{!LocalSorter sort} {A B} `{EqDecision B} (f : A → B)
    (cmpA : A → A → Z) (cmpB : B → B → Z) `{!Consistent cmpA} l :
  preserves f cmpA cmpB l → sort B cmpB (f <$> l) = f <$> sort A cmpA l.
Proof.
  intros Hp.
  rewrite (local_sorter_insertion_sort sort cmpB)
    by by apply (preserves_consistent f cmpA).
  rewrite (sorter_insertion_sort sort cmpA). by apply insertion_sort_fmap.
Qed.
