(* ===== verification/JsValue.v ===== *)
(** * JavaScript values and the builtins [app.js] calls on them

    [response.json()] yields an arbitrary JSON value, and [app.js]
    inspects it with dynamically typed operations: [!x], [Array.isArray],
    [x.p] and [x[p]], [Object.entries], [indexOf], [toString].  This file
    models those operations on [value].  What an engine decides (the
    names an object inherits, the text of its own error messages) is the
    interface [Host].  Theorems: the keys of [Object.entries] are
    distinct and are a permutation of the own properties, array indices
    first; an array index is the canonical decimal text of a number
    below 2^32 - 1 ([array_index_spec]); reading a key that
    [Object.entries] lists gives the value listed with it
    ([entries_get_agree]); and reading a name the program looks up
    gives the value [Object.entries] lists with it, or [undefined]
    ([get_entries_reserved]). *)

From Stdlib Require Import ZArith NArith List Lia Ascii String.
From stdpp Require Import base tactics option list strings numbers pretty.
From S2P Require Import Prelude StableSort.

#[local] Open Scope string_scope.
#[local] Open Scope list_scope.
#[local] Open Scope Z_scope.

(** ** Values *)

(** The prototype an inherited member comes from. *)
Inductive kind := KBoolean | KNumber | KString | KArray | KObject | KFunction.

#[export] Instance kind_eq_dec : EqDecision kind.
Proof. solve_decision. Defined.

Unset Elimination Schemes.

(** The first seven constructors are what JSON.parse (with [undefined]
    for a missing property) produces; [VObject] lists the members in the
    order of the text.  [VInherited k p] is the member [p] found on the
    prototype chain of a value of kind [k]: a function or an object of
    the engine, of which the program only tests the truth value. *)
Inductive value : Type :=
| VUndefined
| VNull
| VBool (b : bool)
| VNumber (z : Z)
| VString (s : string)
| VArray (elems : list value)
| VObject (members : list (string * value))
| VInherited (k : kind) (p : string).

Set Elimination Schemes.

(** Induction with the hypothesis on every element of an array and on
    every member of an object. *)
Definition value_ind (P : value → Prop)
    (Hundef : P VUndefined) (Hnull : P VNull)
    (Hbool : ∀ b, P (VBool b)) (Hnum : ∀ z, P (VNumber z))
    (Hstr : ∀ s, P (VString s))
    (Harr : ∀ l, Forall P l → P (VArray l))
    (Hobj : ∀ ms, Forall (λ m, P m.2) ms → P (VObject ms))
    (Hinh : ∀ k p, P (VInherited k p)) : ∀ v, P v :=
  fix go (v : value) : P v :=
    match v with
    | VUndefined => Hundef
    | VNull => Hnull
    | VBool b => Hbool b
    | VNumber z => Hnum z
    | VString s => Hstr s
    | VArray l =>
        Harr l ((fix all (l : list value) : Forall P l :=
                   match l with
                   | [] => Forall_nil_2 P
                   | x :: l' => Forall_cons_2 P x l' (go x) (all l')
                   end) l)
    | VObject ms =>
        Hobj ms ((fix all (ms : list (string * value))
                    : Forall (λ m, P m.2) ms :=
                    match ms with
                    | [] => Forall_nil_2 _
                    | m :: ms' => Forall_cons_2 _ m ms' (go m.2) (all ms')
                    end) ms)
    | VInherited k p => Hinh k p
    end.

#[export] Instance value_eq_dec : EqDecision value.
Proof.
  unfold EqDecision, Decision. fix IH 1. intros v w.
  destruct v as [| |b|z|s|l|ms|k p], w as [| |b'|z'|s'|l'|ms'|k' p'];
    try (right; discriminate); try (left; reflexivity).
  - destruct (decide (b = b')) as [->|]; [by left|right; congruence].
  - destruct (decide (z = z')) as [->|]; [by left|right; congruence].
  - destruct (decide (s = s')) as [->|]; [by left|right; congruence].
  - destruct (@list_eq_dec _ IH l l') as [->|]; [by left|right; congruence].
  - destruct (@list_eq_dec _ (@prod_eq_dec _ _ _ IH) ms ms') as [->|];
      [by left|right; congruence].
  - destruct (decide (k = k')) as [->|]; [|right; congruence].
    destruct (decide (p = p')) as [->|]; [by left|right; congruence].
Defined.

(** ** The engine *)

(** The property names [app.js] itself reads: the three fields of the
    dataset and the three categories the annotations look for. *)
Definition reserved_names : list string :=
  ["years"; "categories"; "markers"; "Machine Learning & AI";
   "Social Sciences & Demographics"; "Pandemic & Public Health"].

Class Host := {
  (** whether a value of this kind inherits a member of this name *)
  inherits : kind → string → bool;
  (** the text ToString gives for such a member *)
  inherited_text : kind → string → string;
  (** the message of the TypeError for reading a property of [null]
      (first argument ["null"]) or [undefined] *)
  null_read_message : string → string → string;
  (** the message of the TypeError for calling a member that is not a
      function *)
  not_a_function_message : string → string;
  (** no prototype defines a name the program reads *)
  inherits_reserved : ∀ k p, p ∈ reserved_names → inherits k p = false;
  (** every prototype chain ends in Object.prototype, which has
      [toString] *)
  inherits_toString : ∀ k, inherits k "toString" = true
}.

(** Membership in a list of literals, by evaluation. *)
Ltac solve_elem_of := by apply (bool_decide_unpack _).

Lemma reserved_years : "years" ∈ reserved_names.
Proof. solve_elem_of. Qed.

Lemma reserved_categories : "categories" ∈ reserved_names.
Proof. solve_elem_of. Qed.

Lemma reserved_markers : "markers" ∈ reserved_names.
Proof. solve_elem_of. Qed.

#[export] Hint Resolve reserved_years reserved_categories reserved_markers : js.

(** ** Property keys *)

Definition digit_of (c : ascii) : option N :=
  let n := N_of_ascii c in
  if ((48 <=? n) && (n <=? 57))%N then Some (n - 48)%N else None.

Fixpoint parse_digits_go (acc : N) (s : string) : option N :=
  match s with
  | EmptyString => Some acc
  | String c s' =>
      match digit_of c with
      | Some d => parse_digits_go (10 * acc + d)%N s'
      | None => None
      end
  end.

Definition parse_digits (s : string) : option N :=
  match s with
  | EmptyString => None
  | _ => parse_digits_go 0 s
  end.

(** The largest length of an array, 2^32 - 1: indices are below it. *)
Definition max_length : N := 4294967295.

(** An array index: the canonical decimal text of an integer below
    2^32 - 1. *)
Definition array_index (p : string) : option N :=
  match parse_digits p with
  | Some n =>
      if bool_decide (pretty n = p) && (n <? max_length)%N then Some n else None
  | None => None
  end.

(** ** Own properties of an object *)

(** Lookup in an association list, first match. *)
Fixpoint assoc {V} (p : string) (o : list (string * V)) : option V :=
  match o with
  | [] => None
  | (q, v) :: o' => if decide (p = q) then Some v else assoc p o'
  end.

(** CreateDataProperty: a new key is appended, an existing one keeps its
    place and takes the new value. *)
Fixpoint define {V} (p : string) (v : V) (o : list (string * V))
  : list (string * V) :=
  match o with
  | [] => [(p, v)]
  | (q, w) :: o' =>
      if decide (p = q) then (p, v) :: o' else (q, w) :: define p v o'
  end.

(** The object JSON.parse builds from the members of the text. *)
Definition own_properties {V} (members : list (string * V))
  : list (string * V) :=
  foldl (λ o m, define m.1 m.2 o) [] members.

(** OrdinaryOwnPropertyKeys: array-index keys in ascending order, then
    the other keys in creation order. *)
Definition index_entries {V} (o : list (string * V)) : list (N * (string * V)) :=
  omap (λ m, (λ i, (i, m)) <$> array_index m.1) o.

Definition cmp_index {V} (a b : N * V) : Z := Z.of_N a.1 - Z.of_N b.1.

Definition index_key {V} (m : string * V) : Prop := is_Some (array_index m.1).

#[export] Instance index_key_dec {V} (m : string * V) : Decision (index_key m).
Proof. unfold index_key. apply _. Defined.

Definition ordered_entries {V} (o : list (string * V)) : list (string * V) :=
  (snd <$> insertion_sort cmp_index (index_entries o))
  ++ filter (λ m, ¬ index_key m) o.

(** The entries of an array: its elements under their indices. *)
Definition array_entries {V} (l : list V) : list (string * V) :=
  imap (λ i x, (pretty (N.of_nat i), x)) l.

Definition string_chars (s : string) : list value :=
  (λ c, VString (String c EmptyString)) <$> list_ascii_of_string s.

(** ** Operations *)

Section operations.
Context `{Host}.

(** ToBoolean. *)
Definition truthy (v : value) : bool :=
  match v with
  | VUndefined | VNull => false
  | VBool b => b
  | VNumber z => negb (z =? 0)
  | VString s => negb (bool_decide (s = EmptyString))
  | VArray _ | VObject _ | VInherited _ _ => true
  end.

(** [Array.isArray(v)]. *)
Definition isArray (v : value) : bool :=
  match v with VArray _ => true | _ => false end.

(** The result of looking [p] up on the prototype chain. *)
Definition inherited (k : kind) (p : string) : value :=
  if inherits k p then VInherited k p else VUndefined.

(** The own property [p] of an array-like list of elements. *)
Definition indexed (l : list value) (p : string) : option value :=
  if bool_decide (p = "length") then Some (VNumber (Z.of_nat (length l)))
  else i ← array_index p; l !! N.to_nat i.

(** [v.p] and [v[p]]. *)
Definition get (v : value) (p : string) : completion value :=
  match v with
  | VUndefined => Throw (mkError TypeErrorC (null_read_message "undefined" p))
  | VNull => Throw (mkError TypeErrorC (null_read_message "null" p))
  | VBool _ => Normal (inherited KBoolean p)
  | VNumber _ => Normal (inherited KNumber p)
  | VString s => Normal (default (inherited KString p) (indexed (string_chars s) p))
  | VArray l => Normal (default (inherited KArray p) (indexed l p))
  | VObject ms => Normal (default (inherited KObject p) (assoc p (own_properties ms)))
  | VInherited _ _ => Normal (inherited KFunction p)
  end.

(** [Object.entries(v)]. *)
Definition entries (v : value) : completion (list (string * value)) :=
  match v with
  | VUndefined | VNull =>
      Throw (mkError TypeErrorC "Cannot convert undefined or null to object")
  | VBool _ | VNumber _ | VInherited _ _ => Normal []
  | VString s => Normal (array_entries (string_chars s))
  | VArray l => Normal (array_entries l)
  | VObject ms => Normal (ordered_entries (own_properties ms))
  end.

(** Whether a member can be called: no value of a JSON text can, the
    members the engine provides can. *)
Definition callable (m : value) : bool :=
  match m with VInherited _ _ => true | _ => false end.

(** ToString. *)
Fixpoint to_text (v : value) : string :=
  match v with
  | VUndefined => "undefined"
  | VNull => "null"
  | VBool b => if b then "true" else "false"
  | VNumber z => pretty z
  | VString s => s
  | VArray l =>
      String.concat ","
        (map (λ x, match x with
                   | VUndefined | VNull => ""
                   | _ => to_text x
                   end) l)
  | VObject _ => "[object Object]"
  | VInherited k p => inherited_text k p
  end.

(** Whether ToString succeeds on an element of an array that is
    joined.  An object takes its text from its [toString]: a member of
    its own under that name, which a JSON text cannot make a function,
    leaves it without one. *)
Fixpoint joinable (v : value) : bool :=
  match v with
  | VObject ms => if assoc "toString" (own_properties ms) is Some _ then false else true
  | VArray l => forallb joinable l
  | _ => true
  end.

(** Whether the inherited [toString] returns: the one of arrays joins
    the texts of the elements. *)
Definition convertible (v : value) : bool :=
  match v with VArray l => forallb joinable l | _ => true end.

(** The method call [v.toString()]: the member is read like any other,
    so an own member of an object hides the inherited function, and a
    member that came from JSON is not a function. *)
Definition toString (v : value) : completion string :=
  m ← get v "toString";
  if callable m then
    if convertible v then Normal (to_text v)
    else Throw (mkError TypeErrorC "Cannot convert object to primitive value")
  else Throw (mkError TypeErrorC (not_a_function_message "toString")).

(** [l.indexOf(needle)] for a number [needle]: strict equality holds
    for the elements that are that number. *)
Definition is_number (needle : Z) (v : value) : bool :=
  match v with VNumber z => z =? needle | _ => false end.

Fixpoint indexOf_from (l : list value) (needle : Z) (i : Z) : Z :=
  match l with
  | [] => -1
  | v :: l' => if is_number needle v then i else indexOf_from l' needle (i + 1)
  end.

Definition indexOf (l : list value) (needle : Z) : Z := indexOf_from l needle 0.

End operations.

(** ** A host for the examples

    Every kind of value inherits the members of Object.prototype; the
    prototypes of the kinds themselves are left empty. *)

Definition object_prototype_names : list string :=
  ["constructor"; "hasOwnProperty"; "isPrototypeOf"; "propertyIsEnumerable";
   "toLocaleString"; "toString"; "valueOf"; "__proto__"; "__defineGetter__";
   "__defineSetter__"; "__lookupGetter__"; "__lookupSetter__"].

#[export] Program Instance object_prototype_host : Host := {|
  inherits _ p := bool_decide (p ∈ object_prototype_names);
  inherited_text _ p := "function " +:+ p +:+ "() { [native code] }";
  null_read_message what p :=
    "Cannot read properties of " +:+ what +:+ " (reading '" +:+ p +:+ "')";
  not_a_function_message p := p +:+ " is not a function"
|}.
Next Obligation.
  intros k p Hp. unfold reserved_names in Hp.
  repeat (apply elem_of_cons in Hp as [->|Hp]); try by vm_compute.
  by apply elem_of_nil in Hp.
Qed.
Next Obligation. done. Qed.

(** ** Association lists and property creation *)

Section assoc.
Context {V : Type}.
Implicit Types (p q : string) (v w : V) (o ms : list (string * V)).

Lemma assoc_cons p q v o :
  assoc p ((q, v) :: o) = if decide (p = q) then Some v else assoc p o.
Proof. reflexivity. Qed.

Lemma assoc_None p o : assoc p o = None ↔ p ∉ o.*1.
Proof.
  induction o as [|[q v] o IH]; simpl.
  { split; [intros _; apply not_elem_of_nil|done]. }
  rewrite not_elem_of_cons, <- IH. case_decide; [split; [done|tauto]|tauto].
Qed.

Lemma assoc_Some_elem_of p v o : assoc p o = Some v → (p, v) ∈ o.
Proof.
  induction o as [|[q w] o IH]; simpl; [done|].
  case_decide as Hpq; [intros [= ->]; subst; left|right; auto].
Qed.

Lemma assoc_elem_of p v o : NoDup o.*1 → (p, v) ∈ o → assoc p o = Some v.
Proof.
  induction o as [|[q w] o IH]; simpl; [by intros _ ?%elem_of_nil|].
  intros [Hq Hnd]%NoDup_cons [[= -> ->]|Hin]%elem_of_cons.
  - by rewrite decide_True.
  - rewrite decide_False; [auto|]. intros ->. apply Hq.
    apply list_elem_of_fmap. by exists (q, v).
Qed.

Lemma assoc_app p o1 o2 :
  assoc p (o1 ++ o2) = match assoc p o1 with Some v => Some v | None => assoc p o2 end.
Proof.
  induction o1 as [|[q v] o1 IH]; simpl; [done|]. by case_decide.
Qed.

Lemma define_keys p v o :
  (define p v o).*1 = if decide (p ∈ o.*1) then o.*1 else o.*1 ++ [p].
Proof.
  induction o as [|[q w] o IH]; [done|].
  cbn [define]. destruct (decide (p = q)) as [->|Hpq]; csimpl.
  - rewrite decide_True; [done|left].
  - rewrite IH. destruct (decide (p ∈ o.*1)) as [Hin|Hin].
    + rewrite decide_True; [done|by right].
    + rewrite decide_False; [done|]. by rewrite not_elem_of_cons.
Qed.

Lemma define_NoDup p v o : NoDup o.*1 → NoDup (define p v o).*1.
Proof.
  intros Hnd. rewrite define_keys. case_decide; [done|].
  apply NoDup_app. split_and!; [done| |apply NoDup_singleton].
  intros q Hq ->%list_elem_of_singleton. done.
Qed.

Lemma assoc_define p q v o :
  assoc q (define p v o) = if decide (q = p) then Some v else assoc q o.
Proof.
  induction o as [|[r w] o IH]; simpl; [done|].
  destruct (decide (p = r)) as [->|Hpr]; simpl.
  - by destruct (decide (q = r)).
  - rewrite IH. destruct (decide (q = r)) as [->|]; [|done].
    by rewrite decide_False.
Qed.

(** Defining a key that is new appends it. *)
Lemma define_fresh p v o : p ∉ o.*1 → define p v o = o ++ [(p, v)].
Proof.
  induction o as [|[q w] o IH]; simpl; [done|].
  intros [Hpq Hp]%not_elem_of_cons. by rewrite decide_False, IH.
Qed.

Lemma own_properties_snoc ms p v :
  own_properties (ms ++ [(p, v)]) = define p v (own_properties ms).
Proof. unfold own_properties. by rewrite foldl_app. Qed.

Lemma own_properties_NoDup ms : NoDup (own_properties ms).*1.
Proof.
  induction ms as [|[p v] ms IH] using rev_ind; [constructor|].
  rewrite own_properties_snoc. by apply define_NoDup.
Qed.

(** A repeated key takes its last value. *)
Lemma assoc_own_properties p ms :
  assoc p (own_properties ms) = assoc p (reverse ms).
Proof.
  induction ms as [|[q v] ms IH] using rev_ind; [done|].
  rewrite own_properties_snoc, assoc_define, reverse_snoc, assoc_cons, IH.
  done.
Qed.

(** Members with distinct keys are the properties, in the order of the
    text. *)
Lemma own_properties_distinct ms : NoDup ms.*1 → own_properties ms = ms.
Proof.
  induction ms as [|[p v] ms IH] using rev_ind; [done|].
  rewrite fmap_app, NoDup_app. intros (Hnd & Hp & _).
  rewrite own_properties_snoc, IH by done. apply define_fresh.
  intros Hin. apply (Hp p Hin). simpl. left.
Qed.

Lemma assoc_perm p o o' : NoDup o.*1 → o ≡ₚ o' → assoc p o = assoc p o'.
Proof.
  intros Hnd Hperm.
  assert (NoDup o'.*1) as Hnd' by by rewrite <- Hperm.
  destruct (assoc p o) as [v|] eqn:Ho.
  - symmetry. apply assoc_elem_of; [done|].
    rewrite <- Hperm. by apply assoc_Some_elem_of.
  - symmetry. apply assoc_None. rewrite <- Hperm. by apply assoc_None.
Qed.

(** *** The order of the keys *)

Lemma index_entries_snd o : (index_entries o).*2 = filter index_key o.
Proof.
  unfold index_entries, index_key.
  induction o as [|[p v] o IH]; [done|]. csimpl.
  destruct (array_index p) as [i|] eqn:Hp; csimpl.
  - rewrite filter_cons_True by (simpl; by rewrite Hp). by rewrite IH.
  - rewrite filter_cons_False by (simpl; rewrite Hp; by intros [? ?]). done.
Qed.

Lemma ordered_entries_perm o : ordered_entries o ≡ₚ o.
Proof.
  unfold ordered_entries.
  rewrite (insertion_sort_perm cmp_index), index_entries_snd.
  apply filter_app_complement.
Qed.

Lemma ordered_entries_NoDup o : NoDup o.*1 → NoDup (ordered_entries o).*1.
Proof. by rewrite ordered_entries_perm. Qed.

(** Without array-index keys the entries come in creation order. *)
Lemma ordered_entries_no_index o :
  Forall (λ m, ¬ index_key m) o → ordered_entries o = o.
Proof.
  intros Hall. unfold ordered_entries.
  assert (index_entries o = []) as ->.
  { apply fmap_nil_inv with (f := snd).
    rewrite index_entries_snd. by apply filter_none. }
  simpl. by apply filter_all.
Qed.

Lemma ordered_entries_singleton p v : ordered_entries [(p, v)] = [(p, v)].
Proof.
  unfold ordered_entries, index_entries, index_key. csimpl.
  destruct (array_index p) as [i|] eqn:Hp; csimpl.
  - rewrite filter_cons_False by (simpl; rewrite Hp; by intros []). done.
  - rewrite filter_cons_True by (simpl; rewrite Hp; by intros [? ?]). done.
Qed.

Lemma assoc_ordered_entries p o :
  NoDup o.*1 → assoc p (ordered_entries o) = assoc p o.
Proof.
  intros Hnd. symmetry. apply assoc_perm; [done|].
  symmetry. apply ordered_entries_perm.
Qed.

End assoc.

(** ** Property reads *)

Section get.
Context `{Host}.
Implicit Types (v : value) (p : string) (ms : list (string * value)).

Lemma get_object ms p :
  get (VObject ms) p
  = Normal (default (inherited KObject p) (assoc p (own_properties ms))).
Proof. reflexivity. Qed.

Lemma get_object_own ms p v :
  assoc p (own_properties ms) = Some v → get (VObject ms) p = Normal v.
Proof. intros Hp. by rewrite get_object, Hp. Qed.

Lemma inherited_reserved k p : p ∈ reserved_names → inherited k p = VUndefined.
Proof. intros Hp. unfold inherited. by rewrite (inherits_reserved k p Hp). Qed.

Lemma get_object_absent ms p :
  p ∈ reserved_names → assoc p (own_properties ms) = None →
  get (VObject ms) p = Normal VUndefined.
Proof. intros Hp Hnone. by rewrite get_object, Hnone, <- (inherited_reserved KObject p). Qed.

(** A read never throws on a value that is neither [null] nor
    [undefined]; every truthy value is such. *)
Lemma get_truthy v p : truthy v = true → is_normal (get v p) = true.
Proof. by destruct v. Qed.

Lemma entries_truthy v : truthy v = true → is_normal (entries v) = true.
Proof. by destruct v. Qed.

Lemma isArray_truthy v : isArray v = true → truthy v = true.
Proof. by destruct v. Qed.

Lemma isArray_inv v : isArray v = true → ∃ l, v = VArray l.
Proof. destruct v; try done. by eexists. Qed.

Lemma entries_object ms :
  entries (VObject ms) = Normal (ordered_entries (own_properties ms)).
Proof. reflexivity. Qed.

Lemma entries_object_NoDup ms es :
  entries (VObject ms) = Normal es → NoDup es.*1.
Proof.
  intros [= <-]. apply ordered_entries_NoDup, own_properties_NoDup.
Qed.

(** The entries of an object whose members have distinct keys, none of
    them an array index, are the members in the order of the text. *)
Lemma entries_object_plain ms :
  NoDup ms.*1 → Forall (λ m, ¬ index_key m) ms →
  entries (VObject ms) = Normal ms.
Proof.
  intros Hnd Hplain.
  by rewrite entries_object, own_properties_distinct, ordered_entries_no_index.
Qed.

Lemma array_entries_keys {V} (l : list V) :
  (array_entries l).*1 = (λ i, pretty (N.of_nat i)) <$> seq 0 (length l).
Proof.
  unfold array_entries. rewrite fmap_imap.
  apply (imap_seq_0 l (λ i, pretty (N.of_nat i))).
Qed.

Lemma array_entries_NoDup {V} (l : list V) : NoDup (array_entries l).*1.
Proof.
  rewrite array_entries_keys. apply NoDup_fmap_2; [|apply NoDup_seq].
  intros i j Hij. by apply (inj pretty), (inj N.of_nat) in Hij.
Qed.

(** The keys of [Object.entries] are distinct. *)
Lemma entries_NoDup v es : entries v = Normal es → NoDup es.*1.
Proof.
  destruct v; try done; try (intros [= <-]; constructor).
  - intros [= <-]. apply array_entries_NoDup.
  - intros [= <-]. apply array_entries_NoDup.
  - apply entries_object_NoDup.
Qed.

(** *** [indexOf] *)

Lemma is_number_spec z v : is_number z v = true ↔ v = VNumber z.
Proof.
  destruct v; simpl; try (split; [done|by intros [=]]).
  rewrite Z.eqb_eq. split; [by intros ->|by intros [= ->]].
Qed.

Lemma indexOf_from_find l z i :
  indexOf_from l z i
  = from_option (λ jv, i + Z.of_nat jv.1) (-1) (list_find (λ v, v = VNumber z) l).
Proof.
  revert i. induction l as [|v l IH]; intros i; [done|]. cbn [indexOf_from list_find].
  destruct (is_number z v) eqn:Hv.
  - apply is_number_spec in Hv. rewrite decide_True by done. simpl. lia.
  - rewrite decide_False by (intros ?%is_number_spec; congruence).
    rewrite IH. destruct (list_find _ l) as [[j w]|]; simpl; lia.
Qed.

(** [indexOf] is the position of the first element that is the number,
    and -1 when there is none. *)
Lemma indexOf_find l z :
  indexOf l z
  = from_option (λ jv, Z.of_nat jv.1) (-1) (list_find (λ v, v = VNumber z) l).
Proof.
  unfold indexOf. rewrite indexOf_from_find.
  by destruct (list_find _ l) as [[j w]|].
Qed.

(** A value that can be read once can be read under any name. *)
Lemma get_normal v p q : is_normal (get v p) = true → is_normal (get v q) = true.
Proof. by destruct v. Qed.

(** Reading a key of [Object.entries] gives the value it is paired
    with. *)
Lemma entries_get ms es p v :
  entries (VObject ms) = Normal es → (p, v) ∈ es → get (VObject ms) p = Normal v.
Proof.
  intros [= <-] Hin. apply get_object_own.
  rewrite ordered_entries_perm in Hin.
  apply assoc_elem_of; [apply own_properties_NoDup|done].
Qed.

End get.

#[export] Hint Rewrite @get_object : js_simpl.

(** ** The method call [toString] *)

(** The values [toString] can be called on: all but [null], [undefined],
    the objects that have, under that name, a member of their own that
    is not a function, and the arrays that hold such an object. *)
Definition printable (v : value) : Prop :=
  match v with
  | VUndefined | VNull => False
  | VObject ms =>
      from_option (λ m, callable m = true) True
        (assoc "toString" (own_properties ms))
  | VArray l => forallb joinable l = true
  | _ => True
  end.

#[export] Instance printable_dec v : Decision (printable v).
Proof.
  destruct v as [| |b|z|s|l|ms|k p]; simpl; try apply _.
  destruct (assoc "toString" (own_properties ms)); simpl; apply _.
Defined.

Section toString.
Context `{Host}.

Lemma inherited_toString k : inherited k "toString" = VInherited k "toString".
Proof. unfold inherited. by rewrite inherits_toString. Qed.

Lemma indexed_toString l : indexed l "toString" = None.
Proof. reflexivity. Qed.

(** On a value other than [null], [undefined] and an object with such
    a member of its own, reading [toString] gives the inherited
    function. *)
Lemma get_toString_inherited v :
  match v with
  | VUndefined | VNull => False
  | VObject ms => assoc "toString" (own_properties ms) = None
  | _ => True
  end →
  ∃ k, get v "toString" = Normal (VInherited k "toString").
Proof.
  destruct v as [| |b|z|s|l|ms|k p]; cbn [get]; try done; intros Hv;
    rewrite ?indexed_toString, ?Hv; cbn [default from_option];
    rewrite inherited_toString; by eexists.
Qed.

Lemma printable_convertible v : printable v → convertible v = true.
Proof. by destruct v. Qed.

Lemma toString_printable v : printable v → toString v = Normal (to_text v).
Proof.
  unfold toString. intros Hv. rewrite (printable_convertible v Hv).
  assert ((∃ k, get v "toString" = Normal (VInherited k "toString"))
    ∨ ∃ m, get v "toString" = Normal m ∧ callable m = true)
    as [[k ->]|(m & -> & Hm)]; [|done|by simpl; rewrite Hm].
  destruct v as [| |b|z|s|l|ms|k p]; try done;
    try (left; by apply get_toString_inherited).
  simpl in Hv. destruct (assoc _ _) as [m|] eqn:Hm.
  - right. exists m. by rewrite (get_object_own _ _ _ Hm).
  - left. by apply get_toString_inherited.
Qed.

Lemma toString_throw v :
  ¬ printable v → ∃ e, toString v = Throw e ∧ err_class e = TypeErrorC.
Proof.
  unfold toString. destruct v as [| |b|z|s|l|ms|k p]; simpl; intros Hv;
    try (by destruct Hv); try (by eexists).
  - rewrite inherited_toString. simpl.
    destruct (forallb joinable l); [by destruct Hv|by eexists].
  - destruct (assoc "toString" (own_properties ms)) as [m|]; simpl in *;
      [|by destruct Hv].
    destruct (callable m); [by destruct Hv|by eexists].
Qed.

Lemma toString_number z : toString (VNumber z) = Normal (pretty z).
Proof. by rewrite toString_printable. Qed.

End toString.

(** ** Array indices: printing and reading back *)

Section indices.
Implicit Types (n x d : N) (s p : string).

Lemma digit_of_char d : (d < 10)%N → digit_of (pretty_N_char d) = Some d.
Proof.
  intros Hd.
  assert (d = 0 ∨ d = 1 ∨ d = 2 ∨ d = 3 ∨ d = 4 ∨ d = 5 ∨ d = 6 ∨ d = 7
          ∨ d = 8 ∨ d = 9)%N as Hcases by lia.
  repeat (destruct Hcases as [->|Hcases]; [reflexivity|]). by subst.
Qed.

(** Reading the digits [pretty_N_go] puts before [s], then [s]. *)
Lemma parse_digits_go_pretty x s :
  parse_digits_go 0 (pretty_N_go x s) = parse_digits_go x s.
Proof.
  revert s. induction (N.lt_wf_0 x) as [x _ IH]. intros s.
  destruct (decide (x = 0%N)) as [->|Hx]; [by rewrite pretty_N_go_0|].
  rewrite pretty_N_go_step, IH by (try apply N.div_lt; lia).
  cbn [parse_digits_go]. rewrite digit_of_char by (apply N.mod_lt; lia).
  f_equal. symmetry. by apply N.div_mod.
Qed.

Lemma pretty_N_go_nonempty x s : s ≠ EmptyString → pretty_N_go x s ≠ EmptyString.
Proof.
  revert s. induction (N.lt_wf_0 x) as [x _ IH]. intros s Hs.
  destruct (decide (x = 0%N)) as [->|Hx]; [by rewrite pretty_N_go_0|].
  rewrite pretty_N_go_step by lia. apply IH; [apply N.div_lt; lia|done].
Qed.

Lemma parse_digits_pretty n : parse_digits (pretty n) = Some n.
Proof.
  unfold pretty, pretty_N. case_decide as Hn; [by subst|].
  assert (pretty_N_go n "" ≠ EmptyString) as Hne.
  { rewrite pretty_N_go_step by lia. by apply pretty_N_go_nonempty. }
  unfold parse_digits. destruct (pretty_N_go n "") as [|c s] eqn:Hs; [done|].
  by rewrite <- Hs, parse_digits_go_pretty.
Qed.

Lemma array_index_pretty n : (n < max_length)%N → array_index (pretty n) = Some n.
Proof.
  intros Hn. unfold array_index.
  rewrite parse_digits_pretty, bool_decide_true by done. simpl.
  by rewrite (proj2 (N.ltb_lt _ _) Hn).
Qed.

Lemma array_index_Some p n :
  array_index p = Some n → p = pretty n ∧ (n < max_length)%N.
Proof.
  unfold array_index. destruct (parse_digits p) as [m|]; [|done].
  destruct (bool_decide (pretty m = p)) eqn:Hp; [|done].
  destruct (m <? max_length)%N eqn:Hm; [|done]. intros [= <-].
  apply bool_decide_eq_true in Hp. by apply N.ltb_lt in Hm.
Qed.

Lemma pretty_not_length n : pretty n ≠ "length".
Proof.
  intros Hn. pose proof (parse_digits_pretty n) as Hp. by rewrite Hn in Hp.
Qed.

(** The element of an array-like list at index [i]. *)
Lemma indexed_pretty l i :
  (N.of_nat i < max_length)%N → indexed l (pretty (N.of_nat i)) = l !! i.
Proof.
  intros Hi. unfold indexed.
  rewrite bool_decide_false by apply pretty_not_length.
  rewrite array_index_pretty by done. simpl. by rewrite Nat2N.id.
Qed.

Lemma indexed_array_entries l p v :
  (N.of_nat (length l) ≤ max_length)%N →
  (p, v) ∈ array_entries l → indexed l p = Some v.
Proof.
  intros Hl (i & x & [= -> ->] & Hi)%elem_of_lookup_imap.
  rewrite indexed_pretty; [done|]. apply lookup_lt_Some in Hi. lia.
Qed.

End indices.

(** The number of indexed elements of a value. *)
Definition length_of (v : value) : nat :=
  match v with
  | VArray l => length l
  | VString s => String.length s
  | _ => 0
  end.

Section consistency.
Context `{Host}.

Lemma length_string_chars s : length (string_chars s) = String.length s.
Proof.
  unfold string_chars. rewrite length_fmap.
  induction s as [|c s IH]; simpl; [done|by rewrite IH].
Qed.

(** A property name is an array index exactly when it is the
    decimal text, without sign or leading zero, of a number below
    2^32 - 1: printing an index and reading it back gives the index, and
    nothing else reads as one. *)
Theorem array_index_spec p n :
  array_index p = Some n ↔ p = pretty n ∧ (n < max_length)%N.
Proof.
  split; [apply array_index_Some|]. intros [-> Hn]. by apply array_index_pretty.
Qed.

(** [Object.entries] and property read agree: on every value whose
    length is one an array can have, reading a key that
    [Object.entries] lists gives the value listed with it. *)
Theorem entries_get_agree v es p x :
  (N.of_nat (length_of v) ≤ max_length)%N →
  entries v = Normal es → (p, x) ∈ es → get v p = Normal x.
Proof.
  intros Hlen. destruct v as [| |b|z|s|l|ms|k q]; simpl in *; try done;
    try (by intros [= <-] ?%elem_of_nil).
  - intros [= <-] Hin. rewrite <- length_string_chars in Hlen.
    by rewrite (indexed_array_entries _ _ _ Hlen Hin).
  - intros [= <-] Hin. by rewrite (indexed_array_entries _ _ _ Hlen Hin).
  - intros Hes Hin. by apply (entries_get ms es).
Qed.

(** The names the program reads are no array indices. *)
Lemma reserved_not_index p :
  p ∈ reserved_names → parse_digits p = None ∧ p ≠ "length".
Proof.
  intros Hp. repeat (apply elem_of_cons in Hp as [->|Hp]; [by split|]).
  by apply elem_of_nil in Hp.
Qed.

Lemma indexed_reserved l p : p ∈ reserved_names → indexed l p = None.
Proof.
  intros [Hd Hl]%reserved_not_index. unfold indexed, array_index.
  by rewrite bool_decide_false, Hd.
Qed.

Lemma assoc_array_entries_reserved {V} (l : list V) p :
  p ∈ reserved_names → assoc p (array_entries l) = None.
Proof.
  intros [Hd _]%reserved_not_index. apply assoc_None.
  rewrite array_entries_keys. intros (i & -> & _)%list_elem_of_fmap.
  by rewrite parse_digits_pretty in Hd.
Qed.

(** Reading a name the program reads gives the value [Object.entries]
    lists with it, and [undefined] when it lists none. *)
Lemma get_entries_reserved v es p :
  entries v = Normal es → p ∈ reserved_names →
  get v p = Normal (default VUndefined (assoc p es)).
Proof.
  intros Hes Hp.
  destruct v as [| |b|z|s|l|ms|k q]; simpl in *; try done;
    injection Hes as <-; f_equal;
    rewrite ?indexed_reserved, ?assoc_array_entries_reserved by done;
    rewrite ?assoc_ordered_entries by apply own_properties_NoDup;
    try (by apply inherited_reserved).
  destruct (assoc p (own_properties ms)); [done|by apply inherited_reserved].
Qed.

End consistency.

Lemma entries_get_agree_witness :
  get (VArray [VNumber 7; VNull; VString "x"]) "2" = Normal (VString "x").
Proof.
  apply (entries_get_agree (VArray [VNumber 7; VNull; VString "x"])
           [("0", VNumber 7); ("1", VNull); ("2", VString "x")]).
  - by vm_compute.
  - reflexivity.
  - solve_elem_of.
Defined.

(** [Object.entries] lists the keys that are array indices first,
    in ascending numeric order, and then the other keys in the order of
    the text: category names that are integers do not keep the order
    of the dataset. *)
Theorem entries_integer_keys_first (a b c d : value) :
  entries (VObject [("B", a); ("10", b); ("9", c); ("07", d)])
  = Normal [("9", c); ("10", b); ("B", a); ("07", d)].
Proof. reflexivity. Qed.
