(* ===== verification/Loader.v ===== *)
(** * The dataset loader: [loadTopicData] and the panels it shows

    State: [AppState] (the global record of [app.js]), the content of the
    [#evolution-chart] element when the page has one, and the console.
    [loadTopicData] is the state transformer of lines 103-147: the [try]
    block is [loadTopicData_try], a completion; what it assigns on
    success is [on_loaded], what the [catch] block does is [on_failed].
    The network is an input: the completion of [fetch] and, inside the
    response, the completion of [response.json()]. *)

From Stdlib Require Import ZArith List Lia String.
From stdpp Require Import base tactics option list strings numbers pretty.
From S2P Require Import Prelude StableSort JsValue.

#[local] Open Scope string_scope.
#[local] Open Scope list_scope.
#[local] Open Scope Z_scope.

(** ** State *)

(** What [Plotly.newPlot] resolves to: the graph element. *)
Inductive chart_handle := GraphDiv.

Record AppState := mkAppState {
  data : option value;
  isLoading : bool;
  error : option js_error;
  chartInstance : option chart_handle
}.

(** [const AppState = { data: null, isLoading: true, ... }]. *)
Definition AppState_init : AppState :=
  mkAppState None true None None.

(** The three contents the program gives the chart element, and what
    the page had before. *)
Inductive panel :=
| Untouched
| LoadingPanel
| ErrorPanel (message : string)
| ChartPanel.

Inductive log_entry :=
| LogInfo (text : string) (details : list (string * Z))
| LogError (context : string) (e : js_error).

Record World := mkWorld {
  app : AppState;
  chart_element : option panel;
  console : list log_entry
}.

#[export] Instance chart_handle_eq_dec : EqDecision chart_handle.
Proof. solve_decision. Defined.

#[export] Instance panel_eq_dec : EqDecision panel.
Proof. solve_decision. Defined.

Definition set_app (f : AppState → AppState) (w : World) : World :=
  mkWorld (f (app w)) (chart_element w) (console w).

Definition set_panel (p : panel) (w : World) : World :=
  mkWorld (app w) ((λ _, p) <$> chart_element w) (console w).

Definition log (e : log_entry) (w : World) : World :=
  mkWorld (app w) (chart_element w) (console w ++ [e]).

(** ** The network *)

Record response := mkResponse {
  ok : bool;
  status : Z;
  statusText : string;
  json : completion value
}.

(** ** Utility functions *)

(** [console.error(`[TopicEvolution] Error in ${context}:`, error)]. *)
Definition logError (context : string) (e : js_error) : World → World :=
  log (LogError context e).

(** Sets the loading panel, if the page has the element. *)
Definition showLoadingState : World → World := set_panel LoadingPanel.

(** Sets the error panel; the parameter defaults to a fixed text. *)
Definition showErrorState (message : option string) : World → World :=
  set_panel (ErrorPanel (default "Failed to load data" message)).

(** ** Validation (lines 115-126) *)

Definition invalid_format : js_error :=
  Error "Invalid data format: missing required fields".

Definition inconsistency (category : string) : js_error :=
  Error ("Data inconsistency in category: " +:+ category).

Definition http_error (r : response) : js_error :=
  Error ("HTTP " +:+ pretty (status r) +:+ ": " +:+ statusText r).

(** The elements of a value that passed [Array.isArray]. *)
Definition array_elems (v : value) : list value :=
  match v with VArray l => l | _ => [] end.

(** [!Array.isArray(values) || values.length !== expectedLength]. *)
Definition inconsistent (expectedLength : nat) (values : value) : bool :=
  negb (isArray values)
  || negb (length (array_elems values) =? expectedLength)%nat.

(** The [for ... of Object.entries(data.categories)] loop. *)
Fixpoint check_categories (expectedLength : nat) (es : list (string * value))
  : completion unit :=
  match es with
  | [] => Normal tt
  | (category, values) :: rest =>
      throw_if (inconsistent expectedLength values) (inconsistency category)
        (check_categories expectedLength rest)
  end.

Section loader.
Context `{Host}.

Definition validate (d : value) : completion unit :=
  years ← get d "years";
  throw_if (negb (truthy years)) invalid_format (
  categories ← get d "categories";
  throw_if (negb (truthy categories)) invalid_format (
  throw_if (negb (isArray years)) invalid_format (
  es ← entries categories;
  check_categories (length (array_elems years)) es))).

(** ** [loadTopicData] *)

(** The [try] block up to the assignments. *)
Definition loadTopicData_try (fetched : completion response) : completion value :=
  r ← fetched;
  throw_if (negb (ok r)) (http_error r) (
  d ← json r;
  _ ← validate d;
  Normal d).

(** The summary the success branch logs. *)
Definition loaded_summary (d : value) : log_entry :=
  let years := Z.of_nat (length (array_elems (try_catch (get d "years") (λ _, VUndefined)))) in
  let categories :=
    Z.of_nat (length (try_catch
      (get d "categories" ≫= entries) (λ _, []))) in
  LogInfo "[TopicEvolution] Data loaded successfully:"
    [("years", years); ("categories", categories);
     ("totalDataPoints", years * categories)].

(** Lines 128-138. *)
Definition on_loaded (d : value) (w : World) : World :=
  log (loaded_summary d)
    (set_app (λ a, mkAppState (Some d) false None (chartInstance a)) w).

(** Lines 141-145. *)
Definition on_failed (e : js_error) (w : World) : World :=
  showErrorState (Some (message e))
    (logError "loadTopicData" e
      (set_app (λ a, mkAppState (data a) false (Some e) (chartInstance a)) w)).

Definition loadTopicData (fetched : completion response) (w : World)
  : World * option value :=
  let w := showLoadingState w in
  try_catch
    ((λ d, (on_loaded d w, Some d)) <$> loadTopicData_try fetched)
    (λ e, (on_failed e w, None)).

End loader.

(** ** What the validation checks, declaratively *)

(** A category series is an array of [n] elements. *)
Definition series_ok (n : nat) (m : string * value) : Prop :=
  ∃ vs, m.2 = VArray vs ∧ length vs = n.

Section loader_spec.
Context `{Host}.

(** The dataset has an array under [years], a truthy value under
    [categories], and every entry of the latter is an array as long as
    [years]. *)
Definition Validated (d : value) : Prop :=
  ∃ ys cats es,
    get d "years" = Normal (VArray ys) ∧
    get d "categories" = Normal cats ∧
    truthy cats = true ∧
    entries cats = Normal es ∧
    Forall (series_ok (length ys)) es.

(** ** Lemmas on the loop *)

Lemma inconsistent_false n c v : inconsistent n v = false ↔ series_ok n (c, v).
Proof.
  unfold inconsistent, series_ok. destruct v; simpl;
    try (split; [done|by intros (? & ? & ?)]).
  rewrite negb_false_iff, Nat.eqb_eq. split.
  - intros ?. by eexists.
  - by intros (vs & [= <-] & <-).
Qed.

Lemma check_categories_ok n es :
  check_categories n es = Normal tt ↔ Forall (series_ok n) es.
Proof.
  induction es as [|[c v] es IH]; simpl; [by split; [constructor|]|].
  rewrite Forall_cons, <- IH, <- (inconsistent_false n c v).
  destruct (inconsistent n v); simpl; [split; [done|by intros [? _]]|tauto].
Qed.

Lemma check_categories_throw_inv n es e :
  check_categories n es = Throw e →
  ∃ es1 c v es2, es = es1 ++ (c, v) :: es2 ∧ Forall (series_ok n) es1 ∧
    inconsistent n v = true ∧ e = inconsistency c.
Proof.
  induction es as [|[c v] es IH]; simpl; [done|].
  destruct (inconsistent n v) eqn:Hv; simpl.
  - intros [= <-]. by exists [], c, v, es.
  - intros (es1 & c' & v' & es2 & -> & ? & ? & ->)%IH.
    exists ((c, v) :: es1), c', v', es2. split_and!; try done.
    constructor; [by apply inconsistent_false|done].
Qed.

Lemma check_categories_offender n es1 c v es2 :
  Forall (series_ok n) es1 → inconsistent n v = true →
  check_categories n (es1 ++ (c, v) :: es2) = Throw (inconsistency c).
Proof.
  intros Hok Hbad. induction Hok as [|[c' v'] es1 Hc _ IH]; simpl.
  - by rewrite Hbad.
  - apply inconsistent_false in Hc. simpl in Hc. by rewrite Hc.
Qed.

(** ** Lemmas on [validate] *)

Lemma isArray_elems v : isArray v = true → v = VArray (array_elems v).
Proof. by destruct v. Qed.

Lemma validate_normal_inv d :
  validate d = Normal tt →
  ∃ years cats es,
    get d "years" = Normal years ∧ isArray years = true ∧
    get d "categories" = Normal cats ∧ truthy cats = true ∧
    entries cats = Normal es ∧
    check_categories (length (array_elems years)) es = Normal tt.
Proof.
  unfold validate.
  intros (years & Hy & (_ & Hrest)%throw_if_normal_inv)%bind_normal_inv.
  apply bind_normal_inv in Hrest
    as (cats & Hc & (Htc%negb_false_iff & Hrest)%throw_if_normal_inv).
  apply throw_if_normal_inv in Hrest as (Ha%negb_false_iff & Hrest).
  apply bind_normal_inv in Hrest as (es & He & Hloop).
  by exists years, cats, es.
Qed.

Lemma validate_intro d ys cats es :
  get d "years" = Normal (VArray ys) → get d "categories" = Normal cats →
  truthy cats = true → entries cats = Normal es →
  check_categories (length ys) es = Normal tt →
  validate d = Normal tt.
Proof.
  intros Hy Hc Ht He Hloop. unfold validate.
  rewrite Hy. simpl. rewrite Hc. simpl. rewrite Ht. simpl.
  rewrite He. simpl. done.
Qed.

(** ** Theorems *)

Lemma validate_Validated d : validate d = Normal tt → Validated d.
Proof.
  intros (years & cats & es & Hy & Ha & Hc & Ht & He & Hloop)%validate_normal_inv.
  exists (array_elems years), cats, es.
  rewrite <- (isArray_elems years Ha). split_and!; try done.
  by apply check_categories_ok.
Qed.

Lemma Validated_validate d : Validated d → validate d = Normal tt.
Proof.
  intros (ys & cats & es & Hy & Hc & Ht & He & Hall).
  eapply validate_intro; try done. by apply check_categories_ok.
Qed.

(** A dataset that passed the validation is not null: [if (!data)] does
    not fire on it. *)
Lemma Validated_truthy d : Validated d → truthy d = true.
Proof.
  intros (ys & _ & _ & Hy & _).
  destruct d as [| |b|z|s|l|ms|k p]; simpl in *; try done;
    by rewrite ?(inherited_reserved _ "years") in Hy by auto with js.
Qed.

(** C1: the validation of [loadTopicData] succeeds exactly on the
    datasets that have an array of years, a truthy [categories] value,
    and under every key of it an array as long as the years; on every
    other dataset it throws an [Error]. *)
Theorem validate_iff d :
  (validate d = Normal tt ↔ Validated d) ∧
  (¬ Validated d → ∃ e, validate d = Throw e).
Proof.
  split; [split; [apply validate_Validated|apply Validated_validate]|].
  intros Hd. destruct (validate d) as [[]|e] eqn:Hv; [|by exists e].
  by apply validate_Validated in Hv.
Qed.

(** C6: when the consistency loop throws, the message names the first
    category, in the order of [Object.entries], whose series is not an
    array of the expected length. *)
Theorem check_categories_first_offender n es e :
  check_categories n es = Throw e →
  ∃ es1 c v es2, es = es1 ++ (c, v) :: es2 ∧
    Forall (series_ok n) es1 ∧ ¬ series_ok n (c, v) ∧
    e = Error ("Data inconsistency in category: " +:+ c).
Proof.
  intros (es1 & c & v & es2 & -> & Hok & Hbad & ->)%check_categories_throw_inv.
  exists es1, c, v, es2. split_and!; try done.
  intros Hv%inconsistent_false. congruence.
Qed.

(** ** The state after [loadTopicData] *)

Lemma loadTopicData_try_validated fetched d :
  loadTopicData_try fetched = Normal d → validate d = Normal tt.
Proof.
  unfold loadTopicData_try.
  intros (r & _ & (_ & Hrest)%throw_if_normal_inv)%bind_normal_inv.
  apply bind_normal_inv in Hrest as (d' & _ & Hrest).
  apply bind_normal_inv in Hrest as ([] & Hv & [= ->]). done.
Qed.

Lemma loadTopicData_loaded fetched w d :
  loadTopicData_try fetched = Normal d →
  loadTopicData fetched w = (on_loaded d (showLoadingState w), Some d).
Proof. unfold loadTopicData. by intros ->. Qed.

Lemma loadTopicData_failed fetched w e :
  loadTopicData_try fetched = Throw e →
  loadTopicData fetched w = (on_failed e (showLoadingState w), None).
Proof. unfold loadTopicData. by intros ->. Qed.

(** C3: [loadTopicData] ends with [isLoading] false and the chart handle
    untouched, and either returns a dataset that passed the validation,
    stored in [AppState.data] with [error] null and the loading panel
    still shown, or returns null with the thrown error stored, logged
    last and shown in the error panel, [AppState.data] being as
    before. *)
Theorem loadTopicData_outcome fetched w :
  let r := loadTopicData fetched w in
  isLoading (app r.1) = false ∧
  chartInstance (app r.1) = chartInstance (app w) ∧
  match r.2 with
  | Some d =>
      loadTopicData_try fetched = Normal d ∧ Validated d ∧
      data (app r.1) = Some d ∧ error (app r.1) = None ∧
      chart_element r.1 = (λ _, LoadingPanel) <$> chart_element w
  | None =>
      ∃ e, loadTopicData_try fetched = Throw e ∧
        data (app r.1) = data (app w) ∧ error (app r.1) = Some e ∧
        chart_element r.1 = (λ _, ErrorPanel (message e)) <$> chart_element w ∧
        last (console r.1) = Some (LogError "loadTopicData" e)
  end.
Proof.
  destruct (loadTopicData_try fetched) as [d|e] eqn:Htry.
  - rewrite (loadTopicData_loaded _ _ _ Htry). simpl. split_and!; try done.
    by apply validate_Validated, (loadTopicData_try_validated fetched).
  - rewrite (loadTopicData_failed _ _ _ Htry). simpl. split_and!; try done.
    exists e. split_and!; try done.
    + by destruct (chart_element w).
    + by rewrite last_snoc.
Qed.

(** A response whose status is not a success yields null whatever
    its body holds; the panel shows [HTTP <status>: <statusText>] and no
    dataset is stored. *)
Theorem loadTopicData_http_error r w :
  ok r = false →
  loadTopicData (Normal r) w
  = (on_failed (Error ("HTTP " +:+ pretty (status r) +:+ ": " +:+ statusText r))
       (showLoadingState w), None).
Proof.
  intros Hok. apply loadTopicData_failed.
  unfold loadTopicData_try. simpl. by rewrite Hok.
Qed.

(** ** Missing fields *)

Lemma validate_years_absent ms :
  assoc "years" (own_properties ms) = None →
  validate (VObject ms) = Throw invalid_format.
Proof.
  intros Hy. unfold validate.
  by rewrite (get_object_absent ms "years") by auto with js.
Qed.

Lemma validate_categories_absent ms :
  assoc "categories" (own_properties ms) = None →
  validate (VObject ms) = Throw invalid_format.
Proof.
  intros Hc. unfold validate.
  rewrite (get_object_absent ms "categories") by auto with js.
  destruct (get (VObject ms) "years") as [years|] eqn:Hy; [|done].
  simpl. by destruct (truthy years).
Qed.

(** An object without a [years] member or without a [categories]
    member is refused as an invalid format, whatever else it holds and
    whatever the engine's prototypes define. *)
Theorem validate_missing_field ms :
  assoc "years" (own_properties ms) = None ∨
  assoc "categories" (own_properties ms) = None →
  validate (VObject ms) = Throw invalid_format.
Proof.
  intros [?|?]; [by apply validate_years_absent|by apply validate_categories_absent].
Qed.

(** ** What the validation does not check *)

(** The shape of [categories] is not checked: with a non-zero number
    in its place the dataset is accepted, with no category at all,
    whatever [years] holds. *)
Theorem validate_accepts_scalar_categories ys z :
  z ≠ 0 →
  validate (VObject [("years", VArray ys); ("categories", VNumber z)])
  = Normal tt.
Proof.
  intros Hz. apply (validate_intro _ ys (VNumber z) []); try done.
  simpl. by apply negb_true_iff, Z.eqb_neq.
Qed.

(** The elements are not checked: any two arrays of the same length
    are accepted as the years and as a series, whether they hold
    numbers, strings or [null], and whether they are empty. *)
Theorem validate_ignores_elements ys c vs :
  length vs = length ys →
  validate (VObject [("years", VArray ys);
                     ("categories", VObject [(c, VArray vs)])])
  = Normal tt.
Proof.
  intros Hlen.
  apply (validate_intro _ ys (VObject [(c, VArray vs)]) [(c, VArray vs)]);
    try done.
  - rewrite entries_object. unfold own_properties. simpl.
    by rewrite ordered_entries_singleton.
  - apply check_categories_ok. repeat constructor. by exists vs.
Qed.

End loader_spec.

Lemma loadTopicData_http_error_witness :
  loadTopicData (Normal (mkResponse false 404 "Not Found" (Normal VNull)))
    (mkWorld AppState_init (Some Untouched) [])
  = (mkWorld (mkAppState None false (Some (Error "HTTP 404: Not Found")) None)
       (Some (ErrorPanel "HTTP 404: Not Found"))
       [LogError "loadTopicData" (Error "HTTP 404: Not Found")], None).
Proof.
  apply (loadTopicData_http_error
    (mkResponse false 404 "Not Found" (Normal VNull))
    (mkWorld AppState_init (Some Untouched) [])).
  reflexivity.
Defined.

Lemma validate_missing_field_witness :
  validate (VObject [("categories", VObject [("A", VArray [])])])
  = Throw (Error "Invalid data format: missing required fields").
Proof.
  apply (validate_missing_field [("categories", VObject [("A", VArray [])])]).
  left. reflexivity.
Defined.

Lemma validate_accepts_scalar_categories_witness :
  validate (VObject [("years", VArray [VNumber 2016]); ("categories", VNumber 5)])
  = Normal tt.
Proof. apply (validate_accepts_scalar_categories [VNumber 2016] 5). lia. Defined.

Lemma validate_ignores_elements_witness :
  validate (VObject [("years", VArray [VNull]);
                     ("categories", VObject [("A", VArray [VString "x"])])])
  = Normal tt.
Proof.
  apply (validate_ignores_elements [VNull] "A" [VString "x"]). reflexivity.
Defined.

Lemma check_categories_first_offender_witness :
  ∃ es1 c v es2,
    [("A", VArray [VNumber 1; VNumber 2]); ("B", VArray [VNumber 1]);
     ("C", VNull)] = es1 ++ (c, v) :: es2 ∧
    Forall (series_ok 2) es1 ∧ ¬ series_ok 2 (c, v) ∧
    Error "Data inconsistency in category: B"
    = Error ("Data inconsistency in category: " +:+ c).
Proof.
  apply (check_categories_first_offender 2
    [("A", VArray [VNumber 1; VNumber 2]); ("B", VArray [VNumber 1]);
     ("C", VNull)]).
  reflexivity.
Defined.
