(* ===== verification/Traces.v ===== *)
(** * The series builder: [createChartTraces]

    [createChartTraces] (lines 156-203) reads a validated dataset.  In
    this file the counts are integers, so that what the builder
    computes is stated with sums and orders of integers: [Dataset] is
    the typed view of a dataset, [decode] computes it from the untyped
    value, and [decode_total] shows that what the loader accepted
    decodes to a well-formed dataset as soon as its counts are numbers.
    The sort of the engine is a parameter that meets
    [StableSort.Sorter].  [Raw] gives the builder on every dataset the
    loader accepts and shows that on integers it is the one of this
    file. *)

From Stdlib Require Import ZArith List Lia String Sorted.
From stdpp Require Import base tactics option list strings numbers pretty.
From S2P Require Import Prelude StableSort JsValue Loader.

#[local] Open Scope string_scope.
#[local] Open Scope list_scope.
#[local] Open Scope Z_scope.

(** ** The typed dataset *)

Record Dataset := mkDataset {
  (** [data.years]: the elements are only compared and printed *)
  years : list value;
  (** [Object.entries(data.categories)] *)
  categories : list (string * list Z);
  (** [data.markers], [undefined] when the dataset has none *)
  markers : value
}.

(** Category names are distinct and every series is as long as the
    years. *)
Definition wf (ds : Dataset) : Prop :=
  NoDup (categories ds).*1 ∧
  Forall (λ c, length c.2 = length (years ds)) (categories ds).

Definition as_number (v : value) : option Z :=
  match v with VNumber z => Some z | _ => None end.

Definition as_numbers (v : value) : option (list Z) :=
  match v with VArray l => mapM as_number l | _ => None end.

Definition as_series (m : string * value) : option (string * list Z) :=
  (λ zs, (m.1, zs)) <$> as_numbers m.2.

Section decode.
Context `{Host}.

Definition decode (d : value) : option Dataset :=
  match get d "years", get d "categories" ≫= entries, get d "markers" with
  | Normal (VArray ys), Normal es, Normal ms =>
      (λ cs, mkDataset ys cs ms) <$> mapM as_series es
  | _, _, _ => None
  end.

End decode.

(** ** Configuration (lines 32-47) *)

Definition colors : list string :=
  ["#FF6B6B"; "#4ECDC4"; "#45B7D1"; "#96CEB4"; "#FFEAA7";
   "#DDA0DD"; "#98D8C8"; "#F7DC6F"; "#FF9FF3"; "#54A0FF";
   "#5F27CD"; "#00D2D3"; "#FF9F43"; "#10AC84"; "#EE5A24";
   "#0AD3C4"; "#FFC312"; "#C4E538"; "#F79F1F"; "#A3CB38"].

(** ** Traces *)

(** The fields of a trace that depend on the data; the others are
    constants of the source. *)
Record trace := mkTrace {
  x : list value;
  y : list Z;
  name : string;
  line_color : value;
  marker_color : value;
  marker_symbol : value
}.

(** [values.reduce((sum, val) => sum + val, 0)]. *)
Definition total (values : list Z) : Z :=
  reduce (λ sum val, sum + val) 0 values.

(** The objects [{ name, values, total }] of line 161. *)
Definition with_total (c : string * list Z) : string * list Z * Z :=
  (c.1, c.2, total c.2).

(** [(a, b) => b.total - a.total]. *)
Definition by_total (a b : string * list Z * Z) : Z := b.2 - a.2.

(** [a[i]] on an array of strings: [undefined] out of range. *)
Definition at_index (a : list string) (i : nat) : value :=
  from_option VString VUndefined (a !! i).

Section traces.
Context `{Host}.
Context (sort : ∀ A, (A → A → Z) → list A → list A).

Definition categoryTotals (ds : Dataset) : list (string * list Z * Z) :=
  sort _ by_total (with_total <$> categories ds).

(** [data.markers && data.markers[name] ? data.markers[name] : 'circle']. *)
Definition symbol_of (ms : value) (name : string) : completion value :=
  if truthy ms then
    m ← get ms name;
    Normal (if truthy m then m else VString "circle")
  else Normal (VString "circle").

(** The body of [categoryTotals.forEach], with [colorIndex] as it is
    when the body runs. *)
Definition make_trace (ds : Dataset) (colorIndex : nat)
    (c : string * list Z * Z) : completion trace :=
  let color := at_index colors (colorIndex mod length colors) in
  symbol ← symbol_of (markers ds) c.1.1;
  Normal (mkTrace (years ds) c.1.2 c.1.1 color color symbol).

(** The loop: one [push] per element, [colorIndex++] after each. *)
Fixpoint push_traces (ds : Dataset) (colorIndex : nat)
    (cs : list (string * list Z * Z)) : completion (list trace) :=
  match cs with
  | [] => Normal []
  | c :: rest =>
      t ← make_trace ds colorIndex c;
      ts ← push_traces ds (S colorIndex) rest;
      Normal (t :: ts)
  end.

Definition createChartTraces (ds : Dataset) : completion (list trace) :=
  push_traces ds 0 (categoryTotals ds).

End traces.

(** The category a trace draws. *)
Definition series (t : trace) : string * list Z := (name t, y t).

(** ** What the builder promises

    The traces are in descending order of total; categories of equal
    total are in the order of the dataset; every trace carries the years,
    the palette colour of its position and the symbol of its category. *)
Record IsChart `{Host} (ds : Dataset) (ts : list trace) : Prop := {
  chart_ordered : StronglySorted (λ a b, total (y b) ≤ total (y a)) ts;
  chart_stable : ∀ k,
    filter (λ c, total c.2 = k) (series <$> ts)
    = filter (λ c, total c.2 = k) (categories ds);
  chart_fields : ∀ i t, ts !! i = Some t →
    x t = years ds ∧
    line_color t = at_index colors (i mod length colors) ∧
    marker_color t = line_color t ∧
    symbol_of (markers ds) (name t) = Normal (marker_symbol t)
}.

(** ** The comparator *)

#[export] Instance by_total_consistent : Consistent by_total.
Proof. split; unfold precedes, by_total; intros; lia. Qed.

Lemma total_cons z zs : total (z :: zs) = z + total zs.
Proof. apply (reduce_add_cons 0 z zs). Qed.

Lemma total_app zs1 zs2 : total (zs1 ++ zs2) = total zs1 + total zs2.
Proof. apply (reduce_add_app 0 zs1 zs2). Qed.

(** ** Symbols *)

Section symbols.
Context `{Host}.
Implicit Types (ms m : value) (c : string).

Lemma symbol_of_falsy ms c :
  truthy ms = false → symbol_of ms c = Normal (VString "circle").
Proof. unfold symbol_of. by intros ->. Qed.

Lemma symbol_of_truthy ms c m :
  truthy ms = true → get ms c = Normal m →
  symbol_of ms c = Normal (if truthy m then m else VString "circle").
Proof. unfold symbol_of. by intros -> ->. Qed.

Lemma symbol_of_total ms c : ∃ s, symbol_of ms c = Normal s ∧ truthy s = true.
Proof.
  destruct (truthy ms) eqn:Hms.
  - pose proof (get_truthy ms c Hms) as Hget.
    destruct (get ms c) as [m|] eqn:Hm; [|done].
    rewrite (symbol_of_truthy ms c m Hms Hm).
    eexists. split; [done|]. by destruct (truthy m) eqn:?.
  - rewrite symbol_of_falsy by done. by eexists.
Qed.

End symbols.

(** ** The loop *)

Section loop.
Context `{Host}.
Implicit Types (ds : Dataset) (c : string * list Z * Z)
  (cs : list (string * list Z * Z)) (t : trace) (ts : list trace) (i j : nat).

Lemma make_trace_total ds i c : ∃ t, make_trace ds i c = Normal t.
Proof.
  unfold make_trace.
  destruct (symbol_of_total (markers ds) c.1.1) as (s & -> & _). by eexists.
Qed.

Lemma make_trace_inv ds i c t :
  make_trace ds i c = Normal t →
  series t = c.1 ∧ x t = years ds ∧
  line_color t = at_index colors (i mod length colors) ∧
  marker_color t = line_color t ∧
  symbol_of (markers ds) (name t) = Normal (marker_symbol t).
Proof.
  unfold make_trace. intros (s & Hs & [= <-])%bind_normal_inv.
  by destruct c as [[??]?].
Qed.

Lemma push_traces_total ds i cs : ∃ ts, push_traces ds i cs = Normal ts.
Proof.
  revert i. induction cs as [|c cs IH]; intros i; simpl; [by eexists|].
  destruct (make_trace_total ds i c) as [t ->].
  destruct (IH (S i)) as [ts ->]. by eexists.
Qed.

Lemma push_traces_cons_inv ds i c cs ts :
  push_traces ds i (c :: cs) = Normal ts →
  ∃ t ts', ts = t :: ts' ∧ make_trace ds i c = Normal t ∧
    push_traces ds (S i) cs = Normal ts'.
Proof.
  simpl. intros (t & Ht & (ts' & Hts & [= <-])%bind_normal_inv)%bind_normal_inv.
  by exists t, ts'.
Qed.

Lemma push_traces_series ds i cs ts :
  push_traces ds i cs = Normal ts → series <$> ts = fst <$> cs.
Proof.
  revert i ts. induction cs as [|c cs IH]; intros i ts.
  { by intros [= <-]. }
  intros (t & ts' & -> & Ht & Hts)%push_traces_cons_inv. csimpl.
  apply make_trace_inv in Ht as [-> _]. f_equal. by eapply IH.
Qed.

Lemma push_traces_lookup ds i cs ts j t :
  push_traces ds i cs = Normal ts → ts !! j = Some t →
  ∃ c, cs !! j = Some c ∧ make_trace ds (i + j) c = Normal t.
Proof.
  revert i ts j. induction cs as [|c cs IH]; intros i ts j.
  { by intros [= <-]. }
  intros (t' & ts' & -> & Ht & Hts)%push_traces_cons_inv.
  destruct j as [|j]; simpl.
  - intros [= ->]. exists c. by rewrite Nat.add_0_r.
  - intros Hj. destruct (IH _ _ _ Hts Hj) as (c' & ? & ?).
    exists c'. by rewrite Nat.add_succ_r.
Qed.

End loop.

(** ** The sorted categories *)

Lemma fst_with_total (cs : list (string * list Z)) :
  fst <$> (with_total <$> cs) = cs.
Proof. induction cs as [|[??] cs IH]; [done|]. csimpl. by rewrite IH. Qed.

Lemma filter_with_total k (cs : list (string * list Z)) :
  fst <$> filter (λ a, a.2 = k) (with_total <$> cs)
  = filter (λ c, total c.2 = k) cs.
Proof.
  rewrite (filter_fmap with_total (λ a, a.2 = k)), fst_with_total.
  by apply list_filter_iff.
Qed.

Section sorted.
Context (sort : ∀ A, (A → A → Z) → list A → list A) `{!Sorter sort}.
Implicit Types (ds : Dataset).

Lemma categoryTotals_perm ds :
  categoryTotals sort ds ≡ₚ with_total <$> categories ds.
Proof. apply (sorter_perm sort by_total). Qed.

(** Every sorted element still carries the total of its own values. *)
Lemma categoryTotals_with_total ds :
  categoryTotals sort ds = with_total <$> (fst <$> categoryTotals sort ds).
Proof.
  assert (Forall (λ c, c = with_total c.1) (categoryTotals sort ds)) as Hall.
  { rewrite categoryTotals_perm. apply Forall_fmap, Forall_true. by intros []. }
  induction Hall as [|c cs Hc _ IH]; [done|]. csimpl. by rewrite <- Hc, <- IH.
Qed.

Lemma sorted_categories_perm ds :
  fst <$> categoryTotals sort ds ≡ₚ categories ds.
Proof. by rewrite categoryTotals_perm, fst_with_total. Qed.

Lemma sorted_categories_ordered ds :
  StronglySorted (λ a b, total b.2 ≤ total a.2) (fst <$> categoryTotals sort ds).
Proof.
  apply (StronglySorted_fmap_iff with_total (λ a b, b.2 ≤ a.2)).
  rewrite <- categoryTotals_with_total.
  apply (ordered_descending snd), (sorter_ordered (sort:=sort) _ by_total).
Qed.

Lemma sorted_categories_stable ds k :
  filter (λ c, total c.2 = k) (fst <$> categoryTotals sort ds)
  = filter (λ c, total c.2 = k) (categories ds).
Proof.
  rewrite <- !filter_with_total, <- categoryTotals_with_total. f_equal.
  apply (stable_descending snd), (sorter_stable (sort:=sort) _ by_total).
Qed.

End sorted.

(** Sorted and stable determine the order. *)
Lemma sorted_categories_unique (cs l1 l2 : list (string * list Z)) :
  StronglySorted (λ a b, total b.2 ≤ total a.2) l1 →
  StronglySorted (λ a b, total b.2 ≤ total a.2) l2 →
  (∀ k, filter (λ c, total c.2 = k) l1 = filter (λ c, total c.2 = k) cs) →
  (∀ k, filter (λ c, total c.2 = k) l2 = filter (λ c, total c.2 = k) cs) →
  l1 = l2.
Proof.
  intros H1 H2 Hs1 Hs2.
  apply (ordered_stable_unique (descending (λ c, total c.2))).
  - by apply ordered_descending.
  - by apply ordered_descending.
  - apply stable_descending. intros k. by rewrite Hs1, Hs2.
Qed.

Lemma trace_eq (t u : trace) :
  series t = series u → x t = x u → line_color t = line_color u →
  marker_color t = marker_color u → marker_symbol t = marker_symbol u →
  t = u.
Proof. destruct t, u. unfold series. simpl. by intros [= -> ->] -> -> -> ->. Qed.

(** ** Theorems *)

Section theorems.
Context `{Host}.
Context (sort : ∀ A, (A → A → Z) → list A → list A) `{!Sorter sort}.
Implicit Types (ds : Dataset) (ts : list trace).

Lemma createChartTraces_series ds ts :
  createChartTraces sort ds = Normal ts →
  series <$> ts = fst <$> categoryTotals sort ds.
Proof. apply push_traces_series. Qed.

Lemma createChartTraces_fields ds ts i t :
  createChartTraces sort ds = Normal ts → ts !! i = Some t →
  x t = years ds ∧
  line_color t = at_index colors (i mod length colors) ∧
  marker_color t = line_color t ∧
  symbol_of (markers ds) (name t) = Normal (marker_symbol t).
Proof.
  intros Hts Hi.
  destruct (push_traces_lookup _ _ _ _ _ _ Hts Hi) as (c & _ & Hc).
  by apply make_trace_inv in Hc as (_ & ? & ? & ? & ?).
Qed.

Lemma createChartTraces_sound ds ts :
  createChartTraces sort ds = Normal ts → IsChart ds ts.
Proof.
  intros Hts. pose proof (createChartTraces_series ds ts Hts) as Hser. split.
  - apply (StronglySorted_fmap_iff series (λ a b, total b.2 ≤ total a.2)).
    rewrite Hser. by apply sorted_categories_ordered.
  - intros k. rewrite Hser. by apply sorted_categories_stable.
  - intros i t. by apply createChartTraces_fields.
Qed.

Lemma IsChart_unique ds ts us : IsChart ds ts → IsChart ds us → ts = us.
Proof.
  intros [Ho1 Hs1 Hf1] [Ho2 Hs2 Hf2].
  apply (fmap_eq_pointwise series).
  - apply (sorted_categories_unique (categories ds)); try done;
      by apply (StronglySorted_fmap_iff series (λ a b, total b.2 ≤ total a.2)).
  - intros i t u Ht Hu Hser.
    destruct (Hf1 i t Ht) as (Hx1 & Hl1 & Hm1 & Hy1).
    destruct (Hf2 i u Hu) as (Hx2 & Hl2 & Hm2 & Hy2).
    assert (name t = name u) as Hname by by injection Hser.
    rewrite Hname, Hy2 in Hy1.
    apply trace_eq; try congruence.
Qed.

(** C9: the builder has no failure path: on every dataset, with any
    markers value, [createChartTraces] returns a list of traces. *)
Theorem createChartTraces_total ds : ∃ ts, createChartTraces sort ds = Normal ts.
Proof. apply push_traces_total. Qed.

(** C2: [createChartTraces] returns exactly the chart the documentation
    describes: traces in descending order of total, ties in the order of
    the dataset, each with the years, the palette colour of its position
    and the symbol of its category; and there is only one such list. *)
Theorem createChartTraces_spec ds ts :
  createChartTraces sort ds = Normal ts ↔ IsChart ds ts.
Proof.
  split; [apply createChartTraces_sound|]. intros Hchart.
  destruct (push_traces_total ds 0 (categoryTotals sort ds)) as [us Hus].
  change (createChartTraces sort ds = Normal us) in Hus. rewrite Hus. f_equal.
  symmetry. eapply IsChart_unique; [done|]. by apply createChartTraces_sound.
Qed.

(** C10: no category is lost or repeated: the traces, as (name, values)
    pairs, are a permutation of the categories of the dataset. *)
Theorem createChartTraces_perm ds ts :
  createChartTraces sort ds = Normal ts → series <$> ts ≡ₚ categories ds.
Proof.
  intros ->%createChartTraces_series. by apply sorted_categories_perm.
Qed.

(** The colour index never leaves the palette: the trace at position
    [i] has, as line and as marker colour, the palette entry [i mod 20],
    which exists. *)
Lemma createChartTraces_palette ds ts i t :
  createChartTraces sort ds = Normal ts → ts !! i = Some t →
  ∃ s, colors !! (i mod 20)%nat = Some s ∧
    line_color t = VString s ∧ marker_color t = VString s.
Proof.
  intros Hts Hi.
  destruct (createChartTraces_fields ds ts i t Hts Hi) as (_ & Hl & Hm & _).
  destruct (lookup_lt_is_Some_2 colors (i mod 20)%nat) as [s Hs].
  { apply Nat.mod_upper_bound. done. }
  exists s. rewrite Hm, Hl. unfold at_index.
  change (length colors) with 20%nat. by rewrite Hs.
Qed.

(** Colours cycle with the size of the palette: two traces twenty
    positions apart have the same colour. *)
Theorem createChartTraces_colors_cycle ds ts i t u :
  createChartTraces sort ds = Normal ts →
  ts !! i = Some t → ts !! (i + 20)%nat = Some u →
  line_color t = line_color u.
Proof.
  intros Hts Ht Hu.
  destruct (createChartTraces_fields ds ts _ t Hts Ht) as (_ & -> & _).
  destruct (createChartTraces_fields ds ts _ u Hts Hu) as (_ & -> & _).
  change (length colors) with 20%nat. f_equal.
  by rewrite <- (Nat.Div0.add_mod_idemp_r i 20 20), Nat.Div0.mod_same, Nat.add_0_r.
Qed.

(** One trace per category. *)
Lemma createChartTraces_length ds ts :
  createChartTraces sort ds = Normal ts → length ts = length (categories ds).
Proof.
  intros Hts%createChartTraces_series.
  by rewrite <- (length_fmap series), Hts, sorted_categories_perm.
Qed.

(** A category of larger total is drawn before one of smaller total. *)
Lemma createChartTraces_larger_first ds ts i j t u :
  createChartTraces sort ds = Normal ts →
  ts !! i = Some t → ts !! j = Some u → total (y u) < total (y t) →
  (i < j)%nat.
Proof.
  intros [Hsorted _ _]%createChartTraces_sound Ht Hu Hlt.
  destruct (Nat.lt_trichotomy i j) as [?|[->|Hji]]; [done|..].
  - rewrite Ht in Hu. injection Hu as ->. lia.
  - pose proof (StronglySorted_lookup _ _ _ _ _ _ Hsorted Hu Ht Hji). simpl in *. lia.
Qed.

Lemma colors_NoDup : NoDup colors.
Proof. apply (bool_decide_unpack _). by vm_compute. Qed.

(** Two categories share a colour only if there are more categories
    than colours: with at most twenty categories the colours of the
    traces are pairwise distinct. *)
Lemma createChartTraces_colors_distinct ds ts :
  createChartTraces sort ds = Normal ts →
  (length (categories ds) ≤ length colors)%nat →
  NoDup (line_color <$> ts).
Proof.
  intros Hts Hlen. rewrite <- (createChartTraces_length ds ts Hts) in Hlen.
  apply NoDup_alt. intros i j c.
  rewrite !list_lookup_fmap. intros (t & Ht & ->)%fmap_Some (u & Hu & Hc)%fmap_Some.
  destruct (createChartTraces_fields ds ts i t Hts Ht) as (_ & Hi & _).
  destruct (createChartTraces_fields ds ts j u Hts Hu) as (_ & Hj & _).
  apply lookup_lt_Some in Ht as Hil. apply lookup_lt_Some in Hu as Hjl.
  rewrite Hi, Hj, !Nat.mod_small in Hc by lia. unfold at_index in Hc.
  destruct (lookup_lt_is_Some_2 colors i) as [s Hs]; [lia|].
  destruct (lookup_lt_is_Some_2 colors j) as [s' Hs']; [lia|].
  rewrite Hs, Hs' in Hc. injection Hc as <-.
  eapply NoDup_lookup; [apply colors_NoDup|done..].
Qed.

(** C11: the colours of the traces.  The colour index never leaves the
    palette: the trace at position [i] has, as line and as marker
    colour, the palette entry [i mod 20], which exists.  Two categories
    share a colour only if there are more categories than colours: with
    at most twenty categories the colours are pairwise distinct, and
    two traces twenty positions apart have the same colour. *)
Theorem createChartTraces_colors ds ts :
  createChartTraces sort ds = Normal ts →
  (∀ i t, ts !! i = Some t →
     ∃ s, colors !! (i mod 20)%nat = Some s ∧
       line_color t = VString s ∧ marker_color t = VString s) ∧
  ((length (categories ds) ≤ length colors)%nat → NoDup (line_color <$> ts)) ∧
  (∀ i t u, ts !! i = Some t → ts !! (i + 20)%nat = Some u →
     line_color t = line_color u).
Proof.
  intros Hts. split_and!.
  - intros i t. by apply (createChartTraces_palette ds).
  - by apply createChartTraces_colors_distinct.
  - intros i t u. by apply (createChartTraces_colors_cycle ds).
Qed.

End theorems.

(** C7: any two engines whose sort meets the contract build the same
    traces. *)
Theorem createChartTraces_engine_independent `{Host}
    (sort1 sort2 : ∀ A, (A → A → Z) → list A → list A)
    `{!Sorter sort1, !Sorter sort2} ds :
  createChartTraces sort1 ds = createChartTraces sort2 ds.
Proof.
  unfold createChartTraces, categoryTotals.
  by rewrite (sorter_insertion_sort sort1 by_total),
    (sorter_insertion_sort sort2 by_total).
Qed.

(** ** Symbols of an object of markers *)

Section symbol_cases.
Context `{Host}.

(** C40: with an object as [markers], the symbol of a category is its
    own entry when that is truthy; the default when the entry is falsy,
    or when there is none and the name is not inherited; and the
    inherited member when the name is one the prototype chain defines. *)
Theorem symbol_of_object ms c :
  symbol_of (VObject ms) c
  = Normal match assoc c (own_properties ms) with
           | Some s => if truthy s then s else VString "circle"
           | None =>
               if inherits KObject c then VInherited KObject c
               else VString "circle"
           end.
Proof.
  unfold symbol_of. simpl. unfold inherited.
  destruct (assoc c (own_properties ms)) as [s|]; simpl; [done|].
  by destruct (inherits KObject c).
Qed.

End symbol_cases.

(** ** Bounds *)

(** A series of [n] counts between 0 and [b] has a total between 0
    and [n * b]; below 2^53 the sum computed in doubles is exact. *)
Theorem total_bound (b : Z) (values : list Z) :
  Forall (λ v, 0 ≤ v ≤ b) values →
  Z.of_nat (length values) * b < 2 ^ 53 →
  0 ≤ total values < 2 ^ 53.
Proof.
  intros Hall Hb. pose proof (reduce_add_bounds 0 b values Hall) as Hsum.
  change (total values) with (reduce Z.add 0 values). lia.
Qed.

(** ** From the loader's dataset to the typed one *)

Lemma as_numbers_length v zs :
  as_numbers v = Some zs → ∃ l, v = VArray l ∧ length zs = length l.
Proof.
  destruct v as [| | | | |l| |]; try done. simpl.
  intros Hzs%length_mapM. by exists l.
Qed.

Lemma as_numbers_total l :
  Forall (λ v, is_Some (as_number v)) l → is_Some (as_numbers (VArray l)).
Proof. intros Hall. by apply mapM_is_Some_2. Qed.

Lemma as_series_inv m c :
  as_series m = Some c → c.1 = m.1 ∧ as_numbers m.2 = Some c.2.
Proof.
  unfold as_series. destruct (as_numbers m.2) as [zs|]; [|done].
  by intros [= <-].
Qed.

Lemma mapM_as_series_keys es cs : mapM as_series es = Some cs → cs.*1 = es.*1.
Proof.
  intros Hall%mapM_Some. induction Hall as [|m c es cs Hm _ IH]; [done|].
  csimpl. apply as_series_inv in Hm as [-> _]. by rewrite IH.
Qed.

Lemma mapM_as_series_length n es cs :
  mapM as_series es = Some cs → Forall (series_ok n) es →
  Forall (λ c, length c.2 = n) cs.
Proof.
  intros Hall%mapM_Some. induction Hall as [|m c es cs Hm _ IH]; [done|].
  intros [(vs & Hvs & <-) Hes]%Forall_cons. constructor; [|by apply IH].
  apply as_series_inv in Hm as [_ (l & Hl & ->)%as_numbers_length].
  congruence.
Qed.

Section decode_spec.
Context `{Host}.

Lemma decode_inv d ds :
  decode d = Some ds →
  ∃ es, get d "years" = Normal (VArray (years ds)) ∧
    get d "categories" ≫= entries = Normal es ∧
    get d "markers" = Normal (markers ds) ∧
    mapM as_series es = Some (categories ds).
Proof.
  unfold decode.
  destruct (get d "years") as [[| | | | |ys| |]|]; try done.
  destruct (get d "categories" ≫= entries) as [es|]; [|done].
  destruct (get d "markers") as [ms|]; [|done].
  destruct (mapM as_series es) as [cs|] eqn:Hcs; [|done].
  simpl. intros [= <-]. by exists es.
Qed.

(** What the loader accepted decodes, when it decodes, to a
    well-formed dataset: category names are distinct and every series
    is as long as the years. *)
Lemma decode_wf d ds : validate d = Normal tt → decode d = Some ds → wf ds.
Proof.
  intros (years & cats & es & Hy & Ha & Hc & _ & He & Hloop)%validate_normal_inv.
  intros (es' & Hy' & He' & _ & Hcs)%decode_inv.
  rewrite Hc in He'. simpl in He'. rewrite He in He'. injection He' as <-.
  rewrite Hy in Hy'. injection Hy' as ->. split.
  - rewrite (mapM_as_series_keys es) by done. by eapply entries_NoDup.
  - eapply mapM_as_series_length; [done|]. by apply check_categories_ok.
Qed.

(** It decodes when its counts are all numbers. *)
Lemma decode_is_Some d :
  validate d = Normal tt →
  (∀ es, get d "categories" ≫= entries = Normal es →
    Forall (λ m, is_Some (as_numbers m.2)) es) →
  is_Some (decode d).
Proof.
  intros (years & cats & es & Hy & Ha & Hc & _ & He & _)%validate_normal_inv Hnum.
  apply isArray_inv in Ha as [ys ->].
  assert (get d "categories" ≫= entries = Normal es) as Hes.
  { by rewrite Hc. }
  pose proof (get_normal d "years" "markers") as Hms. rewrite Hy in Hms.
  destruct (get d "markers") as [ms|] eqn:Hm; [|by discriminate Hms].
  destruct (mapM_is_Some_2 as_series es) as [cs Hcs].
  { eapply Forall_impl; [exact (Hnum es Hes)|].
    intros m [zs Hzs]. unfold as_series. simpl. by rewrite Hzs. }
  exists (mkDataset ys cs ms). unfold decode. by rewrite Hy, Hes, Hm, Hcs.
Qed.

(** Every dataset the loader accepted whose counts are all numbers
    has a typed view, and the view is well formed: the category names
    are distinct and every series is as long as the years, which is
    what the theorems on [createChartTraces] assume. *)
Theorem decode_total d :
  validate d = Normal tt →
  (∀ es, get d "categories" ≫= entries = Normal es →
    Forall (λ m, is_Some (as_numbers m.2)) es) →
  ∃ ds, decode d = Some ds ∧ wf ds.
Proof.
  intros Hd [ds Hds]%decode_is_Some; [|done]. exists ds. split; [done|].
  by apply (decode_wf d).
Qed.

End decode_spec.

(** ** Instances of the theorems *)

(** The dataset of the end-to-end scenario of the documentation. *)
Definition scenario : value :=
  VObject [("years", VArray [VNumber 2016; VNumber 2017]);
           ("categories", VObject [("AI", VArray [VNumber 2; VNumber 5]);
                                   ("Finance", VArray [VNumber 3; VNumber 3])])].

Definition scenario_dataset : Dataset :=
  mkDataset [VNumber 2016; VNumber 2017]
    [("AI", [2; 5]); ("Finance", [3; 3])] VUndefined.

(** Totals 10, 30, 30, with B before C. *)
Definition ties_dataset : Dataset :=
  mkDataset [VNumber 2020] [("A", [10]); ("B", [30]); ("C", [30])] VUndefined.

Lemma decode_total_witness : ∃ ds, decode scenario = Some ds ∧ wf ds.
Proof.
  apply (decode_total scenario); [reflexivity|].
  intros es [= <-]. repeat constructor; by eexists.
Defined.

Definition ties_traces : list trace :=
  [mkTrace [VNumber 2020] [30] "B" (VString "#FF6B6B") (VString "#FF6B6B")
     (VString "circle");
   mkTrace [VNumber 2020] [30] "C" (VString "#4ECDC4") (VString "#4ECDC4")
     (VString "circle");
   mkTrace [VNumber 2020] [10] "A" (VString "#45B7D1") (VString "#45B7D1")
     (VString "circle")].

(** Twenty-one categories, one more than the palette has colours, in
    descending order of total. *)
Definition cycle_dataset : Dataset :=
  mkDataset []
    ((λ i, (pretty (N.of_nat i), [Z.of_nat (21 - i)])) <$> seq 0 21) VUndefined.

Lemma createChartTraces_spec_witness : IsChart ties_dataset ties_traces.
Proof.
  apply (createChartTraces_spec (@insertion_sort) ties_dataset ties_traces).
  reflexivity.
Defined.

Lemma createChartTraces_total_witness :
  ∃ ts, createChartTraces (@insertion_sort) ties_dataset = Normal ts.
Proof. apply (createChartTraces_total (@insertion_sort) ties_dataset). Defined.

Lemma createChartTraces_perm_witness :
  series <$> ties_traces ≡ₚ categories ties_dataset.
Proof.
  apply (createChartTraces_perm (@insertion_sort) ties_dataset ties_traces).
  reflexivity.
Defined.

Lemma createChartTraces_colors_witness :
  (∀ i t, ties_traces !! i = Some t →
     ∃ s, colors !! (i mod 20)%nat = Some s ∧
       line_color t = VString s ∧ marker_color t = VString s) ∧
  ((length (categories ties_dataset) ≤ length colors)%nat →
     NoDup (line_color <$> ties_traces)) ∧
  (∀ i t u, ties_traces !! i = Some t → ties_traces !! (i + 20)%nat = Some u →
     line_color t = line_color u).
Proof.
  apply (createChartTraces_colors (@insertion_sort) ties_dataset ties_traces).
  reflexivity.
Defined.

Lemma createChartTraces_colors_cycle_witness :
  line_color (mkTrace [] [21] "0" (VString "#FF6B6B") (VString "#FF6B6B")
                (VString "circle"))
  = line_color (mkTrace [] [1] "20" (VString "#FF6B6B") (VString "#FF6B6B")
                  (VString "circle")).
Proof.
  eapply (createChartTraces_colors_cycle (@insertion_sort) cycle_dataset _ 0);
    reflexivity.
Defined.

Lemma createChartTraces_engine_independent_witness :
  createChartTraces (@insertion_sort) ties_dataset
  = createChartTraces (@insertion_sort_left) ties_dataset.
Proof.
  apply (createChartTraces_engine_independent
    (@insertion_sort) (@insertion_sort_left) ties_dataset).
Defined.

Lemma total_bound_witness : 0 ≤ total [2; 5; 0; 7] < 2 ^ 53.
Proof.
  apply (total_bound 7 [2; 5; 0; 7]); [|reflexivity].
  repeat constructor; lia.
Defined.

(** The sort-stability scenario of the documentation: totals
    [A:10, B:30, C:30] with B before C give the order B, C, A, with the
    first three palette colours. *)
Example createChartTraces_ties :
  createChartTraces (@insertion_sort) ties_dataset = Normal ties_traces ∧
  name <$> ties_traces = ["B"; "C"; "A"].
Proof. by split. Qed.

(** The end-to-end scenario of the documentation: the dataset
    [{years:[2016,2017], categories:{AI:[2,5], Finance:[3,3]}}] passes
    the loader, decodes, and yields AI (total 7) with the first palette
    colour before Finance (total 6) with the second. *)
Example scenario_end_to_end :
  validate scenario = Normal tt ∧
  decode scenario = Some scenario_dataset ∧
  createChartTraces (@insertion_sort) scenario_dataset
  = Normal
      [mkTrace [VNumber 2016; VNumber 2017] [2; 5] "AI"
         (VString "#FF6B6B") (VString "#FF6B6B") (VString "circle");
       mkTrace [VNumber 2016; VNumber 2017] [3; 3] "Finance"
         (VString "#4ECDC4") (VString "#4ECDC4") (VString "circle")].
Proof. by split_and!. Qed.
