(* ===== verification/Annotations.v ===== *)
(** * Annotations and axis ticks

    [createDynamicAnnotations] (lines 210-299) looks three fixed
    (category, year) points up with the local function
    [getCategoryValue] and pushes a callout for each one whose count is
    positive.  The source writes the three cases out; [triggers] and
    [spec_annotations] are the table-driven form of the documentation,
    and [createDynamicAnnotations_omap] shows the two agree.
    [getCategoryValue_raw] is the lookup on the parsed value, with the
    property reads of the source, and [getCategoryValue_raw_typed] shows
    that the lookup on the typed view returns the same number.
    [createChartLayout] (lines 306-374) adds the tick values and their
    labels; the other fields of the layout are constants.  The counts
    are integers here; [Raw] gives the two builders on every dataset
    the loader accepts and shows that on integers they are the ones of
    this file. *)

From Stdlib Require Import ZArith List Lia String.
From stdpp Require Import base tactics option list strings numbers pretty.
From S2P Require Import Prelude StableSort JsValue Loader Traces.

#[local] Open Scope string_scope.
#[local] Open Scope list_scope.
#[local] Open Scope Z_scope.

(** ** Annotations *)

(** The fields of an annotation that differ between the three; [color]
    is both [arrowcolor] and [bordercolor]. *)
Record annotation := mkAnnotation {
  ann_x : Z;
  ann_y : Z;
  text : string;
  arrowcolor : string;
  bordercolor : string
}.

#[export] Instance annotation_eq_dec : EqDecision annotation.
Proof. solve_decision. Defined.

(** The local function of line 214.  [None] is [undefined], which an
    index past the end of the series gives. *)
Definition getCategoryValue (ds : Dataset) (categoryName : string) (year : Z)
  : option Z :=
  match assoc categoryName (categories ds) with
  | None => Some 0
  | Some values =>
      let yearIndex := indexOf (years ds) year in
      if 0 <=? yearIndex then values !! Z.to_nat yearIndex else Some 0
  end.

(** [if (v > 0) annotations.push({ x, y: v, text, ... })]. *)
Definition push_if_positive (v : option Z) (x : Z) (text color : string)
    (annotations : list annotation) : list annotation :=
  match v with
  | Some z =>
      if 0 <? z then annotations ++ [mkAnnotation x z text color color]
      else annotations
  | None => annotations
  end.

Definition createDynamicAnnotations (ds : Dataset) : list annotation :=
  let annotations := [] in
  let mlValue2024 := getCategoryValue ds "Machine Learning & AI" 2024 in
  let annotations :=
    push_if_positive mlValue2024 2024 "LLMs<br>Emerge" "#FF6B6B" annotations in
  let socialValue2019 :=
    getCategoryValue ds "Social Sciences & Demographics" 2019 in
  let annotations :=
    push_if_positive socialValue2019 2019 "Census<br>Focus" "#ed8936" annotations in
  let covidValue2020 := getCategoryValue ds "Pandemic & Public Health" 2020 in
  let annotations :=
    push_if_positive covidValue2020 2020 "COVID-19<br>Impact" "#48bb78" annotations in
  annotations.

(** ** The table-driven form *)

Record trigger := mkTrigger {
  category : string;
  year : Z;
  label : string;
  color : string
}.

#[export] Instance trigger_eq_dec : EqDecision trigger.
Proof. solve_decision. Defined.

Definition triggers : list trigger :=
  [mkTrigger "Machine Learning & AI" 2024 "LLMs<br>Emerge" "#FF6B6B";
   mkTrigger "Social Sciences & Demographics" 2019 "Census<br>Focus" "#ed8936";
   mkTrigger "Pandemic & Public Health" 2020 "COVID-19<br>Impact" "#48bb78"].

(** The count of a category in a year: the category exists, the year is
    on the axis, and the series has an element at its first position. *)
Definition count_at (ds : Dataset) (c : string) (yr : Z) : option Z :=
  values ← assoc c (categories ds);
  i ← list_find (λ v, v = VNumber yr) (years ds);
  values !! i.1.

Definition annotation_of (ds : Dataset) (t : trigger) : option annotation :=
  z ← count_at ds (category t) (year t);
  if 0 <? z then Some (mkAnnotation (year t) z (label t) (color t) (color t))
  else None.

Definition spec_annotations (ds : Dataset) : list annotation :=
  omap (annotation_of ds) triggers.

(** ** The lookup on the parsed value

    [getCategoryValue] on the value [response.json()] gave.  The reads
    of lines 215 and 217 are property reads, and [values[yearIndex]]
    reads the property whose name is the decimal text of the index.
    [None] when [data.years] is not an array: [indexOf] is then another
    method, or none. *)

Section raw.
Context `{Host}.

Definition getCategoryValue_raw (data : value) (categoryName : string) (year : Z)
  : option (completion value) :=
  match get data "categories" ≫= (λ categories, get categories categoryName) with
  | Throw e => Some (Throw e)
  | Normal values =>
      if negb (truthy values) then Some (Normal (VNumber 0))
      else
        match get data "years" with
        | Throw e => Some (Throw e)
        | Normal (VArray ys) =>
            let yearIndex := indexOf ys year in
            Some (if 0 <=? yearIndex then get values (pretty (Z.to_N yearIndex))
                  else Normal (VNumber 0))
        | Normal _ => None
        end
  end.

End raw.

(** ** The layout (lines 306-374) *)

Record layout := mkLayout {
  tickvals : list value;
  ticktext : list string;
  annotations : list annotation
}.

Section layout.
Context `{Host}.

(** [data.years.map(year => year.toString())]. *)
Fixpoint tick_labels (ys : list value) : completion (list string) :=
  match ys with
  | [] => Normal []
  | year :: rest =>
      s ← toString year;
      ss ← tick_labels rest;
      Normal (s :: ss)
  end.

Definition createChartLayout (ds : Dataset) : completion layout :=
  labels ← tick_labels (years ds);
  Normal (mkLayout (years ds) labels (createDynamicAnnotations ds)).

End layout.

(** ** The lookup *)

Section lookup.
Implicit Types (ds : Dataset) (t : trigger) (acc : list annotation).

(** What [getCategoryValue] returns: the count when there is one, and 0
    when the category or the year is missing. *)
Lemma getCategoryValue_count_at ds c yr :
  getCategoryValue ds c yr
  = match assoc c (categories ds) with
    | None => Some 0
    | Some values =>
        match list_find (λ v, v = VNumber yr) (years ds) with
        | None => Some 0
        | Some i => values !! i.1
        end
    end.
Proof.
  unfold getCategoryValue. destruct (assoc c (categories ds)) as [values|]; [|done].
  rewrite indexOf_find. destruct (list_find _ (years ds)) as [[j v]|]; simpl.
  - rewrite (proj2 (Z.leb_le 0 (Z.of_nat j))) by lia. by rewrite Nat2Z.id.
  - done.
Qed.

Lemma push_if_positive_spec ds t acc :
  push_if_positive (getCategoryValue ds (category t) (year t))
    (year t) (label t) (color t) acc
  = acc ++ option_list (annotation_of ds t).
Proof.
  rewrite getCategoryValue_count_at. unfold annotation_of, count_at, push_if_positive.
  destruct (assoc (category t) (categories ds)) as [values|]; simpl.
  2: { by rewrite app_nil_r. }
  destruct (list_find _ (years ds)) as [[j v]|]; simpl.
  2: { by rewrite app_nil_r. }
  destruct (values !! j) as [z|]; simpl; [|by rewrite app_nil_r].
  destruct (0 <? z); simpl; [done|by rewrite app_nil_r].
Qed.

Lemma push_if_positive_trigger ds c yr lbl col acc :
  push_if_positive (getCategoryValue ds c yr) yr lbl col acc
  = acc ++ option_list (annotation_of ds (mkTrigger c yr lbl col)).
Proof. apply (push_if_positive_spec ds (mkTrigger c yr lbl col)). Qed.

Lemma omap_option_list {A B} (f : A → option B) (l : list A) :
  omap f l = l ≫= (λ a, option_list (f a)).
Proof.
  induction l as [|a l IH]; [done|]. csimpl. rewrite <- IH.
  by destruct (f a).
Qed.

End lookup.

(** ** Theorems *)

(** The three blocks of [createDynamicAnnotations] are the table-driven
    rule: go through the fixed list of (category, year, label, colour)
    in order and emit an annotation for each point whose count exists
    and is positive. *)
Lemma createDynamicAnnotations_omap ds :
  createDynamicAnnotations ds = spec_annotations ds.
Proof.
  unfold createDynamicAnnotations, spec_annotations, triggers. cbv zeta.
  rewrite !push_if_positive_trigger, omap_option_list. csimpl.
  by rewrite app_nil_r, app_assoc.
Qed.

Lemma annotation_of_Some ds t a :
  annotation_of ds t = Some a ↔
  ∃ z, count_at ds (category t) (year t) = Some z ∧ 0 < z ∧
    a = mkAnnotation (year t) z (label t) (color t) (color t).
Proof.
  unfold annotation_of. destruct (count_at ds _ _) as [z|]; simpl.
  - destruct (0 <? z) eqn:Hz.
    + apply Z.ltb_lt in Hz. split; [intros [= <-]; by exists z|].
      by intros (? & [= <-] & _ & ->).
    + apply Z.ltb_ge in Hz. split; [done|]. intros (? & [= <-] & ? & _). lia.
  - split; [done|]. by intros (? & ? & _).
Qed.

Lemma annotation_inv ds a :
  a ∈ createDynamicAnnotations ds →
  ∃ t z, t ∈ triggers ∧ count_at ds (category t) (year t) = Some z ∧ 0 < z ∧
    a = mkAnnotation (year t) z (label t) (color t) (color t).
Proof.
  rewrite createDynamicAnnotations_omap. unfold spec_annotations.
  intros (t & Ht & (z & ? & ? & ?)%annotation_of_Some)%list_elem_of_omap.
  by exists t, z.
Qed.

(** C21: an annotation is emitted exactly for the fixed points whose
    category exists, whose year is on the axis and whose count there is
    positive; its [y] is that count. *)
Theorem createDynamicAnnotations_elem_of ds a :
  a ∈ createDynamicAnnotations ds ↔
  ∃ t z, t ∈ triggers ∧ count_at ds (category t) (year t) = Some z ∧ 0 < z ∧
    a = mkAnnotation (year t) z (label t) (color t) (color t).
Proof.
  split; [apply annotation_inv|]. intros (t & z & Ht & Hz & Hpos & ->).
  rewrite createDynamicAnnotations_omap. apply list_elem_of_omap.
  exists t. split; [done|]. apply annotation_of_Some. by exists z.
Qed.

(** Case analysis on membership in a list of literals. *)
Ltac elem_of_cases H :=
  repeat (apply elem_of_cons in H as [->|H]); [..|by apply elem_of_nil in H].

Lemma trigger_label_inj t u :
  t ∈ triggers → u ∈ triggers → label t = label u → t = u.
Proof.
  intros Ht Hu. unfold triggers in Ht, Hu.
  elem_of_cases Ht; elem_of_cases Hu; by intros [=].
Qed.

(** A point with no category, no such year or a count that is not
    positive is left out: no annotation carries its label. *)
Theorem createDynamicAnnotations_suppressed ds t a :
  t ∈ triggers →
  (∀ z, count_at ds (category t) (year t) = Some z → z ≤ 0) →
  a ∈ createDynamicAnnotations ds → text a ≠ label t.
Proof.
  intros Ht Hnone (u & z & Hu & Hz & Hpos & ->)%annotation_inv.
  simpl. intros Hlabel.
  assert (u = t) as -> by by apply trigger_label_inj.
  specialize (Hnone z Hz). lia.
Qed.

Lemma omap_sublist {A B C} (f : A → option B) (g : B → C) (h : A → C) l :
  (∀ a b, f a = Some b → g b = h a) → sublist (g <$> omap f l) (h <$> l).
Proof.
  intros Hgh. induction l as [|a l IH]; [done|]. csimpl.
  destruct (f a) as [b|] eqn:Hb; csimpl.
  - rewrite (Hgh a b Hb). by apply sublist_skip.
  - by apply sublist_cons.
Qed.

(** The annotations come in the order of the fixed list: their
    labels are a subsequence of the three labels. *)
Theorem createDynamicAnnotations_order ds :
  sublist (text <$> createDynamicAnnotations ds)
    ["LLMs<br>Emerge"; "Census<br>Focus"; "COVID-19<br>Impact"].
Proof.
  rewrite createDynamicAnnotations_omap.
  apply (omap_sublist (annotation_of ds) text label triggers).
  intros t a. unfold annotation_of.
  destruct (count_at ds _ _) as [z|]; [|done]. simpl.
  destruct (0 <? z); [|done]. by intros [= <-].
Qed.

(** ** The typed view and the parsed value *)

Section raw_typed.
Context `{Host}.

Lemma as_numbers_inv v zs : as_numbers v = Some zs → v = VArray (VNumber <$> zs).
Proof.
  destruct v as [| | | | |l| |]; try done. simpl. intros Hall%mapM_Some. f_equal.
  induction Hall as [|x z l zs Hx _ IH]; [done|]. csimpl. rewrite <- IH.
  by destruct x; simplify_eq/=.
Qed.

(** A category of the typed view is the member [Object.entries] lists
    under its name. *)
Lemma assoc_as_series es cs c :
  mapM as_series es = Some cs →
  default VUndefined (assoc c es)
  = from_option (λ zs, VArray (VNumber <$> zs)) VUndefined (assoc c cs).
Proof.
  intros Hall%mapM_Some.
  induction Hall as [|[q v] [q' zs] es cs Hm _ IH]; [done|].
  apply as_series_inv in Hm as [Hq Hv]. simpl in *. subst q'.
  case_decide; [|done]. simpl. by apply as_numbers_inv.
Qed.

(** The element of a series the typed view gives is the one the
    property read gives. *)
Lemma get_series zs j z :
  (N.of_nat j < max_length)%N → zs !! j = Some z →
  get (VArray (VNumber <$> zs)) (pretty (Z.to_N (Z.of_nat j))) = Normal (VNumber z).
Proof.
  intros Hj Hz. simpl. replace (Z.to_N (Z.of_nat j)) with (N.of_nat j) by lia.
  by rewrite indexed_pretty, list_lookup_fmap, Hz.
Qed.

(** The typed view loses nothing of the lookup.  On a dataset
    with a typed view whose series are as long as the years,
    [getCategoryValue] on the typed view returns the number that the
    function of line 214 returns on the parsed value, for the names the
    program looks up. *)
Theorem getCategoryValue_raw_typed d ds c yr :
  decode d = Some ds → wf ds → c ∈ reserved_names →
  (N.of_nat (length (years ds)) ≤ max_length)%N →
  ∃ z, getCategoryValue ds c yr = Some z ∧
    getCategoryValue_raw d c yr = Some (Normal (VNumber z)).
Proof.
  intros (es & Hy & (cats & Hcats & Hes)%bind_normal_inv & _ & Hcs)%decode_inv.
  intros [_ Hlen] Hc Hmax.
  rewrite getCategoryValue_count_at. unfold getCategoryValue_raw.
  rewrite Hcats, Hy. simpl. rewrite (get_entries_reserved cats es c Hes Hc).
  rewrite (assoc_as_series es _ c Hcs), indexOf_find.
  destruct (assoc c (categories ds)) as [zs|] eqn:Hzs; simpl; [|by exists 0].
  destruct (list_find _ (years ds)) as [[j v]|] eqn:Hj; simpl; [|by exists 0].
  apply assoc_Some_elem_of in Hzs. rewrite Forall_forall in Hlen.
  specialize (Hlen _ Hzs). simpl in Hlen.
  apply list_find_Some in Hj as (Hj%lookup_lt_Some & _).
  destruct (lookup_lt_is_Some_2 zs j) as [z Hz]; [lia|]. exists z. split; [done|].
  rewrite (proj2 (Z.leb_le 0 (Z.of_nat j))) by lia.
  by rewrite <- (get_series zs j z) by (done || lia).
Qed.

End raw_typed.

(** ** The category names of the documentation *)

(** The ten categories the README lists. *)
Definition readme_categories : list string :=
  ["Machine Learning & AI"; "Finance & Economics"; "Mathematics & Theory";
   "Social & Urban Studies"; "Sports & Gaming"; "Climate & Weather";
   "Health & Medicine"; "Physics & Quantum"; "Technology & Computer Science";
   "Creative Applications"].

Lemma count_at_category ds c yr z :
  count_at ds c yr = Some z → c ∈ (categories ds).*1.
Proof.
  unfold count_at. destruct (assoc c (categories ds)) as [values|] eqn:Hc; [|done].
  intros _. apply assoc_Some_elem_of in Hc.
  apply list_elem_of_fmap. by exists (c, values).
Qed.

(** With the category names of the README, two of the three
    callouts can never appear: every annotation is the one on Machine
    Learning & AI, because the other two look for names the README does
    not list. *)
Theorem createDynamicAnnotations_readme ds a :
  (categories ds).*1 ⊆ readme_categories →
  a ∈ createDynamicAnnotations ds → text a = "LLMs<br>Emerge".
Proof.
  intros Hsub (t & z & Ht & Hz%count_at_category & _ & ->)%annotation_inv.
  apply Hsub in Hz. unfold triggers in Ht. simpl.
  elem_of_cases Ht; simpl in *; [done|..];
    apply (bool_decide_pack _) in Hz; by vm_compute in Hz.
Qed.

(** ** Tick labels *)

Section ticks.
Context `{Host}.
Implicit Types (ys : list value) (ds : Dataset).

Lemma tick_labels_printable ys :
  Forall printable ys → tick_labels ys = Normal (to_text <$> ys).
Proof.
  induction 1 as [|y ys Hy _ IH]; [done|]. simpl.
  by rewrite (toString_printable y Hy), IH.
Qed.

Lemma tick_labels_throw ys :
  ¬ Forall printable ys → ∃ e, tick_labels ys = Throw e.
Proof.
  induction ys as [|y ys IH]; [by intros []|]. intros Hall. simpl.
  destruct (decide (printable y)) as [Hy|Hy].
  - rewrite (toString_printable y Hy). simpl. destruct IH as [e ->].
    { intros ?. apply Hall. by constructor. }
    by exists e.
  - destruct (toString_throw y Hy) as (e & -> & _). by exists e.
Qed.

(** On years that are numbers [createChartLayout] succeeds: the
    tick values are the years, the tick labels their decimal texts, one
    per year, distinct when the years are, and the annotations those of
    [createDynamicAnnotations]. *)
Theorem createChartLayout_numeric ds zs :
  years ds = VNumber <$> zs →
  ∃ lay, createChartLayout ds = Normal lay ∧
    tickvals lay = years ds ∧ ticktext lay = pretty <$> zs ∧
    annotations lay = createDynamicAnnotations ds ∧
    (NoDup zs → NoDup (ticktext lay)).
Proof.
  intros Hys. unfold createChartLayout.
  rewrite tick_labels_printable, Hys.
  2: { rewrite Hys. apply Forall_fmap, Forall_true. by intros z. }
  rewrite <- list_fmap_compose. eexists. split; [done|]. simpl.
  split_and!; try done. intros Hnd. apply NoDup_fmap_2; [|done]. apply _.
Qed.

(** The failure path of the builder, which the validation does not
    close: [createChartLayout] throws exactly when [toString] fails on
    one of the years, that is when a year is [null], an object with a
    [toString] member of its own, or an array that holds such an
    object. *)
Theorem createChartLayout_fails_iff ds :
  (∃ e, createChartLayout ds = Throw e) ↔ ¬ Forall printable (years ds).
Proof.
  unfold createChartLayout. split.
  - intros [e He] Hall. by rewrite tick_labels_printable in He.
  - intros Hall. destruct (tick_labels_throw (years ds) Hall) as [e ->].
    by exists e.
Qed.

End ticks.

(** ** Instances of the theorems *)

(** A dataset with the three categories the annotations look for: a
    positive count, a zero count, and a year that is not on the axis. *)
Definition callouts_dataset : Dataset :=
  mkDataset [VNumber 2019; VNumber 2024]
    [("Machine Learning & AI", [1; 9]);
     ("Social Sciences & Demographics", [0; 4]);
     ("Pandemic & Public Health", [3; 3])] VUndefined.

(** The JSON value it is the typed view of. *)
Definition callouts_value : value :=
  VObject
    [("years", VArray [VNumber 2019; VNumber 2024]);
     ("categories",
      VObject
        [("Machine Learning & AI", VArray [VNumber 1; VNumber 9]);
         ("Social Sciences & Demographics", VArray [VNumber 0; VNumber 4]);
         ("Pandemic & Public Health", VArray [VNumber 3; VNumber 3])])].

(** A dataset the loader accepts and the layout fails on. *)
Definition null_year : value :=
  VObject [("years", VArray [VNull]); ("categories", VObject [("A", VArray [VNumber 1])])].

Lemma createDynamicAnnotations_suppressed_witness :
  text (mkAnnotation 2024 9 "LLMs<br>Emerge" "#FF6B6B" "#FF6B6B")
  ≠ label (mkTrigger "Social Sciences & Demographics" 2019 "Census<br>Focus" "#ed8936").
Proof.
  apply (createDynamicAnnotations_suppressed callouts_dataset
    (mkTrigger "Social Sciences & Demographics" 2019 "Census<br>Focus" "#ed8936")
    (mkAnnotation 2024 9 "LLMs<br>Emerge" "#FF6B6B" "#FF6B6B")).
  - solve_elem_of.
  - intros z [= <-]. lia.
  - solve_elem_of.
Defined.

Lemma createDynamicAnnotations_readme_witness :
  text (mkAnnotation 2024 9 "LLMs<br>Emerge" "#FF6B6B" "#FF6B6B") = "LLMs<br>Emerge".
Proof.
  apply (createDynamicAnnotations_readme
    (mkDataset [VNumber 2024]
       [("Machine Learning & AI", [9]); ("Health & Medicine", [4])] VUndefined)).
  - intros c Hc. simpl in Hc. elem_of_cases Hc; solve_elem_of.
  - solve_elem_of.
Defined.

Lemma createChartLayout_numeric_witness :
  ∃ lay, createChartLayout callouts_dataset = Normal lay ∧
    tickvals lay = years callouts_dataset ∧
    ticktext lay = pretty <$> [2019; 2024] ∧
    annotations lay = createDynamicAnnotations callouts_dataset ∧
    (NoDup [2019; 2024] → NoDup (ticktext lay)).
Proof. apply (createChartLayout_numeric callouts_dataset [2019; 2024]). reflexivity. Defined.

(** The callouts on a concrete dataset: the count 9 of Machine
    Learning & AI in 2024 is annotated, the zero count of 2019 and the
    year 2020, which is not on the axis, are not. *)
Example createDynamicAnnotations_callouts :
  createDynamicAnnotations callouts_dataset
  = [mkAnnotation 2024 9 "LLMs<br>Emerge" "#FF6B6B" "#FF6B6B"].
Proof. reflexivity. Qed.

(** A dataset with a [null] year passes the validation of the
    loader, has a typed view, and makes [createChartLayout] throw: a
    validated dataset can fail to build. *)
Theorem validated_dataset_fails_to_build :
  validate null_year = Normal tt ∧
  decode null_year = Some (mkDataset [VNull] [("A", [1])] VUndefined) ∧
  ∃ e, createChartLayout (mkDataset [VNull] [("A", [1])] VUndefined) = Throw e.
Proof. split_and!; [done|done|by eexists]. Qed.

Lemma getCategoryValue_raw_typed_witness :
  ∃ z, getCategoryValue callouts_dataset "Machine Learning & AI" 2024 = Some z ∧
    getCategoryValue_raw callouts_value "Machine Learning & AI" 2024
    = Some (Normal (VNumber z)).
Proof.
  apply (getCategoryValue_raw_typed callouts_value callouts_dataset).
  - reflexivity.
  - split; [by apply (bool_decide_unpack _)|repeat constructor].
  - solve_elem_of.
  - by vm_compute.
Defined.
