(* ===== verification/Raw.v ===== *)
(** * The builders on what the validation accepted

    [Traces] and [Annotations] model [createChartTraces],
    [createDynamicAnnotations] and [createChartLayout] on datasets whose
    counts are numbers.  The validation of the loader does not look at
    the counts: it accepts a series of strings, of [null], of objects.
    This file models the builders on every dataset the validation
    accepts, [RawDataset]: the years and the series are arrays of
    arbitrary values.  These are the builders the page of [App] calls.

    What [+], [-] and [>] do on values that are not numbers is the
    engine's arithmetic, the interface [Arith]: its laws say what they
    do on numbers, and that [+] concatenates when an operand is a
    string.  The sort is the engine's, [LocalSort.LocalSorter].

    Theorems: every dataset the validation accepted has this shape
    ([shape_validated]); on the datasets with a typed view the builders
    of this file compute what those of [Traces] and [Annotations]
    compute ([chart_arguments_raw_typed]), so that the typed model loses
    nothing; on every dataset [createChartTraces] returns one trace per
    category, whatever the counts are, unless a sum throws
    ([createChartTraces_raw_spec]); the arguments of the chart exist
    exactly when no sum, no [toString] of a year and no comparison
    throws ([chart_arguments_raw_fails_iff]); and a count that is a
    string makes the total a text ([total_raw_text]). *)

From Stdlib Require Import ZArith List Lia String Sorted.
From stdpp Require Import base tactics option strings numbers pretty list.
From S2P Require Import Prelude StableSort LocalSort JsValue Loader Traces Annotations.

#[local] Open Scope string_scope.
#[local] Open Scope list_scope.
#[local] Open Scope Z_scope.

(** ** The arithmetic of the engine *)

(** The values [+] returns: a number or a text. *)
Definition scalar (v : value) : Prop :=
  match v with VNumber _ | VString _ => True | _ => False end.

Class Arith := {
  (** [a + b]; it throws when an operand is an object that has no
      primitive value *)
  js_plus : value → value → completion value;
  (** [a - b] as the sort reads it: only the sign matters, and NaN
      counts as 0.  The operands are totals, which are numbers or
      texts ([total_raw_scalar]), on which [-] does not throw. *)
  js_minus : value → value → Z;
  (** [a > n] *)
  js_greater : value → Z → completion bool;
  js_plus_scalar : ∀ a b v, js_plus a b = Normal v → scalar v;
  js_plus_numbers : ∀ a b,
    js_plus (VNumber a) (VNumber b) = Normal (VNumber (a + b));
  (** when an operand is a string, the texts are concatenated; the
      text of a number is its decimal notation, as for the integers
      below 10^21 in magnitude *)
  js_plus_number_string : ∀ a s,
    js_plus (VNumber a) (VString s) = Normal (VString (pretty a +:+ s));
  js_plus_string_number : ∀ s a,
    js_plus (VString s) (VNumber a) = Normal (VString (s +:+ pretty a));
  js_plus_strings : ∀ s t,
    js_plus (VString s) (VString t) = Normal (VString (s +:+ t));
  js_minus_numbers : ∀ a b, js_minus (VNumber a) (VNumber b) = a - b;
  js_greater_number : ∀ a n,
    js_greater (VNumber a) n = Normal (bool_decide (n < a));
  (** [undefined > n] is false: [undefined] is NaN as a number *)
  js_greater_undefined : ∀ n, js_greater VUndefined n = Normal false
}.

(** ** An engine for the examples

    It computes with numbers and concatenates texts.  On the other
    values [+] throws, [-] gives 0 and [>] false, which is not what the
    language does on all of them: the examples evaluate none of these
    cases. *)
Definition integer_plus (a b : value) : completion value :=
  match a, b with
  | VNumber x, VNumber y => Normal (VNumber (x + y))
  | VNumber x, VString t => Normal (VString (pretty x +:+ t))
  | VString s, VNumber y => Normal (VString (s +:+ pretty y))
  | VString s, VString t => Normal (VString (s +:+ t))
  | _, _ => Throw (mkError TypeErrorC "Cannot convert object to primitive value")
  end.

Definition integer_minus (a b : value) : Z :=
  match a, b with VNumber x, VNumber y => x - y | _, _ => 0 end.

Definition integer_greater (a : value) (n : Z) : completion bool :=
  Normal (match a with VNumber x => bool_decide (n < x) | _ => false end).

#[export] Instance integer_arith : Arith.
Proof.
  refine {| js_plus := integer_plus; js_minus := integer_minus;
            js_greater := integer_greater |}; try done.
  intros [] [] v; simpl; by intros [= <-].
Defined.

(** ** The dataset the validation accepted *)

Record RawDataset := mkRawDataset {
  (** the elements of [data.years] *)
  raw_years : list value;
  (** [Object.entries(data.categories)], every series an array *)
  raw_categories : list (string * list value);
  (** [data.markers], [undefined] when the dataset has none *)
  raw_markers : value
}.

Definition as_elems (m : string * value) : option (string * list value) :=
  match m.2 with VArray l => Some (m.1, l) | _ => None end.

Section shape.
Context `{Host}.

Definition shape (d : value) : option RawDataset :=
  match get d "years", get d "categories" ≫= entries, get d "markers" with
  | Normal (VArray ys), Normal es, Normal ms =>
      (λ cs, mkRawDataset ys cs ms) <$> mapM as_elems es
  | _, _, _ => None
  end.

End shape.

(** The typed dataset, as a dataset. *)
Definition untyped_series (c : string * list Z) : string * list value :=
  (c.1, VNumber <$> c.2).

Definition untyped (ds : Dataset) : RawDataset :=
  mkRawDataset (years ds) (untyped_series <$> categories ds) (markers ds).

(** ** Traces *)

Record raw_trace := mkRawTrace {
  raw_x : value;
  raw_y : value;
  raw_name : string;
  raw_line_color : value;
  raw_marker_color : value;
  raw_marker_symbol : value
}.

(** The object [{ name, values, total }] of line 161. *)
Definition totalled : Type := string * list value * value.

Section traces.
Context `{Host} `{Arith}.
Context (sort : ∀ A, (A → A → Z) → list A → list A).

(** [values.reduce((sum, val) => sum + val, 0)]: once [+] has thrown,
    nothing more is added. *)
Definition total_raw (values : list value) : completion value :=
  reduce (λ sum val, s ← sum; js_plus s val) (Normal (VNumber 0)) values.

Definition with_total_raw (c : string * list value) : completion totalled :=
  total ← total_raw c.2;
  Normal (c.1, c.2, total).

(** [(a, b) => b.total - a.total]. *)
Definition by_total_raw (a b : totalled) : Z := js_minus b.2 a.2.

(** [Object.entries(data.categories).map(...).sort(...)]: every total is
    computed before the sort. *)
Definition categoryTotals_raw (rd : RawDataset) : completion (list totalled) :=
  cs ← mapM with_total_raw (raw_categories rd);
  Normal (sort _ by_total_raw cs).

Definition make_trace_raw (rd : RawDataset) (colorIndex : nat) (c : totalled)
  : completion raw_trace :=
  let color := at_index colors (colorIndex mod length colors) in
  symbol ← symbol_of (raw_markers rd) c.1.1;
  Normal (mkRawTrace (VArray (raw_years rd)) (VArray c.1.2) c.1.1 color color symbol).

Fixpoint push_traces_raw (rd : RawDataset) (colorIndex : nat) (cs : list totalled)
  : completion (list raw_trace) :=
  match cs with
  | [] => Normal []
  | c :: rest =>
      t ← make_trace_raw rd colorIndex c;
      ts ← push_traces_raw rd (S colorIndex) rest;
      Normal (t :: ts)
  end.

Definition createChartTraces_raw (rd : RawDataset) : completion (list raw_trace) :=
  cs ← categoryTotals_raw rd;
  push_traces_raw rd 0 cs.

End traces.

(** The typed trace, as a trace. *)
Definition raw_of_trace (t : trace) : raw_trace :=
  mkRawTrace (VArray (x t)) (VArray (VNumber <$> y t)) (name t)
    (line_color t) (marker_color t) (marker_symbol t).

(** ** Annotations and layout *)

Record raw_annotation := mkRawAnnotation {
  raw_ann_x : Z;
  raw_ann_y : value;
  raw_text : string;
  raw_arrowcolor : string;
  raw_bordercolor : string
}.

Record raw_layout := mkRawLayout {
  raw_tickvals : list value;
  raw_ticktext : list string;
  raw_annotations : list raw_annotation
}.

Section layout.
Context `{Host} `{Arith}.

(** The local function of line 214.  The names it is called with are
    not inherited, so that the read of line 215 finds what
    [Object.entries] lists, an array, or nothing. *)
Definition getCategoryValue_untyped (rd : RawDataset) (categoryName : string)
    (year : Z) : value :=
  match assoc categoryName (raw_categories rd) with
  | None => VNumber 0
  | Some values =>
      let yearIndex := indexOf (raw_years rd) year in
      if 0 <=? yearIndex then default VUndefined (values !! Z.to_nat yearIndex)
      else VNumber 0
  end.

(** [if (v > 0) annotations.push({ x, y: v, text, ... })]. *)
Definition push_if_positive_raw (v : value) (x : Z) (text color : string)
    (annotations : list raw_annotation) : completion (list raw_annotation) :=
  positive ← js_greater v 0;
  Normal (if positive : bool
          then annotations ++ [mkRawAnnotation x v text color color]
          else annotations).

Definition createDynamicAnnotations_raw (rd : RawDataset)
  : completion (list raw_annotation) :=
  let annotations := [] in
  let mlValue2024 := getCategoryValue_untyped rd "Machine Learning & AI" 2024 in
  annotations ←
    push_if_positive_raw mlValue2024 2024 "LLMs<br>Emerge" "#FF6B6B" annotations;
  let socialValue2019 :=
    getCategoryValue_untyped rd "Social Sciences & Demographics" 2019 in
  annotations ←
    push_if_positive_raw socialValue2019 2019 "Census<br>Focus" "#ed8936" annotations;
  let covidValue2020 := getCategoryValue_untyped rd "Pandemic & Public Health" 2020 in
  annotations ←
    push_if_positive_raw covidValue2020 2020 "COVID-19<br>Impact" "#48bb78" annotations;
  Normal annotations.

(** The members of the literal are evaluated in the order they are
    written: the tick labels, then the annotations. *)
Definition createChartLayout_raw (rd : RawDataset) : completion raw_layout :=
  labels ← tick_labels (raw_years rd);
  annotations ← createDynamicAnnotations_raw rd;
  Normal (mkRawLayout (raw_years rd) labels annotations).

End layout.

Definition raw_of_annotation (a : annotation) : raw_annotation :=
  mkRawAnnotation (ann_x a) (VNumber (ann_y a)) (text a) (arrowcolor a) (bordercolor a).

Definition raw_of_layout (l : layout) : raw_layout :=
  mkRawLayout (tickvals l) (ticktext l) (raw_of_annotation <$> annotations l).

(** ** The arguments of the chart (lines 382-383) *)

Section arguments.
Context `{Host} `{Arith}.
Context (sort : ∀ A, (A → A → Z) → list A → list A).

(** On numbers. *)
Definition chart_arguments (ds : Dataset) : completion (list trace * layout) :=
  traces ← createChartTraces sort ds;
  layout ← createChartLayout ds;
  Normal (traces, layout).

Definition chart_arguments_raw (rd : RawDataset)
  : completion (list raw_trace * raw_layout) :=
  traces ← createChartTraces_raw sort rd;
  layout ← createChartLayout_raw rd;
  Normal (traces, layout).

End arguments.

(** ** The shape of what the validation accepted *)

Lemma as_elems_inv m c : as_elems m = Some c → m = (c.1, VArray c.2).
Proof.
  destruct m as [k v], c as [k' l]. unfold as_elems. simpl.
  destruct v; try done. by intros [= -> ->].
Qed.

Lemma as_series_elems m c : as_series m = Some c → as_elems m = Some (untyped_series c).
Proof.
  intros [Hk Hv%as_numbers_inv]%as_series_inv. destruct m as [k v]. simpl in *.
  subst. by destruct c.
Qed.

Lemma mapM_as_series_elems (es : list (string * value)) (cs : list (string * list Z)) :
  mapM as_series es = Some cs → mapM as_elems es = Some (untyped_series <$> cs).
Proof.
  intros Hall%mapM_Some. apply mapM_Some.
  induction Hall as [|m c es cs Hm%as_series_elems _ IH]; csimpl; by constructor.
Qed.

Lemma mapM_as_elems_ok n (es : list (string * value)) :
  Forall (series_ok n) es →
  ∃ cs, mapM as_elems es = Some cs ∧ cs.*1 = es.*1 ∧
    Forall (λ c, length c.2 = n) cs.
Proof.
  intros Hall. destruct (mapM_is_Some_2 as_elems es) as [cs Hcs].
  { eapply Forall_impl; [done|]. intros [k v] (vs & Hv & _).
    simpl in Hv. subst v. by eexists. }
  exists cs. split; [done|]. apply mapM_Some in Hcs.
  induction Hcs as [|m c es cs Hm%as_elems_inv _ IH]; [done|].
  apply Forall_cons in Hall as [(vs & Hv & Hn) Hall].
  destruct (IH Hall) as [Hk Hlen]. subst m. simpl in Hv. injection Hv as <-.
  csimpl. rewrite Hk. split; [done|by constructor].
Qed.

Section shape_spec.
Context `{Host}.

(** Every dataset the validation accepted has the shape: the names of
    the categories are distinct and every series is as long as the
    years. *)
Lemma shape_validated d :
  validate d = Normal tt →
  ∃ rd, shape d = Some rd ∧
    NoDup (raw_categories rd).*1 ∧
    Forall (λ c, length c.2 = length (raw_years rd)) (raw_categories rd).
Proof.
  intros (ys & cats & es & Hy & Hc & _ & He & Hall)%validate_Validated.
  destruct (mapM_as_elems_ok _ es Hall) as (cs & Hcs & Hk & Hlen).
  pose proof (get_normal d "years" "markers") as Hms. rewrite Hy in Hms.
  destruct (get d "markers") as [ms|] eqn:Hm; [|by discriminate Hms].
  exists (mkRawDataset ys cs ms). unfold shape. rewrite Hy, Hc, Hm. simpl.
  rewrite He, Hcs. split_and!; [done| |done].
  simpl. rewrite Hk. by eapply entries_NoDup.
Qed.

(** The typed view is the shape, read as numbers. *)
Lemma shape_decode d ds : decode d = Some ds → shape d = Some (untyped ds).
Proof.
  intros (es & Hy & He & Hm & Hcs%mapM_as_series_elems)%decode_inv.
  unfold shape. rewrite Hy, He, Hm, Hcs. by destruct ds.
Qed.

End shape_spec.

(** ** The lookup of the annotations, on the value and on the shape *)

Lemma assoc_as_elems (es : list (string * value)) (cs : list (string * list value)) c :
  mapM as_elems es = Some cs →
  default VUndefined (assoc c es) = from_option VArray VUndefined (assoc c cs).
Proof.
  intros Hall%mapM_Some.
  induction Hall as [|m x es cs Hm%as_elems_inv _ IH]; [done|].
  subst m. destruct x as [q l]. simpl. by case_decide.
Qed.

Section lookup.
Context `{Host} `{Arith}.

Lemma shape_inv d rd :
  shape d = Some rd →
  ∃ es, get d "years" = Normal (VArray (raw_years rd)) ∧
    get d "categories" ≫= entries = Normal es ∧
    get d "markers" = Normal (raw_markers rd) ∧
    mapM as_elems es = Some (raw_categories rd).
Proof.
  unfold shape.
  destruct (get d "years") as [[| | | | |ys| |]|]; try done.
  destruct (get d "categories" ≫= entries) as [es|]; [|done].
  destruct (get d "markers") as [ms|]; [|done].
  destruct (mapM as_elems es) as [cs|] eqn:Hcs; [|done].
  simpl. intros [= <-]. by exists es.
Qed.

(** On a dataset of the shape whose series are as long as the years,
    the function of line 214, which reads properties of the parsed
    value, returns what the lookup in the entries returns. *)
Lemma getCategoryValue_raw_untyped d rd c yr :
  shape d = Some rd →
  Forall (λ x, length x.2 = length (raw_years rd)) (raw_categories rd) →
  c ∈ reserved_names → (N.of_nat (length (raw_years rd)) ≤ max_length)%N →
  getCategoryValue_raw d c yr = Some (Normal (getCategoryValue_untyped rd c yr)).
Proof.
  intros (es & Hy & (cats & Hcats & Hes)%bind_normal_inv & _ & Hcs)%shape_inv.
  intros Hlen Hc Hmax. unfold getCategoryValue_raw, getCategoryValue_untyped.
  rewrite Hcats, Hy. simpl. rewrite (get_entries_reserved cats es c Hes Hc).
  rewrite (assoc_as_elems es _ c Hcs), indexOf_find.
  destruct (assoc c (raw_categories rd)) as [l|] eqn:Hl; simpl; [|done].
  destruct (list_find _ (raw_years rd)) as [[j v]|] eqn:Hj; simpl; [|done].
  apply assoc_Some_elem_of in Hl. rewrite Forall_forall in Hlen.
  specialize (Hlen _ Hl). simpl in Hlen.
  apply list_find_Some in Hj as (Hj%lookup_lt_Some & _).
  destruct (lookup_lt_is_Some_2 l j) as [x Hx]; [lia|].
  rewrite (proj2 (Z.leb_le 0 (Z.of_nat j))) by lia.
  replace (Z.to_N (Z.of_nat j)) with (N.of_nat j) by lia.
  rewrite Nat2Z.id, indexed_pretty by lia. by rewrite Hx.
Qed.

End lookup.

(** ** On numbers the builders are those of [Traces] and [Annotations] *)

(** The object [{ name, values, total }] of the typed builder, as the
    one of this file. *)
Definition untyped_totalled (c : string * list Z * Z) : totalled :=
  (c.1.1, VNumber <$> c.1.2, VNumber c.2).

Section typed.
Context `{Host} `{Arith}.
Context (sort : ∀ A, (A → A → Z) → list A → list A) `{!LocalSorter sort}.
Implicit Types (ds : Dataset) (zs : list Z) (c : string * list Z * Z)
  (cs : list (string * list Z * Z)).

Lemma reduce_plus_numbers (a : Z) zs :
  reduce (λ sum val, s ← sum; js_plus s val) (Normal (VNumber a)) (VNumber <$> zs)
  = Normal (VNumber (reduce Z.add a zs)).
Proof.
  revert a. induction zs as [|z zs IH]; intros a; [done|].
  unfold reduce in *. csimpl. by rewrite js_plus_numbers, IH.
Qed.

Lemma total_raw_numbers zs : total_raw (VNumber <$> zs) = Normal (VNumber (total zs)).
Proof. apply reduce_plus_numbers. Qed.

Lemma with_total_raw_typed (x : string * list Z) :
  with_total_raw (untyped_series x) = Normal (untyped_totalled (with_total x)).
Proof.
  unfold with_total_raw, untyped_series. cbn [fst snd].
  by rewrite total_raw_numbers.
Qed.

Lemma mapM_with_total_typed (l : list (string * list Z)) :
  mapM with_total_raw (untyped_series <$> l)
  = Normal (untyped_totalled <$> (with_total <$> l)).
Proof.
  induction l as [|x l IH]; [done|].
  by rewrite !fmap_cons, mapM_cons_completion, with_total_raw_typed, bind_normal, IH.
Qed.

Lemma by_total_raw_typed c1 c2 :
  by_total_raw (untyped_totalled c1) (untyped_totalled c2) = by_total c1 c2.
Proof. apply js_minus_numbers. Qed.

Lemma categoryTotals_raw_typed ds :
  categoryTotals_raw sort (untyped ds)
  = Normal (untyped_totalled <$> categoryTotals sort ds).
Proof.
  unfold categoryTotals_raw, categoryTotals. simpl.
  rewrite mapM_with_total_typed. simpl. f_equal.
  apply (local_sorter_fmap sort untyped_totalled by_total by_total_raw).
  intros c1 c2 _ _. apply by_total_raw_typed.
Qed.

Lemma make_trace_raw_typed ds i c :
  make_trace_raw (untyped ds) i (untyped_totalled c) = raw_of_trace <$> make_trace ds i c.
Proof.
  unfold make_trace_raw, make_trace. simpl.
  by destruct (symbol_of (markers ds) c.1.1).
Qed.

Lemma push_traces_raw_typed ds i cs :
  push_traces_raw (untyped ds) i (untyped_totalled <$> cs)
  = fmap (M:=list) raw_of_trace <$> push_traces ds i cs.
Proof.
  revert i. induction cs as [|c cs IH]; intros i; [done|]. csimpl.
  rewrite make_trace_raw_typed, IH.
  destruct (make_trace ds i c); [|done]. simpl.
  by destruct (push_traces ds (S i) cs).
Qed.

Lemma createChartTraces_raw_typed ds :
  createChartTraces_raw sort (untyped ds)
  = fmap (M:=list) raw_of_trace <$> createChartTraces sort ds.
Proof.
  unfold createChartTraces_raw, createChartTraces.
  rewrite categoryTotals_raw_typed. simpl. apply push_traces_raw_typed.
Qed.

End typed.

(** *** Annotations and layout *)

Lemma assoc_untyped_series (l : list (string * list Z)) p :
  assoc p (untyped_series <$> l) = fmap (M:=list) VNumber <$> assoc p l.
Proof.
  induction l as [|[q zs] l IH]; [done|]. csimpl. by case_decide.
Qed.

Section typed_layout.
Context `{Host} `{Arith}.
Implicit Types (ds : Dataset) (acc : list annotation).

(** The value of the lookup: the count, or [undefined] past the end of
    the series. *)
Lemma getCategoryValue_untyped_typed ds c yr :
  getCategoryValue_untyped (untyped ds) c yr
  = from_option VNumber VUndefined (getCategoryValue ds c yr).
Proof.
  unfold getCategoryValue_untyped, getCategoryValue. simpl.
  rewrite assoc_untyped_series.
  destruct (assoc c (categories ds)) as [zs|]; simpl; [|done].
  destruct (0 <=? indexOf (years ds) yr); [|done].
  rewrite list_lookup_fmap. by destruct (zs !! _).
Qed.

Lemma push_if_positive_raw_typed (v : option Z) x t color acc :
  push_if_positive_raw (from_option VNumber VUndefined v) x t color
    (raw_of_annotation <$> acc)
  = Normal (raw_of_annotation <$> push_if_positive v x t color acc).
Proof.
  unfold push_if_positive_raw, push_if_positive. destruct v as [z|]; simpl.
  - rewrite js_greater_number, bind_normal. f_equal.
    rewrite (bool_decide_ext _ _ (iff_sym (Z.ltb_lt 0 z))).
    destruct (0 <? z); simpl; [by rewrite fmap_app|done].
  - by rewrite js_greater_undefined.
Qed.

Lemma createDynamicAnnotations_raw_typed ds :
  createDynamicAnnotations_raw (untyped ds)
  = Normal (raw_of_annotation <$> createDynamicAnnotations ds).
Proof.
  unfold createDynamicAnnotations_raw, createDynamicAnnotations. cbv zeta.
  rewrite !getCategoryValue_untyped_typed.
  rewrite (push_if_positive_raw_typed _ _ _ _ []), bind_normal.
  by rewrite push_if_positive_raw_typed, bind_normal, push_if_positive_raw_typed.
Qed.

Lemma createChartLayout_raw_typed ds :
  createChartLayout_raw (untyped ds) = raw_of_layout <$> createChartLayout ds.
Proof.
  unfold createChartLayout_raw, createChartLayout. simpl.
  destruct (tick_labels (years ds)) as [labels|]; [|done].
  by rewrite bind_normal, createDynamicAnnotations_raw_typed.
Qed.

End typed_layout.

(** ** On every dataset *)

Section general.
Context `{Host} `{Arith}.
Context (sort : ∀ A, (A → A → Z) → list A → list A) `{!LocalSorter sort}.
Implicit Types (rd : RawDataset) (c : totalled) (cs : list totalled)
  (t : raw_trace) (ts : list raw_trace) (i j : nat).

Lemma with_total_raw_inv (x : string * list value) c :
  with_total_raw x = Normal c → c.1 = x.
Proof.
  unfold with_total_raw. intros (total & _ & [= <-])%bind_normal_inv.
  by destruct x.
Qed.

Lemma mapM_with_total_fst (l : list (string * list value)) cs :
  mapM with_total_raw l = Normal cs → fst <$> cs = l.
Proof.
  intros Hall%mapM_normal_inv.
  induction Hall as [|x c l cs Hx%with_total_raw_inv _ IH]; [done|].
  csimpl. by rewrite Hx, IH.
Qed.

(** The loop never throws: one trace per element, in order, with the
    colour of its position. *)
Lemma push_traces_raw_spec rd i cs :
  ∃ ts, push_traces_raw rd i cs = Normal ts ∧
    (λ t, (raw_name t, raw_y t)) <$> ts = (λ c, (c.1.1, VArray c.1.2)) <$> cs ∧
    ∀ j t, ts !! j = Some t →
      raw_x t = VArray (raw_years rd) ∧
      raw_line_color t = at_index colors ((i + j) mod length colors) ∧
      raw_marker_color t = raw_line_color t ∧
      symbol_of (raw_markers rd) (raw_name t) = Normal (raw_marker_symbol t).
Proof.
  revert i. induction cs as [|c cs IH]; intros i.
  { exists []. by split_and!. }
  destruct (symbol_of_total (raw_markers rd) c.1.1) as (s & Hs & _).
  destruct (IH (S i)) as (ts & Hts & Hcs & Hfields).
  eexists. simpl. unfold make_trace_raw. rewrite Hs, !bind_normal, Hts, bind_normal.
  split_and!; [done|by csimpl; rewrite Hcs|].
  intros [|j] t; simpl.
  - intros [= <-]. simpl. by rewrite Nat.add_0_r.
  - intros Ht. rewrite <- Nat.add_succ_comm. by apply Hfields.
Qed.

Lemma concat_cons (s : string) (l : list string) :
  String.concat "" (s :: l) = s +:+ String.concat "" l.
Proof. destruct l; simpl; [by rewrite string_app_empty_r|done]. Qed.

Lemma reduce_plus_text (s : string) (vs : list value) :
  Forall scalar vs →
  reduce (λ sum val, s ← sum; js_plus s val) (Normal (VString s)) vs
  = Normal (VString (s +:+ String.concat "" (to_text <$> vs))).
Proof.
  intros Hvs. revert s. unfold reduce.
  induction Hvs as [|v vs Hv _ IH]; intros s.
  { simpl. by rewrite string_app_empty_r. }
  rewrite fmap_cons, concat_cons. cbn [fold_left].
  destruct v as [| | |z|t| | |]; try done; rewrite bind_normal.
  - by rewrite js_plus_string_number, IH, string_app_assoc.
  - by rewrite js_plus_strings, IH, string_app_assoc.
Qed.

(** A total is a number or a text, whatever the counts are. *)
Lemma total_raw_scalar (vs : list value) v : total_raw vs = Normal v → scalar v.
Proof.
  unfold total_raw, reduce. revert v.
  induction vs as [|x vs IH] using rev_ind; intros v; [by intros [= <-]|].
  rewrite fold_left_app. simpl.
  intros (s & _ & Hv)%bind_normal_inv. by apply (js_plus_scalar s x).
Qed.

(** The total of a series with a count that is a string: the counts
    before it are added, and from there on the texts are put one after
    the other. *)
Lemma total_raw_text (zs : list Z) (s : string) (vs : list value) :
  Forall scalar vs →
  total_raw ((VNumber <$> zs) ++ VString s :: vs)
  = Normal (VString (pretty (total zs) +:+ s +:+ String.concat "" (to_text <$> vs))).
Proof.
  intros Hvs. unfold total_raw, reduce. rewrite fold_left_app.
  change (fold_left ?f (VNumber <$> zs) ?a) with (reduce f a (VNumber <$> zs)).
  rewrite reduce_plus_numbers. cbn [fold_left]. rewrite bind_normal, js_plus_number_string.
  change (fold_left ?f vs ?a) with (reduce f a vs).
  by rewrite reduce_plus_text, string_app_assoc.
Qed.

(** The order of the traces is the engine's to choose only when the
    comparator is not consistent on the totals: when it is, the traces
    come in the order of the stable sort by total. *)
Lemma createChartTraces_raw_order rd cs :
  mapM with_total_raw (raw_categories rd) = Normal cs →
  ConsistentOn by_total_raw cs →
  createChartTraces_raw sort rd = push_traces_raw rd 0 (insertion_sort by_total_raw cs).
Proof.
  intros Hcs Hc. unfold createChartTraces_raw, categoryTotals_raw.
  by rewrite Hcs, !bind_normal, (local_sorter_insertion_sort sort).
Qed.

(** It is consistent when the totals are numbers. *)
Lemma by_total_raw_consistent cs :
  Forall (λ c, ∃ z, c.2 = VNumber z) cs → ConsistentOn by_total_raw cs.
Proof.
  rewrite Forall_forall. intros Hcs.
  split; unfold precedes, by_total_raw.
  - intros a b [za Ha]%Hcs [zb Hb]%Hcs. rewrite Ha, Hb, !js_minus_numbers. lia.
  - intros a b c [za Ha]%Hcs [zb Hb]%Hcs [zc Hc]%Hcs.
    rewrite Ha, Hb, Hc, !js_minus_numbers. lia.
Qed.

(** What the builder returns is decided by the totals. *)
Definition traces_of (rd : RawDataset) : Prop :=
  match mapM with_total_raw (raw_categories rd) with
  | Throw e => createChartTraces_raw sort rd = Throw e
  | Normal cs =>
      (∃ ts, createChartTraces_raw sort rd = Normal ts ∧
         (λ t, (raw_name t, raw_y t)) <$> ts
         ≡ₚ (λ x, (x.1, VArray x.2)) <$> raw_categories rd ∧
         ∀ i t, ts !! i = Some t →
           raw_x t = VArray (raw_years rd) ∧
           raw_line_color t = at_index colors (i mod length colors) ∧
           raw_marker_color t = raw_line_color t ∧
           symbol_of (raw_markers rd) (raw_name t) = Normal (raw_marker_symbol t)) ∧
      (ConsistentOn by_total_raw cs →
       createChartTraces_raw sort rd
       = push_traces_raw rd 0 (insertion_sort by_total_raw cs))
  end.

Lemma createChartTraces_raw_cases rd : traces_of rd.
Proof.
  unfold traces_of, createChartTraces_raw, categoryTotals_raw.
  destruct (mapM with_total_raw (raw_categories rd)) as [cs|e] eqn:Hcs; [|done].
  rewrite !bind_normal. split.
  - destruct (push_traces_raw_spec rd 0 (sort _ by_total_raw cs))
      as (ts & -> & Hts & Hfields).
    exists ts. split_and!; [done| |done].
    rewrite Hts, (local_perm _ by_total_raw cs), <- (mapM_with_total_fst _ cs Hcs).
    by rewrite <- list_fmap_compose.
  - intros Hc. rewrite <- (createChartTraces_raw_order rd cs Hcs Hc).
    unfold createChartTraces_raw, categoryTotals_raw. by rewrite Hcs, !bind_normal.
Qed.

(** C18: the series builder on everything the loader accepts.  A
    dataset that passed the validation has distinct category names and
    series as long as the years, whatever the counts are.  On it
    [createChartTraces] computes the totals in the order of the
    dataset; when a sum throws it throws that error, the first;
    otherwise it returns one trace per category: the traces are the
    categories in some order, each with the years, its values, the
    palette colour of its position and the symbol of its category.
    The order is the engine's to choose only when the comparator is
    not consistent on the totals: when it is, as with totals that are
    numbers, the traces come in the order of the stable sort. *)
Theorem createChartTraces_raw_spec d :
  validate d = Normal tt →
  ∃ rd, shape d = Some rd ∧
    NoDup (raw_categories rd).*1 ∧
    Forall (λ x, length x.2 = length (raw_years rd)) (raw_categories rd) ∧
    traces_of rd.
Proof.
  intros (rd & Hrd & Hnames & Hlen)%shape_validated.
  exists rd. split_and!; try done. apply createChartTraces_raw_cases.
Qed.

End general.

(** ** When the builders throw *)

Section failures.
Context `{Host} `{Arith}.
Context (sort : ∀ A, (A → A → Z) → list A → list A).
Implicit Types (rd : RawDataset) (ds : Dataset) (v : value).

(** The values the annotations compare with 0, in the order of the
    source. *)
Definition annotated rd : list value :=
  [getCategoryValue_untyped rd "Machine Learning & AI" 2024;
   getCategoryValue_untyped rd "Social Sciences & Demographics" 2019;
   getCategoryValue_untyped rd "Pandemic & Public Health" 2020].

(** Nothing throws: no sum, no year, no comparison. *)
Definition Buildable rd : Prop :=
  Forall (λ x, is_normal (total_raw x.2) = true) (raw_categories rd) ∧
  Forall printable (raw_years rd) ∧
  Forall (λ v, is_normal (js_greater v 0) = true) (annotated rd).

#[export] Instance Buildable_dec rd : Decision (Buildable rd).
Proof. unfold Buildable. apply _. Defined.

Lemma is_normal_createChartTraces_raw rd :
  is_normal (createChartTraces_raw sort rd) = true ↔
  Forall (λ x, is_normal (total_raw x.2) = true) (raw_categories rd).
Proof.
  transitivity (Forall (λ x, is_normal (with_total_raw x) = true) (raw_categories rd)).
  2: { apply Forall_iff. intros x. unfold with_total_raw. by destruct (total_raw x.2). }
  rewrite <- forallb_Forall, <- is_normal_mapM.
  unfold createChartTraces_raw, categoryTotals_raw.
  destruct (mapM with_total_raw (raw_categories rd)) as [cs|]; [|done].
  rewrite !bind_normal.
  by destruct (push_traces_raw_spec rd 0 (sort _ by_total_raw cs)) as (ts & -> & _).
Qed.

Lemma is_normal_tick_labels (ys : list value) :
  is_normal (tick_labels ys) = true ↔ Forall printable ys.
Proof.
  split.
  - intros Hn. destruct (decide (Forall printable ys)) as [|Hys]; [done|].
    destruct (tick_labels_throw ys Hys) as [e He]. by rewrite He in Hn.
  - intros Hys. by rewrite tick_labels_printable.
Qed.

Lemma is_normal_createDynamicAnnotations_raw rd :
  is_normal (createDynamicAnnotations_raw rd) = true ↔
  Forall (λ v, is_normal (js_greater v 0) = true) (annotated rd).
Proof.
  unfold createDynamicAnnotations_raw, push_if_positive_raw, annotated. cbv zeta.
  rewrite !Forall_cons, Forall_nil.
  do 3 destruct (js_greater _ 0);
    rewrite ?bind_normal, ?bind_throw; simpl; by intuition.
Qed.

Lemma is_normal_chart_arguments_raw rd :
  is_normal (chart_arguments_raw sort rd) = true ↔ Buildable rd.
Proof.
  unfold Buildable, chart_arguments_raw, createChartLayout_raw.
  rewrite <- is_normal_createChartTraces_raw, <- is_normal_tick_labels,
    <- is_normal_createDynamicAnnotations_raw.
  destruct (createChartTraces_raw sort rd); simpl; [|by intuition].
  destruct (tick_labels _); simpl; [|by intuition].
  destruct (createDynamicAnnotations_raw rd); simpl; by intuition.
Qed.

(** With numbers for counts only the years matter. *)
Lemma Buildable_untyped ds : Buildable (untyped ds) ↔ Forall printable (years ds).
Proof.
  unfold Buildable. split; [by intros (_ & ? & _)|]. intros Hys. split_and!; [|done|].
  - apply Forall_fmap, Forall_true. intros x. simpl. by rewrite total_raw_numbers.
  - unfold annotated. rewrite !getCategoryValue_untyped_typed.
    repeat constructor;
      by destruct (getCategoryValue _ _ _); simpl;
        rewrite ?js_greater_number, ?js_greater_undefined.
Qed.

(** C36: when the chart can be built.  [renderChart] gets the
    arguments of the chart exactly when no sum of a series throws,
    [toString] can be called on every year, and none of the three
    comparisons of the annotations throws; otherwise a builder throws
    and [renderChart] shows its error panel.  With numbers for counts
    the years alone decide: a year that is [null], an object with a
    [toString] member of its own, or an array that holds such an
    object, makes the layout fail, and the validation does not exclude
    it. *)
Theorem chart_arguments_raw_fails_iff :
  (∀ rd, (∃ e, chart_arguments_raw sort rd = Throw e) ↔ ¬ Buildable rd) ∧
  (∀ ds, (∃ e, chart_arguments_raw sort (untyped ds) = Throw e)
         ↔ ¬ Forall printable (years ds)).
Proof.
  assert (∀ rd, (∃ e, chart_arguments_raw sort rd = Throw e) ↔ ¬ Buildable rd) as Hiff.
  { intros rd. rewrite <- is_normal_chart_arguments_raw, <- is_normal_false.
    by destruct (is_normal _). }
  split; [done|]. intros ds. by rewrite Hiff, Buildable_untyped.
Qed.

End failures.

(** ** The typed view loses nothing *)

(** The arguments of the typed builders, as those of this file. *)
Definition raw_of_arguments (args : list trace * layout)
  : list raw_trace * raw_layout :=
  (raw_of_trace <$> args.1, raw_of_layout args.2).

Section refinement.
Context `{Host} `{Arith}.
Context (sort : ∀ A, (A → A → Z) → list A → list A) `{!LocalSorter sort}.

Lemma chart_arguments_raw_untyped ds :
  chart_arguments_raw sort (untyped ds) = raw_of_arguments <$> chart_arguments sort ds.
Proof.
  unfold chart_arguments_raw, chart_arguments.
  rewrite createChartTraces_raw_typed by done. rewrite createChartLayout_raw_typed.
  destruct (createChartTraces sort ds) as [ts|]; [|done]. simpl.
  by destruct (createChartLayout ds).
Qed.

(** C13: the typed model is the program on numbers.  A dataset that
    has a typed view has the shape of that view, and on it the builders
    of the parsed value ([+] of the engine, the comparator on values,
    [>] of the engine) compute the arguments of the chart that the
    builders of [Traces] and [Annotations] compute, and throw when they
    throw. *)
Theorem chart_arguments_raw_typed d ds :
  decode d = Some ds →
  shape d = Some (untyped ds) ∧
  chart_arguments_raw sort (untyped ds)
  = raw_of_arguments <$> chart_arguments sort ds.
Proof.
  intros Hds. split; [by apply shape_decode|apply chart_arguments_raw_untyped].
Qed.

End refinement.

(** ** Instances *)

(** A dataset the validation accepts although a count is a string. *)
Definition text_counts : value :=
  VObject [("years", VArray [VNumber 2023; VNumber 2024]);
           ("categories", VObject [("A", VArray [VString "1"; VNumber 2]);
                                   ("B", VArray [VNumber 1; VNumber 1])])].

(** The total of its first category is a text, whatever the engine. *)
Example text_counts_total `{Host} `{Arith} :
  validate text_counts = Normal tt ∧
  total_raw [VString "1"; VNumber 2] = Normal (VString "012").
Proof. split; [done|]. by rewrite (total_raw_text [] "1" [VNumber 2]) by repeat constructor. Qed.

Lemma chart_arguments_raw_typed_witness :
  shape scenario = Some (untyped scenario_dataset) ∧
  chart_arguments_raw (@insertion_sort) (untyped scenario_dataset)
  = raw_of_arguments <$> chart_arguments (@insertion_sort) scenario_dataset.
Proof.
  apply (chart_arguments_raw_typed (@insertion_sort) scenario scenario_dataset).
  reflexivity.
Defined.

Lemma createChartTraces_raw_spec_witness :
  ∃ rd, shape text_counts = Some rd ∧
    NoDup (raw_categories rd).*1 ∧
    Forall (λ x, length x.2 = length (raw_years rd)) (raw_categories rd) ∧
    traces_of (@insertion_sort) rd.
Proof.
  apply (createChartTraces_raw_spec (@insertion_sort) text_counts). reflexivity.
Defined.
