(* ===== verification/App.v ===== *)
(** * The page: rendering, the debounced resize listener, initialisation

    [renderChart] (lines 380-406), [debounce] (lines 416-426),
    [initializeApp] (lines 433-452) and the three listeners of lines
    459-477, as handlers on a [Page]: the world of the loader, the
    closures [debounce] returned and that are registered for [resize],
    the pending timers, the clock, and what was asked of the charting
    library.  The handlers are composed into the step relation [step]
    over the events the browser delivers; [Inv] is the invariant of the
    reachable pages.  The builders [renderChart] calls are those of
    [Raw], which are defined on every dataset the validation accepts,
    so the initialisation has a result whatever the dataset holds
    ([initializeApp_total]); on numeric counts they are the builders of
    [Traces] and [Annotations] ([initializeApp_rendered]).

    The environment answers are inputs of the events: the completion of
    [fetch] and of [Plotly.newPlot] (with the event that starts the
    page) and of [Plotly.Plots.resize] (with the timer that calls it).
    Initialisation is one step: no listener and no timer exists before
    it ends, so an event delivered while it awaits finds nothing to
    change except the console. *)

From Stdlib Require Import ZArith List Lia String.
From stdpp Require Import base tactics option strings numbers list.
From S2P Require Import Prelude StableSort LocalSort JsValue Loader Traces Annotations Raw.

#[local] Open Scope string_scope.
#[local] Open Scope list_scope.
#[local] Open Scope nat_scope.

(** ** State *)

(** A pending timer of [setTimeout]. *)
Record timer := mkTimer {
  timer_id : nat;
  (** the closure whose [later] it runs: a position in [listeners] *)
  owner : nat;
  (** the time, in milliseconds, from which it may fire *)
  due : nat
}.

#[export] Instance timer_eq_dec : EqDecision timer.
Proof. solve_decision. Defined.

Record Page := mkPage {
  world : World;
  (** the [timeout] variable of each closure registered for [resize],
      in the order of registration; [None] is [undefined] *)
  listeners : list (option nat);
  timers : list timer;
  (** the id the next [setTimeout] returns *)
  next_id : nat;
  clock : nat;
  (** the arguments of the calls of [Plotly.newPlot] *)
  plots : list (list raw_trace * raw_layout);
  (** the number of calls of [Plotly.Plots.resize] *)
  resizes : nat;
  (** whether [DOMContentLoaded] has been delivered *)
  ready : bool
}.

(** The page when the script has been evaluated. *)
Definition Page_init (chart_element : option panel) : Page :=
  mkPage (mkWorld AppState_init chart_element []) [] [] 1 0 [] 0 false.

Definition on_world (f : World → World) (p : Page) : Page :=
  mkPage (f (world p)) (listeners p) (timers p) (next_id p) (clock p)
    (plots p) (resizes p) (ready p).

Definition on_timers (f : list timer → list timer) (p : Page) : Page :=
  mkPage (world p) (listeners p) (f (timers p)) (next_id p) (clock p)
    (plots p) (resizes p) (ready p).

(** [console.log(text)]. *)
Definition info (text : string) : Page → Page :=
  on_world (log (LogInfo text [])).

(** ** [debounce] *)

(** The delay [renderChart] passes to [debounce]. *)
Definition wait : nat := 250.

(** [clearTimeout(timeout)]: nothing happens when the variable is
    [undefined] or names a timer that is no longer pending. *)
Definition clearTimeout (timeout : option nat) (p : Page) : Page :=
  match timeout with
  | Some id => on_timers (filter (λ t, timer_id t ≠ id)) p
  | None => p
  end.

(** [timeout = setTimeout(later, wait)] in the closure [i]. *)
Definition setTimeout (i : nat) (p : Page) : Page :=
  mkPage (world p) (<[i := Some (next_id p)]> (listeners p))
    (timers p ++ [mkTimer (next_id p) i (clock p + wait)])
    (S (next_id p)) (clock p) (plots p) (resizes p) (ready p).

(** [executedFunction], the function [debounce] returns, for the
    closure [i]. *)
Definition executedFunction (i : nat) (p : Page) : Page :=
  match listeners p !! i with
  | Some timeout => setTimeout i (clearTimeout timeout p)
  | None => p
  end.

(** [window.addEventListener('error', ...)]. *)
Definition on_error (e : js_error) : Page → Page :=
  on_world (logError "Global" e).

(** [window.addEventListener('unhandledrejection', ...)]. *)
Definition on_unhandledrejection (reason : js_error) : Page → Page :=
  on_world (logError "Promise" reason).

(** The function [renderChart] debounces:
    [if (AppState.chartInstance) Plotly.Plots.resize('evolution-chart')].
    Nothing catches what the call throws: the exception leaves the timer
    callback and the browser reports it to the [error] listener. *)
Definition resize_chart (outcome : completion unit) (p : Page) : Page :=
  match chartInstance (app (world p)) with
  | Some _ =>
      let p := mkPage (world p) (listeners p) (timers p) (next_id p)
                 (clock p) (plots p) (S (resizes p)) (ready p) in
      try_catch ((λ _, p) <$> outcome) (λ e, on_error e p)
  | None => p
  end.

(** [later] of the closure [i]. *)
Definition later (i : nat) (outcome : completion unit) (p : Page) : Page :=
  match listeners p !! i with
  | Some timeout => resize_chart outcome (clearTimeout timeout p)
  | None => p
  end.

(** A pending timer fires: it stops being pending and its callback
    runs. *)
Definition fire (t : timer) (outcome : completion unit) (p : Page) : Page :=
  later (owner t) outcome (on_timers (filter (λ u, timer_id u ≠ timer_id t)) p).

(** A [resize] event: the registered closures run in the order of
    registration. *)
Definition on_resize (p : Page) : Page :=
  foldl (λ p i, executedFunction i p) p (seq 0 (length (listeners p))).

(** ** [renderChart] *)

Section handlers.
Context `{Host} `{Arith}.
Context (sort : ∀ A, (A → A → Z) → list A → list A).

(** The [catch] block of [renderChart]. *)
Definition render_failed (e : js_error) : Page → Page :=
  on_world (λ w,
    showErrorState (Some "Failed to render chart visualization")
      (logError "renderChart" e w)).

(** [Plotly.newPlot] is called: the call is recorded. *)
Definition newPlot (args : list raw_trace * raw_layout) (p : Page) : Page :=
  mkPage (world p) (listeners p) (timers p) (next_id p) (clock p)
    (plots p ++ [args]) (resizes p) (ready p).

(** Lines 386-400, when the promise of [Plotly.newPlot] is fulfilled:
    the library has drawn the chart into the element, the handle is
    stored, and a new debounced closure is registered for [resize]. *)
Definition rendered (h : chart_handle) (p : Page) : Page :=
  let w := set_panel ChartPanel (world p) in
  let w := set_app (λ a, mkAppState (data a) (isLoading a) (error a) (Some h)) w in
  let w := log (LogInfo "[TopicEvolution] Chart rendered successfully" []) w in
  mkPage w (listeners p ++ [None]) (timers p) (next_id p) (clock p)
    (plots p) (resizes p) (ready p).

Definition renderChart (data : RawDataset) (plotted : completion chart_handle)
    (p : Page) : Page :=
  match chart_arguments_raw sort data with
  | Normal args =>
      let p := newPlot args p in
      try_catch ((λ h, rendered h p) <$> plotted) (λ e, render_failed e p)
  | Throw e => render_failed e p
  end.

(** ** [initializeApp] *)

(** The [catch] block of [initializeApp]. *)
Definition initialize_failed (e : js_error) : Page → Page :=
  on_world (λ w,
    showErrorState (Some "Application failed to initialize")
      (logError "initializeApp" e w)).

(** [initializeApp].  [renderChart] is given the dataset in the shape
    the validation has checked; [initializeApp_total] shows that there
    is always a result. *)
Definition initializeApp (fetched : completion response)
    (plotted : completion chart_handle) (p : Page) : option Page :=
  let p := info "[TopicEvolution] Initializing application..." p in
  let (w, loaded) := loadTopicData fetched (world p) in
  let p := on_world (λ _, w) p in
  let data := default VNull loaded in
  if negb (truthy data) then
    Some (initialize_failed (Error "Failed to load required data") p)
  else
    raw ← shape data;
    Some (info "[TopicEvolution] Application initialized successfully"
            (renderChart raw plotted p)).

(** The [DOMContentLoaded] listener. *)
Definition on_DOMContentLoaded (fetched : completion response)
    (plotted : completion chart_handle) (p : Page) : option Page :=
  initializeApp fetched plotted
    (info "[TopicEvolution] DOM loaded, starting initialization..." p).

(** ** Events *)

Inductive event :=
| DOMContentLoaded (fetched : completion response)
    (plotted : completion chart_handle)
| Resize
| Elapse (ms : nat)
| TimerFired (t : timer) (outcome : completion unit)
| ErrorEvent (e : js_error)
| UnhandledRejection (reason : js_error).

Definition mark_ready (p : Page) : Page :=
  mkPage (world p) (listeners p) (timers p) (next_id p) (clock p)
    (plots p) (resizes p) true.

Definition elapse (ms : nat) (p : Page) : Page :=
  mkPage (world p) (listeners p) (timers p) (next_id p) (clock p + ms)
    (plots p) (resizes p) (ready p).

(** One event is delivered.  The document is loaded once; a timer fires
    when it is pending and due, not before. *)
Inductive step : Page → event → Page → Prop :=
| step_DOMContentLoaded p fetched plotted p' :
    ready p = false →
    on_DOMContentLoaded fetched plotted p = Some p' →
    step p (DOMContentLoaded fetched plotted) (mark_ready p')
| step_Resize p :
    step p Resize (on_resize p)
| step_Elapse p ms :
    step p (Elapse ms) (elapse ms p)
| step_TimerFired p t outcome :
    t ∈ timers p → due t ≤ clock p →
    step p (TimerFired t outcome) (fire t outcome p)
| step_ErrorEvent p e :
    step p (ErrorEvent e) (on_error e p)
| step_UnhandledRejection p reason :
    step p (UnhandledRejection reason) (on_unhandledrejection reason p).

(** The pages a sequence of events leads to. *)
Inductive run : Page → list event → Page → Prop :=
| run_nil p : run p [] p
| run_cons p ev p' evs p'' :
    step p ev p' → run p' evs p'' → run p (ev :: evs) p''.

Definition reachable (p : Page) : Prop :=
  ∃ chart_element evs, run (Page_init chart_element) evs p.

(** The step relation as a function: the page after an event, when the
    event can be delivered. *)
Definition deliver (ev : event) (p : Page) : option Page :=
  match ev with
  | DOMContentLoaded fetched plotted =>
      if ready p then None
      else mark_ready <$> on_DOMContentLoaded fetched plotted p
  | Resize => Some (on_resize p)
  | Elapse ms => Some (elapse ms p)
  | TimerFired t outcome =>
      if decide (t ∈ timers p ∧ due t ≤ clock p) then Some (fire t outcome p)
      else None
  | ErrorEvent e => Some (on_error e p)
  | UnhandledRejection reason => Some (on_unhandledrejection reason p)
  end.

Fixpoint deliver_all (evs : list event) (p : Page) : option Page :=
  match evs with
  | [] => Some p
  | ev :: evs => deliver ev p ≫= deliver_all evs
  end.

End handlers.

(** ** What the timer operations leave alone *)

(** The part of a page the timer operations do not change, console
    apart: the application state, the panel, the number of listeners,
    the plots and whether the document is loaded. *)
Definition frame (p : Page) :=
  (app (world p), chart_element (world p), length (listeners p), plots p, ready p).

Definition same_frame (p q : Page) : Prop := frame p = frame q.

#[export] Instance same_frame_equivalence : Equivalence same_frame.
Proof.
  unfold same_frame. split; [by intros ?|by intros ??|].
  intros ??? -> ->. done.
Qed.

Section frames.
Implicit Types (p : Page) (i : nat) (t : timer).

Lemma clearTimeout_frame timeout p : same_frame (clearTimeout timeout p) p.
Proof. by destruct timeout. Qed.

Lemma setTimeout_frame i p : same_frame (setTimeout i p) p.
Proof. unfold same_frame, frame. simpl. by rewrite length_insert. Qed.

Lemma executedFunction_frame i p : same_frame (executedFunction i p) p.
Proof.
  unfold executedFunction. destruct (listeners p !! i) as [timeout|]; [|done].
  by rewrite setTimeout_frame, clearTimeout_frame.
Qed.

Lemma foldl_executedFunction_frame l p :
  same_frame (foldl (λ p i, executedFunction i p) p l) p.
Proof.
  revert p. induction l as [|i l IH]; intros p; [done|]. simpl.
  by rewrite IH, executedFunction_frame.
Qed.

Lemma on_resize_frame p : same_frame (on_resize p) p.
Proof. apply foldl_executedFunction_frame. Qed.

Lemma on_error_frame e p : same_frame (on_error e p) p.
Proof. done. Qed.

Lemma resize_chart_frame outcome p : same_frame (resize_chart outcome p) p.
Proof.
  unfold resize_chart. destruct (chartInstance _); [|done].
  by destruct outcome.
Qed.

Lemma fire_frame t outcome p : same_frame (fire t outcome p) p.
Proof.
  unfold fire, later. simpl. destruct (listeners p !! owner t) as [timeout|]; [|done].
  by rewrite resize_chart_frame, clearTimeout_frame.
Qed.

(** The timer operations do not call [Plotly.Plots.resize], except the
    callback itself. *)
Lemma clearTimeout_resizes timeout p : resizes (clearTimeout timeout p) = resizes p.
Proof. by destruct timeout. Qed.

Lemma executedFunction_resizes i p : resizes (executedFunction i p) = resizes p.
Proof.
  unfold executedFunction. destruct (listeners p !! i) as [timeout|]; [|done].
  simpl. apply clearTimeout_resizes.
Qed.

Lemma on_resize_resizes p : resizes (on_resize p) = resizes p.
Proof.
  unfold on_resize. generalize (seq 0 (length (listeners p))). intros l.
  revert p. induction l as [|i l IH]; intros p; [done|]. simpl.
  by rewrite IH, executedFunction_resizes.
Qed.

Lemma clearTimeout_clock timeout p : clock (clearTimeout timeout p) = clock p.
Proof. by destruct timeout. Qed.

Lemma executedFunction_clock i p : clock (executedFunction i p) = clock p.
Proof.
  unfold executedFunction. destruct (listeners p !! i) as [timeout|]; [|done].
  simpl. apply clearTimeout_clock.
Qed.

Lemma on_resize_clock p : clock (on_resize p) = clock p.
Proof.
  unfold on_resize. generalize (seq 0 (length (listeners p))). intros l.
  revert p. induction l as [|i l IH]; intros p; [done|]. simpl.
  by rewrite IH, executedFunction_clock.
Qed.

End frames.

(** ** The timers of the debounced closures *)

(** Timer ids are fresh and distinct, a pending timer is the one its
    closure remembers in [timeout], and no timer is due later than one
    [wait] from now. *)
Record timers_ok (p : Page) : Prop := {
  ids_fresh : ∀ t, t ∈ timers p → timer_id t < next_id p;
  ids_distinct : NoDup (timer_id <$> timers p);
  owners_ok : ∀ t, t ∈ timers p → listeners p !! owner t = Some (Some (timer_id t));
  due_ok : ∀ t, t ∈ timers p → due t ≤ clock p + wait
}.

Section timers.
Implicit Types (p : Page) (i : nat) (t : timer).

Lemma timers_ok_on_world f p : timers_ok p → timers_ok (on_world f p).
Proof. by intros []. Qed.

Lemma timers_ok_filter (P : timer → Prop) `{!∀ t, Decision (P t)} p :
  timers_ok p → timers_ok (on_timers (filter P) p).
Proof.
  intros [Hfresh Hdistinct Howner Hdue]. split; simpl.
  - intros t [_ Ht]%list_elem_of_filter. auto.
  - eapply sublist_NoDup; [done|]. apply fmap_sublist, sublist_filter.
  - intros t [_ Ht]%list_elem_of_filter. auto.
  - intros t [_ Ht]%list_elem_of_filter. auto.
Qed.

Lemma clearTimeout_timers_ok timeout p :
  timers_ok p → timers_ok (clearTimeout timeout p).
Proof. destruct timeout; [apply timers_ok_filter; apply _|done]. Qed.

Lemma clearTimeout_listeners timeout p :
  listeners (clearTimeout timeout p) = listeners p.
Proof. by destruct timeout. Qed.

Lemma clearTimeout_elem_of timeout p t :
  t ∈ timers (clearTimeout timeout p) ↔ t ∈ timers p ∧ timeout ≠ Some (timer_id t).
Proof.
  destruct timeout as [id|]; simpl.
  - rewrite list_elem_of_filter. split; intros [??]; split; congruence.
  - split; [by intros ?|by intros [? _]].
Qed.

(** After [clearTimeout(timeout)] the closure has no pending timer. *)
Lemma clearTimeout_unowned i timeout p t :
  timers_ok p → listeners p !! i = Some timeout →
  t ∈ timers (clearTimeout timeout p) → owner t ≠ i.
Proof.
  intros Hok Hi [Ht Hne]%clearTimeout_elem_of <-.
  apply (owners_ok p Hok) in Ht. congruence.
Qed.

Lemma setTimeout_timers_ok i p :
  timers_ok p → i < length (listeners p) →
  (∀ t, t ∈ timers p → owner t ≠ i) →
  timers_ok (setTimeout i p).
Proof.
  intros [Hfresh Hdistinct Howner Hdue] Hi Hfree. split; simpl.
  - intros t [Ht| ->%list_elem_of_singleton]%elem_of_app; [|simpl; lia].
    apply Hfresh in Ht. lia.
  - rewrite fmap_app. apply NoDup_app.
    split_and!; [done| |apply NoDup_singleton].
    intros id (t & -> & Ht)%list_elem_of_fmap Hid. csimpl in Hid.
    apply list_elem_of_singleton in Hid. apply Hfresh in Ht. lia.
  - intros t [Ht| ->%list_elem_of_singleton]%elem_of_app; simpl.
    + rewrite list_lookup_insert_ne; [auto|]. intros ->. by apply (Hfree t).
    + by apply list_lookup_insert_eq.
  - intros t [Ht| ->%list_elem_of_singleton]%elem_of_app; [auto|done].
Qed.

Lemma executedFunction_timers_ok i p :
  timers_ok p → timers_ok (executedFunction i p).
Proof.
  intros Hok. unfold executedFunction.
  destruct (listeners p !! i) as [timeout|] eqn:Hi; [|done].
  apply setTimeout_timers_ok.
  - by apply clearTimeout_timers_ok.
  - rewrite clearTimeout_listeners. by apply lookup_lt_Some in Hi.
  - intros t. by apply clearTimeout_unowned.
Qed.

Lemma on_resize_timers_ok p : timers_ok p → timers_ok (on_resize p).
Proof.
  unfold on_resize. generalize (seq 0 (length (listeners p))). intros l.
  revert p. induction l as [|i l IH]; intros p Hok; [done|]. simpl.
  by apply IH, executedFunction_timers_ok.
Qed.

Lemma elapse_timers_ok ms p : timers_ok p → timers_ok (elapse ms p).
Proof.
  intros [Hfresh Hdistinct Howner Hdue]. split; simpl; try done.
  intros t Ht%Hdue. lia.
Qed.

Lemma resize_chart_timers_ok outcome p :
  timers_ok p → timers_ok (resize_chart outcome p).
Proof.
  intros Hok. unfold resize_chart. destruct (chartInstance _); [|done].
  destruct outcome; simpl; by destruct Hok.
Qed.

Lemma fire_timers_ok t outcome p : timers_ok p → timers_ok (fire t outcome p).
Proof.
  intros Hok. unfold fire, later. simpl.
  destruct (listeners p !! owner t) as [timeout|]; [|by apply timers_ok_filter].
  apply resize_chart_timers_ok, clearTimeout_timers_ok.
  by apply (timers_ok_filter (λ u, timer_id u ≠ timer_id t)).
Qed.

(** Closures have at most one pending timer each, so there are no more
    timers than closures. *)
Lemma timers_ok_owners_NoDup p : timers_ok p → NoDup (owner <$> timers p).
Proof.
  intros [_ Hdistinct Howner _]. revert Hdistinct Howner.
  induction (timers p) as [|t ts IH]; csimpl; [constructor|].
  intros [Ht Hts]%NoDup_cons Hown. constructor.
  - intros (u & Hu & Hin)%list_elem_of_fmap. apply Ht.
    assert (timer_id t = timer_id u) as ->.
    { pose proof (Hown t ltac:(left)) as H1.
      pose proof (Hown u ltac:(by right)) as H2. congruence. }
    by apply list_elem_of_fmap_2.
  - apply IH; [done|]. intros u Hu. apply Hown. by right.
Qed.

Lemma timers_ok_length p : timers_ok p → length (timers p) ≤ length (listeners p).
Proof.
  intros Hok. rewrite <- (length_fmap owner).
  trans (length (seq 0 (length (listeners p)))); [|by rewrite length_seq].
  apply submseteq_length, NoDup_submseteq; [by apply timers_ok_owners_NoDup|].
  intros i (t & -> & Ht)%list_elem_of_fmap. apply elem_of_seq.
  apply (owners_ok p Hok), lookup_lt_Some in Ht. lia.
Qed.

(** *** What a [resize] event does to the timers *)

(** A timer that is pending after [executedFunction] was pending before
    or has just been set. *)
Lemma executedFunction_elem_of i p t :
  timers_ok p → t ∈ timers (executedFunction i p) →
  t ∈ timers p ∧ owner t ≠ i ∨ owner t = i ∧ due t = clock p + wait.
Proof.
  intros Hok. unfold executedFunction.
  destruct (listeners p !! i) as [timeout|] eqn:Hi.
  - simpl. rewrite clearTimeout_clock.
    intros [Ht| ->%list_elem_of_singleton]%elem_of_app; [left|by right].
    split; [by apply clearTimeout_elem_of in Ht as [? _]|].
    by apply (clearTimeout_unowned i timeout p).
  - intros Ht. left. split; [done|]. intros <-.
    apply (owners_ok p Hok) in Ht. congruence.
Qed.

(** The closures [0 .. n-1] have run. *)
Definition resize_upto (n : nat) (p : Page) : Page :=
  foldl (λ p i, executedFunction i p) p (seq 0 n).

Lemma resize_upto_S n p :
  resize_upto (S n) p = executedFunction n (resize_upto n p).
Proof. unfold resize_upto. by rewrite seq_S, foldl_snoc. Qed.

Lemma resize_upto_timers_ok n p : timers_ok p → timers_ok (resize_upto n p).
Proof.
  intros Hok. induction n as [|n IH]; [done|].
  rewrite resize_upto_S. by apply executedFunction_timers_ok.
Qed.

Lemma resize_upto_clock n p : clock (resize_upto n p) = clock p.
Proof.
  induction n as [|n IH]; [done|].
  by rewrite resize_upto_S, executedFunction_clock.
Qed.

(** After the first [n] closures ran, their timers are the ones just
    set and the timers of the others are untouched. *)
Lemma resize_upto_elem_of n p t :
  timers_ok p → t ∈ timers (resize_upto n p) →
  t ∈ timers p ∧ n ≤ owner t ∨ owner t < n ∧ due t = clock p + wait.
Proof.
  intros Hok. induction n as [|n IH]; [left; split; [done|lia]|].
  rewrite resize_upto_S.
  intros [[Ht Hne]|[Ht Hdue]]%executedFunction_elem_of;
    [|right; split; [lia|by rewrite <- (resize_upto_clock n p)]
     |by apply resize_upto_timers_ok].
  destruct (IH Ht) as [[? ?]|[? ?]]; [left|right]; split; try done; lia.
Qed.

(** Every timer that is pending after a [resize] event has been set by
    it: a timer that was pending before has been cleared. *)
Lemma on_resize_due p t :
  timers_ok p → t ∈ timers (on_resize p) → due t = clock p + wait.
Proof.
  intros Hok Ht.
  destruct (resize_upto_elem_of _ p t Hok Ht) as [[Hin Hle]|[_ ?]]; [|done].
  apply (owners_ok p Hok), lookup_lt_Some in Hin. lia.
Qed.

Lemma fire_elem_of t outcome p u : u ∈ timers (fire t outcome p) → u ∈ timers p.
Proof.
  unfold fire, later, resize_chart. simpl.
  destruct (listeners p !! owner t) as [timeout|]; simpl.
  - destruct (chartInstance _); [destruct outcome|]; simpl;
      intros [[_ ?]%list_elem_of_filter _]%clearTimeout_elem_of; done.
  - by intros [_ ?]%list_elem_of_filter.
Qed.

(** A timer that fires is no longer pending, and its callback calls
    [Plotly.Plots.resize] at most once. *)
Lemma fire_length t outcome p :
  t ∈ timers p → length (timers (fire t outcome p)) < length (timers p).
Proof.
  intros Ht.
  assert (length (timers (fire t outcome p))
          ≤ length (filter (λ u, timer_id u ≠ timer_id t) (timers p))) as Hle.
  { unfold fire, later, resize_chart. simpl.
    destruct (listeners p !! owner t) as [[id|]|]; simpl; try done;
      destruct (chartInstance _); try destruct outcome; simpl;
      try done; apply length_filter. }
  eapply Nat.le_lt_trans; [done|]. apply (length_filter_lt _ _ t); [done|].
  by intros ?.
Qed.

Lemma resize_chart_resizes outcome p :
  resizes (resize_chart outcome p)
  = if chartInstance (app (world p)) is Some _ then S (resizes p) else resizes p.
Proof.
  unfold resize_chart. destruct (chartInstance _); [|done]. by destruct outcome.
Qed.

Lemma fire_resizes_le t outcome p : resizes (fire t outcome p) ≤ S (resizes p).
Proof.
  unfold fire, later. simpl. destruct (listeners p !! owner t) as [timeout|];
    simpl; [|lia].
  rewrite resize_chart_resizes, clearTimeout_resizes. simpl.
  destruct (chartInstance _); lia.
Qed.

(** With a chart on the page, the callback of a closure that is
    registered calls [Plotly.Plots.resize]. *)
Lemma fire_resizes t outcome p :
  is_Some (listeners p !! owner t) → is_Some (chartInstance (app (world p))) →
  resizes (fire t outcome p) = S (resizes p).
Proof.
  intros [timeout Ht] [h Hh]. unfold fire, later. simpl. rewrite Ht.
  rewrite resize_chart_resizes, clearTimeout_resizes. simpl.
  destruct timeout; simpl; by rewrite Hh.
Qed.

End timers.

(** ** Initialisation *)

(** The panel that goes with a settled application state: the chart
    when there is a handle, and otherwise one of the two fixed messages,
    according to whether a dataset was stored. *)
Definition expected_panel (a : AppState) : panel :=
  match chartInstance a with
  | Some _ => ChartPanel
  | None =>
      ErrorPanel (if data a is Some _ then "Failed to render chart visualization"
                  else "Application failed to initialize")
  end.

Section initialisation.
Context `{Host} `{Arith}.
Context (sort : ∀ A, (A → A → Z) → list A → list A).
Implicit Types (p : Page) (fetched : completion response).
Implicit Types (plotted : completion chart_handle).

(** Initialisation sets no timer, calls no [Plotly.Plots.resize] and at
    most adds closures. *)
Lemma initializeApp_machine fetched plotted p p' :
  initializeApp sort fetched plotted p = Some p' →
  timers p' = timers p ∧ next_id p' = next_id p ∧ clock p' = clock p ∧
  resizes p' = resizes p ∧ ready p' = ready p ∧
  ∃ k, listeners p' = listeners p ++ k.
Proof.
  unfold initializeApp. destruct (loadTopicData _ _) as [w loaded].
  destruct (negb _).
  { intros [= <-]. split_and!; try done. exists []. by rewrite app_nil_r. }
  destruct (shape _) as [raw|]; simpl; [|done]. intros [= <-].
  unfold renderChart. destruct (chart_arguments_raw sort raw) as [args|e];
    [destruct plotted as [h|e]|]; simpl; split_and!; try done;
    first [by exists [None]|by exists []; rewrite app_nil_r].
Qed.

(** The outcomes of [initializeApp]: the load failed; the arguments of
    the chart could not be built; [Plotly.newPlot] failed; the chart is
    on the page.  Each is given by what it leaves in the application
    state, the panel, the listeners and the plots, and by the last line
    of the console. *)
Lemma initializeApp_cases fetched plotted p p' :
  initializeApp sort fetched plotted p = Some p' →
  let a := app (world p) in
  let shows (pn : panel) := (λ _, pn) <$> chart_element (world p) in
  let success := LogInfo "[TopicEvolution] Application initialized successfully" [] in
  (∃ e, loadTopicData_try fetched = Throw e ∧
     frame p' = (mkAppState (data a) false (Some e) (chartInstance a),
                 shows (ErrorPanel "Application failed to initialize"),
                 length (listeners p), plots p, ready p) ∧
     last (console (world p'))
     = Some (LogError "initializeApp" (Error "Failed to load required data"))) ∨
  (∃ d raw, loadTopicData_try fetched = Normal d ∧ shape d = Some raw ∧
     last (console (world p')) = Some success ∧
     frame p' =
       match chart_arguments_raw sort raw, plotted with
       | Normal args, Normal h =>
           (mkAppState (Some d) false None (Some h), shows ChartPanel,
            S (length (listeners p)), plots p ++ [args], ready p)
       | Normal args, Throw _ =>
           (mkAppState (Some d) false None (chartInstance a),
            shows (ErrorPanel "Failed to render chart visualization"),
            length (listeners p), plots p ++ [args], ready p)
       | Throw _, _ =>
           (mkAppState (Some d) false None (chartInstance a),
            shows (ErrorPanel "Failed to render chart visualization"),
            length (listeners p), plots p, ready p)
       end).
Proof.
  unfold initializeApp. destruct (loadTopicData_try fetched) as [d|e] eqn:Htry.
  - rewrite (loadTopicData_loaded _ _ _ Htry). cbv beta iota zeta.
    change (default VNull (Some d)) with d.
    rewrite (Validated_truthy d)
      by by apply validate_Validated, (loadTopicData_try_validated fetched).
    simpl. destruct (shape d) as [raw|] eqn:Hraw; simpl; [|done]. intros [= <-].
    right. exists d, raw. split_and!; try done.
    + unfold info, on_world, log. cbn [world console]. by rewrite last_snoc.
    + unfold renderChart, frame. destruct (chart_arguments_raw sort raw) as [args|e];
        [destruct plotted as [h|e]|]; simpl;
        rewrite ?length_app, ?Nat.add_1_r; by destruct (chart_element (world p)).
  - rewrite (loadTopicData_failed _ _ _ Htry). simpl. intros [= <-].
    left. exists e. split_and!; try done.
    + unfold frame. simpl. by destruct (chart_element (world p)).
    + simpl. by rewrite last_snoc.
Qed.

End initialisation.

(** ** The invariant of the reachable pages *)

Section invariant.
Context `{Host} `{Arith}.
Context (sort : ∀ A, (A → A → Z) → list A → list A).
Implicit Types (p : Page) (ev : event) (pn : option panel).

(** What holds of the application state [a], the panel [pn], the
    number [n] of listeners and the plots [pl], before ([rd] false) and
    after the document is loaded. *)
Record state_ok (a : AppState) (pn : option panel) (n : nat)
    (pl : list (list raw_trace * raw_layout)) (rd : bool) : Prop := {
  ok_loading : isLoading a = negb rd;
  ok_fresh : rd = false → a = AppState_init ∧ n = 0 ∧ pl = [];
  ok_outcome : rd = true → (is_Some (data a) ↔ error a = None);
  ok_data : ∀ d, data a = Some d → Validated d;
  ok_plots : ∀ args, args ∈ pl →
    ∃ d raw, data a = Some d ∧ shape d = Some raw ∧
      chart_arguments_raw sort raw = Normal args;
  ok_once : length pl ≤ 1;
  ok_listeners : n = if chartInstance a is Some _ then 1 else 0;
  ok_chart : is_Some (chartInstance a) → length pl = 1;
  ok_panel : rd = true → ∀ x, pn = Some x → x = expected_panel a
}.

Definition app_ok (p : Page) : Prop :=
  state_ok (app (world p)) (chart_element (world p)) (length (listeners p))
    (plots p) (ready p).

Record Inv (p : Page) : Prop := {
  inv_timers : timers_ok p;
  inv_app : app_ok p;
  inv_resizes : chartInstance (app (world p)) = None → resizes p = 0
}.

#[export] Instance app_ok_proper : Proper (same_frame ==> iff) app_ok.
Proof.
  intros p q [= Ha Hpn Hn Hpl Hrd]. unfold app_ok.
  by rewrite Ha, Hpn, Hn, Hpl, Hrd.
Qed.

Lemma same_frame_app p q : same_frame p q → app (world p) = app (world q).
Proof. by intros [= ? _]. Qed.

Lemma Inv_init chart_element : Inv (Page_init chart_element).
Proof.
  split; [split; simpl| |done].
  - by intros ? ?%elem_of_nil.
  - constructor.
  - by intros ? ?%elem_of_nil.
  - by intros ? ?%elem_of_nil.
  - split; simpl; try done; [by intros ? ?%elem_of_nil|lia].
Qed.

(** Adding closures and changing the world keeps the timers in order. *)
Lemma timers_ok_extend p q k :
  timers q = timers p → next_id q = next_id p → clock q = clock p →
  listeners q = listeners p ++ k → timers_ok p → timers_ok q.
Proof.
  intros Ht Hn Hc Hl [Hfresh Hdistinct Howner Hdue].
  split; rewrite ?Ht, ?Hn, ?Hc, ?Hl; try done.
  intros t Hin. by apply lookup_app_l_Some, Howner.
Qed.

(** The state after each outcome of the initialisation. *)
Lemma settled_load_failed pn e :
  state_ok (mkAppState None false (Some e) None)
    ((λ _, ErrorPanel "Application failed to initialize") <$> pn) 0 [] true.
Proof.
  split; simpl; try done; [by intros ? ?%elem_of_nil|lia|].
  intros _ x. destruct pn; by intros [= <-].
Qed.

Lemma settled_render_failed pn d raw pl :
  Validated d → shape d = Some raw →
  (pl = [] ∨ ∃ args, chart_arguments_raw sort raw = Normal args ∧ pl = [args]) →
  state_ok (mkAppState (Some d) false None None)
    ((λ _, ErrorPanel "Failed to render chart visualization") <$> pn) 0 pl true.
Proof.
  intros Hd Hds Hpl. split; simpl; try done.
  - by intros ? [= <-].
  - intros args Hin. exists d, raw. split_and!; try done.
    destruct Hpl as [->|(args' & ? & ->)]; [by apply elem_of_nil in Hin|].
    by apply list_elem_of_singleton in Hin as ->.
  - destruct Hpl as [->|(? & _ & ->)]; simpl; lia.
  - intros _ x. destruct pn; by intros [= <-].
Qed.

Lemma settled_rendered pn d raw args h :
  Validated d → shape d = Some raw → chart_arguments_raw sort raw = Normal args →
  state_ok (mkAppState (Some d) false None (Some h))
    ((λ _, ChartPanel) <$> pn) 1 [args] true.
Proof.
  intros Hd Hds Hargs. split; simpl; try done.
  - by intros ? [= <-].
  - intros ? ->%list_elem_of_singleton. by exists d, raw.
  - intros _ x. destruct pn; by intros [= <-].
Qed.

Lemma initializeApp_app_ok fetched plotted p p' :
  ready p = false → app_ok p →
  initializeApp sort fetched plotted p = Some p' → app_ok (mark_ready p').
Proof.
  intros Hrd Hok Hinit.
  destruct (ok_fresh _ _ _ _ _ Hok Hrd) as (Ha & Hn & Hpl).
  unfold app_ok. cbn [mark_ready world listeners plots ready].
  destruct (initializeApp_cases sort _ _ _ _ Hinit)
    as [(e & Htry & Hframe & _)|(d & raw & Htry & Hraw & _ & Hframe)];
    cbv zeta in Hframe; rewrite Ha, Hn, Hpl in Hframe.
  - injection Hframe as -> -> -> -> _. apply settled_load_failed.
  - assert (Validated d) as Hd
      by by apply validate_Validated, (loadTopicData_try_validated fetched).
    destruct (chart_arguments_raw sort raw) as [args|e] eqn:Hargs;
      [destruct plotted as [h|e]|]; injection Hframe as -> -> -> -> _.
    + by apply (settled_rendered _ d raw).
    + apply (settled_render_failed _ d raw); eauto.
    + apply (settled_render_failed _ d raw); eauto.
Qed.

(** *** Steps *)

Lemma deliver_step ev p p' : deliver sort ev p = Some p' ↔ step sort p ev p'.
Proof.
  split.
  - destruct ev as [fetched plotted| |ms|t outcome|e|reason]; simpl;
      try (intros [= <-]; by constructor).
    + destruct (ready p) eqn:Hrd; [done|].
      destruct (on_DOMContentLoaded sort fetched plotted p) as [q|] eqn:Hq; [|done].
      intros [= <-]. by constructor.
    + case_decide as Ht; [|done]. intros [= <-]. destruct Ht. by constructor.
  - intros [p0 fetched plotted q Hrd Hq| | |p0 t outcome Ht Hdue| |]; simpl; try done.
    + by rewrite Hrd, Hq.
    + by rewrite decide_True.
Qed.

Lemma deliver_all_run evs p p' :
  deliver_all sort evs p = Some p' ↔ run sort p evs p'.
Proof.
  revert p. induction evs as [|ev evs IH]; intros p; simpl.
  { split; [intros [= <-]; constructor|by inversion 1]. }
  split.
  - destruct (deliver sort ev p) as [q|] eqn:Hq; [|done]. simpl. intros Hrest.
    econstructor; [by apply deliver_step|by apply IH].
  - inversion 1 as [|? ? q ? ? Hstep Hrun]; subst.
    apply deliver_step in Hstep. rewrite Hstep. simpl. by apply IH.
Qed.

Lemma on_DOMContentLoaded_machine fetched plotted p p' :
  on_DOMContentLoaded sort fetched plotted p = Some p' →
  timers p' = timers p ∧ next_id p' = next_id p ∧ clock p' = clock p ∧
  resizes p' = resizes p ∧ ready p' = ready p ∧
  ∃ k, listeners p' = listeners p ++ k.
Proof. intros Hinit. by apply (initializeApp_machine sort) in Hinit. Qed.

Lemma fire_clock t outcome p : clock (fire t outcome p) = clock p.
Proof.
  unfold fire, later, resize_chart. simpl.
  destruct (listeners p !! owner t) as [[?|]|]; simpl; try done;
    destruct (chartInstance _); try destruct outcome; done.
Qed.

Lemma fire_resizes_none t outcome p :
  chartInstance (app (world p)) = None → resizes (fire t outcome p) = resizes p.
Proof.
  intros Hnone. unfold fire, later. simpl.
  destruct (listeners p !! owner t) as [timeout|]; [|done].
  rewrite resize_chart_resizes, clearTimeout_resizes.
  destruct timeout; simpl; by rewrite Hnone.
Qed.

Lemma step_clock p ev p' : step sort p ev p' → clock p ≤ clock p'.
Proof.
  destruct 1 as [p fetched plotted q _ Hq| | | | |]; simpl;
    rewrite ?on_resize_clock, ?fire_clock; try lia.
  apply on_DOMContentLoaded_machine in Hq as (_ & _ & -> & _). lia.
Qed.

Lemma run_clock p evs p' : run sort p evs p' → clock p ≤ clock p'.
Proof.
  induction 1 as [|p ev q evs r Hstep _ IH]; [done|].
  apply step_clock in Hstep. lia.
Qed.

Lemma step_timers_ok p ev p' : step sort p ev p' → timers_ok p → timers_ok p'.
Proof.
  destruct 1 as [p fetched plotted q _ Hq| | | | |]; intros Hok.
  - apply on_DOMContentLoaded_machine in Hq as (Ht & Hn & Hc & _ & _ & k & Hl).
    by apply (timers_ok_extend p _ k).
  - by apply on_resize_timers_ok.
  - by apply elapse_timers_ok.
  - by apply fire_timers_ok.
  - by apply timers_ok_on_world.
  - by apply timers_ok_on_world.
Qed.

Lemma step_Inv p ev p' : step sort p ev p' → Inv p → Inv p'.
Proof.
  intros Hstep [Ht Ha Hr]. split; [by apply (step_timers_ok p ev)|..];
    destruct Hstep as [p fetched plotted q Hrd Hq| | |p t outcome _ _| |];
    try done.
  - by apply (initializeApp_app_ok fetched plotted
                (info "[TopicEvolution] DOM loaded, starting initialization..." p)).
  - by rewrite on_resize_frame.
  - by rewrite fire_frame.
  - destruct (ok_fresh _ _ _ _ _ Ha Hrd) as (Hinit & _).
    apply on_DOMContentLoaded_machine in Hq as (_ & _ & _ & Hrs & _).
    intros _. simpl. rewrite Hrs. apply Hr. by rewrite Hinit.
  - rewrite (same_frame_app _ _ (on_resize_frame p)), on_resize_resizes. done.
  - rewrite (same_frame_app _ _ (fire_frame t outcome p)). intros Hnone.
    rewrite fire_resizes_none; auto.
Qed.

Lemma run_Inv p evs p' : run sort p evs p' → Inv p → Inv p'.
Proof.
  induction 1 as [|p ev q evs r Hstep _ IH]; [done|].
  intros Hp. by apply IH, (step_Inv p ev).
Qed.

(** After the document is loaded, no event changes the application
    state, the panel, the listeners or the plots. *)
Lemma step_settled p ev p' : step sort p ev p' → ready p = true → same_frame p' p.
Proof.
  destruct 1 as [p fetched plotted q Hrd _| | | | |]; intros Hready;
    try done; [congruence|apply on_resize_frame|apply fire_frame].
Qed.

(** *** The debounce window *)

(** No pending timer is due before [c], and none that is set from now
    on will be. *)
Definition armed (c : nat) (p : Page) : Prop :=
  (∀ t, t ∈ timers p → c ≤ due t) ∧ c ≤ clock p + wait.

Lemma step_armed c p ev p' :
  step sort p ev p' → timers_ok p → armed c p → armed c p'.
Proof.
  destruct 1 as [p fetched plotted q _ Hq| |p ms|p t outcome _ _| |];
    intros Hok [Hdue Hc]; try done.
  - apply on_DOMContentLoaded_machine in Hq as (Ht & _ & Hcl & _).
    split; simpl; by rewrite ?Ht, ?Hcl.
  - split; [|by rewrite on_resize_clock].
    intros t Ht. rewrite (on_resize_due p t Hok Ht). done.
  - split; [done|]. simpl. lia.
  - split; [|by rewrite fire_clock].
    intros u Hu%fire_elem_of. auto.
Qed.

Lemma step_quiet c p ev p' :
  step sort p ev p' → armed c p → clock p < c → resizes p' = resizes p.
Proof.
  destruct 1 as [p fetched plotted q _ Hq| | |p t outcome Ht Hdue| |];
    intros [Harmed _] Hc; try done.
  - by apply on_DOMContentLoaded_machine in Hq as (_ & _ & _ & Hrs & _).
  - apply on_resize_resizes.
  - apply Harmed in Ht. lia.
Qed.

Lemma run_quiet c p evs p' :
  run sort p evs p' → timers_ok p → armed c p → clock p' < c →
  resizes p' = resizes p.
Proof.
  induction 1 as [|p ev q evs r Hstep Hrun IH]; [done|]. intros Hok Harmed Hc.
  pose proof (step_clock _ _ _ Hstep). pose proof (run_clock _ _ _ Hrun).
  rewrite IH; [|by apply (step_timers_ok p ev)|by apply (step_armed c p ev)|done].
  apply (step_quiet c p ev); [done..|lia].
Qed.

(** Between two [resize] events every call of [Plotly.Plots.resize]
    uses up a pending timer. *)
Lemma step_budget p ev p' :
  step sort p ev p' → ev ≠ Resize →
  resizes p' + length (timers p') ≤ resizes p + length (timers p).
Proof.
  destruct 1 as [p fetched plotted q _ Hq| | |p t outcome Ht _| |];
    intros Hev; try done.
  - apply on_DOMContentLoaded_machine in Hq as (Hti & _ & _ & Hrs & _).
    simpl. by rewrite Hti, Hrs.
  - pose proof (fire_length t outcome p Ht).
    pose proof (fire_resizes_le t outcome p). lia.
Qed.

Lemma run_budget p evs p' :
  run sort p evs p' → Forall (λ ev, ev ≠ Resize) evs →
  resizes p' + length (timers p') ≤ resizes p + length (timers p).
Proof.
  induction 1 as [|p ev q evs r Hstep _ IH]; [done|].
  intros [Hev Hevs]%Forall_cons. apply (step_budget p ev) in Hstep; [|done].
  specialize (IH Hevs). lia.
Qed.

(** A page that satisfies the invariant has at most one listener. *)
Lemma Inv_listeners p :
  Inv p →
  listeners p = [] ∧ chartInstance (app (world p)) = None ∨
  ∃ o h, listeners p = [o] ∧ chartInstance (app (world p)) = Some h.
Proof.
  intros [_ Happ _]. pose proof (ok_listeners _ _ _ _ _ Happ) as Hn.
  destruct (chartInstance _) as [h|], (listeners p) as [|o [|??]]; try done;
    [right|left]; eauto.
Qed.

(** ** Theorems on the page *)

(** C4: every page a sequence of events leads to satisfies the
    invariant.  Timers: ids are fresh and distinct, each pending timer
    is the one its closure remembers, none is due later than one delay
    from now.  Application: [isLoading] is true exactly until the
    document is loaded; afterwards exactly one of [data] and [error] is
    set; a stored dataset passed the validation; [Plotly.newPlot] was
    called at most once, after the dataset was stored and with the
    arguments the builders compute from it; there is a listener exactly
    when there is a chart handle; the panel is the one that goes with
    the state, never the loading placeholder; and without a chart
    [Plotly.Plots.resize] was never called. *)
Theorem reachable_Inv p : reachable sort p → Inv p.
Proof. intros (ce & evs & Hrun). apply (run_Inv _ evs _ Hrun), Inv_init. Qed.

(** C5: the debounce window.  After a [resize] event, whatever events
    follow, [Plotly.Plots.resize] is not called before the delay has
    elapsed: timers that were pending are cleared, not left to fire. *)
Theorem debounce_quiet p evs p' :
  timers_ok p → run sort (on_resize p) evs p' →
  clock p' < clock p + wait → resizes p' = resizes p.
Proof.
  intros Hok Hrun Hc. rewrite <- (on_resize_resizes p).
  apply (run_quiet (clock p + wait) _ evs); try done.
  - by apply on_resize_timers_ok.
  - split; [|rewrite on_resize_clock; lia].
    intros t Ht. by rewrite (on_resize_due p t).
Qed.

(** C8: a burst of [resize] events costs one redraw: after a [resize]
    event and until the next one, [Plotly.Plots.resize] is called at
    most once, however many events came before. *)
Theorem debounce_once p evs p' :
  Inv p → run sort (on_resize p) evs p' → Forall (λ ev, ev ≠ Resize) evs →
  resizes p' ≤ S (resizes p).
Proof.
  intros Hinv Hrun Hevs.
  pose proof (run_budget _ _ _ Hrun Hevs) as Hb.
  pose proof (timers_ok_length _ (on_resize_timers_ok p (inv_timers p Hinv))) as Hl.
  pose proof (on_resize_frame p) as [= _ _ Hlen _ _].
  rewrite on_resize_resizes in Hb.
  destruct (Inv_listeners p Hinv) as [[Hls _]|(o & h & Hls & _)];
    rewrite Hlen, Hls in Hl; simpl in Hl; lia.
Qed.

(** C33: the redraw does happen: with a chart on the page, once the
    delay has elapsed after a [resize] event a timer is pending and due,
    and when it fires [Plotly.Plots.resize] is called. *)
Theorem debounce_fires p outcome :
  Inv p → is_Some (chartInstance (app (world p))) →
  ∃ t, step sort (elapse wait (on_resize p)) (TimerFired t outcome)
         (fire t outcome (elapse wait (on_resize p))) ∧
       resizes (fire t outcome (elapse wait (on_resize p))) = S (resizes p).
Proof.
  intros Hinv [h Hh].
  destruct (Inv_listeners p Hinv) as [[_ ?]|(o & _ & Hls & _)]; [congruence|].
  assert (on_resize p = setTimeout 0 (clearTimeout o p)) as ->.
  { unfold on_resize, resize_upto, executedFunction. rewrite Hls. simpl.
    by rewrite Hls. }
  exists (mkTimer (next_id (clearTimeout o p)) 0 (clock (clearTimeout o p) + wait)).
  split.
  - constructor; simpl; [|lia]. apply elem_of_app. right. by apply list_elem_of_singleton.
  - rewrite fire_resizes; simpl.
    + by rewrite clearTimeout_resizes.
    + rewrite list_lookup_insert_eq; [by eexists|].
      rewrite clearTimeout_listeners, Hls. simpl. lia.
    + destruct o; simpl; by rewrite Hh.
Qed.

(** C32: after the document is loaded nothing changes what the page
    shows: no event changes the application state, the panel, the
    listeners or the calls of [Plotly.newPlot].  A [resize] event does
    not rebuild the chart, an error reported to the global listeners is
    only logged, and a failure of [Plotly.Plots.resize] leaves the chart
    panel in place. *)
Theorem settled_frame p evs p' :
  ready p = true → run sort p evs p' → same_frame p' p.
Proof.
  intros Hready Hrun. induction Hrun as [|p ev q evs r Hstep _ IH]; [done|].
  pose proof (step_settled p ev q Hstep Hready) as Hq.
  rewrite IH; [done|]. by injection Hq as _ _ _ _ ->.
Qed.

End invariant.

(** ** The outcomes of [initializeApp] *)

Section outcomes.
Context `{Host} `{Arith}.
Context (sort : ∀ A, (A → A → Z) → list A → list A).
Implicit Types (p : Page) (fetched : completion response).
Implicit Types (plotted : completion chart_handle).

(** With a dataset, [initializeApp] is the load followed by
    [renderChart] and the line that reports success. *)
Lemma initializeApp_loaded fetched plotted p d raw :
  loadTopicData_try fetched = Normal d → shape d = Some raw →
  initializeApp sort fetched plotted p
  = Some (info "[TopicEvolution] Application initialized successfully"
            (renderChart sort raw plotted
               (on_world (λ w, on_loaded d (showLoadingState w))
                  (info "[TopicEvolution] Initializing application..." p)))).
Proof.
  intros Htry Hraw. unfold initializeApp.
  rewrite (loadTopicData_loaded _ _ _ Htry). cbv beta iota zeta.
  change (default VNull (Some d)) with d.
  rewrite (Validated_truthy d)
    by by apply validate_Validated, (loadTopicData_try_validated fetched).
  simpl. by rewrite Hraw.
Qed.

(** The arguments of the chart exist when the counts are numbers and
    [toString] can be called on the years. *)
Lemma chart_arguments_printable ds :
  Forall printable (years ds) →
  ∃ ts lay, createChartTraces sort ds = Normal ts ∧
    createChartLayout ds = Normal lay ∧
    chart_arguments sort ds = Normal (ts, lay).
Proof.
  intros Hys. unfold chart_arguments, createChartLayout.
  destruct (push_traces_total ds 0 (categoryTotals sort ds)) as [ts Hts].
  change (createChartTraces sort ds = Normal ts) in Hts.
  rewrite Hts, (tick_labels_printable _ Hys). by eexists _, _.
Qed.

(** C28: when the load fails, whatever the reason, the panel ends with
    the fixed text of [initializeApp]: the message of the error, which
    [loadTopicData] had put on the panel, is replaced and remains only
    in [AppState.error] and in the console. *)
Theorem initializeApp_load_failed fetched plotted p e :
  loadTopicData_try fetched = Throw e →
  ∃ p', initializeApp sort fetched plotted p = Some p' ∧
    error (app (world p')) = Some e ∧
    chart_element (world p')
    = (λ _, ErrorPanel "Application failed to initialize") <$> chart_element (world p) ∧
    LogError "loadTopicData" e ∈ console (world p') ∧
    last (console (world p'))
    = Some (LogError "initializeApp" (Error "Failed to load required data")) ∧
    plots p' = plots p ∧ listeners p' = listeners p.
Proof.
  intros Htry. unfold initializeApp.
  rewrite (loadTopicData_failed _ _ _ Htry). simpl. eexists. split; [done|].
  simpl. split_and!; try done.
  - by destruct (chart_element (world p)).
  - rewrite !elem_of_app, !list_elem_of_singleton. auto.
  - by rewrite last_snoc.
Qed.

(** C29: when the dataset is loaded and the chart cannot be built or
    drawn, [renderChart] shows its error panel and stores no handle, and
    [initializeApp] goes on to report success: the last line of the
    console is the one of a successful initialisation. *)
Theorem initializeApp_render_failed fetched plotted p d raw :
  loadTopicData_try fetched = Normal d → shape d = Some raw →
  is_normal (chart_arguments_raw sort raw) && is_normal plotted = false →
  ∃ p', initializeApp sort fetched plotted p = Some p' ∧
    data (app (world p')) = Some d ∧
    chartInstance (app (world p')) = chartInstance (app (world p)) ∧
    chart_element (world p')
    = (λ _, ErrorPanel "Failed to render chart visualization")
        <$> chart_element (world p) ∧
    listeners p' = listeners p ∧
    last (console (world p'))
    = Some (LogInfo "[TopicEvolution] Application initialized successfully" []).
Proof.
  intros Htry Hraw Hfail. rewrite (initializeApp_loaded _ _ _ d raw Htry Hraw).
  eexists. split; [done|]. unfold renderChart.
  destruct (chart_arguments_raw sort raw) as [args|e]; [destruct plotted as [h|e]|];
    try done; simpl; rewrite last_snoc;
    split_and!; try done; by destruct (chart_element (world p)).
Qed.

(** C22: when the dataset is loaded, its counts are numbers and
    [toString] can be called on its years, the arguments of the chart
    exist, whatever the engine; when [Plotly.newPlot] then succeeds, the
    handle is stored with the dataset, the panel is the chart,
    [Plotly.newPlot] has been called once more with the traces and the
    layout of the builders of [Traces] and [Annotations], and one
    closure more listens to [resize], with no timer set. *)
Theorem initializeApp_rendered `{!LocalSorter sort} fetched h p d ds :
  loadTopicData_try fetched = Normal d → decode d = Some ds →
  Forall printable (years ds) →
  ∃ p' ts lay, initializeApp sort fetched (Normal h) p = Some p' ∧
    createChartTraces sort ds = Normal ts ∧ createChartLayout ds = Normal lay ∧
    app (world p')
    = mkAppState (Some d) false None (Some h) ∧
    chart_element (world p') = (λ _, ChartPanel) <$> chart_element (world p) ∧
    plots p' = plots p ++ [raw_of_arguments (ts, lay)] ∧
    listeners p' = listeners p ++ [None] ∧ timers p' = timers p.
Proof.
  intros Htry Hds Hys.
  rewrite (initializeApp_loaded _ _ _ d (untyped ds) Htry (shape_decode _ _ Hds)).
  destruct (chart_arguments_printable ds Hys) as (ts & lay & Hts & Hlay & Hargs).
  eexists _, ts, lay. split; [done|]. unfold renderChart.
  rewrite chart_arguments_raw_untyped, Hargs by done. simpl.
  split_and!; try done. by destruct (chart_element (world p)).
Qed.

(** C20: the initialisation always has a result.  Whatever the server
    answers and whatever the counts of the dataset are, [initializeApp]
    runs to its end: every dataset [loadTopicData] stores has the shape
    [renderChart] is given. *)
Theorem initializeApp_total fetched plotted p :
  is_Some (initializeApp sort fetched plotted p).
Proof.
  destruct (loadTopicData_try fetched) as [d|e] eqn:Htry.
  - destruct (shape_validated d (loadTopicData_try_validated _ _ Htry))
      as (raw & Hraw & _).
    by rewrite (initializeApp_loaded _ _ _ d raw).
  - unfold initializeApp. by rewrite (loadTopicData_failed _ _ _ Htry).
Qed.

End outcomes.

(** ** A run of the page *)

(** The response of the server in the scenario of the documentation. *)
Definition demo_response : response :=
  mkResponse true 200 "OK" (Normal scenario).

Definition demo_start : Page := Page_init (Some Untouched).

(** The page with the chart drawn. *)
Definition demo_page : Page :=
  default demo_start
    (deliver (@insertion_sort)
       (DOMContentLoaded (Normal demo_response) (Normal GraphDiv)) demo_start).

(** The timer the first [resize] event sets. *)
Definition demo_timer : timer := mkTimer 1 0 250.

Definition demo_events : list event :=
  [Elapse 100; ErrorEvent (Error "script error"); Elapse 150;
   TimerFired demo_timer (Throw (Error "resize failed")); Elapse 1000].

Definition demo_end : Page :=
  default demo_start (deliver_all (@insertion_sort) demo_events (on_resize demo_page)).

Lemma demo_page_run :
  run (@insertion_sort) demo_start
    [DOMContentLoaded (Normal demo_response) (Normal GraphDiv)] demo_page.
Proof. apply deliver_all_run. by vm_compute. Qed.

Lemma demo_page_Inv : Inv (@insertion_sort) demo_page.
Proof. apply (run_Inv _ _ _ _ demo_page_run), Inv_init. Qed.

Lemma demo_end_run : run (@insertion_sort) (on_resize demo_page) demo_events demo_end.
Proof. apply deliver_all_run. by vm_compute. Qed.

Lemma reachable_Inv_witness : Inv (@insertion_sort) demo_page.
Proof.
  apply (reachable_Inv (@insertion_sort) demo_page).
  exists (Some Untouched), [DOMContentLoaded (Normal demo_response) (Normal GraphDiv)].
  exact demo_page_run.
Defined.

Lemma debounce_quiet_witness :
  resizes (elapse 249 (on_resize demo_page)) = resizes demo_page.
Proof.
  apply (debounce_quiet (@insertion_sort) demo_page [Elapse 249]).
  - apply demo_page_Inv.
  - apply deliver_all_run. reflexivity.
  - vm_compute. lia.
Defined.

Lemma debounce_once_witness : resizes demo_end ≤ S (resizes demo_page).
Proof.
  apply (debounce_once (@insertion_sort) demo_page demo_events).
  - apply demo_page_Inv.
  - apply demo_end_run.
  - by repeat constructor.
Defined.

Lemma debounce_fires_witness :
  ∃ t, step (@insertion_sort) (elapse wait (on_resize demo_page))
         (TimerFired t (Normal tt))
         (fire t (Normal tt) (elapse wait (on_resize demo_page))) ∧
       resizes (fire t (Normal tt) (elapse wait (on_resize demo_page)))
       = S (resizes demo_page).
Proof.
  apply (debounce_fires (@insertion_sort) demo_page (Normal tt)).
  - apply demo_page_Inv.
  - by exists GraphDiv.
Defined.

Lemma settled_frame_witness : same_frame demo_end demo_page.
Proof.
  apply (settled_frame (@insertion_sort) demo_page (Resize :: demo_events)).
  - reflexivity.
  - econstructor; [constructor|apply demo_end_run].
Defined.

Lemma initializeApp_load_failed_witness :
  ∃ p', initializeApp (@insertion_sort)
          (Normal (mkResponse false 404 "Not Found" (Normal VNull)))
          (Normal GraphDiv) demo_start = Some p' ∧
    error (app (world p')) = Some (Error "HTTP 404: Not Found") ∧
    chart_element (world p') = Some (ErrorPanel "Application failed to initialize") ∧
    LogError "loadTopicData" (Error "HTTP 404: Not Found") ∈ console (world p') ∧
    last (console (world p'))
    = Some (LogError "initializeApp" (Error "Failed to load required data")) ∧
    plots p' = [] ∧ listeners p' = [].
Proof.
  apply (initializeApp_load_failed (@insertion_sort)
           (Normal (mkResponse false 404 "Not Found" (Normal VNull)))
           (Normal GraphDiv) demo_start (Error "HTTP 404: Not Found")).
  reflexivity.
Defined.

Lemma initializeApp_render_failed_witness :
  ∃ p', initializeApp (@insertion_sort)
          (Normal (mkResponse true 200 "OK" (Normal null_year)))
          (Normal GraphDiv) demo_start = Some p' ∧
    data (app (world p')) = Some null_year ∧
    chartInstance (app (world p')) = None ∧
    chart_element (world p')
    = Some (ErrorPanel "Failed to render chart visualization") ∧
    listeners p' = [] ∧
    last (console (world p'))
    = Some (LogInfo "[TopicEvolution] Application initialized successfully" []).
Proof.
  apply (initializeApp_render_failed (@insertion_sort)
           (Normal (mkResponse true 200 "OK" (Normal null_year)))
           (Normal GraphDiv) demo_start null_year
           (mkRawDataset [VNull] [("A", [VNumber 1])] VUndefined));
    reflexivity.
Defined.

Lemma initializeApp_rendered_witness :
  ∃ p' ts lay, initializeApp (@insertion_sort) (Normal demo_response)
                 (Normal GraphDiv) demo_start = Some p' ∧
    createChartTraces (@insertion_sort) scenario_dataset = Normal ts ∧
    createChartLayout scenario_dataset = Normal lay ∧
    app (world p') = mkAppState (Some scenario) false None (Some GraphDiv) ∧
    chart_element (world p') = Some ChartPanel ∧
    plots p' = [raw_of_arguments (ts, lay)] ∧ listeners p' = [None] ∧ timers p' = [].
Proof.
  apply (initializeApp_rendered (@insertion_sort) (Normal demo_response)
           GraphDiv demo_start scenario scenario_dataset);
    [reflexivity|reflexivity|by repeat constructor].
Defined.
