(* ===== verification/Async.v ===== *)
(** * Initialisation, await by await

    [initializeApp] suspends three times: [loadTopicData] awaits
    [fetch] (line 107) and [response.json()] (line 113), [renderChart]
    awaits [Plotly.newPlot] (line 386).  Between two of these the
    browser may deliver other events; the two [await]s of
    [initializeApp] itself (lines 438 and 444) wait for promises of the
    program and resume in a microtask, before any event.  This file
    gives the initialisation as steps, one per resumption ([astep],
    with the function [adeliver]), interleaved with the events of
    [App.step], and shows that [App] loses nothing by treating it as
    one step: every interleaved run ends in the page the atomic run ends
    in on the same answers of [fetch] and [Plotly.newPlot] when the
    events that arrived in between are delivered first, up to the order
    of the lines of the console ([async_refines]); and the atomic run
    is the interleaved run in which nothing arrives in between
    ([atomic_settles]).  The simulation relation is [related]; pages up
    to the order of the console are [similar], an equivalence the
    handlers respect ([Proper] instances).  The resumptions of a run
    come in the order of the source, four at most, and which of them
    occur depends on the answer of [fetch] only ([settles_schedule]);
    and the initialisation is never stuck: wherever it is suspended,
    the resumptions that remain can be delivered and end it
    ([settles_progress]). *)

From Stdlib Require Import ZArith List Lia String.
From stdpp Require Import base tactics option strings numbers list.
From S2P Require Import Prelude StableSort LocalSort JsValue Loader Traces Annotations Raw App.

#[local] Open Scope string_scope.
#[local] Open Scope list_scope.
#[local] Open Scope nat_scope.

(** ** The steps of the initialisation *)

(** Where [initializeApp] is suspended. *)
Inductive phase :=
| Idle                      (** the document is not loaded yet *)
| AwaitFetch                (** [await fetch('data.json')] *)
| AwaitJson (r : response)  (** [await response.json()] *)
| AwaitPlot                 (** [await Plotly.newPlot(...)] *)
| Settled.                  (** [initializeApp] has returned *)

(** [console.log('[TopicEvolution] Application initialized successfully')]. *)
Definition success_line : Page → Page :=
  info "[TopicEvolution] Application initialized successfully".

(** The [catch] block of [loadTopicData], its [return null], the
    [throw] of [initializeApp] and its [catch] block. *)
Definition load_failed (e : js_error) (p : Page) : Page :=
  initialize_failed (Error "Failed to load required data")
    (on_world (on_failed e) p).

(** From the event to the first [await]: the two lines of the console
    and the loading panel. *)
Definition begin (p : Page) : Page :=
  mark_ready
    (on_world showLoadingState
       (info "[TopicEvolution] Initializing application..."
          (info "[TopicEvolution] DOM loaded, starting initialization..." p))).

Section async.
Context `{Host} `{Arith}.
Context (sort : ∀ A, (A → A → Z) → list A → list A).

(** [fetch] has settled: lines 107-113. *)
Definition after_fetch (c : completion response) (p : Page) : phase * Page :=
  match c with
  | Normal r =>
      if ok r then (AwaitJson r, p) else (Settled, load_failed (http_error r) p)
  | Throw e => (Settled, load_failed e p)
  end.

(** [response.json()] has settled: the validation, the assignments,
    the return to [initializeApp], and [renderChart] up to its
    [await].  [renderChart] is given the dataset in the shape the
    validation has checked. *)
Definition after_json (r : response) (p : Page) : option (phase * Page) :=
  match d ← json r; _ ← validate d; Normal d with
  | Normal d =>
      let p := on_world (on_loaded d) p in
      if negb (truthy d) then
        Some (Settled, initialize_failed (Error "Failed to load required data") p)
      else
        raw ← shape d;
        Some (match chart_arguments_raw sort raw with
              | Normal args => (AwaitPlot, newPlot args p)
              | Throw e => (Settled, success_line (render_failed e p))
              end)
  | Throw e => Some (Settled, load_failed e p)
  end.

(** [Plotly.newPlot] has settled: the rest of [renderChart] and of
    [initializeApp]. *)
Definition after_plot (c : completion chart_handle) (p : Page) : Page :=
  success_line (try_catch ((λ h, rendered h p) <$> c) (λ e, render_failed e p)).

(** What the browser delivers: the resumptions of the initialisation
    and the events of [App], [DOMContentLoaded] being [Start]. *)
Inductive aevent :=
| Start
| Fetched (c : completion response)
| Parsed
| Plotted (c : completion chart_handle)
| Other (ev : event).

Definition is_load (ev : event) : bool :=
  match ev with DOMContentLoaded _ _ => true | _ => false end.

Inductive astep : phase * Page → aevent → phase * Page → Prop :=
| astep_Start p :
    ready p = false → astep (Idle, p) Start (AwaitFetch, begin p)
| astep_Fetched p c :
    astep (AwaitFetch, p) (Fetched c) (after_fetch c p)
| astep_Parsed r p cfg :
    after_json r p = Some cfg → astep (AwaitJson r, p) Parsed cfg
| astep_Plotted p c :
    astep (AwaitPlot, p) (Plotted c) (Settled, after_plot c p)
| astep_Other ph p ev p' :
    is_load ev = false → step sort p ev p' → astep (ph, p) (Other ev) (ph, p').

(** A run that ends when the initialisation returns. *)
Inductive settles : phase * Page → list aevent → Page → Prop :=
| settles_last cfg ev p' :
    astep cfg ev (Settled, p') → settles cfg [ev] p'
| settles_step cfg ev cfg' evs p' :
    astep cfg ev cfg' → cfg'.1 ≠ Settled → settles cfg' evs p' →
    settles cfg (ev :: evs) p'.

(** The events of [App] among those of a run. *)
Definition others (evs : list aevent) : list event :=
  omap (λ ev, match ev with Other ev => Some ev | _ => None end) evs.

(** The answers of the environment in a run: what [fetch] and
    [Plotly.newPlot] settled with. *)
Fixpoint fetched_of (evs : list aevent) : completion response :=
  match evs with
  | [] => Throw (Error "")
  | Fetched c :: _ => c
  | _ :: evs => fetched_of evs
  end.

Fixpoint plotted_of (evs : list aevent) : completion chart_handle :=
  match evs with
  | [] => Throw (Error "")
  | Plotted c :: _ => c
  | _ :: evs => plotted_of evs
  end.

(** The initialisation without interleaving, from the answers of the
    environment. *)
Definition sequential (fetched : completion response)
    (plotted : completion chart_handle) (p : Page) : option Page :=
  match after_fetch fetched (begin p) with
  | (AwaitJson r, p) =>
      cfg ← after_json r p;
      Some (match cfg.1 with AwaitPlot => after_plot plotted cfg.2 | _ => cfg.2 end)
  | (_, p) => Some p
  end.

(** [astep] and [settles] as functions. *)
Definition adeliver (aev : aevent) (cfg : phase * Page) : option (phase * Page) :=
  match aev, cfg.1 with
  | Start, Idle => if ready cfg.2 then None else Some (AwaitFetch, begin cfg.2)
  | Fetched c, AwaitFetch => Some (after_fetch c cfg.2)
  | Parsed, AwaitJson r => after_json r cfg.2
  | Plotted c, AwaitPlot => Some (Settled, after_plot c cfg.2)
  | Other ev, ph =>
      if is_load ev then None else (λ p, (ph, p)) <$> deliver sort ev cfg.2
  | _, _ => None
  end.

Fixpoint asettle (evs : list aevent) (cfg : phase * Page) : option Page :=
  match evs with
  | [] => None
  | ev :: evs =>
      cfg' ← adeliver ev cfg;
      match cfg'.1, evs with
      | Settled, [] => Some cfg'.2
      | Settled, _ => None
      | _, _ => asettle evs cfg'
      end
  end.

(** The resumptions of an initialisation that nothing interrupts. *)
Definition resumptions (fetched : completion response)
    (plotted : completion chart_handle) (p : Page) : list aevent :=
  Start :: Fetched fetched ::
  match after_fetch fetched (begin p) with
  | (AwaitJson r, q) =>
      Parsed ::
      match after_json r q with
      | Some (AwaitPlot, _) => [Plotted plotted]
      | _ => []
      end
  | _ => []
  end.

End async.

(** ** The initialisation without interleaving is the atomic one *)

Section sequential.
Context `{Host} `{Arith}.
Context (sort : ∀ A, (A → A → Z) → list A → list A).

Lemma sequential_atomic fetched plotted p :
  sequential sort fetched plotted p
  = mark_ready <$> on_DOMContentLoaded sort fetched plotted p.
Proof.
  unfold sequential, on_DOMContentLoaded, initializeApp, loadTopicData,
    loadTopicData_try, after_fetch, after_json.
  destruct fetched as [r|e]; simpl; [|done].
  destruct (ok r); simpl; [|done].
  destruct (json r) as [d|e]; simpl; [|done].
  destruct (validate d) as [[]|e]; simpl; [|done].
  destruct (truthy d); simpl; [|done].
  destruct (shape d) as [raw|]; simpl; [|done].
  unfold renderChart. destruct (chart_arguments_raw sort raw) as [args|e]; simpl; [|done].
  by destruct plotted.
Qed.

End sequential.

(** ** Pages up to the order of the console *)

(** Everything but the console. *)
Definition core (p : Page) :=
  (app (world p), chart_element (world p), listeners p, timers p, next_id p,
   clock p, plots p, resizes p, ready p).

(** The same page, with the lines of the console in another order. *)
Definition similar (p q : Page) : Prop :=
  core p = core q ∧ console (world p) ≡ₚ console (world q).

#[export] Instance similar_equivalence : Equivalence similar.
Proof.
  split.
  - by intros p.
  - intros p q [Hc Hp]. by split; symmetry.
  - intros p q r [Hc1 Hp1] [Hc2 Hp2]. split; [congruence|by rewrite Hp1].
Qed.

(** A handler that reads nothing of the console and only adds lines to
    it maps similar pages to similar pages. *)
Ltac solve_similar :=
  let Hc := fresh "Hc" in
  let Hp := fresh "Hp" in
  intros ? ? [Hc Hp]; unfold core in Hc; simplify_eq;
  split; [unfold core; simpl; congruence|simpl; by rewrite ?Hp].

Section similar.
Context `{Host} `{Arith}.
Context (sort : ∀ A, (A → A → Z) → list A → list A).

#[export] Instance elapse_similar ms : Proper (similar ==> similar) (elapse ms).
Proof. solve_similar. Qed.

#[export] Instance log_similar x : Proper (similar ==> similar) (on_world (log x)).
Proof. solve_similar. Qed.

#[export] Instance load_failed_similar e : Proper (similar ==> similar) (load_failed e).
Proof. solve_similar. Qed.

#[export] Instance initialize_failed_similar e :
  Proper (similar ==> similar) (initialize_failed e).
Proof. solve_similar. Qed.

#[export] Instance render_failed_similar e :
  Proper (similar ==> similar) (render_failed e).
Proof. solve_similar. Qed.

#[export] Instance on_loaded_similar d :
  Proper (similar ==> similar) (on_world (on_loaded d)).
Proof. solve_similar. Qed.

#[export] Instance newPlot_similar args : Proper (similar ==> similar) (newPlot args).
Proof. solve_similar. Qed.

#[export] Instance rendered_similar h : Proper (similar ==> similar) (rendered h).
Proof. solve_similar. Qed.

#[export] Instance after_plot_similar c : Proper (similar ==> similar) (after_plot c).
Proof. destruct c; solve_similar. Qed.

End similar.

(** ** The simulation *)

(** A page before the document is loaded: nothing listens to [resize]
    and no timer is pending. *)
Definition fresh (a : Page) : Prop :=
  listeners a = [] ∧ timers a = [] ∧ ready a = false.

(** How far the initialisation has come when it is suspended. *)
Inductive stage :=
| Begun
| Built (d : value) (args : list raw_trace * raw_layout).

Section simulation.
Context `{Host} `{Arith}.
Context (sort : ∀ A, (A → A → Z) → list A → list A).
Implicit Types (a p q : Page) (s : stage) (ev : event).

(** The page the initialisation has made of [a] at that stage. *)
Definition partial_plot (d : value) (args : list raw_trace * raw_layout) (p : Page) : Page :=
  newPlot args (on_world (on_loaded d) p).

Definition partial (s : stage) (a : Page) : Page :=
  match s with
  | Begun => begin a
  | Built d args => partial_plot d args (begin a)
  end.

Lemma partial_listeners s a : listeners (partial s a) = listeners a.
Proof. by destruct s. Qed.

Lemma partial_timers s a : timers (partial s a) = timers a.
Proof. by destruct s. Qed.

Lemma similar_listeners p q : similar p q → listeners p = listeners q.
Proof. by intros [[= _ _ ? _] _]. Qed.

Lemma similar_timers p q : similar p q → timers p = timers q.
Proof. by intros [[= _ _ _ ? _] _]. Qed.

Lemma on_resize_no_listeners p : listeners p = [] → on_resize p = p.
Proof. unfold on_resize. by intros ->. Qed.

(** A line added before the initialisation began is a line added
    now. *)
Lemma partial_log s a x :
  similar (on_world (log x) (partial s a)) (partial s (on_world (log x) a)).
Proof.
  destruct s; (split; [done|]); simpl; rewrite <- !(assoc_L (++));
    apply Permutation_app_head; [|rewrite !(assoc_L (++) _ _ [x])];
    by rewrite (comm (++) [x]).
Qed.

Lemma partial_elapse s a ms : elapse ms (partial s a) = partial s (elapse ms a).
Proof. by destruct s. Qed.

Lemma fresh_step a ev a' :
  is_load ev = false → step sort a ev a' → fresh a → fresh a'.
Proof.
  intros Hev Hstep (Hl & Ht & Hr).
  destruct Hstep as [| | |a t outcome Hin _| |]; try done.
  - by rewrite on_resize_no_listeners.
  - rewrite Ht in Hin. by apply elem_of_nil in Hin.
Qed.

(** An event that arrives while the initialisation is suspended could
    have arrived before it began. *)
Lemma other_commutes s a p ev p' :
  fresh a → similar p (partial s a) → is_load ev = false → step sort p ev p' →
  ∃ a', step sort a ev a' ∧ fresh a' ∧ similar p' (partial s a').
Proof.
  intros (Hl & Ht & Hr) Hsim Hev Hstep.
  pose proof (similar_listeners _ _ Hsim) as Hpl. rewrite partial_listeners, Hl in Hpl.
  pose proof (similar_timers _ _ Hsim) as Hpt. rewrite partial_timers, Ht in Hpt.
  destruct Hstep as [| |p ms|p t outcome Hin _|p e|p e]; try done.
  - exists (on_resize a). split; [constructor|].
    by rewrite !on_resize_no_listeners.
  - exists (elapse ms a). split_and!; [constructor|done|].
    by rewrite <- partial_elapse, Hsim.
  - rewrite Hpt in Hin. by apply elem_of_nil in Hin.
  - exists (on_error e a). split_and!; [constructor|done|].
    unfold on_error, logError. by rewrite Hsim, partial_log.
  - exists (on_unhandledrejection e a). split_and!; [constructor|done|].
    unfold on_unhandledrejection, logError. by rewrite Hsim, partial_log.
Qed.

(** The suspended initialisation [cfg] is the atomic one on [a], which
    has not begun: the page is what the initialisation has made of [a]
    so far, and [fetched] is the answer it has had from [fetch]. *)
Definition related (cfg : phase * Page) (fetched : completion response)
    (a : Page) : Prop :=
  match cfg.1 with
  | Idle => cfg.2 = a
  | AwaitFetch => similar cfg.2 (partial Begun a)
  | AwaitJson r =>
      fetched = Normal r ∧ ok r = true ∧ similar cfg.2 (partial Begun a)
  | AwaitPlot =>
      ∃ r d args,
        fetched = Normal r ∧ ok r = true ∧
        (∀ q, after_json sort r q = Some (AwaitPlot, partial_plot d args q)) ∧
        similar cfg.2 (partial (Built d args) a)
  | Settled => False
  end.

(** The answer of [fetch] for a run that is at [ph]: the one received,
    or the one to come. *)
Definition fetched_at (ph : phase) (fetched : completion response)
    (evs : list aevent) : completion response :=
  match ph with Idle | AwaitFetch => fetched_of evs | _ => fetched end.

Lemma fetched_at_Other ph fetched ev evs :
  fetched_at ph fetched (Other ev :: evs) = fetched_at ph fetched evs.
Proof. by destruct ph. Qed.

Lemma others_cons aev evs : others (aev :: evs) = others [aev] ++ others evs.
Proof. by destruct aev. Qed.

Lemma astep_inv cfg aev cfg' :
  astep sort cfg aev cfg' →
  match aev with
  | Start => cfg.1 = Idle ∧ ready cfg.2 = false ∧ cfg' = (AwaitFetch, begin cfg.2)
  | Fetched c => cfg.1 = AwaitFetch ∧ cfg' = after_fetch c cfg.2
  | Parsed => ∃ r, cfg.1 = AwaitJson r ∧ after_json sort r cfg.2 = Some cfg'
  | Plotted c => cfg.1 = AwaitPlot ∧ cfg' = (Settled, after_plot c cfg.2)
  | Other ev => is_load ev = false ∧ cfg'.1 = cfg.1 ∧ step sort cfg.2 ev cfg'.2
  end.
Proof. destruct 1; eauto. Qed.

(** [after_fetch] and [after_json] on similar pages. *)
Lemma after_fetch_similar c p q :
  similar p q →
  (after_fetch c p).1 = (after_fetch c q).1 ∧
  similar (after_fetch c p).2 (after_fetch c q).2.
Proof.
  intros Hsim. unfold after_fetch.
  destruct c as [r|e]; [destruct (ok r)|]; simpl; by rewrite ?Hsim.
Qed.

Lemma after_json_similar r p q cfg :
  similar p q → after_json sort r p = Some cfg →
  ∃ cfg', after_json sort r q = Some cfg' ∧ cfg'.1 = cfg.1 ∧ similar cfg.2 cfg'.2.
Proof.
  intros Hsim. unfold after_json.
  destruct (json r ≫= _) as [d|e]; [|intros [= <-]; eexists; by rewrite Hsim].
  cbv zeta. destruct (negb (truthy d)); [intros [= <-]; eexists; by rewrite Hsim|].
  destruct (shape d) as [raw|]; simpl; [|done].
  destruct (chart_arguments_raw sort raw) as [args|e]; intros [= <-]; eexists;
    split_and!; try done; simpl; unfold success_line, info; by rewrite Hsim.
Qed.

(** [after_json] ends the initialisation or awaits the plot. *)
Lemma after_json_phase r p cfg :
  after_json sort r p = Some cfg → cfg.1 = Settled ∨ cfg.1 = AwaitPlot.
Proof.
  unfold after_json. destruct (json r ≫= _); [|intros [= <-]; by left].
  cbv zeta. destruct (negb _); [intros [= <-]; by left|].
  destruct (shape _); simpl; [|done].
  destruct (chart_arguments_raw _ _); intros [= <-]; [by right|by left].
Qed.

(** The outcome of [after_json] that awaits the plot. *)
Lemma after_json_AwaitPlot r p p1 :
  after_json sort r p = Some (AwaitPlot, p1) →
  ∃ d args, (∀ q, after_json sort r q = Some (AwaitPlot, partial_plot d args q)) ∧
    p1 = partial_plot d args p.
Proof.
  unfold after_json. destruct (json r ≫= _) as [d|e]; [|done].
  cbv zeta. destruct (negb (truthy d)); [done|].
  destruct (shape d) as [raw|]; simpl; [|done].
  destruct (chart_arguments_raw sort raw) as [args|e] eqn:Hargs; [|done].
  intros [= <-]. by exists d, args.
Qed.

Lemma sequential_json r plotted a :
  ok r = true →
  sequential sort (Normal r) plotted a
  = cfg ← after_json sort r (begin a);
    Some (match cfg.1 with AwaitPlot => after_plot plotted cfg.2 | _ => cfg.2 end).
Proof. intros Hok. unfold sequential, after_fetch. by rewrite Hok. Qed.

(** The resumption that ends the initialisation. *)
Lemma last_step_sequential cfg fetched a aev p' :
  related cfg fetched a → astep sort cfg aev (Settled, p') →
  ∃ q, sequential sort (fetched_at cfg.1 fetched [aev]) (plotted_of [aev]) a = Some q ∧
    similar p' q.
Proof.
  destruct cfg as [ph p]. unfold related. simpl.
  intros Hrel Hstep%astep_inv.
  destruct aev as [|c| |c|ev]; simpl in Hstep.
  - by destruct Hstep as (_ & _ & [=]).
  - destruct Hstep as [-> Hc].
    destruct (after_fetch_similar c p (begin a) Hrel) as [Hph Hsim].
    rewrite <- Hc in Hph, Hsim. simpl in *.
    exists (after_fetch c (begin a)).2. split; [|done]. unfold sequential.
    destruct (after_fetch c (begin a)) as [ph q]. simpl in *. by subst.
  - destruct Hstep as (r & -> & Hjson). destruct Hrel as (-> & Hok & Hsim).
    destruct (after_json_similar r p (begin a) _ Hsim Hjson)
      as ([ph q] & Hq & Hph & ?).
    simpl in *. subst ph. exists q. split; [|done].
    cbn [fetched_at fst]. by rewrite sequential_json, Hq.
  - destruct Hstep as [-> [= ->]].
    destruct Hrel as (r & d & args & -> & Hok & Hjson & Hsim).
    exists (after_plot c (partial_plot d args (begin a))).
    split; [|by rewrite Hsim]. cbn [fetched_at fst]. by rewrite sequential_json, Hjson.
  - destruct Hstep as (_ & <- & _). by simpl in Hrel.
Qed.

(** A resumption that does not end the initialisation keeps it
    related to the same page, with the same answers. *)
Lemma init_step_related cfg fetched a aev cfg' :
  (∀ ev, aev ≠ Other ev) →
  related cfg fetched a → astep sort cfg aev cfg' → cfg'.1 ≠ Settled →
  ∃ fetched', related cfg' fetched' a ∧
    ∀ evs, fetched_at cfg.1 fetched (aev :: evs) = fetched_at cfg'.1 fetched' evs ∧
           plotted_of (aev :: evs) = plotted_of evs.
Proof.
  destruct cfg as [ph p]. unfold related at 1. simpl.
  intros Hinit Hrel Hstep%astep_inv Hns.
  destruct aev as [|c| |c|ev]; simpl in Hstep.
  - destruct Hstep as (-> & _ & ->). exists fetched. split; [|done].
    unfold related. simpl. by rewrite Hrel.
  - destruct Hstep as [-> ->]. unfold after_fetch in *.
    destruct c as [r|e]; [|done]. destruct (ok r) eqn:Hok; [|done].
    by exists (Normal r).
  - destruct Hstep as (r & -> & Hjson). destruct Hrel as (-> & Hok & Hsim).
    destruct cfg' as [ph p1].
    destruct (after_json_phase r p _ Hjson) as [?|Hph]; [done|].
    simpl in Hph. subst ph.
    apply after_json_AwaitPlot in Hjson as (d & args & Hfun & ->).
    exists (Normal r). split; [|done]. exists r, d, args. split_and!; try done.
    unfold partial, partial_plot. by rewrite Hsim.
  - destruct Hstep as [_ ->]. by destruct Hns.
  - by destruct (Hinit ev).
Qed.

(** An event of [App] that arrives during the initialisation is
    matched by the same event before it. *)
Lemma other_step_related cfg fetched a ev cfg' :
  fresh a → related cfg fetched a → astep sort cfg (Other ev) cfg' →
  ∃ a', step sort a ev a' ∧ fresh a' ∧ cfg'.1 = cfg.1 ∧ related cfg' fetched a'.
Proof.
  destruct cfg as [ph p], cfg' as [ph' p']. unfold related. simpl.
  intros Hfresh Hrel (Hev & Hph & Hstep)%astep_inv. simpl in *. subst ph'.
  destruct ph.
  - subst. exists p'. split_and!; [done|by apply (fresh_step a ev)|done|done].
  - destruct (other_commutes Begun a p ev p') as (a' & ? & ? & ?); try done.
    by exists a'.
  - destruct Hrel as (-> & Hok & Hsim).
    destruct (other_commutes Begun a p ev p') as (a' & ? & ? & ?); try done.
    by exists a'.
  - destruct Hrel as (r & d & args & -> & ? & Hjson & Hsim).
    destruct (other_commutes (Built d args) a p ev p') as (a' & ? & ? & ?);
      try done.
    exists a'. split_and!; try done. by exists r, d, args.
  - done.
Qed.

(** ** The relations and their functions *)

Lemma adeliver_astep aev cfg cfg' :
  adeliver sort aev cfg = Some cfg' ↔ astep sort cfg aev cfg'.
Proof.
  split.
  - destruct cfg as [ph p], aev as [|c| |c|ev], ph; simpl; try done;
      try (intros [= <-]; by constructor); try (by constructor).
    all: try (destruct (ready p) eqn:?; [done|intros [= <-]; by constructor]).
    all: destruct (is_load ev) eqn:?; [done|];
      destruct (deliver sort ev p) as [q|] eqn:Hq; [|done];
      intros [= <-]; constructor; [done|by apply deliver_step].
  - intros [p0 Hrd|p0 c|r p0 cfg0 Hjson|p0 c|ph p0 ev q Hev Hstep]; simpl;
      try done; [by rewrite Hrd|].
    apply deliver_step in Hstep. rewrite Hev, Hstep. by destruct ph.
Qed.

Lemma asettle_settles evs cfg p' :
  asettle sort evs cfg = Some p' ↔ settles sort cfg evs p'.
Proof.
  split.
  - revert cfg. induction evs as [|aev evs IH]; intros cfg; [done|]. simpl.
    destruct (adeliver sort aev cfg) as [[ph q]|] eqn:Hd; [|done].
    apply adeliver_astep in Hd. simpl.
    destruct ph, evs; try done; try (intros [= <-]; by constructor);
      intros ?%IH; by econstructor.
  - induction 1 as [cfg aev p' Hstep|cfg aev [ph q] evs p' Hstep Hns Hrun IH];
      simpl; apply adeliver_astep in Hstep; rewrite Hstep; simpl; [done|].
    simpl in Hns. destruct ph; try done; by destruct Hrun.
Qed.

Lemma run_app p evs1 q evs2 r :
  run sort p evs1 q → run sort q evs2 r → run sort p (evs1 ++ evs2) r.
Proof.
  induction 1 as [|p ev p1 evs1 q Hstep _ IH]; [done|].
  intros Hrun. simpl. econstructor; [done|by apply IH].
Qed.

Lemma aevent_cases aev :
  (∃ ev, aev = Other ev) ∨ (∀ ev, aev ≠ Other ev) ∧ others [aev] = [].
Proof. destruct aev; eauto. Qed.

(** The simulation: a run from a configuration related to [a] ends in
    the page the initialisation without interleaving makes of the page
    the other events lead to from [a]. *)
Lemma settles_related cfg evs p' :
  settles sort cfg evs p' → ∀ fetched a, fresh a → related cfg fetched a →
  ∃ a' q,
    run sort a (others evs) a' ∧ fresh a' ∧
    sequential sort (fetched_at cfg.1 fetched evs) (plotted_of evs) a' = Some q ∧
    similar p' q.
Proof.
  induction 1 as [cfg aev p' Hstep|cfg aev cfg' evs p' Hstep Hns _ IH];
    intros fetched a Hfresh Hrel.
  - destruct (last_step_sequential _ _ _ _ _ Hrel Hstep) as (q & ? & ?).
    exists a, q. split_and!; try done.
    destruct (aevent_cases aev) as [[ev ->]|[_ ->]]; [|constructor].
    apply astep_inv in Hstep as (_ & Hph & _). destruct cfg as [[] ?]; done.
  - rewrite others_cons.
    destruct (aevent_cases aev) as [[ev ->]|[Hinit ->]].
    + destruct (other_step_related _ _ _ _ _ Hfresh Hrel Hstep)
        as (a1 & ? & ? & Hph & ?).
      destruct (IH fetched a1) as (a' & q & ? & ? & Hseq & ?); try done.
      exists a', q. split_and!; try done; [simpl; by econstructor|].
      by rewrite fetched_at_Other, <- Hph.
    + destruct (init_step_related _ _ _ _ _ Hinit Hrel Hstep Hns)
        as (fetched' & Hrel' & Hans).
      destruct (IH fetched' a) as (a' & q & ? & ? & Hseq & ?); try done.
      exists a', q. split_and!; try done. by destruct (Hans evs) as [-> ->].
Qed.

(** The initialisation without interleaving is a step of [App]. *)
Lemma sequential_step fetched plotted a q :
  ready a = false → sequential sort fetched plotted a = Some q →
  step sort a (DOMContentLoaded fetched plotted) q.
Proof.
  intros Hr Hseq. apply deliver_step. simpl.
  by rewrite Hr, <- sequential_atomic.
Qed.

(** The invariant of [App] does not read the console. *)
Lemma Inv_similar p q : similar p q → Inv sort q → Inv sort p.
Proof.
  destruct p as [[] ? ? ? ? ? ? ?], q as [[] ? ? ? ? ? ? ?].
  intros [[= -> -> -> -> -> -> -> -> ->] _] [[] ? ?].
  split; [split|..]; done.
Qed.

(** C12: the atomic initialisation of [App] loses no behaviour.  A run
    in which the initialisation is suspended at its three [await]s and
    other events are delivered in between ends in the page the atomic
    run ends in on the same answers of [fetch] and [Plotly.newPlot]
    when those events are delivered before the document is loaded, up
    to the order of the lines of the console. *)
Theorem async_refines p evs p' :
  fresh p → settles sort (Idle, p) evs p' →
  ∃ q,
    run sort p
      (others evs ++ [DOMContentLoaded (fetched_of evs) (plotted_of evs)]) q ∧
    similar p' q.
Proof.
  intros Hfresh Hrun.
  destruct (settles_related _ _ _ Hrun (fetched_of evs) p Hfresh eq_refl)
    as (a & q & Hothers & (_ & _ & Hr) & Hseq & Hsim).
  exists q. split; [|done].
  apply (run_app _ _ a); [done|]. econstructor; [|constructor].
  by apply sequential_step.
Qed.

(** C17: the invariant of the page holds when the initialisation has
    returned, however the events were interleaved with its [await]s,
    and from then on. *)
Theorem settled_Inv chart_element evs p' evs' p'' :
  settles sort (Idle, Page_init chart_element) evs p' →
  run sort p' evs' p'' → Inv sort p''.
Proof.
  intros Hrun Hrun'. apply (run_Inv _ _ _ _ Hrun').
  destruct (settles_related _ _ _ Hrun (fetched_of evs) (Page_init chart_element))
    as (a & q & Hothers & (_ & _ & Hr) & Hseq & Hsim); [done|done|].
  apply (Inv_similar _ _ Hsim).
  apply (step_Inv sort a _ q (sequential_step _ _ _ _ Hr Hseq)).
  apply (run_Inv _ _ _ _ Hothers), Inv_init.
Qed.

(** The atomic initialisation is one of the interleaved runs, the
    one in which nothing arrives between the resumptions. *)
Theorem atomic_settles p fetched plotted q :
  step sort p (DOMContentLoaded fetched plotted) q →
  others (resumptions sort fetched plotted p) = [] ∧
  settles sort (Idle, p) (resumptions sort fetched plotted p) q.
Proof.
  intros Hstep%deliver_step. simpl in Hstep.
  destruct (ready p) eqn:Hrd; [done|].
  rewrite <- sequential_atomic in Hstep. revert Hstep.
  rewrite <- asettle_settles. unfold sequential, resumptions, after_fetch. simpl.
  rewrite Hrd. simpl.
  destruct fetched as [r|e]; [destruct (ok r) eqn:Hok|]; simpl;
    rewrite ?Hok; simpl; try (by intros [= <-]).
  destruct (after_json sort r (begin p)) as [[ph p2]|] eqn:Hj; [|done].
  destruct (after_json_phase _ _ _ Hj) as [Hph|Hph]; simpl in Hph; subst ph;
    simpl; rewrite ?Hj; simpl; by intros [= <-].
Qed.

End simulation.

(** ** The resumptions of a run *)

(** A resumption of the initialisation, without what it carries. *)
Inductive resumed :=
| Started
| FetchSettled
| JsonSettled
| PlotSettled.

Definition resumption_of (aev : aevent) : option resumed :=
  match aev with
  | Start => Some Started
  | Fetched _ => Some FetchSettled
  | Parsed => Some JsonSettled
  | Plotted _ => Some PlotSettled
  | Other _ => None
  end.

(** The resumptions of a run, in order. *)
Definition schedule (evs : list aevent) : list resumed := omap resumption_of evs.

Section schedule.
Context `{Host} `{Arith}.
Context (sort : ∀ A, (A → A → Z) → list A → list A).
Implicit Types (p q : Page) (r : response) (evs : list aevent).

(** Whether the initialisation awaits the plot after the body [r] was
    parsed; the page plays no part in it. *)
Definition plots_after (r : response) : bool :=
  match after_json sort r (Page_init None) with
  | Some (AwaitPlot, _) => true
  | _ => false
  end.

(** The resumptions still to come at a phase, [fetched] being the
    answer of [fetch]. *)
Definition remaining (ph : phase) (fetched : completion response) : list resumed :=
  let json r := JsonSettled :: (if plots_after r then [PlotSettled] else []) in
  let fetch :=
    FetchSettled ::
    match fetched with
    | Normal r => if ok r then json r else []
    | Throw _ => []
    end in
  match ph with
  | Idle => Started :: fetch
  | AwaitFetch => fetch
  | AwaitJson r => json r
  | AwaitPlot => [PlotSettled]
  | Settled => []
  end.

Lemma after_json_page r p q :
  fst <$> after_json sort r p = fst <$> after_json sort r q.
Proof.
  unfold after_json. destruct (json r ≫= _) as [d|e]; [|done].
  cbv zeta. destruct (negb (truthy d)); [done|].
  destruct (shape d) as [raw|]; simpl; [|done].
  by destruct (chart_arguments_raw sort raw).
Qed.

Lemma plots_after_spec r p cfg :
  after_json sort r p = Some cfg →
  plots_after r = if cfg.1 is AwaitPlot then true else false.
Proof.
  intros Hp. pose proof (after_json_page r (Page_init None) p) as Heq.
  rewrite Hp in Heq. unfold plots_after.
  destruct (after_json sort r (Page_init None)) as [[ph q]|]; [|done].
  by injection Heq as ->.
Qed.

Lemma schedule_resumptions fetched plotted p :
  schedule (resumptions sort fetched plotted p) = remaining Idle fetched.
Proof.
  unfold resumptions, after_fetch, remaining.
  destruct fetched as [r|e]; [destruct (ok r)|]; try done. csimpl. do 3 f_equal.
  destruct (after_json sort r (begin p)) as [cfg|] eqn:Hj.
  - rewrite (plots_after_spec _ _ _ Hj). by destruct cfg as [[] ?].
  - pose proof (after_json_page r (Page_init None) (begin p)) as Heq.
    rewrite Hj in Heq. unfold plots_after.
    by destruct (after_json sort r (Page_init None)).
Qed.

(** One step of a run: what remains before it is the resumption, if it
    is one, and what remains after it. *)
Lemma astep_remaining cfg aev cfg' evs :
  astep sort cfg aev cfg' →
  remaining cfg.1 (fetched_of (aev :: evs))
  = option_list (resumption_of aev) ++ remaining cfg'.1 (fetched_of evs).
Proof.
  intros Hstep%astep_inv. destruct cfg as [ph p], aev as [|c| |c|ev]; simpl in *.
  - by destruct Hstep as (-> & _ & ->).
  - destruct Hstep as [-> ->]. unfold after_fetch.
    destruct c as [r|e]; [destruct (ok r) eqn:Hok|]; simpl; by rewrite ?Hok.
  - destruct Hstep as (r & -> & Hj). simpl. rewrite (plots_after_spec _ _ _ Hj).
    by destruct (after_json_phase _ _ _ _ Hj) as [->| ->].
  - by destruct Hstep as [-> ->].
  - destruct Hstep as (_ & -> & _). by destruct ph.
Qed.

Lemma settles_remaining cfg evs p' :
  settles sort cfg evs p' → schedule evs = remaining cfg.1 (fetched_of evs).
Proof.
  induction 1 as [cfg aev p' Hstep|cfg aev cfg' evs p' Hstep _ _ IH].
  - rewrite (astep_remaining _ _ _ [] Hstep). simpl.
    unfold schedule. simpl. by destruct (resumption_of aev).
  - rewrite (astep_remaining _ _ _ evs Hstep), <- IH.
    unfold schedule. simpl. by destruct (resumption_of aev).
Qed.


End schedule.

(** ** Progress *)

Section progress.
Context `{Host} `{Arith}.
Context (sort : ∀ A, (A → A → Z) → list A → list A).
Implicit Types (p q : Page) (r : response) (ph : phase).
Implicit Types (fetched : completion response) (plotted : completion chart_handle).

(** The resumptions that are still to come at a configuration when
    nothing else arrives, [fetched] and [plotted] being the answers of
    [fetch] and of [Plotly.newPlot]. *)
Definition from_json r plotted p : list aevent :=
  Parsed ::
  match after_json sort r p with
  | Some (AwaitPlot, _) => [Plotted plotted]
  | _ => []
  end.

Definition from_fetch fetched plotted p : list aevent :=
  Fetched fetched ::
  match after_fetch fetched p with
  | (AwaitJson r, q) => from_json r plotted q
  | _ => []
  end.

Definition finish fetched plotted (cfg : phase * Page) : list aevent :=
  match cfg.1 with
  | Idle => Start :: from_fetch fetched plotted (begin cfg.2)
  | AwaitFetch => from_fetch fetched plotted cfg.2
  | AwaitJson r => from_json r plotted cfg.2
  | AwaitPlot => [Plotted plotted]
  | Settled => []
  end.

Lemma finish_Idle fetched plotted p :
  finish fetched plotted (Idle, p) = resumptions sort fetched plotted p.
Proof. unfold finish, resumptions, from_fetch. simpl. by destruct (after_fetch _ _) as [[] ?]. Qed.

(** The parsed body is always dealt with: what the validation accepts
    has the shape [renderChart] is given. *)
Lemma after_json_total r p : is_Some (after_json sort r p).
Proof.
  unfold after_json. destruct (json r) as [d|e]; simpl; [|done].
  destruct (validate d) as [[]|e] eqn:Hv; simpl; [|done].
  destruct (negb (truthy d)); [done|].
  by destruct (shape_validated d Hv) as (raw & -> & _).
Qed.

Lemma settles_from_json r plotted p :
  ∃ q, settles sort (AwaitJson r, p) (from_json r plotted p) q.
Proof.
  unfold from_json. destruct (after_json_total r p) as [[ph p1] Hj]. rewrite Hj.
  destruct (after_json_phase _ _ _ _ Hj) as [Hph|Hph]; simpl in Hph; subst ph.
  - exists p1. apply settles_last. by constructor.
  - exists (after_plot plotted p1).
    apply (settles_step _ _ _ (AwaitPlot, p1)); [by constructor|done|].
    apply settles_last. constructor.
Qed.

Lemma after_fetch_phase fetched p :
  (after_fetch fetched p).1 = Settled ∨
  ∃ r, fetched = Normal r ∧ after_fetch fetched p = (AwaitJson r, p).
Proof.
  unfold after_fetch. destruct fetched as [r|e]; [|by left].
  destruct (ok r); [right; by exists r|by left].
Qed.

Lemma settles_from_fetch fetched plotted p :
  ∃ q, settles sort (AwaitFetch, p) (from_fetch fetched plotted p) q.
Proof.
  unfold from_fetch. pose proof (astep_Fetched sort p fetched) as Hstep.
  destruct (after_fetch_phase fetched p) as [Hph|(r & -> & Hr)].
  - destruct (after_fetch fetched p) as [ph p1]. simpl in Hph. subst ph.
    exists p1. by apply settles_last.
  - rewrite Hr in *. destruct (settles_from_json r plotted p) as [q Hq].
    exists q. by apply (settles_step _ _ _ (AwaitJson r, p)).
Qed.

(** C34: the initialisation is never stuck.  Wherever it is suspended,
    and whatever [fetch] and [Plotly.newPlot] answer, the resumptions
    that remain can be delivered one after the other, and with the last
    of them the initialisation has returned: nothing else has to arrive
    for it to end, and it ends after four resumptions at most.  Before
    the start this needs that the document has not been loaded yet. *)
Theorem settles_progress fetched plotted ph p :
  ph ≠ Settled → (ph = Idle → ready p = false) →
  ∃ q, settles sort (ph, p) (finish fetched plotted (ph, p)) q ∧
    others (finish fetched plotted (ph, p)) = [] ∧
    length (finish fetched plotted (ph, p)) ≤ 4.
Proof.
  intros Hph Hrd.
  assert (others (finish fetched plotted (ph, p)) = [] ∧
          length (finish fetched plotted (ph, p)) ≤ 4) as [Ho Hl].
  { unfold finish, from_fetch, from_json. simpl.
    destruct ph; simpl; repeat case_match; simpl; split; done || lia. }
  destruct ph as [| |r| |]; try done; unfold finish; simpl.
  - destruct (settles_from_fetch fetched plotted (begin p)) as [q Hq].
    exists q. split; [|done].
    apply (settles_step _ _ _ (AwaitFetch, begin p)); [|done|done].
    constructor. by apply Hrd.
  - destruct (settles_from_fetch fetched plotted p) as [q Hq]. by exists q.
  - destruct (settles_from_json r plotted p) as [q Hq]. by exists q.
  - exists (after_plot plotted p). split; [|done]. apply settles_last. constructor.
Qed.

End progress.

(** ** A run with events between the resumptions *)

(** Time passes before the document is loaded, the window is resized
    while [fetch] is pending, a script fails while the body is parsed,
    and time passes while the chart is drawn. *)
Definition demo_interleaved : list aevent :=
  [Other (Elapse 5); Start; Other Resize; Fetched (Normal demo_response);
   Other (ErrorEvent (Error "script error")); Parsed; Other (Elapse 20);
   Plotted (Normal GraphDiv)].

Definition demo_settled : Page :=
  default demo_start (asettle (@insertion_sort) demo_interleaved (Idle, demo_start)).

Lemma demo_settles :
  settles (@insertion_sort) (Idle, demo_start) demo_interleaved demo_settled.
Proof. apply asettle_settles. by vm_compute. Qed.

Lemma async_refines_witness :
  ∃ q,
    run (@insertion_sort) demo_start
      (others demo_interleaved ++
         [DOMContentLoaded (fetched_of demo_interleaved) (plotted_of demo_interleaved)]) q ∧
    similar demo_settled q.
Proof.
  apply (async_refines (@insertion_sort) demo_start demo_interleaved demo_settled).
  - by repeat split.
  - exact demo_settles.
Defined.

Lemma atomic_settles_witness :
  others (resumptions (@insertion_sort) (Normal demo_response) (Normal GraphDiv)
            demo_start) = [] ∧
  settles (@insertion_sort) (Idle, demo_start)
    (resumptions (@insertion_sort) (Normal demo_response) (Normal GraphDiv)
       demo_start) demo_page.
Proof.
  apply (atomic_settles (@insertion_sort) demo_start (Normal demo_response)
           (Normal GraphDiv) demo_page).
  apply deliver_step. by vm_compute.
Defined.

Lemma settled_Inv_witness : Inv (@insertion_sort) (on_resize demo_settled).
Proof.
  apply (settled_Inv (@insertion_sort) (Some Untouched) demo_interleaved
           demo_settled [Resize] (on_resize demo_settled)).
  - exact demo_settles.
  - econstructor; constructor.
Defined.


Lemma settles_progress_witness :
  ∃ q, settles (@insertion_sort) (AwaitFetch, begin demo_start)
         (finish (@insertion_sort) (Normal demo_response) (Normal GraphDiv)
            (AwaitFetch, begin demo_start)) q ∧
    others (finish (@insertion_sort) (Normal demo_response) (Normal GraphDiv)
              (AwaitFetch, begin demo_start)) = [] ∧
    length (finish (@insertion_sort) (Normal demo_response) (Normal GraphDiv)
              (AwaitFetch, begin demo_start)) ≤ 4.
Proof.
  apply (settles_progress (@insertion_sort) (Normal demo_response) (Normal GraphDiv)
           AwaitFetch (begin demo_start)); done.
Defined.
