(* ===== verification/Render.v ===== *)
(** * What the page is given: markup and chart objects

    The program shows its state in two ways.  [showLoadingState] and
    [showErrorState] assign a template to [innerHTML] of the chart
    element (lines 66-74 and 85-93); [renderChart] passes the object
    literals of [createChartTraces], [createDynamicAnnotations] and
    [createChartLayout] and the constant [CHART_CONFIG.layout] to
    [Plotly.newPlot] (lines 386-391).  [Loader] and [Raw] keep of
    these what varies: the message of the panel, six fields of a trace,
    five of an annotation, three of the layout.
    This file gives them in full: [innerHTML] is the markup of a panel,
    [trace_object], [annotation_object] and [layout_object] are the
    literals, [plot_call] the arguments of the call.

    Theorems: the records lose nothing (the objects are injective
    functions of them) and no literal writes a key twice
    ([plot_call_faithful]); the message of the error panel is inserted
    into the markup as it is, so that a category name of the dataset
    reaches [innerHTML] unescaped ([category_name_in_markup]); and, for
    every page [App] can reach, the markup that is shown once the
    initialisation has returned and the arguments [Plotly.newPlot] was
    called with ([reachable_rendering]). *)

From Stdlib Require Import ZArith List Lia Ascii String.
From stdpp Require Import base tactics option list strings numbers.
From S2P Require Import Prelude StableSort LocalSort JsValue Loader Traces Annotations Raw App.

#[local] Open Scope string_scope.
#[local] Open Scope list_scope.
#[local] Open Scope Z_scope.

(** ** Markup *)

(** The double quote. *)
Definition q : string := String (ascii_of_nat 34) EmptyString.

(** The line feed. *)
Definition nl : string := String (ascii_of_nat 10) EmptyString.

(** The lines of a template literal, each after a line feed. *)
Definition lines_text (lines : list string) : string :=
  foldr (λ l s, nl +:+ l +:+ s) "" lines.

(** The last line of the templates: the closing backquote is indented
    by eight spaces. *)
Definition closing : string := nl +:+ "        ".

(** The template of lines 66-74. *)
Definition loading_html : string :=
  lines_text [
    "            <div style=" +:+ q +:+ "display: flex; align-items: center; justify-content: center; height: 400px; color: #718096;" +:+ q +:+ ">";
    "                <div style=" +:+ q +:+ "text-align: center;" +:+ q +:+ ">";
    "                    <div style=" +:+ q +:+ "font-size: 2rem; margin-bottom: 1rem;" +:+ q +:+ ">📊</div>";
    "                    <div style=" +:+ q +:+ "font-size: 1.1rem; font-weight: 600;" +:+ q +:+ ">Loading visualization...</div>";
    "                    <div style=" +:+ q +:+ "font-size: 0.9rem; margin-top: 0.5rem;" +:+ q +:+ ">Preparing 248 topics across 12 years</div>";
    "                </div>";
    "            </div>"]
  +:+ closing.

(** The template of lines 85-93 up to [${message}]. *)
Definition error_before : string :=
  lines_text [
    "            <div style=" +:+ q +:+ "display: flex; align-items: center; justify-content: center; height: 400px; color: #e53e3e;" +:+ q +:+ ">";
    "                <div style=" +:+ q +:+ "text-align: center;" +:+ q +:+ ">";
    "                    <div style=" +:+ q +:+ "font-size: 2rem; margin-bottom: 1rem;" +:+ q +:+ ">⚠️</div>";
    "                    <div style=" +:+ q +:+ "font-size: 1.1rem; font-weight: 600;" +:+ q +:+ ">Visualization Error</div>"]
  +:+ nl +:+
    "                    <div style=" +:+ q +:+ "font-size: 0.9rem; margin-top: 0.5rem; max-width: 300px;" +:+ q +:+ ">".

(** And after it. *)
Definition error_after : string :=
  "</div>" +:+
  lines_text [
    "                </div>";
    "            </div>"]
  +:+ closing.

(** The template of lines 85-93: the message is put between the two
    parts as it is. *)
Definition error_html (message : string) : string :=
  error_before +:+ message +:+ error_after.

(** What the program assigned to [innerHTML] of the chart element;
    [None] when the content is not the program's: the page's own, or
    what the charting library drew. *)
Definition innerHTML (p : panel) : option string :=
  match p with
  | LoadingPanel => Some loading_html
  | ErrorPanel message => Some (error_html message)
  | Untouched | ChartPanel => None
  end.

(** ** Chart objects *)

Unset Elimination Schemes.

(** An argument of [Plotly.newPlot]: a literal, or a value of the
    dataset passed on as it is.  [PDecimal m e] is the number
    [m / 10^e]. *)
Inductive plot_value :=
| PNumber (z : Z)
| PDecimal (mantissa : Z) (exponent : nat)
| PString (s : string)
| PBool (b : bool)
| PArray (elems : list plot_value)
| PObject (members : list (string * plot_value))
| PValue (v : value).

Set Elimination Schemes.

(** The trace literal of lines 171-197. *)
Definition trace_object (t : raw_trace) : plot_value :=
  PObject [
    ("x", PValue (raw_x t));
    ("y", PValue (raw_y t));
    ("mode", PString "lines+markers");
    ("name", PString (raw_name t));
    ("type", PString "scatter");
    ("line", PObject [
      ("width", PNumber 3);
      ("color", PValue (raw_line_color t));
      ("shape", PString "linear")]);
    ("marker", PObject [
      ("size", PNumber 10);
      ("color", PValue (raw_marker_color t));
      ("symbol", PValue (raw_marker_symbol t));
      ("line", PObject [
        ("width", PNumber 2);
        ("color", PString "#ffffff")])]);
    ("hovertemplate",
      PString ("<b>%{fullData.name}</b><br>" +:+
               "Year: %{x}<br>" +:+
               "Topics: %{y}<br>" +:+
               "<extra></extra>"));
    ("connectgaps", PBool false)].

(** The annotation literals of lines 223-243, 249-269 and 275-295,
    which differ in [x], [y], [text] and the two colours. *)
Definition annotation_object (a : raw_annotation) : plot_value :=
  PObject [
    ("x", PNumber (raw_ann_x a));
    ("y", PValue (raw_ann_y a));
    ("text", PString (raw_text a));
    ("showarrow", PBool true);
    ("arrowhead", PNumber 2);
    ("arrowsize", PNumber 1);
    ("arrowwidth", PNumber 2);
    ("arrowcolor", PString (raw_arrowcolor a));
    ("ax", PNumber 0);
    ("ay", PNumber (-40));
    ("font", PObject [
      ("size", PNumber 11);
      ("color", PString "#1a202c");
      ("family", PString "-apple-system, BlinkMacSystemFont, sans-serif")]);
    ("bgcolor", PString "rgba(255,255,255,0.9)");
    ("bordercolor", PString (raw_bordercolor a));
    ("borderwidth", PNumber 1);
    ("borderpad", PNumber 4)].

(** The layout literal of lines 307-373. *)
Definition layout_object (l : raw_layout) : plot_value :=
  PObject [
    ("title", PObject [
      ("text", PString "Academic Topic Evolution (2013-2024)");
      ("font", PObject [
        ("family", PString "-apple-system, BlinkMacSystemFont, sans-serif");
        ("size", PNumber 20);
        ("color", PString "#1a202c")]);
      ("x", PDecimal 5 1);
      ("xanchor", PString "center")]);
    ("xaxis", PObject [
      ("title", PObject [
        ("text", PString "Year");
        ("font", PObject [("size", PNumber 14); ("color", PString "#4a5568")])]);
      ("tickmode", PString "array");
      ("tickvals", PArray (PValue <$> raw_tickvals l));
      ("ticktext", PArray (PString <$> raw_ticktext l));
      ("gridcolor", PString "#e2e8f0");
      ("gridwidth", PNumber 1);
      ("linecolor", PString "#cbd5e0");
      ("linewidth", PNumber 2);
      ("tickfont", PObject [("color", PString "#4a5568")])]);
    ("yaxis", PObject [
      ("title", PObject [
        ("text", PString "Number of Topics");
        ("font", PObject [("size", PNumber 14); ("color", PString "#4a5568")])]);
      ("gridcolor", PString "#e2e8f0");
      ("gridwidth", PNumber 1);
      ("linecolor", PString "#cbd5e0");
      ("linewidth", PNumber 2);
      ("tickfont", PObject [("color", PString "#4a5568")]);
      ("rangemode", PString "tozero")]);
    ("plot_bgcolor", PString "#ffffff");
    ("paper_bgcolor", PString "#ffffff");
    ("hovermode", PString "closest");
    ("hoverlabel", PObject [
      ("bgcolor", PString "#1a202c");
      ("bordercolor", PString "#4a5568");
      ("font", PObject [("color", PString "#ffffff"); ("size", PNumber 12)])]);
    ("legend", PObject [
      ("orientation", PString "v");
      ("yanchor", PString "top");
      ("y", PNumber 1);
      ("xanchor", PString "left");
      ("x", PDecimal 102 2);
      ("font", PObject [("size", PNumber 11); ("color", PString "#4a5568")]);
      ("bgcolor", PString "rgba(255,255,255,0.8)");
      ("bordercolor", PString "#e2e8f0");
      ("borderwidth", PNumber 1)]);
    ("margin", PObject [
      ("l", PNumber 80); ("r", PNumber 140); ("t", PNumber 80); ("b", PNumber 80)]);
    ("annotations", PArray (annotation_object <$> raw_annotations l))].

(** [CHART_CONFIG.layout], lines 39-46. *)
Definition config : plot_value :=
  PObject [
    ("responsive", PBool true);
    ("displayModeBar", PBool true);
    ("displaylogo", PBool false);
    ("modeBarButtonsToRemove",
      PArray [PString "pan2d"; PString "lasso2d"; PString "select2d";
              PString "autoScale2d"])].

(** The arguments of [Plotly.newPlot], lines 386-391. *)
Definition plot_call (args : list raw_trace * raw_layout) : list plot_value :=
  [PString "evolution-chart"; PArray (trace_object <$> args.1);
   layout_object args.2; config].

(** Whether no object of the value has two members of the same name. *)
Fixpoint distinct_keys (v : plot_value) : bool :=
  match v with
  | PArray elems => forallb distinct_keys elems
  | PObject members =>
      bool_decide (NoDup members.*1) &&
      forallb (λ m, distinct_keys m.2) members
  | _ => true
  end.

(** ** The markup of the error panel *)

Section markup.
Context `{Host}.

(** A dataset with one category, whose series is [null]. *)
Definition one_category (c : string) (ys : list value) : value :=
  VObject [("years", VArray ys); ("categories", VObject [(c, VNull)])].

Lemma validate_one_category c ys :
  validate (one_category c ys) = Throw (inconsistency c).
Proof.
  unfold validate, one_category. rewrite !get_object. simpl.
  change (own_properties [(c, VNull)]) with [(c, VNull)].
  by rewrite ordered_entries_singleton.
Qed.

(** C38: the error panel is not escaped.  With a page that has the
    chart element, a response whose dataset has a category with a
    malformed series makes [loadTopicData] assign to [innerHTML] a
    markup that holds the name of the category as it is in the
    dataset, whatever characters it is made of: the text before it and
    the text after it do not depend on it. *)
Theorem category_name_in_markup :
  ∃ before after, ∀ c ys r w pn,
    chart_element w = Some pn → ok r = true →
    json r = Normal (one_category c ys) →
    chart_element (loadTopicData (Normal r) w).1 ≫= innerHTML
    = Some (before +:+ c +:+ after).
Proof.
  exists (error_before +:+ "Data inconsistency in category: "), error_after.
  intros c ys r w pn Hpn Hok Hjson.
  rewrite (loadTopicData_failed _ _ (inconsistency c)).
  - simpl. rewrite Hpn. simpl. unfold error_html. by rewrite string_app_assoc.
  - unfold loadTopicData_try. simpl. rewrite Hok, Hjson. simpl.
    by rewrite validate_one_category.
Qed.

End markup.

(** ** The chart objects *)

Section objects.
Implicit Types (t : raw_trace) (a : raw_annotation) (l : raw_layout).

#[local] Instance PValue_inj : Inj (=) (=) PValue.
Proof. by intros ?? [= ->]. Qed.

#[local] Instance PNumber_inj : Inj (=) (=) PNumber.
Proof. by intros ?? [= ->]. Qed.

#[local] Instance PString_inj : Inj (=) (=) PString.
Proof. by intros ?? [= ->]. Qed.

#[export] Instance trace_object_inj : Inj (=) (=) trace_object.
Proof.
  intros [] [] [= ? ? ? ? ? ?]. by simplify_eq/=.
Qed.

#[export] Instance annotation_object_inj : Inj (=) (=) annotation_object.
Proof. intros [] [] [= ? ? ? ? ?]. by simplify_eq/=. Qed.

#[export] Instance layout_object_inj : Inj (=) (=) layout_object.
Proof.
  intros [] [] [= ?%(inj (fmap PValue)) ?%(inj (fmap PString))
                  ?%(inj (fmap annotation_object))].
  by simplify_eq/=.
Qed.

(** An array of values without objects. *)
Lemma forallb_leaves {A} (f : A → plot_value) (xs : list A) :
  (∀ x, distinct_keys (f x) = true) → forallb distinct_keys (f <$> xs) = true.
Proof.
  intros Hf. induction xs as [|x xs IH]; [done|]. csimpl. by rewrite Hf, IH.
Qed.

(** The keys of a literal are compared by evaluation, the arrays of
    the dataset by [forallb_leaves]. *)
Ltac solve_distinct :=
  cbn [distinct_keys forallb fmap list_fmap fst snd andb];
  rewrite ?forallb_leaves by done; by vm_compute.

Lemma trace_object_distinct t : distinct_keys (trace_object t) = true.
Proof. unfold trace_object. solve_distinct. Qed.

Lemma annotation_object_distinct a : distinct_keys (annotation_object a) = true.
Proof. by vm_compute. Qed.

Lemma layout_object_distinct l : distinct_keys (layout_object l) = true.
Proof.
  unfold layout_object. pose proof annotation_object_distinct. solve_distinct.
Qed.

(** The records of the builders lose nothing of what the charting
    library is given.  The arguments of
    [Plotly.newPlot] are an injective function of the traces and the
    layout, and no object among them has two members of the same
    name: the literals of the source mean what they list. *)
Theorem plot_call_faithful :
  Inj (=) (=) plot_call ∧
  ∀ args, Forall (λ v, distinct_keys v = true) (plot_call args).
Proof.
  split.
  - intros [ts1 []] [ts2 []]
      [= ?%(inj (fmap trace_object)) ?%(inj (fmap PValue)) ?%(inj (fmap PString))
         ?%(inj (fmap annotation_object))].
    by simplify_eq/=.
  - intros [ts l]. unfold plot_call. repeat constructor; simpl.
    + apply forallb_leaves, trace_object_distinct.
    + apply layout_object_distinct.
Qed.

End objects.

(** ** What a reachable page shows *)

(** The markup the program has put into the chart element, if it has. *)
Definition shown (p : Page) : option string :=
  chart_element (world p) ≫= innerHTML.

Section page.
Context `{Host} `{Arith}.
Context (sort : ∀ A, (A → A → Z) → list A → list A).
Implicit Types (p : Page).

(** The arguments of the call, from the dataset. *)
Lemma chart_arguments_raw_inv raw args :
  chart_arguments_raw sort raw = Normal args →
  createChartTraces_raw sort raw = Normal args.1 ∧
  createChartLayout_raw raw = Normal args.2.
Proof.
  unfold chart_arguments_raw.
  destruct (createChartTraces_raw sort raw) as [ts|]; [|done].
  destruct (createChartLayout_raw raw) as [lay|]; [|done]. by intros [= <-].
Qed.

(** C16: the page, end to end.  On every page the browser can reach,
    once the initialisation has returned the chart element holds the
    chart of the library, or the error markup with one of the two fixed
    messages, according to the application state, and never the loading
    markup or a message that names the cause; and every call of
    [Plotly.newPlot] was made with the element's id, the trace objects
    and the layout object the builders compute from the stored dataset,
    and the configuration. *)
Theorem reachable_rendering p :
  reachable sort p →
  (ready p = true → is_Some (chart_element (world p)) →
   shown p = match chartInstance (app (world p)), data (app (world p)) with
             | Some _, _ => None
             | None, Some _ => Some (error_html "Failed to render chart visualization")
             | None, None => Some (error_html "Application failed to initialize")
             end) ∧
  (∀ args, args ∈ plots p →
   ∃ d raw traces lay,
     data (app (world p)) = Some d ∧ shape d = Some raw ∧
     createChartTraces_raw sort raw = Normal traces ∧
     createChartLayout_raw raw = Normal lay ∧
     plot_call args
     = [PString "evolution-chart"; PArray (trace_object <$> traces);
        layout_object lay; config]).
Proof.
  intros (ce & evs & Hrun).
  destruct (run_Inv sort _ _ _ Hrun (Inv_init sort ce)) as [_ [] _]. split.
  - intros Hrd [pn Hpn]. unfold shown. rewrite Hpn. simpl.
    rewrite (ok_panel Hrd pn Hpn). unfold expected_panel.
    by destruct (chartInstance _), (data _).
  - intros args Hin. destruct (ok_plots args Hin) as (d & raw & ? & ? & Hargs).
    apply chart_arguments_raw_inv in Hargs as [? ?]. by exists d, raw, args.1, args.2.
Qed.

End page.

(** In the run of [App.demo_page] the chart is drawn: the element holds
    what the library drew, and the library was called once. *)
Lemma reachable_rendering_witness :
  (ready demo_page = true → is_Some (chart_element (world demo_page)) →
   shown demo_page
   = match chartInstance (app (world demo_page)), data (app (world demo_page)) with
     | Some _, _ => None
     | None, Some _ => Some (error_html "Failed to render chart visualization")
     | None, None => Some (error_html "Application failed to initialize")
     end) ∧
  (∀ args, args ∈ plots demo_page →
   ∃ d raw traces lay,
     data (app (world demo_page)) = Some d ∧ shape d = Some raw ∧
     createChartTraces_raw (@insertion_sort) raw = Normal traces ∧
     createChartLayout_raw raw = Normal lay ∧
     plot_call args
     = [PString "evolution-chart"; PArray (trace_object <$> traces);
        layout_object lay; config]).
Proof.
  apply (reachable_rendering (@insertion_sort) demo_page).
  exists (Some Untouched), [DOMContentLoaded (Normal demo_response) (Normal GraphDiv)].
  exact demo_page_run.
Defined.
