(* ===== verification/Deploy.v ===== *)
(** * The deployment script

    [deploy.sh] is a straight-line shell script under [set -e]: it
    prints a banner, checks that [git] and [index.html] are there,
    initialises a repository unless there is one, stages and commits,
    asks for a confirmation, and on [y] or [Y] sets the remote, renames
    the branch and pushes.

    A script is a tree of the actions the shell performs, [sh]: it
    prints a line, runs a command and continues with its exit status,
    reads a reply, or exits.  What a command does is not modelled: a
    run ([runs]) is the script together with the statuses and the reply
    the environment gave, and the theorems hold for every run.
    [exec] is the run against a recorded list of answers.  [wp] is the
    weakest precondition over runs; a property of all runs of [deploy]
    is proved by computing it. *)

From Stdlib Require Import List String.
From stdpp Require Import base tactics option strings list.
From S2P Require Import Prelude.

#[local] Open Scope string_scope.
#[local] Open Scope list_scope.

(** ** Scripts *)

(** An exit status; 0 is success. *)
Definition status := nat.

(** A command as the shell sees it: its words, and its redirections,
    which the shell sets up before it runs the words. *)
Record command := Command {
  words : list string;
  redirections : list string
}.

#[export] Instance command_eq_dec : EqDecision command.
Proof. solve_decision. Defined.

Inductive sh (A : Type) : Type :=
| Ret (a : A)
  (** go on with [a] *)
| Exit (code : status)
  (** the shell exits: [exit n], or a failed command under [set -e] *)
| Echo (line : string) (k : sh A)
  (** [echo line] *)
| Run (c : command) (k : status → sh A)
  (** run [c] and go on with its exit status *)
| Read (prompt : string) (k : status → string → sh A).
  (** [read -p prompt -n 1 -r]: the status of [read] and [$REPLY] *)

Arguments Ret {A} a.
Arguments Exit {A} code.
Arguments Echo {A} line k.
Arguments Run {A} c k.
Arguments Read {A} prompt k.

Fixpoint sh_bind {A B} (k : A → sh B) (t : sh A) : sh B :=
  match t with
  | Ret a => k a
  | Exit code => Exit code
  | Echo line t => Echo line (sh_bind k t)
  | Run c t => Run c (λ s, sh_bind k (t s))
  | Read prompt t => Read prompt (λ s reply, sh_bind k (t s reply))
  end.

#[export] Instance sh_ret : MRet sh := @Ret.
#[export] Instance sh_mbind : MBind sh := @sh_bind.

(** ** The constructs of the script *)

Definition echo (line : string) : sh unit := Echo line (Ret tt).

Definition exit {A} (code : status) : sh A := Exit code.

(** A command in a position where [set -e] applies: when it fails the
    shell exits with its status. *)
Definition simple (c : command) : sh unit :=
  Run c (λ s, if s is 0 then Ret tt else Exit s).

(** A command whose status is tested: the condition of an [if], the
    left side of [||]. *)
Definition status_of (c : command) : sh status := Run c Ret.

(** [c || alt]. *)
Definition or_else (c : command) (alt : sh unit) : sh unit :=
  s ← status_of c; if s is 0 then Ret tt else alt.

(** [read -p prompt -n 1 -r], a simple command: [$REPLY]. *)
Definition read (prompt : string) : sh string :=
  Read prompt (λ s reply, if s is 0 then Ret reply else Exit s).

(** [git ...]. *)
Definition git (args : list string) : command := Command ("git" :: args) [].

(** ** Runs *)

Inductive effect :=
| Printed (line : string)
| Ran (c : command) (s : status)
| Asked (prompt : string) (s : status) (reply : string).

#[export] Instance effect_eq_dec : EqDecision effect.
Proof. solve_decision. Defined.

(** How a script ends: it returns to what follows it, with a value, or
    the shell exits. *)
Inductive outcome (A : Type) :=
| Returned (a : A)
| Exited (code : status).

Arguments Returned {A} a.
Arguments Exited {A} code.

Inductive runs {A} : sh A → list effect → outcome A → Prop :=
| runs_Ret a : runs (Ret a) [] (Returned a)
| runs_Exit code : runs (Exit code) [] (Exited code)
| runs_Echo line k tr o :
    runs k tr o → runs (Echo line k) (Printed line :: tr) o
| runs_Run c k s tr o :
    runs (k s) tr o → runs (Run c k) (Ran c s :: tr) o
| runs_Read prompt k s reply tr o :
    runs (k s reply) tr o → runs (Read prompt k) (Asked prompt s reply :: tr) o.

(** What the environment gives a command or a [read]: a status, and a
    reply. *)
Definition answer := (status * string)%type.

(** The run in which the environment gives the answers of the list, in
    order, and success with an empty reply once the list is used up. *)
Fixpoint exec {A} (t : sh A) (answers : list answer) : list effect * outcome A :=
  match t with
  | Ret a => ([], Returned a)
  | Exit code => ([], Exited code)
  | Echo line k => let r := exec k answers in (Printed line :: r.1, r.2)
  | Run c k =>
      let a := default (0, "") (head answers) in
      let r := exec (k a.1) (tail answers) in (Ran c a.1 :: r.1, r.2)
  | Read prompt k =>
      let a := default (0, "") (head answers) in
      let r := exec (k a.1 a.2) (tail answers) in
      (Asked prompt a.1 a.2 :: r.1, r.2)
  end.

(** The answers a run was given. *)
Definition answers_of (tr : list effect) : list answer :=
  omap (λ ev, match ev with
              | Printed _ => None
              | Ran _ s => Some (s, "")
              | Asked _ s reply => Some (s, reply)
              end) tr.

(** The weakest precondition: [Q] holds of every run of the script. *)
Fixpoint wp {A} (t : sh A) (Q : list effect → outcome A → Prop) : Prop :=
  match t with
  | Ret a => Q [] (Returned a)
  | Exit code => Q [] (Exited code)
  | Echo line k => wp k (λ tr, Q (Printed line :: tr))
  | Run c k => ∀ s, wp (k s) (λ tr, Q (Ran c s :: tr))
  | Read prompt k => ∀ s reply, wp (k s reply) (λ tr, Q (Asked prompt s reply :: tr))
  end.

(** ** The script *)

(** The test builtin, which is written with brackets. *)
Definition test (args : list string) : command :=
  Command ("[" :: args ++ ["]"]) [].

(** The builtin [true]: nothing, successfully. *)
Definition true_ : sh unit := Ret tt.

(** [[[ $REPLY =~ ^[Yy]$ ]]]: the reply is the letter y, in either
    case. *)
Definition confirmed (reply : string) : bool :=
  bool_decide (reply = "y" ∨ reply = "Y").

(** The message of the commit, lines 48-63. *)
Definition commit_message : string :=
  "feat: Academic Topic Evolution Analysis

- Interactive visualization of 248 topics across 12 years
- 100% classification rate with maximum-overlap algorithm  
- Responsive design with modern UI/UX
- Comprehensive error handling and accessibility
- Professional code structure and documentation

Highlights:
- Machine Learning/AI: 48 topics (25% growth)
- Finance/Economics: 31 topics (steady growth)
- Social/Urban: 19 topics (2019 Census spike)
- Climate/Weather: 16 topics (2023 climate peak)

Tech stack: Vanilla JS, Plotly.js, modern CSS
Deployment: GitHub Pages ready".

Definition repository_url : string :=
  "https://github.com/apma4903/topic-evolution.git".

(** The commands of the script. *)
Definition git_init : command := git ["init"].
Definition git_add : command := git ["add"; "."].
Definition git_commit : command :=
  Command ["git"; "commit"; "-m"; commit_message] ["2>/dev/null"].
Definition git_remote_remove : command :=
  Command ["git"; "remote"; "remove"; "origin"] ["2>/dev/null"].
Definition git_remote_add : command :=
  git ["remote"; "add"; "origin"; repository_url].
Definition git_branch : command := git ["branch"; "-M"; "main"].
Definition git_push : command := git ["push"; "-u"; "origin"; "main"].
Definition has_git : command := Command ["command"; "-v"; "git"] ["&> /dev/null"].
Definition no_index : command := test ["!"; "-f"; "index.html"].
Definition no_repository : command := test ["!"; "-d"; ".git"].

(** Lines 8-10. *)
Definition banner : sh unit :=
  echo "🚀 Academic Topic Evolution - GitHub Deployment";;
  echo "==================================================";;
  echo "".

(** Lines 13-16. *)
Definition check_git : sh unit :=
  s ← status_of has_git;
  if s is 0 then Ret tt
  else
    echo "❌ Error: Git is not installed. Please install Git first.";;
    exit 1.

(** Lines 19-22. *)
Definition check_directory : sh unit :=
  s ← status_of no_index;
  if s is 0 then
    echo "❌ Error: index.html not found. Are you in the correct directory?";;
    exit 1
  else Ret tt.

(** Lines 24-30. *)
Definition checklist : sh unit :=
  echo "📋 Pre-deployment checklist:";;
  echo "  ✅ HTML structure validated";;
  echo "  ✅ CSS responsive design implemented";;
  echo "  ✅ JavaScript error handling added";;
  echo "  ✅ Data validation completed";;
  echo "  ✅ All references to external tools removed";;
  echo "".

(** Lines 33-39. *)
Definition initialize_repository : sh unit :=
  echo "🔧 Initializing Git repository...";;
  s ← status_of no_repository;
  if s is 0 then
    simple git_init;;
    echo "  ✅ Git repository initialized"
  else echo "  ✅ Git repository already exists".

(** Lines 42-44. *)
Definition add_files : sh unit :=
  echo "📁 Adding files to Git...";;
  simple git_add;;
  echo "  ✅ All files staged".

(** Lines 47-63. *)
Definition create_commit : sh unit :=
  echo "💾 Creating commit...";;
  or_else git_commit
    (echo "  ✅ No changes to commit").

(** Lines 66-69. *)
Definition repository_setup : sh unit :=
  echo "";;
  echo "🔗 GitHub Repository Setup:";;
  echo "  ✅ Repository already exists at: https://github.com/apma4903/topic-evolution";;
  echo "".

(** Lines 71-72. *)
Definition ask : sh string :=
  reply ← read "Ready to push to apma4903/topic-evolution? (y/N): ";
  echo "";;
  Ret reply.

(** Lines 75-82. *)
Definition set_remote : sh unit :=
  echo "🌐 Setting up remote repository...";;
  or_else git_remote_remove true_;;
  simple git_remote_add;;
  echo "  ✅ Remote origin added".

(** Lines 85-88. *)
Definition push : sh unit :=
  echo "⬆️  Pushing to GitHub...";;
  simple git_branch;;
  simple git_push;;
  echo "  ✅ Code pushed to GitHub".

(** Lines 90-111. *)
Definition report : sh unit :=
  echo "";;
  echo "🌐 Enabling GitHub Pages...";;
  echo "  1. Go to https://github.com/apma4903/topic-evolution";;
  echo "  2. Click 'Settings' tab";;
  echo "  3. Scroll to 'Pages' section";;
  echo "  4. Under 'Source', select 'Deploy from a branch'";;
  echo "  5. Choose 'main' branch and '/ (root)' folder";;
  echo "  6. Click 'Save'";;
  echo "";;
  echo "🎉 Deployment Complete!";;
  echo "";;
  echo "📋 Your visualization will be available at:";;
  echo "  🔗 https://apma4903.github.io/topic-evolution";;
  echo "";;
  echo "⏰ Note: GitHub Pages may take 5-10 minutes to build and deploy.";;
  echo "";;
  echo "📊 Project Summary:";;
  echo "  • 248 academic topics analyzed (2013-2024)";;
  echo "  • 10 research categories identified";;
  echo "  • 100% classification success rate";;
  echo "  • Professional visualization with modern UI";;
  echo "  • Fully responsive and accessible design";;
  echo "".

(** Lines 115-116. *)
Definition cancelled : sh unit :=
  echo "❌ Deployment cancelled. Run this script again when ready to deploy.";;
  exit 1.

(** The whole script. *)
Definition deploy : sh unit :=
  banner;;
  check_git;;
  check_directory;;
  checklist;;
  initialize_repository;;
  add_files;;
  create_commit;;
  repository_setup;;
  reply ← ask;
  if confirmed reply then set_remote;; push;; report
  else cancelled.

(** ** Runs, the function and the weakest precondition *)

Section runs.
Context {A : Type}.
Implicit Types (t : sh A) (tr : list effect) (o : outcome A).

(** Every script has the run [exec] computes. *)
Lemma exec_runs t answers : runs t (exec t answers).1 (exec t answers).2.
Proof.
  revert answers. induction t as [| | |c k IH|prompt k IH]; intros answers;
    simpl; by constructor.
Qed.

(** A run is the one [exec] computes from the answers it was given. *)
Lemma runs_exec t tr o : runs t tr o → exec t (answers_of tr) = (tr, o).
Proof.
  induction 1 as [| |line k tr o _ IH|c k s tr o _ IH|prompt k s reply tr o _ IH];
    csimpl; by rewrite ?IH.
Qed.

(** A run is determined by its answers. *)
Lemma runs_answers t tr1 o1 tr2 o2 :
  runs t tr1 o1 → runs t tr2 o2 → answers_of tr1 = answers_of tr2 →
  tr1 = tr2 ∧ o1 = o2.
Proof.
  intros H1%runs_exec H2%runs_exec Heq. rewrite Heq, H2 in H1. by simplify_eq.
Qed.

Lemma wp_runs t Q : wp t Q ↔ ∀ tr o, runs t tr o → Q tr o.
Proof.
  split.
  - intros Hwp tr o Hrun. revert Q Hwp.
    induction Hrun as [| |line k tr o _ IH|c k s tr o _ IH|prompt k s reply tr o _ IH];
      simpl; intros Q Hwp; [done|done|..].
    + by apply (IH (λ tr, Q (Printed line :: tr))).
    + by apply (IH (λ tr, Q (Ran c s :: tr))).
    + by apply (IH (λ tr, Q (Asked prompt s reply :: tr))).
  - revert Q. induction t as [| | |c k IH|prompt k IH]; simpl; intros Q HQ;
      [apply HQ; constructor..| | |].
    + apply IHt. intros tr o ?. by apply HQ, runs_Echo.
    + intros s. apply IH. intros tr o ?. by apply HQ, runs_Run.
    + intros s reply. apply IH. intros tr o ?. by apply HQ, runs_Read.
Qed.

Lemma wp_mono t (Q Q' : list effect → outcome A → Prop) :
  (∀ tr o, Q tr o → Q' tr o) → wp t Q → wp t Q'.
Proof. rewrite !wp_runs. eauto. Qed.

End runs.

(** The runs of [t ≫= k]: a run of [t] that exits, or a run of [t] that
    returns followed by a run of [k]. *)
Lemma runs_bind {A B} (t : sh A) (k : A → sh B) tr o :
  runs (t ≫= k) tr o ↔
    (∃ code, runs t tr (Exited code) ∧ o = Exited code) ∨
    (∃ tr1 a tr2, runs t tr1 (Returned a) ∧ runs (k a) tr2 o ∧ tr = tr1 ++ tr2).
Proof.
  unfold mbind, sh_mbind. split.
  - revert tr. induction t as [a|code|line t IH|c t IH|prompt t IH]; simpl; intros tr.
    + intros Hrun. right. exists [], a, tr. split_and!; [constructor|done..].
    + inversion 1; subst. left. exists code. split; [constructor|done].
    + inversion 1 as [| |? ? tr' ? Hrun| |]; subst.
      destruct (IH _ Hrun) as [(code & ? & ->)|(tr1 & a & tr2 & ? & ? & ->)].
      * left. exists code. split; [by constructor|done].
      * right. exists (Printed line :: tr1), a, tr2. split_and!; [by constructor|done..].
    + inversion 1 as [| | |? ? s tr' ? Hrun|]; subst.
      destruct (IH _ _ Hrun) as [(code & ? & ->)|(tr1 & a & tr2 & ? & ? & ->)].
      * left. exists code. split; [by constructor|done].
      * right. exists (Ran c s :: tr1), a, tr2. split_and!; [by constructor|done..].
    + inversion 1 as [| | | |? ? s reply tr' ? Hrun]; subst.
      destruct (IH _ _ _ Hrun) as [(code & ? & ->)|(tr1 & a & tr2 & ? & ? & ->)].
      * left. exists code. split; [by constructor|done].
      * right. exists (Asked prompt s reply :: tr1), a, tr2.
        split_and!; [by constructor|done..].
  - intros [(code & Hrun & ->)|(tr1 & a & tr2 & Hrun & Hk & ->)].
    + remember (Exited code) as o eqn:Ho.
      induction Hrun; simplify_eq; simpl; constructor; auto.
    + remember (Returned a) as o' eqn:Ho.
      induction Hrun; simplify_eq; simpl; [done|constructor; auto..].
Qed.

(** ** The constructs, as runs *)

Section constructs.
Context {A : Type}.
Implicit Types (k : sh A) (tr : list effect) (o : outcome A) (c : command).

Lemma runs_echo line k tr o :
  runs (echo line;; k) tr o ↔ ∃ tr', tr = Printed line :: tr' ∧ runs k tr' o.
Proof.
  split.
  - inversion 1; subst. by eexists.
  - intros (tr' & -> & ?). by constructor.
Qed.

(** [set -e]: a simple command that fails is the last thing the script
    does, and the shell exits with its status. *)
Lemma runs_simple c k tr o :
  runs (simple c;; k) tr o ↔
    (∃ s, s ≠ 0 ∧ tr = [Ran c s] ∧ o = Exited s) ∨
    (∃ tr', tr = Ran c 0 :: tr' ∧ runs k tr' o).
Proof.
  split.
  - inversion 1 as [| | |? ? [|s] tr' ? Hrun|]; subst; simpl in Hrun.
    + right. by eexists.
    + left. inversion Hrun; subst. by exists (S s).
  - intros [([|s] & ? & -> & ->)|(tr' & -> & ?)]; [done|..];
      by repeat constructor.
Qed.

(** [c || alt]: the status of [c] does not stop the script; [alt] runs
    when [c] fails. *)
Lemma runs_or_else c alt k tr o :
  runs (or_else c alt;; k) tr o ↔
    (∃ tr', tr = Ran c 0 :: tr' ∧ runs k tr' o) ∨
    (∃ s tr', s ≠ 0 ∧ tr = Ran c s :: tr' ∧ runs (alt;; k) tr' o).
Proof.
  split.
  - inversion 1 as [| | |? ? [|s] tr' ? Hrun|]; subst; simpl in Hrun.
    + left. by eexists.
    + right. by exists (S s), tr'.
  - intros [(tr' & -> & ?)|([|s] & tr' & ? & -> & ?)]; [|done|];
      by constructor.
Qed.

End constructs.

(** ** What a run shows *)

(** The commands of a run, in order. *)
Definition commands (tr : list effect) : list command :=
  omap (λ ev, if ev is Ran c _ then Some c else None) tr.

(** The commands that change the remote of the repository or write to
    GitHub. *)
Definition publishes (c : command) : bool :=
  match words c with
  | "git" :: "remote" :: _ | "git" :: "push" :: _ => true
  | _ => false
  end.

(** No command that publishes runs before [read] succeeded with a reply
    that confirms; [seen] is whether it has. *)
Fixpoint guarded (seen : bool) (tr : list effect) : bool :=
  match tr with
  | [] => true
  | Printed _ :: tr => guarded seen tr
  | Ran c _ :: tr => (seen || negb (publishes c)) && guarded seen tr
  | Asked _ s reply :: tr =>
      guarded (seen || (bool_decide (s = 0) && confirmed reply)) tr
  end.

(** The lines with which the script announces that it stops. *)
Definition error_lines : list string :=
  ["❌ Error: Git is not installed. Please install Git first.";
   "❌ Error: index.html not found. Are you in the correct directory?";
   "❌ Deployment cancelled. Run this script again when ready to deploy."].

(** The commands of the script that [set -e] applies to. *)
Definition simple_commands : list command :=
  [git_init; git_add; git_remote_add; git_branch; git_push].

(** Why the shell exited with [code], from the last event of the run:
    the script printed one of its errors and exited with 1, or a simple
    command or [read] failed with that status. *)
Definition explains (code : status) (last : option effect) : Prop :=
  match last with
  | Some (Printed line) => code = 1 ∧ line ∈ error_lines
  | Some (Ran c s) => s = code ∧ c ∈ simple_commands
  | Some (Asked _ s _) => s = code
  | None => False
  end.

#[export] Instance explains_dec code last : Decision (explains code last).
Proof. destruct last as [[]|]; simpl; apply _. Defined.

(** ** The steps of the deployment notes

    "The script will: initialize Git repository; add and commit all
    files; push to GitHub; provide GitHub Pages setup instructions." *)

Inductive task :=
| InitializeRepository
| AddAndCommit
| PushToGitHub
| PagesInstructions.

#[export] Instance task_eq_dec : EqDecision task.
Proof. solve_decision. Defined.

Definition documented_tasks : list task :=
  [InitializeRepository; AddAndCommit; PushToGitHub; PagesInstructions].

(** The addresses of the deployment notes: the repository of step 1 and
    the site of step 4. *)
Definition documented_repository : string :=
  "https://github.com/apma4903/topic-evolution".

Definition documented_site : string :=
  "https://apma4903.github.io/topic-evolution".

(** The steps of "Enable GitHub Pages" in the notes (lines 20-26): the
    number of a step and what it names, the address of the repository
    or the labels of the interface. *)
Definition documented_setup : list (string * list string) :=
  [("1", [documented_repository]); ("2", ["Settings"]); ("3", ["Pages"]);
   ("4", ["Source"; "Deploy from a branch"]); ("5", ["main"; "/ (root)"]);
   ("6", ["Save"])].

(** A printed line that is the step [n] of a list. *)
Definition numbered (n : string) (line : string) : bool :=
  String.prefix ("  " +:+ n +:+ ". ") line.

(** A printed line that is a step of a list: two spaces, a character,
    a full stop and a space. *)
Definition is_step (line : string) : bool :=
  String.eqb (String.substring 0 2 line) "  " &&
  String.eqb (String.substring 3 2 line) ". ".

Definition mentions (line label : string) : bool :=
  if String.index 0 label line is Some _ then true else false.

(** The numbered steps a run printed, in order. *)
Definition steps_printed (tr : list effect) : list string :=
  omap (λ ev, match ev with
              | Printed line =>
                  if is_step line then Some line else None
              | _ => None
              end) tr.

(** The line is the step: it has its number and names what it names. *)
Definition follows (line : string) (step : string * list string) : Prop :=
  numbered step.1 line = true ∧ Forall (λ l, mentions line l = true) step.2.

#[export] Instance follows_dec line step : Decision (follows line step).
Proof. unfold follows. apply _. Defined.

(** The event with which a task is done: the repository is there, the
    commit is made, the push went through, the instructions begin. *)
Definition task_done (ev : effect) : option task :=
  match ev with
  | Ran c s =>
      if bool_decide (c = git_init ∧ s = 0) then Some InitializeRepository
      else if bool_decide (c = no_repository ∧ s ≠ 0) then Some InitializeRepository
      else if bool_decide (c = git_commit ∧ s = 0) then Some AddAndCommit
      else if bool_decide (c = git_push ∧ s = 0) then Some PushToGitHub
      else None
  | Printed line =>
      if bool_decide (line = "🌐 Enabling GitHub Pages...") then Some PagesInstructions
      else None
  | Asked _ _ _ => None
  end.

Definition tasks_done (tr : list effect) : list task := omap task_done tr.

(** ** The checkers *)

Lemma confirmed_inv reply : confirmed reply = true → reply = "y" ∨ reply = "Y".
Proof. apply bool_decide_eq_true_1. Qed.

(** What [guarded] checks. *)
Lemma guarded_spec seen tr pre c s post :
  guarded seen tr = true → tr = pre ++ Ran c s :: post → publishes c = true →
  seen = true ∨
  ∃ prompt reply, Asked prompt 0 reply ∈ pre ∧ confirmed reply = true.
Proof.
  revert seen pre. induction tr as [|ev tr IH]; intros seen pre Hg Htr Hc.
  { by destruct pre. }
  destruct pre as [|ev' pre]; simplify_eq/=.
  { rewrite Hc in Hg. left. by destruct seen. }
  assert (∀ seen', guarded seen' (pre ++ Ran c s :: post) = true →
    seen' = true ∨ ∃ prompt reply,
      Asked prompt 0 reply ∈ ev' :: pre ∧ confirmed reply = true) as Hrec.
  { intros seen' Hg'. destruct (IH seen' pre Hg' eq_refl Hc) as [?|(p & r & ? & ?)];
      [by left|right]. exists p, r. split; [by right|done]. }
  destruct ev' as [line|c' s'|prompt s' reply]; simpl in Hg.
  - by apply Hrec.
  - apply andb_prop in Hg as [_ Hg]. by apply Hrec.
  - destruct (Hrec _ Hg) as [Hseen|?]; [|by right].
    apply orb_prop in Hseen as [?|[->%bool_decide_eq_true_1 ?]%andb_prop];
      [by left|right].
    exists prompt, reply. split; [by left|done].
Qed.

(** ** Every run of the script, by cases

    [wp] on [deploy] computes: the statuses and the reply are the only
    unknowns, and the script distinguishes zero from the other statuses
    and a confirmation from the other replies. *)

Ltac sh_unfold :=
  cbv [wp mbind sh_mbind sh_bind mret sh_ret echo exit simple status_of or_else
       read true_ deploy banner check_git check_directory checklist
       initialize_repository add_files create_commit repository_setup ask
       set_remote push report cancelled].

Ltac sh_cases :=
  sh_unfold;
  repeat first
    [ progress sh_unfold
    | match goal with
      | |- ∀ s : status, _ => intros [|?]
      | |- ∀ reply : string, _ => intros ?
      | |- context [confirmed ?r] =>
          let H := fresh in
          destruct (confirmed r) eqn:H;
          [apply confirmed_inv in H as [-> | ->]|]
      end ].

(** A property of every run of [deploy], from its cases. *)
Ltac all_runs := refine (proj1 (wp_runs deploy _) _); sh_cases.

(** [l1] is a sublist of [l2], both given. *)
Ltac solve_sublist :=
  repeat first [apply sublist_nil_l | apply sublist_skip | apply sublist_cons].

(** [guarded] holds of every run. *)
Lemma deploy_guarded tr o : runs deploy tr o → guarded false tr = true.
Proof. revert tr o. all_runs; by_computation. Qed.

(** The function and the relation agree.  The runs of a script are
    the ones [exec] computes: a run is the result of [exec] on the
    answers it was given. *)
Theorem exec_spec {A} (t : sh A) tr o :
  runs t tr o ↔ exec t (answers_of tr) = (tr, o).
Proof.
  split; [apply runs_exec|]. intros Hexec.
  pose proof (exec_runs t (answers_of tr)) as Hrun. by rewrite Hexec in Hrun.
Qed.

(** C14: the exit status.  In every run the script ends with status 0
    exactly when [git push] ran and succeeded, and exactly then it
    prints that the deployment is complete. *)
Theorem deploy_succeeds_iff tr o :
  runs deploy tr o →
  (o = Returned tt ↔ Ran git_push 0 ∈ tr) ∧
  (o = Returned tt ↔ Printed "🎉 Deployment Complete!" ∈ tr).
Proof.
  revert tr o. all_runs; split; (split; [intros Ho|intros Hin]);
    first [reflexivity | discriminate Ho | by_decision
          | exfalso; revert Hin; by_decision].
Qed.

(** C15: nothing is published without a confirmation.  In every run, a
    command that changes the remote or pushes comes after a [read] that
    succeeded with the reply [y] or [Y]. *)
Theorem deploy_confirmed tr o pre c s post :
  runs deploy tr o → tr = pre ++ Ran c s :: post → publishes c = true →
  ∃ prompt reply, Asked prompt 0 reply ∈ pre ∧ (reply = "y" ∨ reply = "Y").
Proof.
  intros Hg%deploy_guarded Htr Hc.
  destruct (guarded_spec _ _ _ _ _ _ Hg Htr Hc) as [?|(prompt & reply & ? & ?)];
    [done|]. exists prompt, reply. split; [done|by apply confirmed_inv].
Qed.

(** C30: the error paths.  When the shell exits before the end of the
    script its status is not 0, and the last event of the run says why:
    the script printed one of its three error lines and exited with 1,
    or [git init], [git add], [git remote add], [git branch], [git push]
    or [read] failed and [set -e] made the shell exit with its
    status. *)
Theorem deploy_failure tr code :
  runs deploy tr (Exited code) → code ≠ 0 ∧ explains code (last tr).
Proof.
  intros Hrun.
  enough (∀ tr o, runs deploy tr o →
    if o is Exited code then code ≠ 0 ∧ explains code (last tr) else True)
    as Hall by apply (Hall tr (Exited code) Hrun).
  all_runs; first [exact I | cbv [explains last]; repeat split; first [done | by_decision]].
Qed.

(** The commands of a successful run, in order: the three checks,
    [git init] when there was no repository, then add, commit, the
    remote, the branch and the push, and nothing else. *)
Theorem deploy_commands tr :
  runs deploy tr (Returned tt) →
  commands tr
  = [has_git; no_index; no_repository] ++
    (if bool_decide (Ran no_repository 0 ∈ tr) then [git_init] else []) ++
    [git_add; git_commit; git_remote_remove; git_remote_add; git_branch; git_push].
Proof.
  intros Hrun.
  enough (∀ tr o, runs deploy tr o → o = Returned tt →
    commands tr
    = [has_git; no_index; no_repository] ++
      (if bool_decide (Ran no_repository 0 ∈ tr) then [git_init] else []) ++
      [git_add; git_commit; git_remote_remove; git_remote_add; git_branch; git_push])
    as Hall by apply (Hall tr _ Hrun eq_refl).
  all_runs; intros Ho; first [discriminate Ho | by_computation].
Qed.

(** The script does what the deployment notes say.  The tasks a
    run completes are tasks of the notes, in the order of the notes and
    each at most once; a run that ends with status 0 and in which the
    commit was made completes all four; a run that ends with status 0
    has set the remote to the repository of the notes, printed the
    address of the site of the notes, and printed the six steps that
    enable GitHub Pages, each with the number and the labels the notes
    give it. *)
Theorem deploy_documented tr o :
  runs deploy tr o →
  tasks_done tr `sublist_of` documented_tasks ∧
  (o = Returned tt → Ran git_commit 0 ∈ tr → tasks_done tr = documented_tasks) ∧
  (o = Returned tt →
     Ran (git ["remote"; "add"; "origin"; documented_repository +:+ ".git"]) 0 ∈ tr ∧
     Printed ("  🔗 " +:+ documented_site) ∈ tr) ∧
  (o = Returned tt → Forall2 follows (steps_printed tr) documented_setup).
Proof.
  revert tr o. all_runs; (split; [vm_compute; solve_sublist|split; [|split]]).
  all: first [ intros Ho; discriminate Ho
             | intros _; split; by_decision
             | intros _; by_decision
             | intros _ _; by_computation
             | intros _ Hin; exfalso; revert Hin; by_decision ].
Qed.

(** C39: a failed commit is reported as "no changes" and pushed over.
    Whatever status [git commit] fails with, there is a run in which
    the script prints that there are no changes to commit, pushes, and
    ends with status 0 without the commit having been made. *)
Theorem commit_failure_ignored s :
  ∃ tr, runs deploy tr (Returned tt) ∧
    Ran git_commit (S s) ∈ tr ∧
    Printed "  ✅ No changes to commit" ∈ tr ∧
    Ran git_push 0 ∈ tr ∧
    AddAndCommit ∉ tasks_done tr.
Proof.
  pose (answers := [(0, ""); (1, ""); (1, ""); (0, ""); (S s, ""); (0, "y")]).
  exists (exec deploy answers).1. split_and!.
  - apply (exec_runs deploy answers).
  - apply list_elem_of_lookup. by exists 19.
  - by_decision.
  - by_decision.
  - by_decision.
Qed.

(** The confirmation guards the push only: when the script is
    cancelled the files were staged and the commit was attempted. *)
Lemma cancelled_after_commit tr o :
  runs deploy tr o →
  Printed "❌ Deployment cancelled. Run this script again when ready to deploy." ∈ tr →
  o = Exited 1 ∧ Ran git_add 0 ∈ tr ∧ git_commit ∈ commands tr.
Proof.
  revert tr o. all_runs; intros Hin;
    first [exfalso; revert Hin; by_decision | split_and!; [reflexivity|by_decision..]].
Qed.

(** ** Two runs *)

(** [git] and [index.html] are there, there is no repository yet, every
    command succeeds except [git remote remove], since there is no
    remote yet, and the reply is [Y]. *)
Definition first_deployment : list answer :=
  [(0, ""); (1, ""); (0, ""); (0, ""); (0, ""); (0, ""); (0, "Y");
   (2, ""); (0, ""); (0, ""); (0, "")].

Definition first_run : list effect := (exec deploy first_deployment).1.

(** The repository exists and [git add] fails with status 128. *)
Definition failed_add : list answer := [(0, ""); (1, ""); (1, ""); (128, "")].

Definition failed_run : list effect := (exec deploy failed_add).1.

Lemma first_run_runs : runs deploy first_run (Returned tt).
Proof. apply (exec_runs deploy first_deployment). Qed.

Lemma failed_run_runs : runs deploy failed_run (Exited 128).
Proof. apply (exec_runs deploy failed_add). Qed.

Lemma deploy_succeeds_iff_witness :
  (Returned tt = Returned tt ↔ Ran git_push 0 ∈ first_run) ∧
  (Returned tt = Returned tt ↔ Printed "🎉 Deployment Complete!" ∈ first_run).
Proof. apply (deploy_succeeds_iff first_run (Returned tt)), first_run_runs. Defined.

Lemma deploy_confirmed_witness :
  ∃ prompt reply,
    Asked prompt 0 reply ∈ take 33 first_run ∧ (reply = "y" ∨ reply = "Y").
Proof.
  apply (deploy_confirmed first_run (Returned tt) (take 33 first_run)
           git_push 0 (drop 34 first_run));
    [apply first_run_runs|by vm_compute|done].
Defined.

Lemma deploy_failure_witness : 128 ≠ 0 ∧ explains 128 (last failed_run).
Proof. apply (deploy_failure failed_run 128), failed_run_runs. Defined.

Lemma deploy_commands_witness :
  commands first_run
  = [has_git; no_index; no_repository] ++
    (if bool_decide (Ran no_repository 0 ∈ first_run) then [git_init] else []) ++
    [git_add; git_commit; git_remote_remove; git_remote_add; git_branch; git_push].
Proof. apply (deploy_commands first_run), first_run_runs. Defined.

Lemma deploy_documented_witness :
  tasks_done first_run `sublist_of` documented_tasks ∧
  (Returned tt = Returned tt → Ran git_commit 0 ∈ first_run →
   tasks_done first_run = documented_tasks) ∧
  (Returned tt = Returned tt →
     Ran (git ["remote"; "add"; "origin"; documented_repository +:+ ".git"]) 0
       ∈ first_run ∧
     Printed ("  🔗 " +:+ documented_site) ∈ first_run) ∧
  (Returned tt = Returned tt →
     Forall2 follows (steps_printed first_run) documented_setup).
Proof. apply (deploy_documented first_run (Returned tt)), first_run_runs. Defined.
