(* ===== verification/Datafile.v ===== *)
(** * The data file

    The page draws what data.json holds.  [to_value] writes a dataset
    as the value [response.json()] gives for that file: an object with
    the members [years] and [categories], and [markers] when the dataset
    has them.  The loader of [Loader] accepts it and [decode] reads it
    back ([to_value_round_trip]), so that what the builders are proved
    to do on a [Dataset] is what the page does on the file
    ([initializeApp_served]).

    The deployment notes (unnamed/part_002, "Update Data") promise that
    the file can be edited "to add new years or modify categories" and
    that the data "automatically validates and updates visualization".
    [edit] and [update] are those edits: a year more, a category more
    or less, other counts or another name for a category.
    [update_data] is the promise for the edits that keep the shape of
    the dataset, [append_year_rejected] says what the page answers to
    one that does not, and [count_at_renamed] that a category loses its
    counts under its old name, the name a callout may look for. *)

From Stdlib Require Import ZArith List Lia String.
From stdpp Require Import base tactics option strings numbers list.
From S2P Require Import Prelude StableSort LocalSort JsValue Loader Traces Annotations Raw App.

#[local] Open Scope string_scope.
#[local] Open Scope list_scope.
#[local] Open Scope Z_scope.

(** ** The dataset as the value of data.json *)

(** A series as a member of [categories]: its counts as an array of
    numbers. *)
Definition series_value (c : string * list Z) : string * value :=
  (c.1, VArray (VNumber <$> c.2)).

(** The value [response.json()] gives for the dataset: an object with
    the members [years] and [categories], and [markers] when the dataset
    has them. *)
Definition to_value (ds : Dataset) : value :=
  VObject ([("years", VArray (years ds));
            ("categories", VObject (series_value <$> categories ds))]
           ++ match markers ds with
              | VUndefined => []
              | ms => [("markers", ms)]
              end).

(** The server answers with the file. *)
Definition served (ds : Dataset) : completion response :=
  Normal (mkResponse true 200 "OK" (Normal (to_value ds))).

(** ** The edits of the deployment notes *)

(** "Edit data.json to add new years or modify categories". *)
Inductive edit :=
  (** one more year, with its count in every category, in their order *)
| AddYear (yr : Z) (col : list Z)
  (** one more category, with its counts *)
| AddCategory (c : string) (counts : list Z)
  (** other counts for a category *)
| SetCounts (c : string) (counts : list Z)
  (** a category less *)
| RemoveCategory (c : string)
  (** another name for a category *)
| RenameCategory (c c' : string).

(** A series with one more count. *)
Definition extend (c : string * list Z) (z : Z) : string * list Z :=
  (c.1, c.2 ++ [z]).

(** The name [k] of a category when [c] is called [n]. *)
Definition renamed (c n k : string) : string := if decide (k = c) then n else k.

(** The category [c] called [n], with [f] of its counts. *)
Definition on_category (c n : string) (f : list Z → list Z)
    (cs : list (string * list Z)) : list (string * list Z) :=
  (λ m, if decide (m.1 = c) then (n, f m.2) else m) <$> cs.

(** The categories after an edit; an added year leaves them to
    [extend]. *)
Definition edited (cs : list (string * list Z)) (e : edit)
  : list (string * list Z) :=
  match e with
  | AddYear _ col => zip_with extend cs col
  | AddCategory c zs => cs ++ [(c, zs)]
  | SetCounts c zs => on_category c c (λ _, zs) cs
  | RemoveCategory c => filter (λ m, m.1 ≠ c) cs
  | RenameCategory c c' => on_category c c' id cs
  end.

Definition update (ds : Dataset) (e : edit) : Dataset :=
  mkDataset
    (match e with AddYear yr _ => years ds ++ [VNumber yr] | _ => years ds end)
    (edited (categories ds) e) (markers ds).

(** The edit keeps the shape: a count for every category, a count for
    every year, a name that is new and not an array index. *)
Definition valid (ds : Dataset) (e : edit) : Prop :=
  match e with
  | AddYear _ col => length col = length (categories ds)
  | AddCategory c zs =>
      (c ∉ (categories ds).*1) ∧ array_index c = None ∧
      length zs = length (years ds)
  | SetCounts _ zs => length zs = length (years ds)
  | RemoveCategory _ => True
  | RenameCategory _ c' => (c' ∉ (categories ds).*1) ∧ array_index c' = None
  end.

#[export] Instance valid_dec ds e : Decision (valid ds e).
Proof. destruct e; simpl; apply _. Defined.

(** The years are numbers. *)
Definition years_numeric (ds : Dataset) : Prop := ∃ zs, years ds = VNumber <$> zs.

(** A year added to [years] alone. *)
Definition append_year (ds : Dataset) (yr : Z) : Dataset :=
  mkDataset (years ds ++ [VNumber yr]) (categories ds) (markers ds).

(** No category has the name of an array index, which an object lists
    before its other members. *)
Definition plain (ds : Dataset) : Prop :=
  Forall (λ c : string * list Z, ¬ index_key c) (categories ds).

#[export] Instance plain_dec ds : Decision (plain ds).
Proof. unfold plain. apply _. Defined.

(** ** Reading the value of data.json back *)

Section encoding.
Context `{Host}.
Implicit Types (ds : Dataset) (cs : list (string * list Z)).

Lemma as_numbers_numbers zs : as_numbers (VArray (VNumber <$> zs)) = Some zs.
Proof. by apply mapM_fmap_Some. Qed.

Lemma mapM_series_value cs : mapM as_series (series_value <$> cs) = Some cs.
Proof.
  apply mapM_fmap_Some. intros [c zs]. unfold as_series, series_value.
  cbn [fst snd]. by rewrite as_numbers_numbers.
Qed.

Lemma series_value_keys cs : (series_value <$> cs).*1 = cs.*1.
Proof. by rewrite <- list_fmap_compose. Qed.

Lemma entries_series_values ds :
  NoDup (categories ds).*1 → plain ds →
  entries (VObject (series_value <$> categories ds))
  = Normal (series_value <$> categories ds).
Proof.
  intros Hnd Hplain. apply entries_object_plain.
  - by rewrite series_value_keys.
  - by apply Forall_fmap.
Qed.

Lemma get_to_value ds :
  get (to_value ds) "years" = Normal (VArray (years ds)) ∧
  get (to_value ds) "categories"
  = Normal (VObject (series_value <$> categories ds)) ∧
  get (to_value ds) "markers" = Normal (markers ds).
Proof.
  unfold to_value.
  destruct (markers ds); split_and!;
    try (by rewrite get_object, own_properties_distinct by by_decision);
    apply get_object_absent; [apply reserved_markers|];
    by rewrite own_properties_distinct by by_decision.
Qed.

(** On the value of a dataset the validation is the loop over the
    series. *)
Lemma validate_to_value_loop ds :
  NoDup (categories ds).*1 → plain ds →
  validate (to_value ds)
  = check_categories (length (years ds)) (series_value <$> categories ds).
Proof.
  intros Hnd Hplain. destruct (get_to_value ds) as (Hy & Hc & _).
  unfold validate.
  by rewrite Hy, bind_normal, Hc, bind_normal, (entries_series_values ds Hnd Hplain).
Qed.

Lemma validate_to_value ds : wf ds → plain ds → validate (to_value ds) = Normal tt.
Proof.
  intros [Hnd Hlen] Hplain. rewrite (validate_to_value_loop ds Hnd Hplain).
  apply check_categories_ok, Forall_fmap. eapply Forall_impl; [apply Hlen|].
  intros [c zs] Hc'. exists (VNumber <$> zs). by rewrite length_fmap.
Qed.

Lemma decode_to_value ds : wf ds → plain ds → decode (to_value ds) = Some ds.
Proof.
  intros [Hnd _] Hplain. destruct (get_to_value ds) as (Hy & Hc & Hm).
  unfold decode.
  rewrite Hy, Hc, Hm, bind_normal, (entries_series_values ds Hnd Hplain).
  rewrite mapM_series_value. by destruct ds.
Qed.

Lemma loadTopicData_try_served ds :
  wf ds → plain ds → loadTopicData_try (served ds) = Normal (to_value ds).
Proof.
  intros Hwf Hplain. unfold loadTopicData_try, served. simpl.
  by rewrite (validate_to_value ds Hwf Hplain).
Qed.

(** C26: a dataset written as the value of data.json and served with
    status 200 passes the validation of the loader, which returns it,
    and it is read back as it was: the builders work on the dataset of
    the file. *)
Theorem to_value_round_trip ds :
  wf ds → plain ds →
  loadTopicData_try (served ds) = Normal (to_value ds) ∧
  decode (to_value ds) = Some ds ∧
  shape (to_value ds) = Some (untyped ds).
Proof.
  intros Hwf Hplain. split_and!.
  - by apply loadTopicData_try_served.
  - by apply decode_to_value.
  - by apply shape_decode, decode_to_value.
Qed.

(** The validation refuses an edit that adds a year and not its
    counts.  With a year more in [years] and the series as they were,
    the load ends in the error that names the first category of the
    file: "Data inconsistency in category: ...". *)
Theorem append_year_rejected ds yr c zs rest :
  wf ds → plain ds → categories ds = (c, zs) :: rest →
  loadTopicData_try (served (append_year ds yr)) = Throw (inconsistency c).
Proof.
  intros [Hnd Hlen] Hplain Hcs. unfold loadTopicData_try, served. simpl.
  rewrite (validate_to_value_loop (append_year ds yr)) by done. simpl.
  rewrite Hcs in *. apply Forall_cons in Hlen as [Hzs _]. simpl in Hzs.
  change (series_value <$> (c, zs) :: rest)
    with ([] ++ (c, VArray (VNumber <$> zs)) :: (series_value <$> rest)).
  rewrite check_categories_offender; [done..|].
  unfold inconsistent. simpl.
  rewrite length_fmap, length_app, Hzs. simpl.
  by rewrite (proj2 (Nat.eqb_neq _ _)) by lia.
Qed.

End encoding.

(** ** Edits keep the shape *)

Lemma numbers_printable (zs : list Z) : Forall printable (VNumber <$> zs).
Proof. apply Forall_fmap, Forall_true. by intros z. Qed.

Lemma extend_all n (cs : list (string * list Z)) (col : list Z) :
  length col = length cs → Forall (λ c, length c.2 = n) cs →
  (zip_with extend cs col).*1 = cs.*1 ∧
  Forall (λ c, length c.2 = S n) (zip_with extend cs col).
Proof.
  revert col. induction cs as [|c cs IH]; intros [|z col]; try done.
  intros [= Hlen] [Hc Hcs]%Forall_cons. destruct (IH col Hlen Hcs) as [Hkeys ?].
  split; [csimpl; by rewrite Hkeys|].
  constructor; [|done]. simpl. rewrite length_app. simpl. lia.
Qed.

Lemma plain_names ds :
  plain ds ↔ Forall (λ c, array_index c = None) (categories ds).*1.
Proof.
  unfold plain. rewrite Forall_fmap. apply Forall_iff. intros c. simpl.
  unfold index_key. by rewrite <- eq_None_not_Some.
Qed.

(** *** Names after an edit of one category *)

Lemma on_category_keys c n f (cs : list (string * list Z)) :
  (on_category c n f cs).*1 = renamed c n <$> cs.*1.
Proof.
  unfold on_category. rewrite <- !list_fmap_compose. apply list_fmap_ext.
  intros _ m _. simpl. unfold renamed. by case_decide.
Qed.

Lemma renamed_same c (ks : list string) : renamed c c <$> ks = ks.
Proof.
  rewrite <- (list_fmap_id ks) at 2. apply list_fmap_ext.
  intros _ k _. unfold renamed. by case_decide.
Qed.

Lemma elem_of_renamed c n (ks : list string) x :
  x ∈ renamed c n <$> ks ↔ (x = n ∧ c ∈ ks) ∨ (x ≠ c ∧ x ∈ ks).
Proof.
  rewrite list_elem_of_fmap. unfold renamed. split.
  - intros (k & -> & Hk). case_decide; subst; [by left|by right].
  - intros [[-> Hc]|[Hx Hk]]; [exists c|exists x]; (split; [|done]); by case_decide.
Qed.

Lemma renamed_NoDup c n (ks : list string) :
  NoDup ks → n ∉ ks → NoDup (renamed c n <$> ks).
Proof.
  intros Hnd Hn. apply NoDup_fmap_2_strong; [|done].
  intros x y Hx Hy. unfold renamed. repeat case_decide; congruence.
Qed.

Lemma on_category_lengths N c n f (cs : list (string * list Z)) :
  (∀ zs, length zs = N → length (f zs) = N) →
  Forall (λ m, length m.2 = N) cs →
  Forall (λ m, length m.2 = N) (on_category c n f cs).
Proof.
  intros Hf Hcs. apply Forall_fmap. eapply Forall_impl; [apply Hcs|].
  intros m Hm. simpl. case_decide; [by apply Hf|done].
Qed.

(** *** The shape after an edit *)

(** The names are distinct, the series as long as [N], and no name is
    an array index. *)
Definition shaped (N : nat) (cs : list (string * list Z)) : Prop :=
  NoDup cs.*1 ∧ Forall (λ c, length c.2 = N) cs ∧
  Forall (λ k, array_index k = None) cs.*1.

Lemma shaped_wf ds :
  shaped (length (years ds)) (categories ds) ↔ wf ds ∧ plain ds.
Proof. unfold shaped, wf. rewrite plain_names. tauto. Qed.

Lemma add_year_shaped N cs col :
  length col = length cs → shaped N cs → shaped (S N) (zip_with extend cs col).
Proof.
  intros Hcol (Hnd & Hlen & Hplain).
  destruct (extend_all N cs col Hcol Hlen) as [Hkeys Hlen'].
  unfold shaped. by rewrite Hkeys.
Qed.

Lemma add_category_shaped N cs c zs :
  c ∉ cs.*1 → array_index c = None → length zs = N →
  shaped N cs → shaped N (cs ++ [(c, zs)]).
Proof.
  intros Hc Hi Hzs (Hnd & Hlen & Hplain). unfold shaped.
  rewrite fmap_app, !Forall_app, NoDup_app. simpl. split_and!; try done.
  - intros q Hq ->%list_elem_of_singleton. done.
  - apply NoDup_singleton.
  - by constructor.
  - by constructor.
Qed.

Lemma on_category_shaped N cs c n f :
  (∀ zs, length zs = N → length (f zs) = N) →
  n = c ∨ (n ∉ cs.*1) ∧ array_index n = None →
  shaped N cs → shaped N (on_category c n f cs).
Proof.
  intros Hf Hn (Hnd & Hlen & Hplain). unfold shaped.
  rewrite on_category_keys. split_and!; [..|by apply on_category_lengths|].
  - destruct Hn as [->|[Hn _]]; [by rewrite renamed_same|by apply renamed_NoDup].
  - destruct Hn as [->|[_ Hn]]; [by rewrite renamed_same|].
    apply Forall_fmap. eapply Forall_impl; [apply Hplain|].
    intros k Hk. simpl. unfold renamed. by case_decide.
Qed.

Lemma remove_category_keys c (cs : list (string * list Z)) :
  (filter (λ m : string * list Z, m.1 ≠ c) cs).*1 = filter (λ k, k ≠ c) cs.*1.
Proof.
  induction cs as [|m cs IH]; [done|]. csimpl. rewrite !filter_cons.
  repeat case_decide; csimpl; (done || by rewrite IH).
Qed.

Lemma remove_category_shaped N cs c :
  shaped N cs → shaped N (filter (λ m, m.1 ≠ c) cs).
Proof.
  intros (Hnd & Hlen & Hplain). unfold shaped.
  rewrite remove_category_keys.
  split_and!; [by apply NoDup_filter|by apply Forall_filter_keep..].
Qed.

(** A valid edit of a dataset the page accepts gives a dataset the page
    accepts. *)
Lemma update_shape ds e :
  wf ds → plain ds → years_numeric ds → valid ds e →
  wf (update ds e) ∧ plain (update ds e) ∧ years_numeric (update ds e).
Proof.
  intros Hwf Hplain [ys Hys] He.
  assert (shaped (length (years ds)) (categories ds)) as Hcs by by apply shaped_wf.
  cut (shaped (length (years (update ds e))) (categories (update ds e))
       ∧ years_numeric (update ds e)); [by intros [[? ?]%shaped_wf ?]|].
  destruct e as [yr col|c zs|c zs|c|c c']; simpl in *.
  - split; [|exists (ys ++ [yr]); simpl; by rewrite Hys, fmap_app].
    rewrite length_app, Nat.add_1_r. by apply add_year_shaped.
  - destruct He as (? & ? & ?). split; [by apply add_category_shaped|by exists ys].
  - split; [apply on_category_shaped; auto|by exists ys].
  - split; [by apply remove_category_shaped|by exists ys].
  - split; [apply on_category_shaped; auto|by exists ys].
Qed.

(** A category the dataset does not have has no count. *)
Lemma count_at_absent ds c yr : c ∉ (categories ds).*1 → count_at ds c yr = None.
Proof.
  intros Hc. destruct (count_at ds c yr) as [z|] eqn:Hz; [|done].
  by apply count_at_category in Hz.
Qed.

(** The old name of a renamed category has no count any more. *)
Lemma count_at_renamed ds c c' yr :
  c' ≠ c → count_at (update ds (RenameCategory c c')) c yr = None.
Proof.
  intros Hc. apply count_at_absent. simpl.
  rewrite on_category_keys, elem_of_renamed. by intros [[? _]|[? _]].
Qed.

(** ** The page on the file *)

Section page.
Context `{Host} `{Arith}.
Context (sort : ∀ A, (A → A → Z) → list A → list A) `{!LocalSorter sort}.

(** The page on the file of a dataset: the load succeeds and the chart
    is drawn with the arguments the builders give for the dataset. *)
Lemma initializeApp_served ds h p :
  wf ds → plain ds → Forall printable (years ds) →
  ∃ p' ts lay,
    initializeApp sort (served ds) (Normal h) p = Some p' ∧
    createChartTraces sort ds = Normal ts ∧
    createChartLayout ds = Normal lay ∧
    chart_element (world p') = (λ _, ChartPanel) <$> chart_element (world p) ∧
    plots p' = plots p ++ [raw_of_arguments (ts, lay)].
Proof.
  intros Hwf Hplain Hys.
  destruct (chart_arguments_printable sort ds Hys) as (ts & lay & Hts & Hlay & Hargs).
  eexists _, ts, lay.
  rewrite (initializeApp_loaded sort _ _ _ (to_value ds) (untyped ds))
    by (by apply loadTopicData_try_served || by apply shape_decode, decode_to_value).
  unfold renderChart. rewrite chart_arguments_raw_untyped, Hargs by done.
  split_and!; try done. cbn. by destruct (chart_element (world p)).
Qed.

(** C27: "Edit data.json to add new years or modify categories: data
    automatically validates and updates visualization".  After an edit
    that keeps the shape of a dataset, the page loads the file and
    draws it: one trace per category of the edited dataset and its
    years on the axis. *)
Theorem update_data ds e h p :
  wf ds → plain ds → years_numeric ds → valid ds e →
  ∃ p' ts lay,
    initializeApp sort (served (update ds e)) (Normal h) p = Some p' ∧
    createChartTraces sort (update ds e) = Normal ts ∧
    createChartLayout (update ds e) = Normal lay ∧
    length ts = length (categories (update ds e)) ∧
    tickvals lay = years (update ds e) ∧
    chart_element (world p') = (λ _, ChartPanel) <$> chart_element (world p) ∧
    plots p' = plots p ++ [raw_of_arguments (ts, lay)].
Proof.
  intros Hwf Hplain Hys He.
  destruct (update_shape ds e Hwf Hplain Hys He) as (Hwf' & Hplain' & [zs Hys']).
  destruct (initializeApp_served (update ds e) h p)
    as (p' & ts & lay & Hp & Hts & Hlay & ? & ?); [done..| |].
  { rewrite Hys'. apply numbers_printable. }
  exists p', ts, lay. split_and!; try done.
  - by apply (createChartTraces_length sort).
  - destruct (createChartLayout_numeric _ zs Hys') as (lay' & Hlay' & ? & _).
    congruence.
Qed.

End page.

(** ** Instances of the theorems *)

(** The dataset of the scenario of the documentation is written as its
    value. *)
Lemma to_value_scenario : to_value scenario_dataset = scenario.
Proof. reflexivity. Qed.

Lemma to_value_round_trip_witness :
  loadTopicData_try (served scenario_dataset) = Normal (to_value scenario_dataset) ∧
  decode (to_value scenario_dataset) = Some scenario_dataset ∧
  shape (to_value scenario_dataset) = Some (untyped scenario_dataset).
Proof. apply (to_value_round_trip scenario_dataset); by_decision. Defined.

(** A third year, 2018, with four topics on AI and one on Finance. *)
Lemma update_data_witness :
  ∃ p' ts lay,
    initializeApp (@insertion_sort)
      (served (update scenario_dataset (AddYear 2018 [4; 1])))
      (Normal GraphDiv) demo_start = Some p' ∧
    createChartTraces (@insertion_sort) (update scenario_dataset (AddYear 2018 [4; 1]))
    = Normal ts ∧
    createChartLayout (update scenario_dataset (AddYear 2018 [4; 1])) = Normal lay ∧
    length ts = length (categories (update scenario_dataset (AddYear 2018 [4; 1]))) ∧
    tickvals lay = years (update scenario_dataset (AddYear 2018 [4; 1])) ∧
    chart_element (world p') = (λ _, ChartPanel) <$> chart_element (world demo_start) ∧
    plots p' = plots demo_start ++ [raw_of_arguments (ts, lay)].
Proof.
  apply (update_data (@insertion_sort) scenario_dataset (AddYear 2018 [4; 1])
           GraphDiv demo_start);
    [by_decision|by_decision|by exists [2016; 2017]|by_decision].
Defined.

Lemma append_year_rejected_witness :
  loadTopicData_try (served (append_year scenario_dataset 2018))
  = Throw (inconsistency "AI").
Proof.
  apply (append_year_rejected scenario_dataset 2018 "AI" [2; 5] [("Finance", [3; 3])]);
    [by_decision|by_decision|reflexivity].
Defined.
