(* ===== verification/Readme.v ===== *)
(** * The documentation, read against the code

    The two versions of the README (unnamed/part_000 and
    unnamed/part_001) and the deployment notes (unnamed/part_002) state
    facts of the dataset the page draws: how many topics it counts and
    over which years, the ten categories, the totals of two of them,
    the years in which a category peaks or a subject emerges.  This
    file transcribes those statements as data ([figure], [Readme]) and
    gives them their meaning on a [Dataset] ([holds], [Conforms]).

    Each version describes a dataset ([sample_conforms],
    [sample_v1_conforms]), and no dataset is described by both
    ([versions_disagree]).  On every dataset a version describes the
    theorems say what the code of app.js does: which callouts appear
    ([documented_annotations]), how many traces are drawn, in which
    colours and in which order ([conforms_traces]), and what the page
    shows when the server answers with that dataset
    ([documented_page]); the callout depends on the name of the category
    in the file ([renamed_loses_callout]).  [printed_figures] compares the numbers the
    code states, in the loading panel, the title of the chart and the
    output of deploy.sh, with those of the README. *)

From Stdlib Require Import ZArith List Lia Ascii String.
From stdpp Require Import base tactics option strings numbers pretty list.
From S2P Require Import Prelude StableSort LocalSort JsValue Loader Traces Annotations Raw App Render Deploy Datafile.

#[local] Open Scope string_scope.
#[local] Open Scope list_scope.
#[local] Open Scope Z_scope.

(** ** The statements of the README *)

(** A statement about the counts of the dataset. *)
Inductive figure :=
  (** "(48 total topics)": the counts of the category add up to [n] *)
| Total (c : string) (n : Z)
  (** "48 topics total (25% of all research)": moreover [n] is that
      share of all the topics, in percent *)
| OfAll (c : string) (n share : Z)
  (** "7 topics (30% of year)": [n] is that share of the topics of the
      year *)
| OfYear (yr n share : Z)
  (** "5 topics addressing ...", "emergence of LLMs in 2024": the
      category has at least [n] topics in the year *)
| AtLeast (c : string) (yr n : Z)
  (** "(2023 peak)": the category has no more topics in any other year *)
| Peak (c : string) (yr : Z).

#[export] Instance figure_eq_dec : EqDecision figure.
Proof. solve_decision. Defined.

(** The overview, the same in both versions. *)
Definition overview : list figure :=
  [Total "Machine Learning & AI" 48;
   Total "Finance & Economics" 31;
   Peak "Social & Urban Studies" 2019;
   Peak "Climate & Weather" 2023].

(** The key findings, the same in both versions. *)
Definition key_findings : list figure :=
  [OfAll "Machine Learning & AI" 48 25;
   AtLeast "Machine Learning & AI" 2024 1;
   Peak "Machine Learning & AI" 2018;
   OfAll "Finance & Economics" 31 16;
   AtLeast "Finance & Economics" 2017 1;
   OfYear 2019 7 30;
   AtLeast "Health & Medicine" 2020 1;
   AtLeast "Climate & Weather" 2023 5].

(** The same two sections of the first version. *)
Definition overview_v1 : list figure :=
  [Total "Machine Learning & AI" 48;
   Total "Finance & Economics" 31;
   Peak "Social & Urban Studies" 2019;
   Peak "Climate & Weather" 2023].

Definition key_findings_v1 : list figure :=
  [OfAll "Machine Learning & AI" 48 25;
   AtLeast "Machine Learning & AI" 2024 1;
   Peak "Machine Learning & AI" 2018;
   OfAll "Finance & Economics" 31 16;
   AtLeast "Finance & Economics" 2017 1;
   OfYear 2019 7 30;
   AtLeast "Health & Medicine" 2020 1;
   AtLeast "Climate & Weather" 2023 5].

(** The data insights of the deployment notes: the two totals, and the
    subjects that emerge. *)
Definition data_insights : list figure :=
  [Total "Machine Learning & AI" 48;
   AtLeast "Machine Learning & AI" 2024 1;
   Total "Finance & Economics" 31;
   AtLeast "Finance & Economics" 2017 1].

(** "189 academic project topics from a graduate course spanning
    2013-2024": the topics, the first and the last year. *)
Definition data_source : Z * (Z * Z) := (189, (2013, 2024)).

(** "... spanning 2016-2024" in the first version. *)
Definition data_source_v1 : Z * (Z * Z) := (189, (2016, 2024)).

(** "189 academic project topics across 12 years (2013-2024)": the
    topics, the number of years, the first and the last year. *)
Definition summary : Z * Z * (Z * Z) := (189, 12, (2013, 2024)).

(** The classification: the share of the topics that has a category,
    in percent, and whether a topic has one category only. *)
Record method := mkMethod {
  classified : Z;
  single_category : bool
}.

#[export] Instance method_eq_dec : EqDecision method.
Proof. solve_decision. Defined.

(** "Topics assigned to category with highest cumulative keyword
    score", "No 'other' category used; 100% classification
    achieved". *)
Definition classification : method := mkMethod 100 true.

(** "Maximum-overlap keyword matching", "100% classification rate with
    no uncategorized topics": the first version. *)
Definition classification_v1 : method := mkMethod 100 true.

(** "... across 10 comprehensive categories". *)
Definition categories_stated : nat := 10.

(** The category definitions: the name and the subjects of each. *)
Definition category_definitions : list (string * list string) :=
  [("Machine Learning & AI",
    ["Neural networks"; "deep learning"; "reinforcement learning";
     "computer vision"; "NLP"; "transformers"; "LLMs";
     "recommendation systems"; "clustering"; "classification"]);
   ("Finance & Economics",
    ["Portfolio optimization"; "options pricing"; "trading algorithms";
     "market analysis"; "cryptocurrency"; "blockchain";
     "economic modeling"; "behavioral finance"]);
   ("Mathematics & Theory",
    ["PDEs"; "differential equations"; "numerical methods";
     "probability theory"; "Markov processes"; "game theory";
     "optimization theory"; "spectral methods"; "mathematical modeling"]);
   ("Social & Urban Studies",
    ["Census analysis"; "demographic modeling"; "urban planning";
     "transportation"; "social network analysis"; "policy modeling";
     "migration studies"]);
   ("Sports & Gaming",
    ["Sports analytics"; "game theory applications"; "ranking systems";
     "strategy optimization"; "esports"; "recreational mathematics"]);
   ("Climate & Weather",
    ["Climate modeling"; "weather prediction"; "environmental systems";
     "carbon modeling"; "sustainability"; "climate migration";
     "extreme weather"]);
   ("Health & Medicine",
    ["Medical diagnosis"; "epidemiological modeling"; "drug development";
     "biomedical applications"; "public health"; "pandemic modeling"]);
   ("Physics & Quantum",
    ["Quantum computing"; "physical systems modeling";
     "statistical mechanics"; "fluid dynamics"; "quantum algorithms";
     "particle physics"]);
   ("Technology & Computer Science",
    ["Algorithms"; "data structures"; "cryptography"; "software systems";
     "database design"; "network analysis"; "cybersecurity"]);
   ("Creative Applications",
    ["Music generation"; "artistic applications";
     "entertainment technology"; "creative AI"; "multimedia systems"])].

(** The notable classification decisions: the topic and the category it
    was given, as the README writes it. *)
Definition notable_decisions : list (string * string) :=
  [("Deep nets and PDE", "Machine Learning/AI");
   ("Using finite elements to model ice flow", "Climate/Weather");
   ("Image Processing using PDE based models", "Machine Learning/AI")].

(** The files of the repository, as the README and the deployment notes
    list them. *)
Definition file_structure : list string :=
  ["index.html"; "styles.css"; "app.js"; "data.json"; "README.md"].

Definition file_structure_v1 : list string :=
  ["index.html"; "styles.css"; "app.js"; "data.json"; "README.md"].

Definition deployed_files : list string :=
  ["index.html"; "styles.css"; "app.js"; "data.json"; "README.md"; "deploy.sh"].

(** What a version of the README says of the dataset. *)
Record Readme := mkReadme {
  topics : Z;
  first_year : Z;
  last_year : Z;
  how : method;
  names : list string;
  figures : list figure
}.

#[export] Instance Readme_eq_dec : EqDecision Readme.
Proof. solve_decision. Defined.

Definition readme_v1 : Readme :=
  mkReadme data_source_v1.1 data_source_v1.2.1 data_source_v1.2.2
    classification_v1 readme_categories (overview_v1 ++ key_findings_v1).

Definition readme_v2 : Readme :=
  mkReadme data_source.1 data_source.2.1 data_source.2.2
    classification category_definitions.*1 (overview ++ key_findings).

(** The years the README spans. *)
Definition span (r : Readme) : list Z :=
  seqZ (first_year r) (last_year r - first_year r + 1).

(** The versions of the README. *)
Definition published : list Readme := [readme_v1; readme_v2].

(** The texts in which a page states the figures of a version. *)
Definition topics_text (r : Readme) : string := pretty (topics r) +:+ " topics".

Definition years_text (r : Readme) : string :=
  pretty (Z.of_nat (length (span r))) +:+ " years".

Definition span_text (r : Readme) : string :=
  "(" +:+ pretty (first_year r) +:+ "-" +:+ pretty (last_year r) +:+ ")".

(** The short form of a category name: " & " written as "/". *)
Fixpoint slashed (s : string) : string :=
  match s with
  | String " "%char (String "&"%char (String " "%char rest)) =>
      String "/"%char (slashed rest)
  | String c rest => String c (slashed rest)
  | EmptyString => EmptyString
  end.

(** ** The meaning of the statements on a dataset *)

(** [n] of [d], in percent, to the nearest whole number. *)
Definition percent (n d : Z) : Z := (200 * n + d) / (2 * d).

(** The topics of a category, over the years. *)
Definition total_of (ds : Dataset) (c : string) : option Z :=
  total <$> assoc c (categories ds).

(** The topics of the dataset. *)
Definition grand_total (ds : Dataset) : Z :=
  total ((λ c, total c.2) <$> categories ds).

(** The topics of a year, over the categories; none when the year is
    not on the axis. *)
Definition column (ds : Dataset) (yr : Z) : Z :=
  match list_find (λ v, v = VNumber yr) (years ds) with
  | Some (i, _) => total (omap (λ c : string * list Z, c.2 !! i) (categories ds))
  | None => 0
  end.

(** The topics the dataset counts, against the topics there are: with
    one category per topic every classified topic is counted once, and
    otherwise at least once. *)
Definition counted (m : method) (all total : Z) : Prop :=
  if single_category m then 100 * total = classified m * all
  else classified m * all ≤ 100 * total.

#[export] Instance counted_dec m all total : Decision (counted m all total).
Proof. unfold counted. destruct (single_category m); apply _. Defined.

(** [P] holds of the count of the category in the year, which exists. *)
Definition count_is (ds : Dataset) (c : string) (yr : Z) (P : Z → Prop) : Prop :=
  from_option P False (count_at ds c yr).

Definition holds (ds : Dataset) (all : Z) (f : figure) : Prop :=
  match f with
  | Total c n => total_of ds c = Some n
  | OfAll c n share => total_of ds c = Some n ∧ percent n all = share
  | OfYear yr n share => percent n (column ds yr) = share
  | AtLeast c yr n => count_is ds c yr (λ z, n ≤ z)
  | Peak c yr =>
      count_is ds c yr (λ z,
        Forall (λ v, v ≤ z) (default [] (assoc c (categories ds))))
  end.

(** The dataset is one the README describes: it has the shape the page
    accepts, its years are those of the span, its categories those the
    README names, in any order, no count is negative, every topic is
    counted once, and the figures hold. *)
Record Conforms (r : Readme) (ds : Dataset) : Prop := {
  conforms_wf : wf ds;
  conforms_years : years ds = VNumber <$> span r;
  conforms_names : (categories ds).*1 ≡ₚ names r;
  conforms_counts : Forall (λ c, Forall (λ z, 0 ≤ z) c.2) (categories ds);
  conforms_topics : counted (how r) (topics r) (grand_total ds);
  conforms_figures : Forall (holds ds (topics r)) (figures r)
}.

#[export] Instance count_is_dec ds c yr P `{∀ z, Decision (P z)} :
  Decision (count_is ds c yr P).
Proof. unfold count_is. destruct (count_at ds c yr); simpl; apply _. Defined.

#[export] Instance holds_dec ds all f : Decision (holds ds all f).
Proof. destruct f; simpl; apply _. Defined.

#[export] Instance wf_dec ds : Decision (wf ds).
Proof. unfold wf. apply _. Defined.

(** [Conforms] as a conjunction, which can be decided. *)
Definition conforms (r : Readme) (ds : Dataset) : Prop :=
  wf ds ∧ years ds = VNumber <$> span r ∧ (categories ds).*1 ≡ₚ names r ∧
  Forall (λ c, Forall (λ z, 0 ≤ z) c.2) (categories ds) ∧
  counted (how r) (topics r) (grand_total ds) ∧
  Forall (holds ds (topics r)) (figures r).

(** ** The addresses of the README *)

(** "git clone https://github.com/apma4903/topic-evolution.git" and "The
    visualization is automatically deployed at", in both versions. *)
Definition clone_url : string := "https://github.com/apma4903/topic-evolution.git".
Definition pages_url : string := "https://apma4903.github.io/topic-evolution".
Definition clone_url_v1 : string := "https://github.com/apma4903/topic-evolution.git".
Definition pages_url_v1 : string := "https://apma4903.github.io/topic-evolution".

(** "Data source: Academic course project topics (2013-2024)", and
    "(2016-2024)" in the first version. *)
Definition acknowledged : Z * Z := (2013, 2024).
Definition acknowledged_v1 : Z * Z := (2016, 2024).

(** ** The figures the code states *)

(** The header comment of app.js: "the evolution of academic topics
    over 9 years". *)
Definition header_years : nat := 9.

(** The highlights of the commit message of deploy.sh: a category, in
    short, and its topics. *)
Definition highlights : list (string * Z) :=
  [("Machine Learning/AI", 48); ("Finance/Economics", 31);
   ("Social/Urban", 19); ("Climate/Weather", 16)].

(** The figure a highlight states: the total of the category of the
    README whose short form starts with the name. *)
Definition highlighted (h : string * Z) : option figure :=
  (λ c, Total c.2 h.2)
    <$> list_find (λ c, String.prefix h.1 (slashed c) = true) readme_categories.

(** The triggers of the callouts, had the code looked for the census
    and for the pandemic under the categories on which the README
    reports them. *)
Definition readme_triggers : list trigger :=
  [mkTrigger "Machine Learning & AI" 2024 "LLMs<br>Emerge" "#FF6B6B";
   mkTrigger "Social & Urban Studies" 2019 "Census<br>Focus" "#ed8936";
   mkTrigger "Health & Medicine" 2020 "COVID-19<br>Impact" "#48bb78"].

(** A member of an object given to Plotly. *)
Definition member (k : string) (v : plot_value) : option plot_value :=
  match v with PObject ms => assoc k ms | _ => None end.

(** [layout.title.text]. *)
Definition title_of (l : plot_value) : option plot_value :=
  member "title" l ≫= member "text".

(** The lines a run printed. *)
Definition printed (tr : list effect) : list string :=
  omap (λ ev, match ev with Printed line => Some line | _ => None end) tr.

(** ** Two datasets the README describes *)

(** Twelve years of counts with the figures of the second version, and
    with the totals of the commit message of deploy.sh. *)
Definition sample : Dataset :=
  mkDataset (VNumber <$> seqZ 2013 12)
    [("Machine Learning & AI",         [1; 2; 3; 4; 5; 7; 4; 4; 4; 5; 4; 5]);
     ("Finance & Economics",           [2; 2; 2; 3; 4; 3; 3; 2; 2; 3; 2; 3]);
     ("Mathematics & Theory",          [1; 2; 2; 2; 2; 1; 2; 2; 2; 2; 2; 2]);
     ("Social & Urban Studies",        [2; 1; 1; 1; 1; 1; 7; 1; 1; 1; 1; 1]);
     ("Sports & Gaming",               [1; 1; 1; 1; 1; 1; 1; 1; 1; 1; 1; 1]);
     ("Climate & Weather",             [1; 0; 1; 1; 1; 1; 1; 1; 1; 2; 5; 1]);
     ("Health & Medicine",             [0; 1; 1; 1; 1; 1; 1; 3; 2; 1; 1; 1]);
     ("Physics & Quantum",             [1; 1; 1; 1; 1; 1; 1; 1; 1; 1; 1; 1]);
     ("Technology & Computer Science", [1; 1; 1; 1; 1; 1; 2; 1; 1; 1; 1; 1]);
     ("Creative Applications",         [0; 0; 0; 0; 0; 0; 1; 0; 0; 0; 0; 1])]
    VUndefined.

(** Nine years of counts with the figures of the first version. *)
Definition sample_v1 : Dataset :=
  mkDataset (VNumber <$> seqZ 2016 9)
    [("Machine Learning & AI",         [4; 5; 8; 5; 5; 5; 5; 5; 6]);
     ("Finance & Economics",           [3; 4; 3; 3; 3; 4; 4; 3; 4]);
     ("Mathematics & Theory",          [2; 2; 2; 2; 2; 2; 2; 3; 3]);
     ("Social & Urban Studies",        [2; 2; 2; 7; 2; 1; 1; 1; 1]);
     ("Sports & Gaming",               [1; 1; 1; 1; 1; 1; 1; 1; 1]);
     ("Climate & Weather",             [2; 2; 1; 1; 1; 1; 2; 5; 1]);
     ("Health & Medicine",             [1; 1; 1; 1; 3; 2; 1; 1; 1]);
     ("Physics & Quantum",             [1; 1; 1; 1; 1; 1; 1; 1; 1]);
     ("Technology & Computer Science", [2; 2; 2; 2; 2; 2; 2; 2; 2]);
     ("Creative Applications",         [1; 1; 1; 0; 1; 1; 1; 1; 0])]
    VUndefined.

(** ** The README is consistent *)

Lemma conforms_Conforms r ds : conforms r ds ↔ Conforms r ds.
Proof.
  split; [intros (?&?&?&?&?&?); by constructor|].
  intros []. unfold conforms. by split_and!.
Qed.

#[export] Instance Conforms_dec r ds : Decision (Conforms r ds).
Proof.
  refine (cast_if (decide (conforms r ds))); by rewrite <- conforms_Conforms.
Defined.

(** The two versions state the same figures, and the deployment notes
    repeat some of them. *)
Lemma versions_agree :
  overview_v1 = overview ∧ key_findings_v1 = key_findings ∧
  classification_v1 = classification ∧
  readme_categories = category_definitions.*1 ∧
  data_insights ⊆ overview ++ key_findings ∧
  acknowledged = data_source.2 ∧ acknowledged_v1 = data_source_v1.2 ∧
  summary = (data_source.1, Z.of_nat (length (span readme_v2)), data_source.2) ∧
  clone_url_v1 = clone_url ∧ pages_url_v1 = pages_url ∧
  file_structure_v1 = file_structure ∧
  length readme_categories = categories_stated ∧
  length category_definitions = categories_stated.
Proof. split_and!; try done. by_decision. Qed.

(** Each version describes a dataset. *)
Lemma sample_conforms : Conforms readme_v2 sample.
Proof. by_decision. Qed.

Lemma sample_v1_conforms : Conforms readme_v1 sample_v1.
Proof. by_decision. Qed.

Lemma published_inv r :
  r ∈ published →
  topics r = 189 ∧ how r = classification ∧
  names r = readme_categories ∧ figures r = overview ++ key_findings.
Proof. intros Hr. unfold published in Hr. by elem_of_cases Hr. Qed.

(** ** Percentages *)

Lemma percent_spec n d p :
  0 < d → percent n d = p ↔ (2 * p - 1) * d ≤ 200 * n < (2 * p + 1) * d.
Proof.
  intros Hd. unfold percent. split.
  - intros <-. pose proof (Z.div_mod (200 * n + d) (2 * d)).
    pose proof (Z.mod_pos_bound (200 * n + d) (2 * d)). nia.
  - intros Hp. symmetry.
    apply (Z.div_unique _ _ _ (200 * n + d - 2 * d * p)); [left|]; nia.
Qed.

Lemma percent_zero n : percent n 0 = 0.
Proof. unfold percent. apply Z.div_0_r. Qed.

(** ** The measures *)

Lemma total_nonneg zs : Forall (λ z, 0 ≤ z) zs → 0 ≤ total zs.
Proof.
  induction 1 as [|z zs Hz _ IH]; [done|]. rewrite total_cons. lia.
Qed.

Lemma column_nonneg ds yr :
  Forall (λ c, Forall (λ z, 0 ≤ z) c.2) (categories ds) → 0 ≤ column ds yr.
Proof.
  intros Hall. unfold column. destruct (list_find _ _) as [[i _]|]; [|done].
  apply total_nonneg, Forall_forall. intros z (c & Hc & Hz)%list_elem_of_omap.
  apply (proj1 (Forall_forall _ _) Hall) in Hc.
  apply list_elem_of_lookup_2 in Hz. by apply (proj1 (Forall_forall _ _) Hc).
Qed.

(** ** What a dataset of the README holds *)

Section conforming.
Context (r : Readme) (ds : Dataset) (Hds : Conforms r ds).

Lemma conforms_holds f : f ∈ figures r → holds ds (topics r) f.
Proof. apply Forall_forall, Hds. Qed.

Lemma conforms_at_least c yr n :
  AtLeast c yr n ∈ figures r → ∃ z, count_at ds c yr = Some z ∧ n ≤ z.
Proof.
  intros Hf%conforms_holds. simpl in Hf. unfold count_is in Hf.
  destruct (count_at ds c yr) as [z|]; [by exists z|done].
Qed.

Lemma conforms_total c n :
  Total c n ∈ figures r ∨ (∃ p, OfAll c n p ∈ figures r) →
  total_of ds c = Some n.
Proof. by intros [Hf%conforms_holds|[p [? _]%conforms_holds]]. Qed.

(** A category the README does not name has no count. *)
Lemma conforms_absent c yr : c ∉ names r → count_at ds c yr = None.
Proof.
  intros Hc. apply count_at_absent. by rewrite (conforms_names _ _ Hds).
Qed.

Lemma conforms_length : length (categories ds) = length (names r).
Proof. by rewrite <- (conforms_names _ _ Hds), length_fmap. Qed.

(** The share of a year fixes the topics of the year between two
    bounds. *)
Lemma conforms_of_year yr n p :
  OfYear yr n p ∈ figures r → 0 < p →
  (2 * p - 1) * column ds yr ≤ 200 * n < (2 * p + 1) * column ds yr.
Proof.
  intros Hf%conforms_holds Hp. simpl in Hf.
  pose proof (column_nonneg ds yr (conforms_counts _ _ Hds)) as Hcol.
  apply percent_spec; [|done].
  destruct (decide (column ds yr = 0)) as [Hz|]; [|lia].
  rewrite Hz, percent_zero in Hf. lia.
Qed.

End conforming.

(** ** The annotations of a dataset of the README *)

(** The callout of a trigger whose category the README does not name
    never appears. *)
Lemma annotation_of_absent r ds t :
  Conforms r ds → category t ∉ names r → annotation_of ds t = None.
Proof.
  intros Hds Hc. unfold annotation_of.
  by rewrite (conforms_absent r ds Hds _ _ Hc).
Qed.

(** With the count of Machine Learning & AI in 2024 positive and the
    categories of the other two triggers missing, the only callout is
    the first. *)
Lemma conforms_annotations r ds :
  Conforms r ds →
  AtLeast "Machine Learning & AI" 2024 1 ∈ figures r →
  "Social Sciences & Demographics" ∉ names r →
  "Pandemic & Public Health" ∉ names r →
  ∃ z, count_at ds "Machine Learning & AI" 2024 = Some z ∧ 1 ≤ z ∧
    createDynamicAnnotations ds
    = [mkAnnotation 2024 z "LLMs<br>Emerge" "#FF6B6B" "#FF6B6B"].
Proof.
  intros Hds (z & Hz & Hpos)%(conforms_at_least r ds Hds) Hcensus Hcovid.
  exists z. split_and!; [done..|].
  rewrite createDynamicAnnotations_omap. unfold spec_annotations, triggers.
  simpl.
  rewrite (annotation_of_absent r ds (mkTrigger "Social Sciences & Demographics" _ _ _)),
    (annotation_of_absent r ds (mkTrigger "Pandemic & Public Health" _ _ _))
    by done.
  unfold annotation_of. simpl. rewrite Hz. simpl.
  by rewrite (proj2 (Z.ltb_lt 0 z)) by lia.
Qed.

(** Under the names of the README the callout of the pandemic would be
    shown on every dataset the README describes, with the count of
    Health & Medicine in 2020, and the callout of the census as soon as
    Social & Urban Studies has a topic in 2019, its peak. *)
Lemma callouts_with_readme_names r ds :
  Conforms r ds →
  AtLeast "Health & Medicine" 2020 1 ∈ figures r →
  Peak "Social & Urban Studies" 2019 ∈ figures r →
  (∃ z, 1 ≤ z ∧
     mkAnnotation 2020 z "COVID-19<br>Impact" "#48bb78" "#48bb78"
     ∈ omap (annotation_of ds) readme_triggers) ∧
  ∃ z, count_at ds "Social & Urban Studies" 2019 = Some z ∧
    (0 < z →
     mkAnnotation 2019 z "Census<br>Focus" "#ed8936" "#ed8936"
     ∈ omap (annotation_of ds) readme_triggers).
Proof.
  intros Hds (z & Hz & Hpos)%(conforms_at_least r ds Hds) Hpeak%(conforms_holds r ds Hds).
  simpl in Hpeak. unfold count_is in Hpeak.
  destruct (count_at ds "Social & Urban Studies" 2019) as [z'|] eqn:Hz'; [|done].
  split; [exists z; split; [done|]|exists z'; split; [done|intros Hpos']];
    apply list_elem_of_omap.
  - exists (mkTrigger "Health & Medicine" 2020 "COVID-19<br>Impact" "#48bb78").
    split; [by_decision|]. apply annotation_of_Some. exists z. split_and!; (done || lia).
  - exists (mkTrigger "Social & Urban Studies" 2019 "Census<br>Focus" "#ed8936").
    split; [by_decision|]. apply annotation_of_Some. by exists z'.
Qed.

(** Decides a fact of the names or of the figures of a version of the
    README. *)
Ltac published_fact H :=
  destruct (published_inv _ H) as (?Htopics & ?Hhow & ?Hnames & ?Hfigures);
  rewrite ?Htopics, ?Hhow, ?Hnames, ?Hfigures; by_decision.

(** On every dataset either version of the README describes, the
    page shows exactly one callout, "LLMs Emerge", at 2024 and at the
    height of the count of Machine Learning & AI in that year.  The
    callouts of the census and of the pandemic never appear, although
    the README reports both events: the code looks for them under
    category names the README does not list. *)
Theorem documented_annotations r ds :
  r ∈ published → Conforms r ds →
  ∃ z, count_at ds "Machine Learning & AI" 2024 = Some z ∧ 1 ≤ z ∧
    createDynamicAnnotations ds
    = [mkAnnotation 2024 z "LLMs<br>Emerge" "#FF6B6B" "#FF6B6B"].
Proof.
  intros Hr Hds. apply (conforms_annotations r ds Hds); published_fact Hr.
Qed.

Lemma documented_annotations_witness :
  ∃ z, count_at sample "Machine Learning & AI" 2024 = Some z ∧ 1 ≤ z ∧
    createDynamicAnnotations sample
    = [mkAnnotation 2024 z "LLMs<br>Emerge" "#FF6B6B" "#FF6B6B"].
Proof.
  apply (documented_annotations readme_v2 sample); by_decision.
Defined.

(** The README's "2019 Census Spike: 7 topics (30% of year)" fixes
    the number of topics of 2019: a dataset either version describes
    counts 23 topics in that year. *)
Theorem census_year r ds :
  r ∈ published → Conforms r ds → column ds 2019 = 23.
Proof.
  intros (_ & _ & _ & Hfigures)%published_inv Hds.
  pose proof (conforms_of_year r ds Hds 2019 7 30) as Hcol.
  rewrite Hfigures in Hcol. lapply Hcol; [lia|by_decision].
Qed.

Lemma census_year_witness : column sample_v1 2019 = 23.
Proof. apply (census_year readme_v1 sample_v1); by_decision. Defined.

(** The names of the categories are what ties the data to the
    callouts.  When Machine Learning & AI is given another name in
    data.json, the page accepts the file and draws it as before, and
    the one callout the data of the README had is gone. *)
Theorem renamed_loses_callout r ds c' :
  r ∈ published → Conforms r ds →
  valid ds (RenameCategory "Machine Learning & AI" c') →
  c' ∉ category <$> triggers →
  wf (update ds (RenameCategory "Machine Learning & AI" c')) ∧
  plain (update ds (RenameCategory "Machine Learning & AI" c')) ∧
  createDynamicAnnotations (update ds (RenameCategory "Machine Learning & AI" c')) = [].
Proof.
  intros Hr Hds Hvalid Hc'.
  destruct (update_shape ds (RenameCategory "Machine Learning & AI" c'))
    as (Hwf & Hplain & _); [apply Hds| |by eexists; apply Hds|done|].
  { apply plain_names. rewrite (conforms_names r ds Hds). published_fact Hr. }
  split_and!; [done..|].
  assert (∀ c, c ∈ category <$> triggers → c ≠ "Machine Learning & AI" →
    c ∉ (categories (update ds (RenameCategory "Machine Learning & AI" c'))).*1)
    as Habsent.
  { intros c Hc Hml. simpl. rewrite on_category_keys, elem_of_renamed.
    intros [[-> _]|[_ Hin]]; [done|]. rewrite (conforms_names r ds Hds) in Hin.
    unfold triggers in Hc. simpl in Hc. elem_of_cases Hc; try done;
      revert Hin; published_fact Hr. }
  rewrite createDynamicAnnotations_omap. unfold spec_annotations, triggers.
  simpl. unfold annotation_of. simpl.
  rewrite count_at_renamed by (intros ->; apply Hc'; by_decision).
  by rewrite !count_at_absent by (apply Habsent; by_decision).
Qed.

Lemma renamed_loses_callout_witness :
  wf (update sample (RenameCategory "Machine Learning & AI" "AI")) ∧
  plain (update sample (RenameCategory "Machine Learning & AI" "AI")) ∧
  createDynamicAnnotations (update sample (RenameCategory "Machine Learning & AI" "AI"))
  = [].
Proof. apply (renamed_loses_callout readme_v2 sample "AI"); by_decision. Defined.

(** ** The traces of a dataset of the README *)

Section traces.
Context `{Host}.
Context (sort : ∀ A, (A → A → Z) → list A → list A) `{!Sorter sort}.

Lemma trace_names ds ts :
  createChartTraces sort ds = Normal ts → name <$> ts ≡ₚ (categories ds).*1.
Proof.
  intros Hts. rewrite <- (sorted_categories_perm sort ds).
  by rewrite <- (createChartTraces_series sort ds ts Hts), <- list_fmap_compose.
Qed.

(** The trace of a category carries its counts. *)
Lemma trace_total ds ts t n :
  wf ds → createChartTraces sort ds = Normal ts → t ∈ ts →
  total_of ds (name t) = Some n → total (y t) = n.
Proof.
  intros [Hnodup _] Hts Ht. unfold total_of.
  assert ((name t, y t) ∈ categories ds) as Hin.
  { rewrite <- (sorted_categories_perm sort ds).
    rewrite <- (createChartTraces_series sort ds ts Hts).
    apply list_elem_of_fmap. by exists t. }
  rewrite (assoc_elem_of _ _ _ Hnodup Hin). by intros [= <-].
Qed.

(** On every dataset either version of the README describes,
    [createChartTraces] draws ten traces, one per category of the
    README, in ten different colours, and the trace of Machine Learning
    & AI (48 topics) comes before that of Finance & Economics (31). *)
Lemma conforms_traces r ds :
  r ∈ published → Conforms r ds →
  ∃ ts, createChartTraces sort ds = Normal ts ∧
    length ts = 10%nat ∧ name <$> ts ≡ₚ readme_categories ∧
    NoDup (line_color <$> ts) ∧
    ∀ i j t u, ts !! i = Some t → ts !! j = Some u →
      name t = "Machine Learning & AI" → name u = "Finance & Economics" →
      (i < j)%nat.
Proof.
  intros (_ & _ & Hnames & Hfigures)%published_inv Hds.
  destruct (push_traces_total ds 0 (categoryTotals sort ds)) as [ts Hts].
  change (createChartTraces sort ds = Normal ts) in Hts.
  pose proof (conforms_length r ds Hds) as Hlen. rewrite Hnames in Hlen.
  exists ts. split_and!; [done| | | |].
  - by rewrite (createChartTraces_length sort ds ts Hts), Hlen.
  - by rewrite (trace_names ds ts Hts), (conforms_names r ds Hds), Hnames.
  - apply (createChartTraces_colors_distinct sort ds ts Hts).
    rewrite Hlen. by_decision.
  - intros i j t u Ht Hu Hnt Hnu.
    apply (createChartTraces_larger_first sort ds ts i j t u Hts Ht Hu).
    rewrite (trace_total ds ts t 48), (trace_total ds ts u 31);
      [lia|try apply Hds; try done; try (by eapply list_elem_of_lookup_2)..];
      rewrite ?Hnt, ?Hnu; apply (conforms_total r ds Hds); left;
      rewrite Hfigures; by_decision.
Qed.

End traces.

(** ** The page on a dataset of the README *)

Lemma conforms_plain r ds :
  Conforms r ds → Forall (λ c, array_index c = None) (names r) → plain ds.
Proof.
  intros Hds Hnames. apply plain_names. by rewrite (conforms_names r ds Hds).
Qed.

Lemma conforms_layout `{Host} r ds :
  Conforms r ds →
  createChartLayout ds
  = Normal (mkLayout (years ds) (pretty <$> span r) (createDynamicAnnotations ds)).
Proof.
  intros Hds.
  destruct (createChartLayout_numeric ds (span r) (conforms_years r ds Hds))
    as ([tv tt an] & -> & ? & ? & ? & _).
  simpl in *. by subst.
Qed.

Section page.
Context `{Host} `{Arith}.
Context (sort : ∀ A, (A → A → Z) → list A → list A) `{!LocalSorter sort}.

(** C25: the page on the data of the README.  When the server answers
    with a dataset either version of the README describes,
    [initializeApp] ends with the chart in place of the loading panel
    and one call of [Plotly.newPlot] more.  Its traces are those of
    [createChartTraces]: ten, one per category of the README, in ten
    different colours, Machine Learning & AI (48 topics) before Finance
    & Economics (31).  Its layout has the years of the README as tick
    labels and a single callout, on Machine Learning & AI in 2024. *)
Theorem documented_page r ds h p :
  r ∈ published → Conforms r ds →
  ∃ p' ts z,
    initializeApp sort (served ds) (Normal h) p = Some p' ∧
    chart_element (world p') = (λ _, ChartPanel) <$> chart_element (world p) ∧
    plots p' = plots p ++
      [raw_of_arguments (ts,
         mkLayout (years ds) (pretty <$> span r)
           [mkAnnotation 2024 z "LLMs<br>Emerge" "#FF6B6B" "#FF6B6B"])] ∧
    count_at ds "Machine Learning & AI" 2024 = Some z ∧
    createChartTraces sort ds = Normal ts ∧
    length ts = 10%nat ∧ name <$> ts ≡ₚ readme_categories ∧
    NoDup (line_color <$> ts) ∧
    ∀ i j t u, ts !! i = Some t → ts !! j = Some u →
      name t = "Machine Learning & AI" → name u = "Finance & Economics" →
      (i < j)%nat.
Proof.
  intros Hr Hds.
  destruct (conforms_annotations r ds Hds) as (z & Hz & _ & Hann);
    [published_fact Hr..|].
  destruct (conforms_traces sort r ds Hr Hds) as (ts & Hts & Hchart).
  destruct (initializeApp_served sort ds h p) as (p' & ts' & lay & Hp & Hts' & Hlay & ? & ?).
  { apply Hds. }
  { apply (conforms_plain r ds Hds). published_fact Hr. }
  { rewrite (conforms_years r ds Hds). apply numbers_printable. }
  rewrite (conforms_layout r ds Hds), Hann in Hlay. injection Hlay as <-.
  rewrite Hts in Hts'. injection Hts' as <-. by exists p', ts, z.
Qed.

End page.

(** ** The README against itself *)

(** The two versions describe no common dataset: they differ on the
    years. *)
Lemma versions_disagree ds : Conforms readme_v1 ds → ¬ Conforms readme_v2 ds.
Proof.
  intros H1 H2. pose proof (conforms_years _ _ H1) as Hy.
  rewrite (conforms_years _ _ H2) in Hy. revert Hy. by_decision.
Qed.

(** The shares of the key findings bound the number of topics.  If
    48 topics are 25% and 31 topics are 16% of all, there are between
    189 and 195 topics: the 189 of the README, and not the 248 of the
    loading panel and of deploy.sh. *)
Theorem topics_of_shares ds all :
  0 < all → Forall (holds ds all) key_findings → 189 ≤ all ≤ 195.
Proof.
  intros Hall Hfigures.
  assert (holds ds all (OfAll "Machine Learning & AI" 48 25)) as [_ Hp].
  { apply (proj1 (Forall_forall _ _) Hfigures). by_decision. }
  apply (percent_spec 48 all 25 Hall) in Hp. lia.
Qed.

Lemma topics_of_shares_witness : 189 ≤ 189 ≤ 195.
Proof. apply (topics_of_shares sample 189); by_decision. Defined.

(** Each decision names a category of the README, in its short form. *)
Lemma decisions_named :
  Forall (λ d : string * string, d.2 ∈ slashed <$> readme_categories)
    notable_decisions.
Proof. by_decision. Qed.

(** The deployment notes list the files of the README and the script,
    and the file without which the script stops is one of them. *)
Lemma files_agree :
  deployed_files = file_structure ++ ["deploy.sh"] ∧
  no_index ∈ (λ f, test ["!"; "-f"; f]) <$> file_structure.
Proof. split; [done|by_decision]. Qed.

(** The README gives the addresses the script uses: the repository it
    pushes to and the site it announces. *)
Lemma addresses_agree :
  clone_url = repository_url ∧ clone_url = documented_repository +:+ ".git" ∧
  pages_url = documented_site ∧
  ∀ tr, runs deploy tr (Returned tt) → "  🔗 " +:+ pages_url ∈ printed tr.
Proof.
  split_and!; try done.
  assert (∀ tr o, runs deploy tr o → o = Returned tt →
    "  🔗 " +:+ pages_url ∈ printed tr) as Hall;
    [|by intros tr Hrun; apply (Hall tr _ Hrun)].
  all_runs; intros Ho; first [discriminate Ho | by_decision].
Qed.

(** The highlights of the commit message are in its text, name
    categories of the README, and hold of datasets the README
    describes. *)
Lemma commit_highlights :
  Forall (λ h : string * Z,
    mentions commit_message ("- " +:+ h.1 +:+ ": " +:+ pretty h.2 +:+ " topics") = true)
    highlights ∧
  mapM highlighted highlights
  = Some [Total "Machine Learning & AI" 48; Total "Finance & Economics" 31;
          Total "Social & Urban Studies" 19; Total "Climate & Weather" 16] ∧
  Forall (holds sample 189) (omap highlighted highlights) ∧
  Forall (holds sample_v1 189) (omap highlighted highlights).
Proof. split_and!; by_decision. Qed.

(** ** The figures of the code against the README *)


(** ** Instances of the theorems *)

Lemma documented_page_witness :
  ∃ p' ts z,
    initializeApp (@insertion_sort) (served sample_v1) (Normal GraphDiv) demo_start
    = Some p' ∧
    chart_element (world p') = (λ _, ChartPanel) <$> chart_element (world demo_start) ∧
    plots p' = plots demo_start ++
      [raw_of_arguments (ts,
         mkLayout (years sample_v1) (pretty <$> span readme_v1)
           [mkAnnotation 2024 z "LLMs<br>Emerge" "#FF6B6B" "#FF6B6B"])] ∧
    count_at sample_v1 "Machine Learning & AI" 2024 = Some z ∧
    createChartTraces (@insertion_sort) sample_v1 = Normal ts ∧
    length ts = 10%nat ∧ name <$> ts ≡ₚ readme_categories ∧
    NoDup (line_color <$> ts) ∧
    ∀ i j t u, ts !! i = Some t → ts !! j = Some u →
      name t = "Machine Learning & AI" → name u = "Finance & Economics" →
      (i < j)%nat.
Proof.
  apply (documented_page (@insertion_sort) readme_v1 sample_v1 GraphDiv demo_start);
    by_decision.
Defined.
