(* ===== verification/Contracts.v ===== *)
(** * The documentation comments of app.js

    The functions of app.js are preceded by comments that say in a
    sentence what the function does and name the types of its
    parameters and of its result ([@param], [@returns]); the comment at
    the top of the file lists the features of the page, which the
    READMEs and the deployment notes list again.  This file
    transcribes the comments ([jstype], [jsdoc], a [_doc] for each of
    the ten functions, [feature] and the four lists of features) and
    compares them with the functions they describe.

    Types.  The types are read strictly: [{Object}] is a plain object,
    not an array and not [null]; [{Array}] is an array ([has_type],
    [plot_type]).  Read so, the comments are true of every call the
    page makes: [loadTopicData] is fulfilled with a plain object or
    with [null], and with [null] exactly when it failed
    ([loadTopicData_returns]); [renderChart] is only called with a
    plain object, and what it hands to [Plotly.newPlot] is an array of
    trace objects whose [x] is the array of the years, whose [y] is an
    array of the same length and whose colours are strings of the
    palette, with a layout whose ticks are the years ([newPlot_typed]).
    The parameters of [logError] are a [string] and a [js_error] in the
    model, which says nothing of what the browser passes to the two
    listeners of the window.

    Loading states.  [asteps] is the closure of the steps of
    [Async.astep]; between the event that starts the initialisation and
    its return, whatever else the browser delivers, the chart element
    shows the loading placeholder, and never afterwards
    ([loading_shown]).

    Errors.  On every page the browser can reach the errors of the
    console carry one of the five contexts, and an error panel is never
    shown without an error in the console ([errors_logged]); [logged]
    does not read the order of the lines, so that the same holds when
    the initialisation was interleaved with other events
    ([logged_proper], [errors_logged_settled]).

    Peaks.  "Based on actual data peaks": the callouts sit at the years
    written in the code; on the data the README describes the only
    callout is at 2024, and it marks a peak only when that year has as
    many topics as 2018, the peak the README reports
    ([callout_below_peak]); of the three spikes the deployment notes
    list, that of 2023 has no callout ([callouts_of_spikes]).

    Features.  [configured] says what of each feature is in the
    arguments of [Plotly.newPlot]; nothing in app.js concerns the
    accessibility of the callouts beyond their presence in the
    layout. *)

From Stdlib Require Import ZArith List Lia String.
From stdpp Require Import base tactics option strings numbers list.
From S2P Require Import Prelude StableSort LocalSort JsValue Loader Traces Annotations Raw App Async Render Datafile Readme.

#[local] Open Scope string_scope.
#[local] Open Scope list_scope.
#[local] Open Scope Z_scope.

(** ** The comments *)

(** The types the [@param] and [@returns] tags name. *)
Inductive jstype :=
| TString                  (** [{string}] *)
| TNumber                  (** [{number}] *)
| TObject                  (** [{Object}] *)
| TArray                   (** [{Array}] *)
| TError                   (** [{Error}] *)
| TFunction                (** [{Function}] *)
| TNull                    (** [null], in a union *)
| TUnion (a b : jstype)    (** [{A|B}] *)
| TPromise (a : jstype).   (** [{Promise<A>}] *)

#[export] Instance jstype_eq_dec : EqDecision jstype.
Proof. solve_decision. Defined.

(** A comment: its sentence, the parameters with their types, and the
    type of the result when the comment names one. *)
Record jsdoc := mkDoc {
  says : string;
  params : list (string * jstype);
  returns : option jstype
}.

Definition logError_doc : jsdoc :=
  mkDoc "Safely logs errors to console with context"
    [("context", TString); ("error", TError)] None.

Definition showLoadingState_doc : jsdoc :=
  mkDoc "Creates a loading state in the chart container" [] None.

Definition showErrorState_doc : jsdoc :=
  mkDoc "Creates an error state in the chart container"
    [("message", TString)] None.

Definition loadTopicData_doc : jsdoc :=
  mkDoc "Loads topic evolution data from JSON file" []
    (Some (TPromise (TUnion TObject TNull))).

Definition createChartTraces_doc : jsdoc :=
  mkDoc "Creates chart traces for each topic category"
    [("data", TObject)] (Some TArray).

Definition createDynamicAnnotations_doc : jsdoc :=
  mkDoc "Creates dynamic annotations based on actual data peaks"
    [("data", TObject)] (Some TArray).

Definition createChartLayout_doc : jsdoc :=
  mkDoc "Creates the chart layout configuration"
    [("data", TObject)] (Some TObject).

Definition renderChart_doc : jsdoc :=
  mkDoc "Renders the main evolution chart" [("data", TObject)] None.

Definition debounce_doc : jsdoc :=
  mkDoc "Debounce function to limit function calls"
    [("func", TFunction); ("wait", TNumber)] (Some TFunction).

Definition initializeApp_doc : jsdoc :=
  mkDoc "Initializes the application" [] None.

(** The comments by function, in the order of the file. *)
Definition documentation : list (string * jsdoc) :=
  [("logError", logError_doc); ("showLoadingState", showLoadingState_doc);
   ("showErrorState", showErrorState_doc); ("loadTopicData", loadTopicData_doc);
   ("createChartTraces", createChartTraces_doc);
   ("createDynamicAnnotations", createDynamicAnnotations_doc);
   ("createChartLayout", createChartLayout_doc); ("renderChart", renderChart_doc);
   ("debounce", debounce_doc); ("initializeApp", initializeApp_doc)].

(** The functions that are given the dataset. *)
Definition given_data : list (string * jsdoc) :=
  filter (λ x, "data" ∈ (params x.2).*1) documentation.

(** ** What the types mean *)

(** Whether a value of the program has the type.  No value a JSON text
    denotes is an [Error] or a promise; the functions among the values
    are the members the engine provides. *)
Fixpoint has_type (t : jstype) (v : value) : bool :=
  match t, v with
  | TString, VString _ | TNumber, VNumber _ | TObject, VObject _
  | TArray, VArray _ | TNull, VNull | TFunction, VInherited _ _ => true
  | TUnion a b, _ => has_type a v || has_type b v
  | _, _ => false
  end.

(** The same for what is given to the charting library. *)
Fixpoint plot_type (t : jstype) (v : plot_value) : bool :=
  match t, v with
  | TUnion a b, _ => plot_type a v || plot_type b v
  | _, PValue x => has_type t x
  | TString, PString _ | TNumber, PNumber _ | TNumber, PDecimal _ _
  | TArray, PArray _ | TObject, PObject _ => true
  | _, _ => false
  end.

(** The type of what [await] gives for an expression of the type. *)
Definition awaited (t : jstype) : jstype :=
  match t with TPromise a => a | _ => t end.

(** The value has the type the comment names for the result, awaited;
    a comment that names none promises nothing. *)
Definition result_ok (d : jsdoc) (v : plot_value) : bool :=
  from_option (λ t, plot_type (awaited t) v) true (returns d).

(** The arguments are as many as the parameters and have their types. *)
Definition params_ok (d : jsdoc) (args : list value) : bool :=
  bool_decide (length args = length (params d)) &&
  forallb (λ x, has_type x.1.2 x.2) (zip (params d) args).

(** ** The trace objects *)

(** A trace the charting library can draw as the page means it: [x]
    and [y] are arrays of the same length, the name is a string, the
    line and the marker have one colour, a string of the palette. *)
Definition scatter (v : plot_value) : bool :=
  match member "x" v, member "y" v, member "name" v,
        member "line" v ≫= member "color",
        member "marker" v ≫= member "color" with
  | Some (PValue (VArray xs)), Some (PValue (VArray ys)), Some (PString _),
    Some (PValue (VString c)), Some (PValue (VString c')) =>
      bool_decide (length xs = length ys ∧ c = c' ∧ c ∈ colors)
  | _, _, _, _, _ => false
  end.

(** * Theorems *)

(** ** The loader *)

Section loader.
Context `{Host}.

(** What passed the validation is a plain object: neither an array nor
    a string has an array under [years]. *)
Lemma Validated_object d : Validated d → has_type TObject d = true.
Proof.
  intros (ys & _ & _ & Hy & _).
  destruct d as [| |b|z|s|l|ms|k p]; simpl in *; try done;
    by rewrite ?(inherited_reserved _ "years") in Hy by auto with js.
Qed.

(** [loadTopicData] is fulfilled with a plain object or with [null], as
    its comment says, and with [null] exactly when the fetch, the
    parsing or the validation has failed. *)
Theorem loadTopicData_returns fetched w :
  let r := default VNull (loadTopicData fetched w).2 in
  result_ok loadTopicData_doc (PValue r) = true ∧
  (r = VNull ↔ ∃ e, loadTopicData_try fetched = Throw e) ∧
  (r = VNull ↔ is_Some (error (app (loadTopicData fetched w).1))).
Proof.
  destruct (loadTopicData_try fetched) as [d|e] eqn:Htry.
  - rewrite (loadTopicData_loaded _ _ _ Htry). simpl.
    pose proof (loadTopicData_try_validated _ _ Htry) as Hd%validate_Validated.
    apply Validated_object in Hd. destruct d; try done.
    split_and!; [done|split; [done|by intros [? ?]]|split; [done|by intros [? ?]]].
  - rewrite (loadTopicData_failed _ _ _ Htry). simpl.
    split_and!; [done|split; [by exists e|done]|split; [by eexists|done]].
Qed.

End loader.

(** ** The arguments of [Plotly.newPlot] *)

(** The dataset is a parameter of the three builders and of
    [renderChart]. *)
Lemma given_data_functions :
  given_data.*1
  = ["createChartTraces"; "createDynamicAnnotations"; "createChartLayout";
     "renderChart"].
Proof. by_computation. Qed.

(** The colour index never leaves the palette. *)
Lemma at_index_colors i :
  ∃ c, c ∈ colors ∧ at_index colors (i mod length colors)%nat = VString c.
Proof.
  destruct (lookup_lt_is_Some_2 colors (i mod length colors)%nat) as [c Hc].
  { by apply Nat.mod_upper_bound. }
  exists c. split; [by eapply list_elem_of_lookup_2|].
  unfold at_index. by rewrite Hc.
Qed.

Section arguments.
Context `{Host} `{Arith}.
Context (sort : ∀ A, (A → A → Z) → list A → list A) `{!LocalSorter sort}.

(** The traces of a dataset whose series are as long as its years can
    be drawn, over the years of the dataset. *)
Lemma createChartTraces_raw_scatter rd ts :
  Forall (λ c, length c.2 = length (raw_years rd)) (raw_categories rd) →
  createChartTraces_raw sort rd = Normal ts →
  Forall (λ t, raw_x t = VArray (raw_years rd) ∧ scatter (trace_object t) = true) ts.
Proof.
  intros Hlen Hts. pose proof (createChartTraces_raw_cases sort rd) as Hc.
  unfold traces_of in Hc. destruct (mapM _ _); [|congruence].
  destruct Hc as [(ts' & Hts' & Hperm & Hfields) _].
  rewrite Hts in Hts'. injection Hts' as <-.
  apply Forall_lookup_2. intros i t Hi.
  destruct (Hfields i t Hi) as (Hx & Hl & Hm & _).
  assert ((raw_name t, raw_y t) ∈ (λ x, (x.1, VArray x.2)) <$> raw_categories rd)
    as (c & [= _ Hy] & Hin)%list_elem_of_fmap.
  { rewrite <- Hperm. apply list_elem_of_fmap. exists t.
    split; [done|by eapply list_elem_of_lookup_2]. }
  rewrite Forall_forall in Hlen. specialize (Hlen c Hin).
  destruct (at_index_colors i) as (s & Hs & Hcolor).
  split; [done|]. unfold scatter. simpl. rewrite Hx, Hy, Hm, Hl, Hcolor.
  by apply bool_decide_eq_true.
Qed.

(** The layout has the years of the dataset as tick values and their
    texts as tick labels. *)
Lemma createChartLayout_raw_ticks rd lay :
  createChartLayout_raw rd = Normal lay →
  raw_tickvals lay = raw_years rd ∧ raw_ticktext lay = to_text <$> raw_years rd.
Proof.
  unfold createChartLayout_raw. intros Hlay.
  destruct (tick_labels (raw_years rd)) as [labels|] eqn:Hlabels; [|done].
  assert (Forall printable (raw_years rd)) as Hys.
  { apply is_normal_tick_labels. by rewrite Hlabels. }
  rewrite (tick_labels_printable _ Hys) in Hlabels.
  destruct (createDynamicAnnotations_raw rd); simplify_eq/=. done.
Qed.

(** C19: what [renderChart] is called with and what it gives to the
    charting library have the types the comments name, on every page
    the browser can reach.  The dataset, which [renderChart] and the
    three builders are given, is a plain object.  The traces
    are an array of objects, each with the years of the dataset as [x],
    as many values as [y], a string as name and one string of the
    palette as the colour of its line and of its markers.  The layout
    is an object whose ticks are the years and whose labels are as many
    strings, and its callouts are an array. *)
Theorem newPlot_typed p args :
  reachable sort p → args ∈ plots p →
  ∃ d ys, data (app (world p)) = Some d ∧
    get d "years" = Normal (VArray ys) ∧
    Forall (λ x, params_ok x.2 [d] = true) given_data ∧
    result_ok createChartTraces_doc (PArray (trace_object <$> args.1)) = true ∧
    Forall (λ v, member "x" v = Some (PValue (VArray ys)) ∧ scatter v = true)
      (trace_object <$> args.1) ∧
    result_ok createChartLayout_doc (layout_object args.2) = true ∧
    member "xaxis" (layout_object args.2) ≫= member "tickvals"
      = Some (PArray (PValue <$> ys)) ∧
    member "xaxis" (layout_object args.2) ≫= member "ticktext"
      = Some (PArray (PString ∘ to_text <$> ys)) ∧
    result_ok createDynamicAnnotations_doc
      (default (PBool false) (member "annotations" (layout_object args.2))) = true.
Proof.
  intros (ce & evs & Hrun) Hin.
  destruct (run_Inv sort _ _ _ Hrun (Inv_init sort ce)) as [_ [] _].
  destruct (ok_plots args Hin) as (d & raw & Hd & Hraw & Hargs).
  apply chart_arguments_raw_inv in Hargs as [Hts Hlay].
  destruct (shape_validated d) as (raw' & ? & _ & Hlen).
  { by apply Validated_validate, ok_data. }
  destruct (shape_inv d raw Hraw) as (_ & Hys & _). simplify_eq.
  apply createChartLayout_raw_ticks in Hlay as [Hvals Htext].
  exists d, (raw_years raw). split_and!; try done.
  - pose proof (Validated_object d (ok_data d Hd)). destruct d; try done.
    by_decision.
  - apply Forall_fmap. eapply Forall_impl;
      [by apply createChartTraces_raw_scatter|].
    intros t [Hx ?]. split; [|done]. simpl. by rewrite Hx.
  - simpl. by rewrite Hvals.
  - simpl. by rewrite Htext, <- list_fmap_compose.
Qed.

End arguments.

(** ** Loading states *)

(** What the chart element shows and what [AppState.isLoading] holds
    while [initializeApp] is at the phase, on a page whose element was
    [ce] at the start: the loading placeholder from the first [await]
    to the return, an error or the chart afterwards.  The flag is reset
    when the dataset has arrived, before the chart is drawn. *)
Definition shows (ce : option panel) (cfg : phase * Page) : Prop :=
  let w := world cfg.2 in
  match cfg.1 with
  | Idle =>
      ready cfg.2 = false ∧ chart_element w = ce ∧ isLoading (app w) = true
  | AwaitFetch | AwaitJson _ =>
      ready cfg.2 = true ∧ chart_element w = (λ _, LoadingPanel) <$> ce ∧
      isLoading (app w) = true
  | AwaitPlot =>
      ready cfg.2 = true ∧ chart_element w = (λ _, LoadingPanel) <$> ce ∧
      isLoading (app w) = false
  | Settled =>
      ready cfg.2 = true ∧ isLoading (app w) = false ∧
      ∃ x, x ≠ LoadingPanel ∧ chart_element w = (λ _, x) <$> ce
  end.

Section loading.
Context `{Host} `{Arith}.
Context (sort : ∀ A, (A → A → Z) → list A → list A).

(** The configurations a sequence of resumptions and events leads to. *)
Inductive asteps : phase * Page → list aevent → phase * Page → Prop :=
| asteps_nil cfg : asteps cfg [] cfg
| asteps_cons cfg aev cfg' evs cfg'' :
    astep sort cfg aev cfg' → asteps cfg' evs cfg'' →
    asteps cfg (aev :: evs) cfg''.

(** An event other than the loading of the document changes neither the
    application state nor the panel, loaded or not. *)
Lemma step_other_frame p ev p' :
  step sort p ev p' → is_load ev = false → same_frame p' p.
Proof.
  destruct 1; intros Hev; try done; [apply on_resize_frame|apply fire_frame].
Qed.

Lemma shows_other ce ph p p' : same_frame p' p → shows ce (ph, p) → shows ce (ph, p').
Proof. intros [= Ha Hc _ _ Hr]. unfold shows. simpl. by rewrite Ha, Hc, Hr. Qed.

(** The panels of the failures. *)
Lemma shows_load_failed ce e p :
  ready p = true → chart_element (world p) = (λ _, LoadingPanel) <$> ce →
  shows ce (Settled, load_failed e p).
Proof.
  intros Hr Hc. split_and!; [done..|].
  exists (ErrorPanel "Application failed to initialize"). split; [done|].
  simpl. rewrite Hc. by destruct ce.
Qed.

Lemma shows_initialize_failed ce e f p :
  ready p = true → chart_element (world p) = (λ _, LoadingPanel) <$> ce →
  isLoading (app (f (world p))) = false → chart_element (f (world p)) = chart_element (world p) →
  shows ce (Settled, initialize_failed e (on_world f p)).
Proof.
  intros Hr Hc Hl Hf. split_and!; [done..|].
  exists (ErrorPanel "Application failed to initialize"). split; [done|].
  simpl. rewrite Hf, Hc. by destruct ce.
Qed.

Lemma shows_render_failed ce e p :
  ready p = true → chart_element (world p) = (λ _, LoadingPanel) <$> ce →
  isLoading (app (world p)) = false →
  shows ce (Settled, success_line (render_failed e p)).
Proof.
  intros Hr Hc Hl. split_and!; [done..|].
  exists (ErrorPanel "Failed to render chart visualization"). split; [done|].
  simpl. rewrite Hc. by destruct ce.
Qed.

Lemma shows_after_json ce r p cfg :
  after_json sort r p = Some cfg → shows ce (AwaitJson r, p) → shows ce cfg.
Proof.
  unfold after_json. intros Hcfg (Hr & Hc & Hl). simpl in *.
  destruct (d ← json r; _ ← validate d; Normal d) as [d|e]; simplify_eq/=;
    [|by apply shows_load_failed].
  destruct (truthy d); simpl in *; simplify_eq;
    [|by apply (shows_initialize_failed ce _ (on_loaded d))].
  destruct (shape d) as [raw|]; simplify_eq/=.
  destruct (chart_arguments_raw sort raw) as [args|e]; [done|].
  by apply shows_render_failed.
Qed.

Lemma shows_after_plot ce c p :
  shows ce (AwaitPlot, p) → shows ce (Settled, after_plot c p).
Proof.
  intros (Hr & Hc & Hl). simpl in *. destruct c as [h|e]; [|by apply shows_render_failed].
  split_and!; [done..|]. exists ChartPanel. split; [done|].
  simpl. rewrite Hc. by destruct ce.
Qed.

Lemma astep_shows ce cfg aev cfg' : astep sort cfg aev cfg' → shows ce cfg → shows ce cfg'.
Proof.
  destruct 1 as [p Hrd|p c|r p cfg Hcfg|p c|ph p ev p' Hev Hstep].
  - intros (_ & Hc & Hl). split_and!; [done| |done]. simpl in *. by rewrite Hc.
  - intros (Hr & Hc & Hl). simpl in *. unfold after_fetch.
    destruct c as [r|e]; [destruct (ok r)|]; (done || by apply shows_load_failed).
  - by apply shows_after_json.
  - apply shows_after_plot.
  - apply shows_other, (step_other_frame p ev); done.
Qed.

(** C23: from the event that starts the initialisation to its return,
    whatever else the browser delivers in between, the chart element
    shows the loading placeholder; before, it is as the document has
    it; afterwards it shows an error or the chart, never the
    placeholder again.  [AppState.isLoading] is true until the dataset
    has arrived: while the chart is drawn the placeholder is shown
    although the flag is reset. *)
Theorem loading_shown ce evs cfg :
  asteps (Idle, Page_init ce) evs cfg → shows ce cfg.
Proof.
  assert (∀ c evs c', asteps c evs c' → shows ce c → shows ce c') as Hall.
  { induction 1; [done|]. intros Hc. by eapply IHasteps, astep_shows. }
  intros Hrun. by apply (Hall _ _ _ Hrun).
Qed.

End loading.

(** ** "Based on actual data peaks" *)

(** The spikes the deployment notes list under "Event-Driven Research
    Spikes": the year and the event. *)
Definition spikes : list (Z * string) :=
  [(2019, "Census 2020 preparation"); (2020, "COVID-19 pandemic response");
   (2023, "Climate migration focus")].

(** Whatever the dataset is, a callout is at 2024 or at one of the
    first two spikes of the notes: the spike of 2023 has none. *)
Lemma callouts_of_spikes ds a :
  a ∈ createDynamicAnnotations ds →
  ann_x a = 2024 ∨ (ann_x a ∈ spikes.*1 ∧ ann_x a ≠ 2023).
Proof.
  intros (t & z & Ht & _ & _ & ->)%annotation_inv. unfold triggers in Ht.
  elem_of_cases Ht; simpl; [by left|right; split; by_decision..].
Qed.

(** A count of a category is one of the values of its series. *)
Lemma count_at_elem_of ds c yr z :
  count_at ds c yr = Some z → z ∈ default [] (assoc c (categories ds)).
Proof.
  unfold count_at. destruct (assoc c (categories ds)) as [values|]; [|done].
  simpl. destruct (list_find _ _) as [i|]; [|done].
  simpl. apply list_elem_of_lookup_2.
Qed.

(** The year is a peak of the category exactly when no count of the
    series is above the count of the year. *)
Lemma peak_iff ds all c yr z :
  count_at ds c yr = Some z →
  holds ds all (Peak c yr) ↔ Forall (λ v, v ≤ z) (default [] (assoc c (categories ds))).
Proof. intros Hz. simpl. unfold count_is. by rewrite Hz. Qed.

(** C31: the comment of [createDynamicAnnotations] against the README.  On
    every dataset a version of the README describes the page shows one
    callout, at 2024, the year written in the code.  The README
    reports the peak of that category in 2018: the count of 2024 is at
    most that of 2018, and the callout marks a peak only on a dataset
    where the two are equal. *)
Theorem callout_below_peak r ds :
  r ∈ published → Conforms r ds →
  ∃ z z', count_at ds "Machine Learning & AI" 2024 = Some z ∧
    count_at ds "Machine Learning & AI" 2018 = Some z' ∧
    1 ≤ z ≤ z' ∧
    createDynamicAnnotations ds
    = [mkAnnotation 2024 z "LLMs<br>Emerge" "#FF6B6B" "#FF6B6B"] ∧
    (holds ds (topics r) (Peak "Machine Learning & AI" 2024) ↔ z = z').
Proof.
  intros Hr Hds.
  destruct (conforms_annotations r ds Hds) as (z & Hz & Hpos & Hann);
    [published_fact Hr..|].
  assert (holds ds (topics r) (Peak "Machine Learning & AI" 2018)) as Hpeak.
  { apply (conforms_holds r ds Hds). published_fact Hr. }
  simpl in Hpeak. unfold count_is in Hpeak.
  destruct (count_at ds "Machine Learning & AI" 2018) as [z'|] eqn:Hz'; [|done].
  simpl in Hpeak. rewrite Forall_forall in Hpeak.
  exists z, z'. split_and!; [done..| |done|].
  - by apply Hpeak, (count_at_elem_of ds _ 2024).
  - rewrite (peak_iff _ _ _ _ z Hz), Forall_forall. split.
    + intros Hall. apply Z.le_antisymm; [|apply Hall, (count_at_elem_of ds _ 2018)]; [|done].
      by apply Hpeak, (count_at_elem_of ds _ 2024).
    + intros ->. done.
Qed.

(** ** The console *)

(** The contexts [logError] is called with: the three functions that
    catch, and the two listeners of the window. *)
Definition contexts : list string :=
  ["loadTopicData"; "renderChart"; "initializeApp"; "Global"; "Promise"].

(** An error in the console names where it occurred. *)
Definition entry_ok (x : log_entry) : Prop :=
  match x with LogError context _ => context ∈ contexts | LogInfo _ _ => True end.

(** What the console holds of the state of the page: every error in it
    has one of the contexts; the error stored in [AppState.error] was
    logged by [loadTopicData]; and when the initialisation has returned
    without a chart, so that the panel shows an error, [initializeApp]
    or [renderChart] has logged one. *)
Record logged (p : Page) : Prop := {
  logged_contexts : Forall entry_ok (console (world p));
  logged_error : ∀ e, error (app (world p)) = Some e →
    LogError "loadTopicData" e ∈ console (world p);
  logged_panel : ready p = true → chartInstance (app (world p)) = None →
    ∃ e, LogError "initializeApp" e ∈ console (world p) ∨
         LogError "renderChart" e ∈ console (world p)
}.

(** The page [q] differs from [p] in lines added to the console, and
    in what is not of the world. *)
Definition extends (p q : Page) : Prop :=
  app (world q) = app (world p) ∧ ready q = ready p ∧
  ∃ xs, console (world q) = console (world p) ++ xs ∧ Forall entry_ok xs.

Lemma extends_same p q : world q = world p → ready q = ready p → extends p q.
Proof. intros Hw Hr. split_and!; [by rewrite Hw|done|]. exists []. by rewrite Hw, app_nil_r. Qed.

Lemma extends_error c e p q :
  c ∈ contexts → world q = logError c e (world p) → ready q = ready p → extends p q.
Proof.
  intros Hc Hw Hr. split_and!; [by rewrite Hw|done|].
  exists [LogError c e]. rewrite Hw. split; [done|]. by apply Forall_singleton.
Qed.

Lemma logged_extends p q : extends p q → logged p → logged q.
Proof.
  intros (Ha & Hr & xs & Hc & Hxs) [HA HB HC].
  split; rewrite ?Ha, ?Hr, Hc.
  - by apply Forall_app.
  - intros e He. apply elem_of_app. left. by apply HB.
  - intros Hrd Hch. destruct (HC Hrd Hch) as [e He]. exists e.
    rewrite !elem_of_app. tauto.
Qed.

Lemma logged_init ce : logged (Page_init ce).
Proof. split; by repeat constructor. Qed.

(** [logged] does not read the order of the lines of the console. *)
#[export] Instance logged_proper : Proper (similar ==> iff) logged.
Proof.
  assert (∀ p q, similar p q → logged q → logged p) as Hsim.
  { intros p q [[= Ha _ _ _ _ _ _ _ Hr] Hp] [HA HB HC].
    split; rewrite ?Ha, ?Hr; setoid_rewrite Hp; done. }
  intros p q Hpq. split; apply Hsim; [by symmetry|done].
Qed.

(** The timer operations leave the world as it is. *)
Lemma clearTimeout_world timeout p : world (clearTimeout timeout p) = world p.
Proof. by destruct timeout. Qed.

Lemma executedFunction_world i p : world (executedFunction i p) = world p.
Proof.
  unfold executedFunction. destruct (listeners p !! i); [|done].
  simpl. apply clearTimeout_world.
Qed.

Lemma on_resize_world p : world (on_resize p) = world p.
Proof.
  unfold on_resize. generalize (seq 0 (length (listeners p))). intros l.
  revert p. induction l as [|i l IH]; intros p; [done|].
  simpl. by rewrite IH, executedFunction_world.
Qed.

(** A timer that fires adds nothing to the console, or the error of
    [Plotly.Plots.resize], which the browser reports to the window. *)
Lemma resize_chart_extends outcome p : extends p (resize_chart outcome p).
Proof.
  unfold resize_chart. destruct (chartInstance _); [|by apply extends_same].
  destruct outcome as [[]|e]; [by apply extends_same|].
  by apply (extends_error "Global" e); [by_decision|..].
Qed.

Lemma extends_from p p' q :
  world p' = world p → ready p' = ready p → extends p' q → extends p q.
Proof. unfold extends. by intros -> ->. Qed.

Lemma fire_extends t outcome p : extends p (fire t outcome p).
Proof.
  unfold fire, later. simpl.
  destruct (listeners p !! owner t) as [timeout|]; [|by apply extends_same].
  eapply extends_from; [| |apply resize_chart_extends]; by destruct timeout.
Qed.

Section console.
Context `{Host} `{Arith}.
Context (sort : ∀ A, (A → A → Z) → list A → list A).

Lemma step_extends p ev q : step sort p ev q → is_load ev = false → extends p q.
Proof.
  destruct 1 as [| | |p t outcome _ _|p e|p e]; intros Hev; try done.
  - apply extends_same; [apply on_resize_world|].
    by pose proof (on_resize_frame p) as [= _ _ _ _ ?].
  - by apply extends_same.
  - apply fire_extends.
  - by apply (extends_error "Global" e); [by_decision|..].
  - by apply (extends_error "Promise" e); [by_decision|..].
Qed.

(** The console after [initializeApp], whatever its outcome. *)
Lemma initializeApp_logged fetched plotted p q :
  initializeApp sort fetched plotted p = Some q →
  Forall entry_ok (console (world p)) → logged (mark_ready q).
Proof.
  intros Hq Hp. destruct (loadTopicData_try fetched) as [d|e] eqn:Htry.
  - destruct (shape_validated d (loadTopicData_try_validated _ _ Htry))
      as (raw & Hraw & _).
    rewrite (initializeApp_loaded sort _ _ _ d raw Htry Hraw) in Hq.
    injection Hq as <-. unfold renderChart.
    destruct (chart_arguments_raw sort raw) as [args|e];
      [destruct plotted as [h|e]|];
      (split; cbn; [|done|]);
      rewrite ?Forall_app, ?elem_of_app, ?list_elem_of_singleton;
      try (split_and!; (done || by repeat constructor; by_decision));
      try done; intros _ _; exists e; rewrite !elem_of_app, !list_elem_of_singleton;
      tauto.
  - unfold initializeApp in Hq. rewrite (loadTopicData_failed _ _ _ Htry) in Hq.
    injection Hq as <-. split; cbn.
    + rewrite !Forall_app. split_and!; (done || by repeat constructor; by_decision).
    + intros ? [= <-]. rewrite !elem_of_app, !list_elem_of_singleton. tauto.
    + intros _ _. eexists. rewrite !elem_of_app, !list_elem_of_singleton. eauto.
Qed.

Lemma step_logged p ev q : step sort p ev q → logged p → logged q.
Proof.
  intros Hstep Hp. destruct (is_load ev) eqn:Hev;
    [|apply (logged_extends p); [by apply (step_extends p ev)|done]].
  destruct Hstep as [p fetched plotted q _ Hq| | | | |]; try done.
  apply (initializeApp_logged fetched plotted _ _ Hq).
  cbn. apply Forall_app. split; [apply Hp|by repeat constructor].
Qed.

Lemma run_logged p evs q : run sort p evs q → logged p → logged q.
Proof.
  induction 1 as [|p ev q evs r Hstep _ IH]; [done|].
  intros Hp. by apply IH, (step_logged p ev).
Qed.

(** C24: errors are logged.  On every page the browser can reach, every
    error in the console has the context it occurred in, as the
    comment of [logError] says; the error kept in [AppState.error] is
    in the console under [loadTopicData]; and once the initialisation
    has returned without a chart, the console has the error of
    [initializeApp] or of [renderChart]: the page never shows an error
    panel for which nothing was logged. *)
Theorem errors_logged p : reachable sort p → logged p.
Proof. intros (ce & evs & Hrun). by apply (run_logged _ evs _ Hrun), logged_init. Qed.

(** The same when the initialisation is suspended at its [await]s and
    events arrive in between: the page it returns on, and every page
    after it, is a reachable page up to the order of the lines of the
    console, which [logged] does not read. *)
Theorem errors_logged_settled ce evs p evs' q :
  settles sort (Idle, Page_init ce) evs p → run sort p evs' q → logged q.
Proof.
  intros Hrun Hrun'. apply (run_logged _ _ _ Hrun').
  destruct (settles_related _ _ _ _ Hrun (fetched_of evs) (Page_init ce))
    as (a & b & Hothers & (_ & _ & Hr) & Hseq & ->); [done..|].
  apply (step_logged a _ _ (sequential_step sort _ _ _ _ Hr Hseq)).
  apply (run_logged _ _ _ Hothers), logged_init.
Qed.

End console.

(** ** The features *)

(** The features the header of app.js lists, and the legend the
    READMEs add. *)
Inductive feature :=
| ResponsiveChart         (** "Responsive chart design" *)
| HoverStates             (** "Interactive hover states" *)
| ErrorHandling           (** "Error handling ..." *)
| LoadingStates           (** "... and loading states" *)
| AccessibleAnnotations   (** "Accessible annotations" *)
| LegendControls.         (** "legend controls" *)

#[export] Instance feature_eq_dec : EqDecision feature.
Proof. solve_decision. Defined.

(** The header of app.js. *)
Definition features : list feature :=
  [ResponsiveChart; HoverStates; ErrorHandling; LoadingStates;
   AccessibleAnnotations].

(** The first version of the README, without its last entry, which is
    of the style sheet. *)
Definition features_v1 : list feature :=
  [ResponsiveChart; HoverStates; LegendControls; AccessibleAnnotations;
   ErrorHandling; LoadingStates].

(** The second version: the loading states are no longer listed. *)
Definition features_v2 : list feature :=
  [HoverStates; LegendControls; ResponsiveChart; AccessibleAnnotations;
   ErrorHandling].

(** The deployment notes, of the code of app.js. *)
Definition features_implemented : list feature :=
  [ErrorHandling; LoadingStates; ResponsiveChart].

(** The text of a member of an object, when it is a literal. *)
Definition text_member (k : string) (v : plot_value) : option string :=
  match member k v with Some (PString s) => Some s | _ => None end.

(** What of a feature is in the arguments of [Plotly.newPlot]: the
    configuration asks the library to follow the size of the element;
    every trace has a text for the hover label and the layout the hover
    mode and the colours of the label; the layout places a legend and
    every trace has a name for it; the layout has the array of the
    callouts.  Errors and the loading placeholder are not of the
    call. *)
Definition configured (f : feature) (call : list plot_value) : bool :=
  match call with
  | [_; PArray traces; layout; cfg] =>
      match f with
      | ResponsiveChart =>
          match member "responsive" cfg with Some (PBool b) => b | _ => false end
      | HoverStates =>
          forallb (λ t, bool_decide (is_Some (text_member "hovertemplate" t))) traces &&
          bool_decide (text_member "hovermode" layout = Some "closest") &&
          bool_decide (is_Some (member "hoverlabel" layout))
      | LegendControls =>
          forallb (λ t, bool_decide (is_Some (text_member "name" t))) traces &&
          bool_decide (is_Some (member "legend" layout))
      | AccessibleAnnotations =>
          bool_decide (plot_type TArray (default (PBool false) (member "annotations" layout)) = true)
      | ErrorHandling | LoadingStates => true
      end
  | _ => false
  end.

(** Every call of [Plotly.newPlot] is configured for the features that
    concern it, whatever the traces and the layout are. *)
Lemma plot_call_configured f args : configured f (plot_call args) = true.
Proof.
  destruct f; try done; unfold plot_call, configured;
    rewrite ?andb_true_iff, ?forallb_forall; split_and?; try done;
    by intros t (x & <- & _)%in_map_iff.
Qed.

(** The lists of the documents.  The READMEs list what the header of
    app.js lists and the legend; the second version leaves out the
    loading states, which the code still has ([loading_shown]); the
    deployment notes name three of the features of the header. *)
Lemma features_listed :
  features ⊆ features_v1 ∧ features_v2 ⊆ features_v1 ∧
  filter (λ f, f ∉ features_v2) features_v1 = [LoadingStates] ∧
  features_implemented ⊆ features ∧
  ∀ f args, f ∈ features_v1 → configured f (plot_call args) = true.
Proof. split_and!; try by_decision. intros f args _. apply plot_call_configured. Qed.

(** * Runs and examples *)

(** [asteps] as a function. *)
Section runs.
Context `{Host} `{Arith}.
Context (sort : ∀ A, (A → A → Z) → list A → list A).

Fixpoint adeliver_all (evs : list aevent) (cfg : phase * Page)
  : option (phase * Page) :=
  match evs with
  | [] => Some cfg
  | aev :: evs => adeliver sort aev cfg ≫= adeliver_all evs
  end.

Lemma adeliver_all_asteps evs cfg cfg' :
  adeliver_all evs cfg = Some cfg' ↔ asteps sort cfg evs cfg'.
Proof.
  split.
  - revert cfg. induction evs as [|aev evs IH]; intros cfg; simpl.
    + intros [= <-]. constructor.
    + destruct (adeliver sort aev cfg) as [c|] eqn:Hc; [|done].
      intros Hrest. econstructor; [by apply adeliver_astep|by apply IH].
  - induction 1 as [|cfg aev c evs cfg' Hstep _ IH]; [done|].
    simpl. apply adeliver_astep in Hstep. by rewrite Hstep.
Qed.

End runs.

(** The run of [Async.demo_interleaved] up to the parsing of the body:
    the document is loaded, the window is resized, the response
    arrives and a script fails. *)
Definition demo_pending : phase * Page :=
  default (Idle, demo_start)
    (adeliver_all (@insertion_sort) (take 5 demo_interleaved) (Idle, demo_start)).

(** The arguments of the call of [Plotly.newPlot] of [App.demo_page]. *)
Definition demo_args : list raw_trace * raw_layout :=
  default ([], mkRawLayout [] [] []) (head (plots demo_page)).

Lemma loading_shown_witness : shows (Some Untouched) demo_pending.
Proof.
  apply (loading_shown (@insertion_sort) (Some Untouched) (take 5 demo_interleaved)).
  apply adeliver_all_asteps. by vm_compute.
Defined.

Lemma newPlot_typed_witness :
  ∃ d ys, data (app (world demo_page)) = Some d ∧
    get d "years" = Normal (VArray ys) ∧
    Forall (λ x, params_ok x.2 [d] = true) given_data ∧
    result_ok createChartTraces_doc (PArray (trace_object <$> demo_args.1)) = true ∧
    Forall (λ v, member "x" v = Some (PValue (VArray ys)) ∧ scatter v = true)
      (trace_object <$> demo_args.1) ∧
    result_ok createChartLayout_doc (layout_object demo_args.2) = true ∧
    member "xaxis" (layout_object demo_args.2) ≫= member "tickvals"
      = Some (PArray (PValue <$> ys)) ∧
    member "xaxis" (layout_object demo_args.2) ≫= member "ticktext"
      = Some (PArray (PString ∘ to_text <$> ys)) ∧
    result_ok createDynamicAnnotations_doc
      (default (PBool false) (member "annotations" (layout_object demo_args.2))) = true.
Proof.
  apply (newPlot_typed (@insertion_sort) demo_page demo_args).
  - exists (Some Untouched), [DOMContentLoaded (Normal demo_response) (Normal GraphDiv)].
    exact demo_page_run.
  - vm_compute. by left.
Defined.

Lemma callout_below_peak_witness :
  ∃ z z', count_at sample "Machine Learning & AI" 2024 = Some z ∧
    count_at sample "Machine Learning & AI" 2018 = Some z' ∧
    1 ≤ z ≤ z' ∧
    createDynamicAnnotations sample
    = [mkAnnotation 2024 z "LLMs<br>Emerge" "#FF6B6B" "#FF6B6B"] ∧
    (holds sample (topics readme_v2) (Peak "Machine Learning & AI" 2024) ↔ z = z').
Proof. apply (callout_below_peak readme_v2 sample); by_decision. Defined.

(** The page after the server has answered that there is no such
    file. *)
Definition demo_failed : Page :=
  default demo_start
    (deliver (@insertion_sort)
       (DOMContentLoaded (Normal (mkResponse false 404 "Not Found" (Normal VNull)))
          (Normal GraphDiv)) demo_start).

Lemma errors_logged_witness : logged demo_failed.
Proof.
  apply (errors_logged (@insertion_sort) demo_failed).
  exists (Some Untouched),
    [DOMContentLoaded (Normal (mkResponse false 404 "Not Found" (Normal VNull)))
       (Normal GraphDiv)].
  apply deliver_all_run. by vm_compute.
Defined.
